(** * NVMe-Strom kernel module: mapping registry, DMA task registry and
      the SSD-to-GPU request scheduler

    A shallow embedding of [kmod/nvme_strom.c].  Records allocated with
    [kmalloc] are kept in finite maps keyed by their address, which is also
    the identifier the driver hands out (the [handle] of a mapped GPU memory
    region, the [dma_task_id] of a DMA task).  Sections of code that run
    under a spinlock are single transitions; code that sleeps or runs
    without the lock is split at those points, so that any interleaving of
    the transitions is an execution of the module. *)

From stdpp Require Import gmap list strings.
From Stdlib Require Import ZArith Lia Ascii.

Local Open Scope Z_scope.

(** ** Machine integers of the x86-64 kernel *)

Module CInt.

Definition wrap_unsigned (bits x : Z) : Z := x mod 2 ^ bits.

Definition wrap_signed (bits x : Z) : Z :=
  (x + 2 ^ (bits - 1)) mod 2 ^ bits - 2 ^ (bits - 1).

(** [unsigned int], [uint32_t] *)
Definition u32 (x : Z) : Z := wrap_unsigned 32 x.
(** [unsigned long], [size_t], [sector_t], [pgoff_t], and the common type
    of [loff_t] with any of them *)
Definition u64 (x : Z) : Z := wrap_unsigned 64 x.
(** [int] *)
Definition s32 (x : Z) : Z := wrap_signed 32 x.
(** [long], [loff_t] *)
Definition s64 (x : Z) : Z := wrap_signed 64 x.

Definition INT_MAX : Z := 2 ^ 31 - 1.

End CInt.

Import CInt.

(** Error numbers of [errno.h]; the module returns them negated. *)
Definition ENOENT : Z := 2.
Definition EBADF : Z := 9.
Definition EINTR : Z := 4.
Definition EIO : Z := 5.
Definition ENOMEM : Z := 12.
Definition EFAULT : Z := 14.
Definition EINVAL : Z := 22.
Definition ERANGE : Z := 34.

(** [PAGE_CACHE_SHIFT], [PAGE_CACHE_SIZE] *)
Definition PAGE_CACHE_SHIFT : Z := 12.
Definition PAGE_CACHE_SIZE : Z := 4096.

(** [GPU_BOUND_SHIFT] and the masks derived from it *)
Definition GPU_BOUND_SHIFT : Z := 16.
Definition GPU_BOUND_SIZE : Z := Z.shiftl 1 GPU_BOUND_SHIFT.
Definition GPU_BOUND_OFFSET : Z := GPU_BOUND_SIZE - 1.

(** [STROM_DMA_SSD2GPU_MAXLEN] *)
Definition STROM_DMA_SSD2GPU_MAXLEN : Z := 128 * 1024.

(** ** Mapped GPU memory *)

(** [struct mapped_gpu_memory].  [mg_chained] stands for the [chain] member:
    it is [true] while the record hangs on [strom_mgmem_slots[hindex]], and
    [false] once [list_del] and [memset] have cleared the two pointers (the
    test [chain.next || chain.prev] of the release callback).  [page_table]
    lists the physical addresses of the pinned device pages. *)
Record mapped_gpu_memory : Type := mk_mgmem {
  mg_chained : bool;
  mg_hindex : Z;
  mg_refcnt : Z;
  owner : Z;
  handle : Z;
  map_address : Z;
  map_offset : Z;
  map_length : Z;
  wait_task : option Z;
  gpu_page_sz : Z;
  gpu_page_shift : Z;
  page_table : list Z
}.

Definition set_mg_refcnt (v : Z) (m : mapped_gpu_memory) : mapped_gpu_memory :=
  mk_mgmem (mg_chained m) (mg_hindex m) v (owner m) (handle m)
           (map_address m) (map_offset m) (map_length m) (wait_task m)
           (gpu_page_sz m) (gpu_page_shift m) (page_table m).

Definition set_wait_task (v : option Z) (m : mapped_gpu_memory) : mapped_gpu_memory :=
  mk_mgmem (mg_chained m) (mg_hindex m) (mg_refcnt m) (owner m) (handle m)
           (map_address m) (map_offset m) (map_length m) v
           (gpu_page_sz m) (gpu_page_shift m) (page_table m).

Definition set_mg_chained (v : bool) (m : mapped_gpu_memory) : mapped_gpu_memory :=
  mk_mgmem v (mg_hindex m) (mg_refcnt m) (owner m) (handle m)
           (map_address m) (map_offset m) (map_length m) (wait_task m)
           (gpu_page_sz m) (gpu_page_shift m) (page_table m).

(** Where the thread that runs [callback_release_mapped_gpu_memory] stands
    once it has left the first locked section: asleep in [schedule()]
    (with the flag telling whether [wake_up_process] has reached it, and the
    saved previous [wait_task]), or past the last [spin_unlock_irqrestore],
    about to free the page table and the record. *)
Inductive release_pc : Type :=
| CbSleeping (woken : bool) (wait_task_saved : option Z)
| CbUnlocked.

(** The registry: every allocated record by address, and the release
    callbacks in progress by the record they were called with. *)
Record mgmem_registry : Type := mk_registry {
  mgmems : gmap Z mapped_gpu_memory;
  releasing : gmap Z release_pc
}.

Inductive mgmem_event : Type :=
| EvWakeUp (task : Z)
| EvPutPages (m : mapped_gpu_memory)
| EvFreePageTable (m : mapped_gpu_memory)
| EvKfree (m : mapped_gpu_memory).

(** Outcome of a transition.  [None]: the transition has no successor
    state, because an [Assert] fails and the kernel panics, because the
    pointer it is given is not that of an allocated record, or because the
    thread is not at that point of its code. *)
Definition step_result (S A : Type) : Type := option (S * A).

(** [wake_up_process(task)] as seen by the release callbacks: the sleeping
    callback of record [h] whose thread is [task] becomes runnable. *)
Definition wake_up_release (h : Z) (task : option Z)
    (r : gmap Z release_pc) : gmap Z release_pc :=
  match task, r !! h with
  | Some _, Some (CbSleeping _ saved) => <[h := CbSleeping true saved]> r
  | _, _ => r
  end.

(** [strom_get_mapped_gpu_memory]: the walk over the hash chain finds the
    record whose address is [h] iff it is chained, and takes it iff the
    effective uid is the owner's.  [refcnt++] on an [int]. *)
Definition strom_get_mapped_gpu_memory (h euid : Z) (s : mgmem_registry)
  : mgmem_registry * bool :=
  match mgmems s !! h with
  | Some m =>
      if mg_chained m && bool_decide (owner m = euid)
      then (mk_registry (<[h := set_mg_refcnt (s32 (mg_refcnt m + 1)) m]> (mgmems s))
                        (releasing s), true)
      else (s, false)
  | None => (s, false)
  end.

(** [strom_put_mapped_gpu_memory] *)
Definition strom_put_mapped_gpu_memory (h : Z) (s : mgmem_registry)
  : step_result mgmem_registry (list mgmem_event) :=
  match mgmems s !! h with
  | None => None
  | Some m =>
      if bool_decide (mg_refcnt m > 0) then
        let refcnt' := s32 (mg_refcnt m - 1) in
        if bool_decide (refcnt' = 0) then
          Some (mk_registry
                  (<[h := set_wait_task None (set_mg_refcnt refcnt' m)]> (mgmems s))
                  (wake_up_release h (wait_task m) (releasing s)),
                match wait_task m with
                | Some t => [EvWakeUp t]
                | None => []
                end)
        else
          Some (mk_registry (<[h := set_mg_refcnt refcnt' m]> (mgmems s))
                            (releasing s), [])
      else None
  end.

(** [callback_release_mapped_gpu_memory], up to the first
    [spin_unlock_irqrestore]: detach the record, and go to sleep as the
    drain waiter when references are held. *)
Definition callback_release_enter (current h : Z) (s : mgmem_registry)
  : step_result mgmem_registry (list mgmem_event) :=
  match mgmems s !! h, releasing s !! h with
  | Some m, None =>
      let m1 := set_mg_chained false m in
      if bool_decide (mg_refcnt m1 > 0) then
        Some (mk_registry (<[h := set_wait_task (Some current) m1]> (mgmems s))
                          (<[h := CbSleeping false (wait_task m1)]> (releasing s)), [])
      else
        Some (mk_registry (<[h := m1]> (mgmems s))
                          (<[h := CbUnlocked]> (releasing s)), [])
  | _, _ => None
  end.

(** The same callback from the return of [schedule()] to the second
    [spin_unlock_irqrestore]. *)
Definition callback_release_resume (h : Z) (s : mgmem_registry)
  : step_result mgmem_registry (list mgmem_event) :=
  match mgmems s !! h, releasing s !! h with
  | Some m, Some (CbSleeping true saved) =>
      if bool_decide (mg_refcnt m = 0) then
        Some (mk_registry (mgmems s) (<[h := CbUnlocked]> (releasing s)),
              match saved with
              | Some t => [EvWakeUp t]
              | None => []
              end)
      else None
  | _, _ => None
  end.

(** The tail of the callback: [__nvidia_p2p_free_page_table] and [kfree]. *)
Definition callback_release_free (h : Z) (s : mgmem_registry)
  : step_result mgmem_registry (list mgmem_event) :=
  match mgmems s !! h, releasing s !! h with
  | Some m, Some CbUnlocked =>
      Some (mk_registry (delete h (mgmems s)) (delete h (releasing s)),
            [EvFreePageTable m; EvKfree m])
  | _, _ => None
  end.

(** Page size classes of the NVIDIA P2P interface ([nv-p2p.h]). *)
Inductive nvidia_p2p_page_size : Type :=
| NVIDIA_P2P_PAGE_SIZE_4KB
| NVIDIA_P2P_PAGE_SIZE_64KB
| NVIDIA_P2P_PAGE_SIZE_128KB
| NVIDIA_P2P_PAGE_SIZE_OTHER.

Definition gpu_page_shift_of (p : nvidia_p2p_page_size) : option Z :=
  match p with
  | NVIDIA_P2P_PAGE_SIZE_4KB => Some 12
  | NVIDIA_P2P_PAGE_SIZE_64KB => Some 16
  | NVIDIA_P2P_PAGE_SIZE_128KB => Some 17
  | NVIDIA_P2P_PAGE_SIZE_OTHER => None
  end.

(** [ioctl_map_gpu_memory], after [__nvidia_p2p_get_pages] has pinned
    [pages] with page size class [psz]; [addr] is the address [kmalloc]
    returned, and [hindex] the hash slot of that address. *)
Definition ioctl_map_gpu_memory (addr hindex euid vaddress length : Z)
    (psz : nvidia_p2p_page_size) (pages : list Z) (s : mgmem_registry)
  : step_result mgmem_registry Z :=
  match mgmems s !! addr with
  | Some _ => None
  | None =>
      let offset := Z.land vaddress GPU_BOUND_OFFSET in
      match gpu_page_shift_of psz with
      | None => Some (s, - EINVAL)
      | Some shift =>
          let m := mk_mgmem true hindex 0 euid addr
                            (Z.land vaddress (Z.lnot GPU_BOUND_OFFSET)) offset
                            (u64 (offset + length))
                            None (Z.shiftl 1 shift) shift pages in
          Some (mk_registry (<[addr := m]> (mgmems s)) (releasing s), 0)
      end
  end.

(** [ioctl_unmap_gpu_memory]: detach the record and unpin its pages. *)
Definition ioctl_unmap_gpu_memory (h euid : Z) (s : mgmem_registry)
  : mgmem_registry * list mgmem_event * Z :=
  match mgmems s !! h with
  | Some m =>
      if mg_chained m && bool_decide (owner m = euid)
      then (mk_registry (<[h := set_mg_chained false m]> (mgmems s)) (releasing s),
            [EvPutPages m], 0)
      else (s, [], - ENOENT)
  | None => (s, [], - ENOENT)
  end.

(** The operations of the registry, as the threads of the kernel interleave
    them. *)
Inductive mgmem_action : Type :=
| ActMap (addr hindex euid vaddress length : Z)
         (psz : nvidia_p2p_page_size) (pages : list Z)
| ActUnmap (h euid : Z)
| ActGet (h euid : Z)
| ActPut (h : Z)
| ActReleaseEnter (current h : Z)
| ActReleaseResume (h : Z)
| ActReleaseFree (h : Z).

Definition mgmem_step (a : mgmem_action) (s : mgmem_registry)
  : step_result mgmem_registry (list mgmem_event) :=
  match a with
  | ActMap addr hindex euid vaddress length psz pages =>
      match ioctl_map_gpu_memory addr hindex euid vaddress length psz pages s with
      | Some (s', _) => Some (s', [])
      | None => None
      end
  | ActUnmap h euid =>
      let '(s', evs, _) := ioctl_unmap_gpu_memory h euid s in Some (s', evs)
  | ActGet h euid => Some (fst (strom_get_mapped_gpu_memory h euid s), [])
  | ActPut h => strom_put_mapped_gpu_memory h s
  | ActReleaseEnter current h => callback_release_enter current h s
  | ActReleaseResume h => callback_release_resume h s
  | ActReleaseFree h => callback_release_free h s
  end.

Fixpoint mgmem_run (acts : list mgmem_action) (s : mgmem_registry)
  : step_result mgmem_registry (list mgmem_event) :=
  match acts with
  | [] => Some (s, [])
  | a :: acts' =>
      match mgmem_step a s with
      | None => None
      | Some (s1, evs1) =>
          match mgmem_run acts' s1 with
          | None => None
          | Some (s2, evs2) => Some (s2, evs1 ++ evs2)
          end
      end
  end.

(** ** DMA tasks *)

(** A page of the page cache as [find_lock_page] returns it: its index in
    the file and its dirty flag. *)
Record page : Type := mk_page {
  pg_index : Z;
  PageDirty : bool
}.

(** The hash chain a task hangs on: [strom_dma_task_slots[hindex]] while it
    runs, [failed_dma_task_slots[hindex]] once it has ended with an error. *)
Inductive task_chain : Type :=
| OnRunning
| OnFailed.

(** [struct strom_dma_task].  Pointers are the addresses of the records they
    point to, [None] for [NULL]. *)
Record strom_dma_task : Type := mk_dtask {
  dt_chain : task_chain;
  dma_task_id : Z;
  dt_hindex : Z;
  dt_refcnt : Z;
  frozen : bool;
  mgmem : option Z;
  filp : option Z;
  nvme_ns : Z;
  blocksz : Z;
  blocksz_shift : Z;
  start_sect : Z;
  nr_sects : Z;
  max_nblocks : Z;
  dma_status : Z;
  ioctl_filp : option Z;
  dest_offset : Z;
  src_block : Z;
  nr_blocks : Z;
  file_pages : list (option page)
}.

Definition set_dt_refcnt (v : Z) (d : strom_dma_task) : strom_dma_task :=
  mk_dtask (dt_chain d) (dma_task_id d) (dt_hindex d) v (frozen d) (mgmem d)
           (filp d) (nvme_ns d) (blocksz d) (blocksz_shift d) (start_sect d)
           (nr_sects d) (max_nblocks d) (dma_status d) (ioctl_filp d)
           (dest_offset d) (src_block d) (nr_blocks d) (file_pages d).

Definition set_frozen (v : bool) (d : strom_dma_task) : strom_dma_task :=
  mk_dtask (dt_chain d) (dma_task_id d) (dt_hindex d) (dt_refcnt d) v (mgmem d)
           (filp d) (nvme_ns d) (blocksz d) (blocksz_shift d) (start_sect d)
           (nr_sects d) (max_nblocks d) (dma_status d) (ioctl_filp d)
           (dest_offset d) (src_block d) (nr_blocks d) (file_pages d).

Definition set_dma_status (v : Z) (d : strom_dma_task) : strom_dma_task :=
  mk_dtask (dt_chain d) (dma_task_id d) (dt_hindex d) (dt_refcnt d) (frozen d)
           (mgmem d) (filp d) (nvme_ns d) (blocksz d) (blocksz_shift d)
           (start_sect d) (nr_sects d) (max_nblocks d) v (ioctl_filp d)
           (dest_offset d) (src_block d) (nr_blocks d) (file_pages d).

(** The three pointers are cleared and the record is put at the tail of the
    failed chain. *)
Definition move_to_failed (d : strom_dma_task) : strom_dma_task :=
  mk_dtask OnFailed (dma_task_id d) (dt_hindex d) (dt_refcnt d) (frozen d)
           None None (nvme_ns d) (blocksz d) (blocksz_shift d)
           (start_sect d) (nr_sects d) (max_nblocks d) (dma_status d) None
           (dest_offset d) (src_block d) (nr_blocks d) (file_pages d).

(** The pending request: [dest_offset], [src_block], [nr_blocks]. *)
Definition set_pending (off blk n : Z) (d : strom_dma_task) : strom_dma_task :=
  mk_dtask (dt_chain d) (dma_task_id d) (dt_hindex d) (dt_refcnt d) (frozen d)
           (mgmem d) (filp d) (nvme_ns d) (blocksz d) (blocksz_shift d)
           (start_sect d) (nr_sects d) (max_nblocks d) (dma_status d)
           (ioctl_filp d) off blk n (file_pages d).

Definition set_nr_blocks (n : Z) (d : strom_dma_task) : strom_dma_task :=
  set_pending (dest_offset d) (src_block d) n d.

Definition set_file_pages (v : list (option page)) (d : strom_dma_task)
  : strom_dma_task :=
  mk_dtask (dt_chain d) (dma_task_id d) (dt_hindex d) (dt_refcnt d) (frozen d)
           (mgmem d) (filp d) (nvme_ns d) (blocksz d) (blocksz_shift d)
           (start_sect d) (nr_sects d) (max_nblocks d) (dma_status d)
           (ioctl_filp d) (dest_offset d) (src_block d) (nr_blocks d) v.

(** Where a thread inside [strom_memcpy_ssd2gpu_wait] stands.  The walks
    over the two chains under [rcu_read_lock] alone are separate steps;
    everything from [spin_lock_irqsave] to [spin_unlock_irqrestore] is one. *)
Inductive wait_pc : Type :=
| WaitScanFailed   (* at [retry:], without the spinlock *)
| WaitTakeLock     (* a failed record was seen: [spin_lock_irqsave; goto retry] *)
| WaitScanRunning  (* no failed record was seen, without the spinlock *)
| WaitSleeping.    (* [prepare_to_wait; schedule()] *)

(** What a step of such a thread leads to: the next point, or the return of
    the call with its value and the status stored through
    [p_dma_task_status]. *)
Inductive wait_next : Type :=
| WaitAt (pc : wait_pc)
| WaitReturn (retval : Z) (status : option Z).

(** The module's state: the mapping registry, every allocated DMA task by
    address, and the threads inside [strom_memcpy_ssd2gpu_wait] with the
    task id they wait for. *)
Record strom_state : Type := mk_strom {
  registry : mgmem_registry;
  dtasks : gmap Z strom_dma_task;
  waiting : gmap Z (Z * wait_pc)
}.

Inductive task_event : Type :=
| EvMgmem (e : mgmem_event)
| EvTaskFailed (id status : Z)
| EvTaskKfree (id : Z)
| EvWakeUpAll (hindex : Z)
| EvFput (file : option Z)
| EvWaitReturn (thread id retval : Z) (status : option Z).

(** What [fget] and [file_is_supported_nvme] report about the source file:
    the [struct file], the verdict, and the geometry of its partition. *)
Record source_file : Type := mk_source_file {
  sf_filp : Z;
  sf_supported : Z;
  sf_nvme_ns : Z;
  s_blocksize : Z;
  s_blocksize_bits : Z;
  bd_start_sect : Z;
  bd_nr_sects : Z
}.

(** [strom_create_dma_task].  [file] is [None] when [fget] fails, [addr] is
    the address [kzalloc] returns ([None] when it fails), [hindex] the hash
    slot of that address.  The result is the new task's address or the
    error. *)
Definition strom_create_dma_task (addr : option Z) (hindex : Z)
    (h euid : Z) (file : option source_file) (ioctl_file : Z)
    (s : strom_state) : step_result strom_state (list task_event * (Z + Z)) :=
  match file with
  | None => Some (s, ([], inr (- EBADF)))
  | Some f =>
      if bool_decide (sf_supported f < 0)
      then Some (s, ([EvFput (Some (sf_filp f))], inr (sf_supported f)))
      else
        match strom_get_mapped_gpu_memory h euid (registry s) with
        | (_, false) => Some (s, ([EvFput (Some (sf_filp f))], inr (- ENOENT)))
        | (reg1, true) =>
            match addr with
            | None =>
                match strom_put_mapped_gpu_memory h reg1 with
                | None => None
                | Some (reg2, evs) =>
                    Some (mk_strom reg2 (dtasks s) (waiting s),
                          ((EvMgmem <$> evs) ++ [EvFput (Some (sf_filp f))],
                           inr (- ENOMEM)))
                end
            | Some a =>
                match dtasks s !! a with
                | Some _ => None
                | None =>
                    if bool_decide (s_blocksize f = u64 (Z.shiftl 1 (s_blocksize_bits f)))
                    then
                      let d := mk_dtask OnRunning a hindex 1 false (Some h)
                                 (Some (sf_filp f)) (sf_nvme_ns f)
                                 (s_blocksize f) (s_blocksize_bits f)
                                 (bd_start_sect f) (bd_nr_sects f)
                                 (u32 (Z.shiftr STROM_DMA_SSD2GPU_MAXLEN
                                                (s_blocksize_bits f)))
                                 0 (Some ioctl_file) 0 0 0
                                 (replicate 32 None) in
                      Some (mk_strom reg1 (<[a := d]> (dtasks s)) (waiting s),
                            ([], inl a))
                    else None
                end
            end
        end
  end.

(** [strom_get_dma_task] *)
Definition strom_get_dma_task (id : Z) (s : strom_state)
  : step_result strom_state (list task_event) :=
  match dtasks s !! id with
  | None => None
  | Some d =>
      if frozen d then None
      else
        let refcnt_new := s32 (dt_refcnt d + 1) in
        if bool_decide (refcnt_new > 1)
        then Some (mk_strom (registry s)
                            (<[id := set_dt_refcnt refcnt_new d]> (dtasks s))
                            (waiting s), [])
        else None
  end.

(** The first statement of [strom_put_dma_task]: a non-zero status is
    stored if none is stored yet. *)
Definition record_dma_status (status : Z) (d : strom_dma_task) : strom_dma_task :=
  if bool_decide (status <> 0)
  then (if bool_decide (dma_status d = 0) then set_dma_status status d else d)
  else d.

(** [strom_put_dma_task] *)
Definition strom_put_dma_task (id status : Z) (s : strom_state)
  : step_result strom_state (list task_event) :=
  match dtasks s !! id with
  | None => None
  | Some d0 =>
      let d := record_dma_status status d0 in
      let refcnt' := s32 (dt_refcnt d - 1) in
      if bool_decide (refcnt' = 0) then
        if frozen d then
          match mgmem d with
          | None => None
          | Some h =>
              match strom_put_mapped_gpu_memory h (registry s) with
              | None => None
              | Some (reg', evs) =>
                  let d1 := set_dt_refcnt refcnt' d in
                  if bool_decide (dma_status d <> 0) then
                    Some (mk_strom reg'
                            (<[id := move_to_failed d1]> (dtasks s)) (waiting s),
                          [EvTaskFailed id (dma_status d); EvWakeUpAll (dt_hindex d)]
                            ++ (EvMgmem <$> evs)
                            ++ [EvFput (filp d); EvFput (ioctl_filp d)])
                  else
                    Some (mk_strom reg' (delete id (dtasks s)) (waiting s),
                          [EvWakeUpAll (dt_hindex d); EvTaskKfree id]
                            ++ (EvMgmem <$> evs)
                            ++ [EvFput (filp d); EvFput (ioctl_filp d)])
              end
          end
        else None
      else
        Some (mk_strom (registry s)
                       (<[id := set_dt_refcnt refcnt' d]> (dtasks s))
                       (waiting s), [])
  end.

(** [list_for_each_entry_rcu] over one of the two chains of the slot of
    [id], looking for the task whose id is [id]. *)
Definition on_chain (c : task_chain) (d : strom_dma_task) : bool :=
  match c, dt_chain d with
  | OnRunning, OnRunning => true
  | OnFailed, OnFailed => true
  | _, _ => false
  end.

Definition find_on_chain (c : task_chain) (id : Z)
    (tasks : gmap Z strom_dma_task) : option strom_dma_task :=
  match tasks !! id with
  | Some d => if on_chain c d then Some d else None
  | None => None
  end.

(** The end of a turn of the loop of [strom_memcpy_ssd2gpu_wait], from the
    walk over the chain of running tasks on. *)
Definition wait_check_running (pending : bool) (id : Z)
    (tasks : gmap Z strom_dma_task) : wait_next :=
  match find_on_chain OnRunning id tasks with
  | None => WaitReturn 0 None
  | Some _ => if pending then WaitReturn (- EINTR) None else WaitAt WaitSleeping
  end.

(** One step of a thread inside [strom_memcpy_ssd2gpu_wait] for task [id],
    from the point [pc]; [pending] is [signal_pending(current)]. *)
Definition wait_step (pending : bool) (id : Z) (pc : wait_pc)
    (tasks : gmap Z strom_dma_task)
  : wait_next * gmap Z strom_dma_task * list task_event :=
  match pc with
  | WaitScanFailed =>
      match find_on_chain OnFailed id tasks with
      | Some _ => (WaitAt WaitTakeLock, tasks, [])
      | None => (WaitAt WaitScanRunning, tasks, [])
      end
  | WaitTakeLock =>
      match find_on_chain OnFailed id tasks with
      | Some d =>
          (WaitReturn (- EIO) (Some (dma_status d)), delete id tasks,
           [EvTaskKfree id])
      | None => (wait_check_running pending id tasks, tasks, [])
      end
  | WaitScanRunning => (wait_check_running pending id tasks, tasks, [])
  | WaitSleeping => (WaitAt WaitScanFailed, tasks, [])
  end.

(** [strom_memcpy_ssd2gpu_wait] when no other thread runs in between: the
    steps of one turn of its loop, which ends with the [return] or asleep
    in [schedule()]. *)
Definition strom_memcpy_ssd2gpu_wait (pending : bool) (id : Z)
    (tasks : gmap Z strom_dma_task)
  : wait_next * gmap Z strom_dma_task * list task_event :=
  let '(n1, t1, e1) := wait_step pending id WaitScanFailed tasks in
  match n1 with
  | WaitAt pc1 =>
      let '(n2, t2, e2) := wait_step pending id pc1 t1 in (n2, t2, e1 ++ e2)
  | WaitReturn _ _ => (n1, t1, e1)
  end.

(** The operations on DMA tasks, as the threads and completion handlers
    interleave them. *)
Inductive task_action : Type :=
| ActRegistry (a : mgmem_action)
| ActCreateTask (addr : option Z) (hindex h euid : Z)
                (file : option source_file) (ioctl_file : Z)
| ActFreeze (id : Z)
| ActGetTask (id : Z)
| ActPutTask (id status : Z)
| ActWaitCall (thread id : Z)
| ActWaitStep (thread : Z) (pending : bool).

Definition task_step (a : task_action) (s : strom_state)
  : step_result strom_state (list task_event) :=
  match a with
  | ActRegistry a' =>
      match mgmem_step a' (registry s) with
      | None => None
      | Some (reg', evs) =>
          Some (mk_strom reg' (dtasks s) (waiting s), EvMgmem <$> evs)
      end
  | ActCreateTask addr hindex h euid file ioctl_file =>
      match strom_create_dma_task addr hindex h euid file ioctl_file s with
      | None => None
      | Some (s', (evs, _)) => Some (s', evs)
      end
  | ActFreeze id =>
      match dtasks s !! id with
      | None => None
      | Some d =>
          Some (mk_strom (registry s) (<[id := set_frozen true d]> (dtasks s))
                         (waiting s), [])
      end
  | ActGetTask id => strom_get_dma_task id s
  | ActPutTask id status => strom_put_dma_task id status s
  | ActWaitCall thread id =>
      match waiting s !! thread with
      | Some _ => None
      | None =>
          Some (mk_strom (registry s) (dtasks s)
                         (<[thread := (id, WaitScanFailed)]> (waiting s)), [])
      end
  | ActWaitStep thread pending =>
      match waiting s !! thread with
      | None => None
      | Some (id, pc) =>
          let '(next, tasks', evs) := wait_step pending id pc (dtasks s) in
          match next with
          | WaitReturn r st =>
              Some (mk_strom (registry s) tasks' (delete thread (waiting s)),
                    evs ++ [EvWaitReturn thread id r st])
          | WaitAt pc' =>
              Some (mk_strom (registry s) tasks'
                             (<[thread := (id, pc')]> (waiting s)), evs)
          end
      end
  end.

Fixpoint task_run (acts : list task_action) (s : strom_state)
  : step_result strom_state (list task_event) :=
  match acts with
  | [] => Some (s, [])
  | a :: acts' =>
      match task_step a s with
      | None => None
      | Some (s1, evs1) =>
          match task_run acts' s1 with
          | None => None
          | Some (s2, evs2) => Some (s2, evs1 ++ evs2)
          end
      end
  end.

(** [strom_put_dma_task] called once per status of the list, in order. *)
Fixpoint put_dma_task_all (id : Z) (statuses : list Z) (s : strom_state)
  : option strom_state :=
  match statuses with
  | [] => Some s
  | st :: rest =>
      match strom_put_dma_task id st s with
      | None => None
      | Some (s1, _) => put_dma_task_all id rest s1
      end
  end.

(** ** The request scheduler *)

(** [StromCmd__MemCpySsdToGpuWriteBack], the request of the ioctl: the four
    result counters, then the arguments.  The user pointer [wb_buffer] is
    its address. *)
Record StromCmd__MemCpySsdToGpuWriteBack : Type := mk_karg {
  nr_ram2gpu : Z;
  nr_ssd2gpu : Z;
  nr_dma_submit : Z;
  nr_dma_blocks : Z;
  offset : Z;
  nr_chunks : Z;
  chunk_sz : Z;
  relseg_sz : Z;
  wb_buffer : Z
}.

Definition set_nr_ram2gpu (v : Z) (k : StromCmd__MemCpySsdToGpuWriteBack) :=
  mk_karg v (nr_ssd2gpu k) (nr_dma_submit k) (nr_dma_blocks k) (offset k)
          (nr_chunks k) (chunk_sz k) (relseg_sz k) (wb_buffer k).

Definition set_nr_ssd2gpu (v : Z) (k : StromCmd__MemCpySsdToGpuWriteBack) :=
  mk_karg (nr_ram2gpu k) v (nr_dma_submit k) (nr_dma_blocks k) (offset k)
          (nr_chunks k) (chunk_sz k) (relseg_sz k) (wb_buffer k).

(** The two [unsigned int] counters behind [p_nr_dma_submit] and
    [p_nr_dma_blocks]: one more submission, of [n] blocks. *)
Definition count_dma_submit (n : Z) (k : StromCmd__MemCpySsdToGpuWriteBack) :=
  mk_karg (nr_ram2gpu k) (nr_ssd2gpu k) (u32 (nr_dma_submit k + 1))
          (u32 (nr_dma_blocks k + n)) (offset k)
          (nr_chunks k) (chunk_sz k) (relseg_sz k) (wb_buffer k).

(** What the scheduler calls outside this file, and the one type it takes
    from a header that is not part of it.

    - [karg_int] is the conversion to the integer type of the members
      [nr_chunks], [chunk_sz], [relseg_sz], [nr_ram2gpu] and [nr_ssd2gpu]
      of the request, declared in [nvme_strom.h]: arithmetic on these
      members is done in that type.
    - [i_size] is [i_size_read(filp->f_inode)].
    - [strom_get_block iblock] is the return value of the file system's
      block mapping and the [b_blocknr] it leaves in the buffer head.
    - [page_cache i k] tells, while chunk number [i] of the batch is
      processed, whether page [k] of the file is in the page cache, and
      whether it is dirty.
    - [read_mapping_page k] is the error of the synchronous read of page
      [k], 0 if it succeeds.
    - [copy_to_user_fails dest] tells whether the copy of a page to the
      user address [dest] faults on both the fast and the slow path.
    - [kmalloc_iod_ok nbytes] tells whether the allocation in
      [nvme_alloc_iod] succeeds.
    - [nvme_submit_async_read_cmd src_block nr_blocks sg] is the return
      value of the submission of the read command (defined in
      [nvme_strom.rhel7.c]). *)
Record kernel_env : Type := mk_env {
  karg_int : Z -> Z;
  i_size : Z;
  strom_get_block : Z -> Z * Z;
  page_cache : Z -> Z -> option bool;
  read_mapping_page : Z -> Z;
  copy_to_user_fails : Z -> bool;
  kmalloc_iod_ok : Z -> bool;
  nvme_submit_async_read_cmd : Z -> Z -> list (Z * Z) -> Z
}.

(** What the scheduler does to the outside: [EvSubmitDma] is a read command
    for [nblocks] blocks from block [src] into the scatter-gather list
    [sg], with the value its submission returned; [EvWriteback] is a call
    of [__memcpy_ssd2gpu_writeback] for the chunk at file position [fpos]
    with destination [dest_uaddr], and the pages it copied to user space,
    each with the address it went to. *)
Inductive sched_event : Type :=
| EvSubmitDma (src nblocks : Z) (sg : list (Z * Z)) (retval : Z)
| EvWriteback (fpos dest_uaddr : Z) (copies : list (Z * page)).

(** What [memcpy_ssd2gpu_writeback] works on: the request, the task, the
    array [chunk_ids_out], and the calls made so far. *)
Record sched : Type := mk_sched {
  sc_karg : StromCmd__MemCpySsdToGpuWriteBack;
  sc_dtask : strom_dma_task;
  sc_out : list Z;
  sc_trace : list sched_event
}.

Definition with_karg (k : StromCmd__MemCpySsdToGpuWriteBack) (st : sched) : sched :=
  mk_sched k (sc_dtask st) (sc_out st) (sc_trace st).
Definition with_dtask (d : strom_dma_task) (st : sched) : sched :=
  mk_sched (sc_karg st) d (sc_out st) (sc_trace st).
Definition with_out (o : list Z) (st : sched) : sched :=
  mk_sched (sc_karg st) (sc_dtask st) o (sc_trace st).
Definition add_trace (evs : list sched_event) (st : sched) : sched :=
  mk_sched (sc_karg st) (sc_dtask st) (sc_out st) (sc_trace st ++ evs).

(** [array[i]] for an [int] index: outside the array there is nothing to
    read. *)
Definition array_get {A : Type} (l : list A) (i : Z) : option A :=
  if i <? 0 then None else l !! Z.to_nat i.

(** [array[i] = v]: [None] when the index is outside the array. *)
Definition array_set {A : Type} (l : list A) (i : Z) (v : A) : option (list A) :=
  if (0 <=? i) && (i <? Z.of_nat (length l))
  then Some (<[Z.to_nat i := v]> l) else None.

(** The loop of [submit_ssd2gpu_memcpy] over the page table: one
    scatter-gather entry per device page, until [total_nbytes] is used up.
    The result is the list built and the bytes left over. *)
Fixpoint build_sg (entries : nat) (pages : list Z) (index : Z)
    (page_sz offset total_nbytes : Z) (sg : list (Z * Z))
  : option (list (Z * Z) * Z) :=
  match entries with
  | O => Some (sg, total_nbytes)
  | S entries' =>
      if total_nbytes =? 0 then Some (sg, total_nbytes)
      else
        match array_get pages index with
        | None => None
        | Some base_addr =>
            let length := s32 (Z.min total_nbytes (u64 (page_sz - offset))) in
            build_sg entries' pages (s32 (index + 1)) page_sz 0
                     (u64 (total_nbytes - length))
                     (sg ++ [(u64 (base_addr + offset), length)])
        end
  end.

(** [submit_ssd2gpu_memcpy]: the pending request of the task is checked,
    turned into a scatter-gather list over the device pages and submitted.
    [nvme_alloc_iod] uses the pointer [kmalloc] returns before it is
    tested, so a failed allocation does not come back as [-ENOMEM]. *)
Definition submit_ssd2gpu_memcpy (env : kernel_env) (m : mapped_gpu_memory)
    (d : strom_dma_task) : option (Z * list sched_event) :=
  let total_nbytes := u32 (Z.shiftl (nr_blocks d) (blocksz_shift d)) in
  if (total_nbytes =? 0) || (total_nbytes >? STROM_DMA_SSD2GPU_MAXLEN)
  then Some (- EINVAL, [])
  else if (u64 (dest_offset d) <? map_offset m)
          || (u64 (dest_offset d + total_nbytes)
                >? u64 (map_offset m + map_length m))
  then Some (- ERANGE, [])
  else if negb (kmalloc_iod_ok env total_nbytes) then None
  else
    let base := s32 (Z.shiftr (dest_offset d) (gpu_page_shift m)) in
    let offset := Z.land (dest_offset d) (gpu_page_sz m - 1) in
    match build_sg (length (page_table m)) (page_table m) base
                   (gpu_page_sz m) offset total_nbytes [] with
    | None => None
    | Some (sg, rest) =>
        if negb (rest =? 0) then Some (- EINVAL, [])
        else
          let retval := nvme_submit_async_read_cmd env (src_block d) (nr_blocks d) sg in
          Some (retval, [EvSubmitDma (src_block d) (nr_blocks d) sg retval])
    end.

(** The test "merge with pending request if possible" of
    [__memcpy_ssd2gpu_submit_dma], for a page of [nr] blocks that starts at
    block [b_blocknr] and goes to [curr_offset]. *)
Definition can_merge (d : strom_dma_task) (nr b_blocknr curr_offset : Z) : bool :=
  (nr_blocks d >? 0)
  && (u32 (nr_blocks d + nr) <=? max_nblocks d)
  && (u64 (src_block d + nr_blocks d) =? b_blocknr)
  && (u64 (dest_offset d + u64 (nr_blocks d * blocksz d)) =? u64 curr_offset).

(** The body of the loop of [__memcpy_ssd2gpu_submit_dma] once the block
    number of the page is known. *)
Definition submit_dma_page (env : kernel_env) (m : mapped_gpu_memory)
    (b_blocknr curr_offset : Z) (st : sched) : option (Z * sched) :=
  let d := sc_dtask st in
  let nr := u32 (Z.shiftr PAGE_CACHE_SIZE (blocksz_shift d)) in
  if can_merge d nr b_blocknr curr_offset
  then Some (0, with_dtask (set_nr_blocks (u32 (nr_blocks d + nr)) d) st)
  else if nr_blocks d >? 0 then
    let st1 := with_karg (count_dma_submit (nr_blocks d) (sc_karg st)) st in
    match submit_ssd2gpu_memcpy env m d with
    | None => None
    | Some (retval, evs) =>
        if negb (retval =? 0) then Some (retval, add_trace evs st1)
        else Some (0, with_dtask (set_pending curr_offset b_blocknr nr d)
                                 (add_trace evs st1))
    end
  else Some (0, with_dtask (set_pending curr_offset b_blocknr nr d) st).

(** [__memcpy_ssd2gpu_submit_dma] *)
Fixpoint __memcpy_ssd2gpu_submit_dma (env : kernel_env) (m : mapped_gpu_memory)
    (nr_pages : nat) (fpos curr_offset : Z) (st : sched) : option (Z * sched) :=
  match nr_pages with
  | O => Some (0, st)
  | S nr_pages' =>
      let '(retval, b_blocknr) :=
        strom_get_block env (u64 (Z.shiftr fpos (blocksz_shift (sc_dtask st)))) in
      if negb (retval =? 0) then Some (retval, st)
      else
        match submit_dma_page env m b_blocknr curr_offset st with
        | None => None
        | Some (retval', st') =>
            if negb (retval' =? 0) then Some (retval', st')
            else __memcpy_ssd2gpu_submit_dma env m nr_pages'
                   (s64 (fpos + PAGE_CACHE_SIZE))
                   (s64 (curr_offset + PAGE_CACHE_SIZE)) st'
        end
  end.

(** [find_lock_page(filp->f_mapping, k)] while chunk number [i] is
    processed. *)
Definition find_lock_page (env : kernel_env) (i k : Z) : option page :=
  mk_page k <$> page_cache env i k.

(** The loop that looks the pages of a chunk up in the page cache, with its
    [int k]: the pages found, and the score. *)
Fixpoint probe_pages (env : kernel_env) (i : Z) (nr_pages : nat) (k : Z)
    (threshold score : Z) : list (option page) * Z :=
  match nr_pages with
  | O => ([], score)
  | S nr_pages' =>
      let fpage := find_lock_page env i (u64 k) in
      let score' :=
        match fpage with
        | Some pg => s32 (score + (if PageDirty pg then s32 (threshold + 1) else 1))
        | None => score
        end in
      let '(rest, final) :=
        probe_pages env i nr_pages' (s32 (k + 1)) threshold score' in
      (fpage :: rest, final)
  end.

(** [__memcpy_ssd2gpu_writeback], from page [j] of the chunk on: the
    return value, the task with the pages it has read in, and the copies
    made. *)
Fixpoint __memcpy_ssd2gpu_writeback (env : kernel_env) (nr_pages : nat)
    (j fp_index dest_uaddr : Z) (d : strom_dma_task) (copies : list (Z * page))
  : Z * strom_dma_task * list (Z * page) :=
  match nr_pages with
  | O => (0, d, copies)
  | S nr_pages' =>
      let cached :=
        match array_get (file_pages d) j with
        | Some (Some pg) => inl pg
        | _ =>
            let retval := read_mapping_page env (u64 (fp_index + j)) in
            if negb (retval =? 0) then inr retval
            else inl (mk_page (u64 (fp_index + j)) false)
        end in
      match cached with
      | inr retval => (retval, d, copies)
      | inl pg =>
          let d1 := set_file_pages (<[Z.to_nat j := Some pg]> (file_pages d)) d in
          if copy_to_user_fails env dest_uaddr then (- EFAULT, d1, copies)
          else __memcpy_ssd2gpu_writeback env nr_pages' (s32 (j + 1)) fp_index
                 (dest_uaddr + PAGE_CACHE_SIZE) d1 (copies ++ [(dest_uaddr, pg)])
      end
  end.

(** The file position of a chunk. *)
Definition chunk_fpos (k : StromCmd__MemCpySsdToGpuWriteBack) (chunk_id : Z) : Z :=
  if relseg_sz k =? 0 then s64 (chunk_id * chunk_sz k)
  else s64 (Z.rem chunk_id (relseg_sz k) * chunk_sz k).

(** [nr_pages] and [threshold] of [memcpy_ssd2gpu_writeback]. *)
Definition chunk_nr_pages (k : StromCmd__MemCpySsdToGpuWriteBack) : Z :=
  u32 (Z.shiftr (chunk_sz k) PAGE_CACHE_SHIFT).

Definition chunk_threshold (k : StromCmd__MemCpySsdToGpuWriteBack) : Z :=
  s32 (chunk_nr_pages k / 2).

(** The pages of chunk [chunk_id] found in the page cache and its score. *)
Definition chunk_probe (env : kernel_env) (k : StromCmd__MemCpySsdToGpuWriteBack)
    (i chunk_id : Z) : list (option page) * Z :=
  probe_pages env i (Z.to_nat (chunk_nr_pages k))
              (s32 (Z.shiftr (chunk_fpos k chunk_id) PAGE_CACHE_SHIFT))
              (chunk_threshold k) 0.

Definition chunk_score (env : kernel_env) (k : StromCmd__MemCpySsdToGpuWriteBack)
    (i chunk_id : Z) : Z := snd (chunk_probe env k i chunk_id).

(** The write-back branch of the loop body. *)
Definition chunk_writeback (env : kernel_env) (chunk_id fpos : Z) (st : sched)
  : option (Z * sched) :=
  let k := sc_karg st in
  let k1 := set_nr_ram2gpu (karg_int env (nr_ram2gpu k + 1)) k in
  let slot := karg_int env (nr_chunks k1 - nr_ram2gpu k1) in
  let dest_uaddr := wb_buffer k1 + karg_int env (chunk_sz k1 * slot) in
  let '(retval, d1, copies) :=
    __memcpy_ssd2gpu_writeback env (Z.to_nat (chunk_nr_pages k)) 0
      (u64 (Z.shiftr fpos PAGE_CACHE_SHIFT)) dest_uaddr (sc_dtask st) [] in
  match array_set (sc_out st) slot (u32 chunk_id) with
  | None => None
  | Some out =>
      Some (retval, mk_sched k1 d1 out
                             (sc_trace st ++ [EvWriteback fpos dest_uaddr copies]))
  end.

(** The direct branch of the loop body; the result carries the new value of
    the local variable [dest_offset]. *)
Definition chunk_direct (env : kernel_env) (m : mapped_gpu_memory)
    (chunk_id fpos dest_offset : Z) (st : sched) : option (Z * Z * sched) :=
  match __memcpy_ssd2gpu_submit_dma env m (Z.to_nat (chunk_nr_pages (sc_karg st)))
          fpos dest_offset st with
  | None => None
  | Some (retval, st1) =>
      let k := sc_karg st1 in
      match array_set (sc_out st1) (nr_ssd2gpu k) (u32 chunk_id) with
      | None => None
      | Some out =>
          Some (retval, u64 (dest_offset + chunk_sz k),
                with_out out (with_karg (set_nr_ssd2gpu (karg_int env (nr_ssd2gpu k + 1)) k) st1))
      end
  end.

(** The loop of [memcpy_ssd2gpu_writeback] over the chunks, from chunk
    number [i] on, for [n] more chunks.  The result carries the value of
    the local variable [dest_offset] next to the return value.  The pages
    found in the page cache are unlocked and released at the end of each
    turn; that changes nothing the scheduler reads. *)
Fixpoint memcpy_ssd2gpu_writeback_loop (env : kernel_env) (m : mapped_gpu_memory)
    (chunk_ids_in : list Z) (n : nat) (i dest_offset : Z) (st : sched)
  : option (Z * Z * sched) :=
  match n with
  | O => Some (0, dest_offset, st)
  | S n' =>
      match array_get chunk_ids_in i with
      | None => None
      | Some chunk_id =>
          let k := sc_karg st in
          let fpos := chunk_fpos k chunk_id in
          if negb (Z.land fpos (PAGE_CACHE_SIZE - 1) =? 0) then None
          else if u64 fpos >? i_size env then Some (- ERANGE, dest_offset, st)
          else
            let '(pages, score) := chunk_probe env k i chunk_id in
            let d := sc_dtask st in
            let st0 :=
              with_dtask (set_file_pages (pages ++ drop (length pages) (file_pages d)) d) st in
            if score >? chunk_threshold k then
              match chunk_writeback env chunk_id fpos st0 with
              | None => None
              | Some (retval, st1) =>
                  if negb (retval =? 0) then Some (retval, dest_offset, st1)
                  else memcpy_ssd2gpu_writeback_loop env m chunk_ids_in n'
                         (s32 (i + 1)) dest_offset st1
              end
            else
              match chunk_direct env m chunk_id fpos dest_offset st0 with
              | None => None
              | Some (retval, dest_offset', st1) =>
                  if negb (retval =? 0) then Some (retval, dest_offset', st1)
                  else memcpy_ssd2gpu_writeback_loop env m chunk_ids_in n'
                         (s32 (i + 1)) dest_offset' st1
              end
      end
  end.

(** "submit pending SSD2GPU DMA request, if any": the value
    [submit_ssd2gpu_memcpy] returns is not looked at. *)
Definition submit_pending (env : kernel_env) (m : mapped_gpu_memory) (st : sched)
  : option sched :=
  let d := sc_dtask st in
  if nr_blocks d >? 0 then
    match submit_ssd2gpu_memcpy env m d with
    | None => None
    | Some (_, evs) =>
        Some (add_trace evs (with_karg (count_dma_submit (nr_blocks d) (sc_karg st)) st))
    end
  else Some st.

(** [memcpy_ssd2gpu_writeback] *)
Definition memcpy_ssd2gpu_writeback (env : kernel_env) (m : mapped_gpu_memory)
    (karg : StromCmd__MemCpySsdToGpuWriteBack) (dtask : strom_dma_task)
    (chunk_ids_in chunk_ids_out : list Z) : option (Z * sched) :=
  let st := mk_sched karg dtask chunk_ids_out [] in
  if negb (Z.land (chunk_sz karg) (PAGE_CACHE_SIZE - 1) =? 0)
     || (chunk_sz karg <? PAGE_CACHE_SIZE)
     || (chunk_sz karg >? STROM_DMA_SSD2GPU_MAXLEN)
  then Some (- EINVAL, st)
  else
    let dest_offset := u64 (map_offset m + offset karg) in
    if u64 (dest_offset + karg_int env (nr_chunks karg * chunk_sz karg))
         >? map_length m
    then Some (- ERANGE, st)
    else
      match memcpy_ssd2gpu_writeback_loop env m chunk_ids_in
              (Z.to_nat (nr_chunks karg)) 0 dest_offset st with
      | None => None
      | Some (retval, _, st1) =>
          if negb (retval =? 0) then Some (retval, st1)
          else
            match submit_pending env m st1 with
            | None => None
            | Some st2 =>
                let k := sc_karg st2 in
                if karg_int env (nr_ram2gpu k + nr_ssd2gpu k) =? nr_chunks k
                then Some (0, st2) else None
            end
      end.

(** ** Invariants of the mapping registry *)

(** Every record has a reference count in [0, INT_MAX - n]: it is not
    negative, and [n] more references can be taken without leaving the
    range of [int]. *)
Definition refcnt_in_range (n : Z) (s : mgmem_registry) : Prop :=
  0 <= n <= INT_MAX /\
  forall h m, mgmems s !! h = Some m -> 0 <= mg_refcnt m <= INT_MAX - n.

(** A release callback in progress runs on a record that is allocated and
    detached; once it is past its last unlock, nobody holds a reference. *)
Definition release_consistent (s : mgmem_registry) : Prop :=
  forall h pc, releasing s !! h = Some pc ->
    exists m, mgmems s !! h = Some m /\ mg_chained m = false /\
              (pc = CbUnlocked -> mg_refcnt m = 0).

Definition frees_at_zero (evs : list mgmem_event) : Prop :=
  forall m, EvFreePageTable m ∈ evs \/ EvKfree m ∈ evs -> mg_refcnt m = 0.

(** A mapping is registered, one reference is taken, and the driver revokes
    the mapping while that reference is held: the callback sleeps until the
    reference is put, then frees. *)
Definition revoke_in_flight : list mgmem_action :=
  [ ActMap 4096 7 1000 65536 1048576 NVIDIA_P2P_PAGE_SIZE_64KB [];
    ActGet 4096 1000;
    ActReleaseEnter 42 4096;
    ActGet 4096 1000;
    ActPut 4096;
    ActReleaseResume 4096;
    ActReleaseFree 4096 ].

Definition empty_registry : mgmem_registry := mk_registry ∅ ∅.

(** ** Counting failures and the waits that report them *)

(** The sticky status: the first non-zero status of a list, 0 if none. *)
Fixpoint first_nonzero (l : list Z) : Z :=
  match l with
  | [] => 0
  | x :: rest => if bool_decide (x <> 0) then x else first_nonzero rest
  end.

(** A call of [strom_memcpy_ssd2gpu_wait] for [id] returns the error of a
    failure record ([-EIO], with the record's status). *)
Definition returns_failure (id : Z) (e : task_event) : bool :=
  match e with
  | EvWaitReturn _ id' r _ => bool_decide (id' = id) && bool_decide (r = - EIO)
  | _ => false
  end.

(** A task with id [id] is put on the failed chain. *)
Definition places_failure (id : Z) (e : task_event) : bool :=
  match e with
  | EvTaskFailed id' _ => bool_decide (id' = id)
  | _ => false
  end.

Definition count_events (f : task_event -> bool) (evs : list task_event) : Z :=
  Z.of_nat (length (filter (fun e => f e = true) evs)).

(** 1 when a failure record with id [id] is on the failed chain, else 0. *)
Definition failed_now (id : Z) (tasks : gmap Z strom_dma_task) : Z :=
  match find_on_chain OnFailed id tasks with
  | Some _ => 1
  | None => 0
  end.

(** The balance of failure records with id [id] over a list of events: the
    waits that returned one, plus the one on the failed chain at the end,
    are covered by the one on the chain at the start and those placed. *)
Definition failure_balance (id : Z) (tasks tasks' : gmap Z strom_dma_task)
    (evs : list task_event) : Prop :=
  count_events (returns_failure id) evs + failed_now id tasks'
  <= failed_now id tasks + count_events (places_failure id) evs.

(** ** Scenarios on the task registry *)

Definition empty_strom : strom_state := mk_strom empty_registry ∅ ∅.

Definition ext4_file : source_file := mk_source_file 77 0 1 4096 12 2048 1000000.

(** A region is mapped and a task is created on it; two transfers are in
    flight (two more references) when the submitting thread freezes the
    task. *)
Definition task_in_flight : list task_action :=
  [ ActRegistry (ActMap 4096 7 1000 65536 1048576 NVIDIA_P2P_PAGE_SIZE_64KB []);
    ActCreateTask (Some 8192) 3 4096 1000 (Some ext4_file) 99;
    ActGetTask 8192;
    ActGetTask 8192;
    ActFreeze 8192 ].

(** The submitting thread drops its reference, one transfer fails with
    status -5 and the other one with status -22; two threads wait for the
    task, both see the failure record before either takes the lock. *)
Definition two_waiters : list task_action :=
  task_in_flight ++
  [ ActPutTask 8192 0;
    ActPutTask 8192 (-5);
    ActPutTask 8192 (-22);
    ActWaitCall 1 8192;
    ActWaitCall 2 8192;
    ActWaitStep 1 false;
    ActWaitStep 2 false;
    ActWaitStep 1 false;
    ActWaitStep 2 false ].

(** ** The merge rule *)

(** The rule in the words of the specification: the pending run is not
    empty, the new block continues its source blocks, the page goes to the
    destination offset where the run ends, and the merged run does not
    exceed the maximum number of blocks of a transfer. *)
Definition mergeable (d : strom_dma_task) (nr b_blocknr curr_offset : Z) : Prop :=
  nr_blocks d > 0 /\
  src_block d + nr_blocks d = b_blocknr /\
  dest_offset d + nr_blocks d * blocksz d = curr_offset /\
  nr_blocks d + nr <= max_nblocks d.

(** The pending run and the new page are within the integer types that
    hold them: block counts in [unsigned int], block numbers in [sector_t],
    offsets in the non-negative half of [loff_t]. *)
Definition pending_in_range (d : strom_dma_task) (nr b_blocknr curr_offset : Z) : Prop :=
  0 <= nr_blocks d /\ 0 <= nr /\ nr_blocks d + nr < 2 ^ 32 /\
  0 <= src_block d /\ src_block d + nr_blocks d < 2 ^ 64 /\
  0 <= dest_offset d /\ 0 <= blocksz d /\
  dest_offset d + nr_blocks d * blocksz d < 2 ^ 63 /\
  0 <= curr_offset < 2 ^ 63.

(** A task with a pending run of 8 blocks of 4 KiB, from block 1000, to
    offset 0 of the region. *)
Definition dtask_pending_8 : strom_dma_task :=
  mk_dtask OnRunning 8192 3 1 false (Some 4096) (Some 77) 1 4096 12 2048 1000000
           32 0 (Some 99) 0 1000 8 (replicate 32 None).

(** ** Scenarios for the scheduler *)

(** A region of 1 MiB, pinned as 16 device pages of 64 KiB, aligned, with
    one reference held by the task. *)
Definition region_1MiB : mapped_gpu_memory :=
  mk_mgmem true 7 1 1000 4096 140737488355328 0 1048576 None 65536 16
           ((fun i => 4026531840 + 65536 * Z.of_nat i) <$> seq 0 16).

(** A file of 1 GiB whose block [i] is block [b0 + i] of the partition, with
    nothing of it in the page cache, on a device that accepts every
    command; the members of the request are [unsigned int]. *)
Definition contiguous_cold_env (b0 : Z) : kernel_env :=
  mk_env u32 1073741824 (fun iblock => (0, b0 + iblock)) (fun _ _ => None)
         (fun _ => 0) (fun _ => false) (fun _ => true) (fun _ _ _ => 0).

(** A task as [strom_create_dma_task] leaves it on a file system with
    blocks of 4 KiB. *)
Definition fresh_dtask : strom_dma_task :=
  mk_dtask OnRunning 8192 3 1 false (Some 4096) (Some 77) 1 4096 12 2048 1000000
           32 0 (Some 99) 0 0 0 (replicate 32 None).

(** Five chunks of 32 KiB to offset 0 of the region. *)
Definition five_chunks : StromCmd__MemCpySsdToGpuWriteBack :=
  mk_karg 0 0 0 0 0 5 32768 0 268435456.

(** The same with a device that refuses every read command with
    [-ENOMEM]. *)
Definition refusing_device_env : kernel_env :=
  mk_env u32 1073741824 (fun iblock => (0, 1000 + iblock)) (fun _ _ => None)
         (fun _ => 0) (fun _ => false) (fun _ => true) (fun _ _ _ => - ENOMEM).

(** One chunk of 4 KiB to offset 0 of the region. *)
Definition one_chunk : StromCmd__MemCpySsdToGpuWriteBack :=
  mk_karg 0 0 0 0 0 1 4096 0 268435456.

(** ** What the loop over the chunks leaves unchanged *)

(** The arguments of the request, as opposed to its result counters. *)
Definition same_request (k k' : StromCmd__MemCpySsdToGpuWriteBack) : Prop :=
  offset k' = offset k /\ nr_chunks k' = nr_chunks k /\
  chunk_sz k' = chunk_sz k /\ relseg_sz k' = relseg_sz k /\
  wb_buffer k' = wb_buffer k.

(** The request but for the two counters of submissions. *)
Definition same_routing (k k' : StromCmd__MemCpySsdToGpuWriteBack) : Prop :=
  same_request k k' /\ nr_ram2gpu k' = nr_ram2gpu k /\ nr_ssd2gpu k' = nr_ssd2gpu k.

(** [i++] on the [int i] of the loop, [n] times. *)
Fixpoint advance (n : nat) (i : Z) : Z :=
  match n with
  | O => i
  | S n' => advance n' (s32 (i + 1))
  end.

(** The sanity checks and the bounds check at the head of
    [memcpy_ssd2gpu_writeback] let the request through. *)
Definition request_accepted (env : kernel_env) (m : mapped_gpu_memory)
    (k : StromCmd__MemCpySsdToGpuWriteBack) : Prop :=
  Z.land (chunk_sz k) (PAGE_CACHE_SIZE - 1) = 0 /\
  PAGE_CACHE_SIZE <= chunk_sz k <= STROM_DMA_SSD2GPU_MAXLEN /\
  u64 (u64 (map_offset m + offset k) + karg_int env (nr_chunks k * chunk_sz k))
  <= map_length m.

(** The calls of [__memcpy_ssd2gpu_writeback] in a trace, each with the
    file position of the chunk and the user address its data goes to. *)
Definition writeback_calls (tr : list sched_event) : list (Z * Z) :=
  omap (fun e => match e with
                 | EvWriteback fpos dest _ => Some (fpos, dest)
                 | _ => None
                 end) tr.

(** The pages a call of [__memcpy_ssd2gpu_writeback] copies go to
    consecutive pages of user memory from its destination on. *)
Definition copies_in_place (e : sched_event) : Prop :=
  match e with
  | EvWriteback _ dest copies =>
      copies.*1 = (fun a => dest + PAGE_CACHE_SIZE * Z.of_nat a) <$> seq 0 (length copies)
  | _ => True
  end.

(** The members of the request keep their value through [karg_int] as long
    as they fit every integer type of 32 bits or more. *)
Definition karg_int_exact (env : kernel_env) : Prop :=
  forall x, 0 <= x < 2 ^ 31 -> karg_int env x = x.

(** The chunk goes to the write-back path. *)
Definition to_writeback (env : kernel_env) (k : StromCmd__MemCpySsdToGpuWriteBack)
    (i chunk_id : Z) : bool :=
  chunk_score env k i chunk_id >? chunk_threshold k.

(** The ids of the chunks of a batch by the path they take, each list in
    processing order; [i] is the number of the first chunk. *)
Fixpoint split_routes (env : kernel_env) (k : StromCmd__MemCpySsdToGpuWriteBack)
    (i : Z) (ids : list Z) : list Z * list Z :=
  match ids with
  | [] => ([], [])
  | c :: rest =>
      let '(direct, wb) := split_routes env k (i + 1) rest in
      if to_writeback env k i c then (direct, c :: wb) else (c :: direct, wb)
  end.

(** What a step on the direct path keeps: the request but for the
    submission counters, the array of chunk ids, the calls of the
    write-back path, and the block size of the task. *)
Definition direct_keeps (st st' : sched) : Prop :=
  same_routing (sc_karg st) (sc_karg st') /\ sc_out st' = sc_out st /\
  writeback_calls (sc_trace st') = writeback_calls (sc_trace st) /\
  blocksz_shift (sc_dtask st') = blocksz_shift (sc_dtask st) /\
  (Forall copies_in_place (sc_trace st) -> Forall copies_in_place (sc_trace st')).

(** ** What the loop over the chunks does to the array and the counters *)

(** From state [st] to state [st'], the chunks [chunks] (the first of them
    the chunk number [i] of the batch) have been routed: the counters have
    advanced by the number of chunks on each path, the ids of the direct
    chunks stand in the array from slot [nr_ssd2gpu] upwards, those of the
    write-back chunks from slot [nr_chunks - nr_ram2gpu - 1] downwards, the
    slots outside the window between the two counters are untouched, and
    [__memcpy_ssd2gpu_writeback] was called once per write-back chunk. *)
Definition routed (env : kernel_env) (st st' : sched) (i : Z) (chunks : list Z)
  : Prop :=
  let k := sc_karg st in
  let k' := sc_karg st' in
  let direct := fst (split_routes env k i chunks) in
  let wb := snd (split_routes env k i chunks) in
  same_request k k' /\
  nr_ssd2gpu k' = nr_ssd2gpu k + Z.of_nat (length direct) /\
  nr_ram2gpu k' = nr_ram2gpu k + Z.of_nat (length wb) /\
  length (sc_out st') = length (sc_out st) /\
  (forall (j : nat) c, direct !! j = Some c ->
     sc_out st' !! Z.to_nat (nr_ssd2gpu k + Z.of_nat j) = Some (u32 c)) /\
  (forall (j : nat) c, wb !! j = Some c ->
     sc_out st' !! Z.to_nat (nr_chunks k - nr_ram2gpu k - 1 - Z.of_nat j)
     = Some (u32 c)) /\
  (forall p : nat,
     Z.of_nat p < nr_ssd2gpu k \/ nr_chunks k - nr_ram2gpu k <= Z.of_nat p ->
     sc_out st' !! p = sc_out st !! p) /\
  writeback_calls (sc_trace st')
  = writeback_calls (sc_trace st)
    ++ imap (fun j c =>
               (chunk_fpos k c,
                wb_buffer k
                + karg_int env (chunk_sz k
                                * (nr_chunks k - nr_ram2gpu k - 1 - Z.of_nat j))))
            wb /\
  (Forall copies_in_place (sc_trace st) -> Forall copies_in_place (sc_trace st')).

(** The file of [contiguous_cold_env], with the eight pages of its third
    chunk of 32 KiB (pages 16 to 23) in the page cache and dirty. *)
Definition third_chunk_dirty_env (b0 : Z) : kernel_env :=
  mk_env u32 1073741824 (fun iblock => (0, b0 + iblock))
         (fun _ k => if (16 <=? k) && (k <? 24) then Some true else None)
         (fun _ => 0) (fun _ => false) (fun _ => true) (fun _ _ _ => 0).

(** Two chunks of 4 KiB, the second one a page beyond the end of the file
    of 1 GiB. *)
Definition two_chunks : StromCmd__MemCpySsdToGpuWriteBack :=
  mk_karg 0 0 0 0 0 2 4096 0 268435456.

Definition two_chunk_ids : list Z := [0; 262145].

(** ** The cache score *)

(** What a page of the chunk adds to the score, in the words of the
    specification: nothing when it is not in the page cache, 1 when it is
    there and clean, [threshold + 1] when it is there and dirty. *)
Definition page_score (threshold : Z) (resident : option bool) : Z :=
  match resident with
  | None => 0
  | Some false => 1
  | Some true => threshold + 1
  end.

Fixpoint sum_page_scores (f : Z -> Z) (n : nat) (k : Z) : Z :=
  match n with
  | O => 0
  | S n' => f k + sum_page_scores f n' (k + 1)
  end.

(** The score of the specification: the sum over the pages of the chunk,
    which are the [chunk_sz / 4096] pages of the file from page
    [fpos / 4096] on, with [threshold = pages_per_chunk / 2]. *)
Definition cache_score_spec (env : kernel_env)
    (k : StromCmd__MemCpySsdToGpuWriteBack) (i chunk_id : Z) : Z :=
  let pages_per_chunk := chunk_sz k / PAGE_CACHE_SIZE in
  let threshold := pages_per_chunk / 2 in
  sum_page_scores (fun p => page_score threshold (page_cache env i p))
                  (Z.to_nat pages_per_chunk)
                  (chunk_fpos k chunk_id / PAGE_CACHE_SIZE).

(** A page of the chunk is in the page cache and dirty. *)
Definition has_dirty_page (env : kernel_env)
    (k : StromCmd__MemCpySsdToGpuWriteBack) (i chunk_id : Z) : Prop :=
  exists j, 0 <= j < chunk_sz k / PAGE_CACHE_SIZE /\
            page_cache env i (chunk_fpos k chunk_id / PAGE_CACHE_SIZE + j) = Some true.

(** A file of 16 TiB on a contiguous extent from block 1000, of which only
    the page at 8 TiB (page number 2^31) is in the page cache, dirty. *)
Definition huge_file_env : kernel_env :=
  mk_env u32 17592186044416 (fun iblock => (0, 1000 + iblock))
         (fun _ k => if k =? 2147483648 then Some true else None)
         (fun _ => 0) (fun _ => false) (fun _ => true) (fun _ _ _ => 0).

(** One chunk of 4 KiB, chunk number 2^31: the page at 8 TiB. *)
Definition chunk_at_8TiB : StromCmd__MemCpySsdToGpuWriteBack :=
  mk_karg 0 0 0 0 0 1 4096 0 268435456.

(** The read commands of a trace: first block, number of blocks, and the
    value the submission returned. *)
Definition dma_submissions (tr : list sched_event) : list (Z * Z * Z) :=
  omap (fun e => match e with
                 | EvSubmitDma src n _ rv => Some (src, n, rv)
                 | _ => None
                 end) tr.

(** ** Cold, contiguous files on a device that accepts every command *)

(** Nothing of the file is in the page cache. *)
Definition cold (env : kernel_env) : Prop :=
  forall i k, page_cache env i k = None.

(** Block [iblock] of the file is block [b0 + iblock] of the partition. *)
Definition contiguous_from (b0 : Z) (env : kernel_env) : Prop :=
  forall iblock, strom_get_block env iblock = (0, b0 + iblock).

(** Allocations succeed and the device accepts every read command. *)
Definition device_accepts (env : kernel_env) : Prop :=
  (forall n, kmalloc_iod_ok env n = true) /\
  (forall src n sg, nvme_submit_async_read_cmd env src n sg = 0).

(** The pending run of a task with blocks of 4 KiB ends where page
    [fpos / 4096] of the file starts, on storage as well as in the
    destination. *)
Definition run_reaches (b0 fpos curr : Z) (d : strom_dma_task) : Prop :=
  blocksz_shift d = 12 /\ blocksz d = 4096 /\
  0 <= src_block d /\ 0 <= dest_offset d /\ 0 < nr_blocks d /\
  src_block d + nr_blocks d = b0 + fpos / 4096 /\
  dest_offset d + nr_blocks d * 4096 = curr.

(** The state of the scheduler while it works on [five_chunks] for
    [fresh_dtask]: the counters of direct chunks, of submissions and of
    blocks submitted, the pending run, the array and the trace. *)
Definition five_chunks_state (nssd nsub nblk dest src nb : Z) (out : list Z)
    (tr : list sched_event) : sched :=
  mk_sched (mk_karg 0 nssd nsub nblk 0 5 32768 0 268435456)
           (set_pending dest src nb fresh_dtask) out tr.

(** ** The two ioctls of the mapping registry, with their error paths *)

(** What [ioctl_map_gpu_memory] undoes on its error paths:
    [__nvidia_p2p_put_pages] for the pages pinned at [map_address], and
    [kfree] of the record at [addr]. *)
Inductive map_undo : Type :=
| UndoPutPages (map_address : Z) (pages : list Z)
| UndoKfree (addr : Z).

(** [ioctl_map_gpu_memory] as a whole.  [kmalloc] is the address of the
    record and its hash slot, [None] when the allocation fails;
    [get_pages_rc] is the value of [__nvidia_p2p_get_pages], and [psz] and
    [pages] are the page table it gives when that value is 0;
    [put_user_fails] tells whether one of the three [put_user] calls
    faults.  The result carries the return value and what the error path
    has undone. *)
Definition ioctl_map_gpu_memory_uarg (copy_from_user_fails : bool)
    (kmalloc : option (Z * Z)) (get_pages_rc : Z) (psz : nvidia_p2p_page_size)
    (pages : list Z) (put_user_fails : bool) (euid vaddress length : Z)
    (s : mgmem_registry) : step_result mgmem_registry (Z * list map_undo) :=
  if copy_from_user_fails then Some (s, (- EFAULT, []))
  else
    match kmalloc with
    | None => Some (s, (- ENOMEM, []))
    | Some (addr, hindex) =>
        if negb (get_pages_rc =? 0) then Some (s, (get_pages_rc, [UndoKfree addr]))
        else
          let map_address := Z.land vaddress (Z.lnot GPU_BOUND_OFFSET) in
          let error_2 (rc : Z) :=
            Some (s, (rc, [UndoPutPages map_address pages; UndoKfree addr])) in
          match gpu_page_shift_of psz with
          | None => error_2 (- EINVAL)
          | Some _ =>
              if put_user_fails then error_2 (- EFAULT)
              else
                match ioctl_map_gpu_memory addr hindex euid vaddress length psz pages s with
                | None => None
                | Some (s', rv) => Some (s', (rv, []))
                end
          end
    end.

(** [ioctl_unmap_gpu_memory] as a whole: [put_pages_rc] is the value of
    [__nvidia_p2p_put_pages], which the call returns when it has found the
    record. *)
Definition ioctl_unmap_gpu_memory_uarg (copy_from_user_fails : bool)
    (put_pages_rc : Z) (h euid : Z) (s : mgmem_registry)
  : mgmem_registry * list mgmem_event * Z :=
  if copy_from_user_fails then (s, [], - EFAULT)
  else
    match mgmems s !! h with
    | Some m =>
        if mg_chained m && bool_decide (owner m = euid)
        then (mk_registry (<[h := set_mg_chained false m]> (mgmems s)) (releasing s),
              [EvPutPages m], put_pages_rc)
        else (s, [], - ENOENT)
    | None => (s, [], - ENOENT)
    end.

(** ** The release callback and the last reference *)

(** What holds of a release callback in progress, by the point it stands
    at: asleep and not woken, references are held and the record names a
    task to wake; woken, or past its last unlock, no reference is held.  In
    every case the record is allocated and detached. *)
Definition release_wakeup_ok (s : mgmem_registry) : Prop :=
  forall h pc, releasing s !! h = Some pc ->
    exists m, mgmems s !! h = Some m /\ mg_chained m = false /\
      match pc with
      | CbSleeping false _ => mg_refcnt m > 0 /\ is_Some (wait_task m)
      | CbSleeping true _ => mg_refcnt m = 0
      | CbUnlocked => mg_refcnt m = 0
      end.

(** ** References on files *)

(** The files released with [fput] in a list of events, in order. *)
Definition fputs (evs : list task_event) : list (option Z) :=
  omap (fun e => match e with EvFput f => Some f | _ => None end) evs.

(** The reference count of the record at [h], if one is allocated. *)
Definition refcnt_at (h : Z) (s : mgmem_registry) : option Z :=
  mg_refcnt <$> mgmems s !! h.

(** ** [ioctl_info_gpu_memory] *)

Definition ENOBUFS : Z := 105.

(** The head of [StromCmd__InfoGpuMemory] as the call fills it in: the
    values assigned to the members [nitems], [version], [gpu_page_sz],
    [owner], [map_offset] and [map_length]. *)
Record StromCmd__InfoGpuMemory : Type := mk_info {
  info_nitems : Z;
  info_version : Z;
  info_gpu_page_sz : Z;
  info_owner : Z;
  info_map_offset : Z;
  info_map_length : Z
}.

(** The loop over the page table, with its [int i], for [n] more entries:
    [put_user] stores the physical address of page [i] in [paddrs[i]] as
    long as [i] is below [nrooms].  The comparison of the non-negative [i]
    with the member [nrooms] is that of their values, whatever integer type
    the member has.  The result is the return code and the stores made. *)
Fixpoint put_paddrs (n : nat) (pages : list Z) (i nrooms : Z)
    (put_user_fails : Z -> bool) (paddrs : list (Z * Z))
  : option (Z * list (Z * Z)) :=
  match n with
  | O => Some (0, paddrs)
  | S n' =>
      if i >=? nrooms then Some (- ENOBUFS, paddrs)
      else
        match array_get pages i with
        | None => None
        | Some physical_address =>
            if put_user_fails i then Some (- EFAULT, paddrs)
            else put_paddrs n' pages (s32 (i + 1)) nrooms put_user_fails
                            (paddrs ++ [(i, physical_address)])
        end
  end.

(** [ioctl_info_gpu_memory].  [version] is the [version] member of the page
    table of the NVIDIA driver.  The result is the return code, the head
    copied to the user (if it was), the entries of [paddrs] stored, and
    what the release of the reference did. *)
Definition ioctl_info_gpu_memory (copy_from_user_fails copy_to_user_fails : bool)
    (put_user_fails : Z -> bool) (version h euid nrooms : Z) (s : mgmem_registry)
  : step_result mgmem_registry
      (Z * option StromCmd__InfoGpuMemory * list (Z * Z) * list mgmem_event) :=
  if copy_from_user_fails then Some (s, (- EFAULT, None, [], []))
  else
    match strom_get_mapped_gpu_memory h euid s with
    | (_, false) => Some (s, (- ENOENT, None, [], []))
    | (s1, true) =>
        match mgmems s1 !! h with
        | None => None
        | Some m =>
            let karg := mk_info (Z.of_nat (length (page_table m))) version
                                (gpu_page_sz m) (owner m) (map_offset m)
                                (map_length m) in
            let written :=
              if copy_to_user_fails then Some (- EFAULT, None, [])
              else
                match put_paddrs (length (page_table m)) (page_table m) 0 nrooms
                                 put_user_fails [] with
                | None => None
                | Some (rc, paddrs) => Some (rc, Some karg, paddrs)
                end in
            match written with
            | None => None
            | Some (rc, head, paddrs) =>
                match strom_put_mapped_gpu_memory h s1 with
                | None => None
                | Some (s2, evs) => Some (s2, (rc, head, paddrs, evs))
                end
            end
        end
    end.

(** ** The file of the ioctl: wait, read and release *)

(** [ioctl_memcpy_ssd2gpu_wait], with [strom_memcpy_ssd2gpu_wait] run for
    one turn of its loop: the call returns with its value and the [status]
    copied to the user (none when [copy_to_user] fails), or the thread is
    asleep inside it. *)
Definition ioctl_memcpy_ssd2gpu_wait (copy_from_user_fails copy_to_user_fails : bool)
    (pending : bool) (id : Z) (tasks : gmap Z strom_dma_task)
  : wait_next * gmap Z strom_dma_task * list task_event :=
  if copy_from_user_fails then (WaitReturn (- EFAULT) None, tasks, [])
  else
    let '(next, tasks', evs) := strom_memcpy_ssd2gpu_wait pending id tasks in
    match next with
    | WaitAt pc => (WaitAt pc, tasks', evs)
    | WaitReturn retval status =>
        if copy_to_user_fails then (WaitReturn (- EFAULT) None, tasks', evs)
        else (WaitReturn retval (Some (default 0 status)), tasks', evs)
    end.

(** The test of [strom_proc_release] on a task of the failed chains. *)
Definition unreferenced_error (filp : Z) (d : strom_dma_task) : bool :=
  on_chain OnFailed d && bool_decide (ioctl_filp d = Some filp).

(** [strom_proc_release] for the file [filp]: the records of the failed
    chains whose [ioctl_filp] is [filp] are unlinked and freed.  The result
    is the tasks left and the records freed. *)
Definition strom_proc_release (filp : Z) (tasks : gmap Z strom_dma_task)
  : gmap Z strom_dma_task * list task_event :=
  (filter (fun kd => unreferenced_error filp kd.2 = false) tasks,
   (fun kd => EvTaskKfree kd.1)
     <$> map_to_list (filter (fun kd => unreferenced_error filp kd.2 = true) tasks)).

(** [strom_proc_read]: [len] bytes at most of [strom_proc_signature] from
    position [pos] on.  [copy_to_user_fails] tells whether the copy leaves
    bytes uncopied, which a copy of no bytes cannot.  The result is the
    return value, the new position and the bytes copied to the user's
    buffer; [None] when the bytes to copy are not all bytes of the
    signature. *)
Definition strom_proc_read (strom_proc_signature : list ascii)
    (copy_to_user_fails : bool) (len pos : Z) : option (Z * Z * list ascii) :=
  let sig_len := Z.of_nat (length strom_proc_signature) in
  if u64 pos >=? sig_len then Some (0, pos, [])
  else
    let len := if u64 (pos + len) >=? sig_len then u64 (sig_len - pos) else len in
    if copy_to_user_fails && negb (len =? 0) then Some (- EFAULT, pos, [])
    else if u64 pos + len <=? sig_len
    then Some (s64 len, s64 (pos + len),
               take (Z.to_nat len) (drop (Z.to_nat (u64 pos)) strom_proc_signature))
    else None.

(** A reader that calls [strom_proc_read] with a buffer of [len] bytes
    until it returns 0, at most [n] times, and collects what it gets. *)
Fixpoint read_to_end (n : nat) (strom_proc_signature : list ascii) (len pos : Z)
  : option (list ascii) :=
  match n with
  | O => None
  | S n' =>
      match strom_proc_read strom_proc_signature false len pos with
      | Some (retval, pos', data) =>
          if retval =? 0 then Some []
          else app data <$> read_to_end n' strom_proc_signature len pos'
      | None => None
      end
  end.

(** Every record on the failed chains has lost its pointer to the file of
    the ioctl. *)
Definition failed_have_no_file (tasks : gmap Z strom_dma_task) : Prop :=
  forall id d, tasks !! id = Some d -> dt_chain d = OnFailed -> ioctl_filp d = None.

(** The task [8192] of [task_in_flight], created through the file 99, has
    failed: its three references are put, two of them with an error. *)
Definition task_has_failed : list task_action :=
  task_in_flight ++
  [ ActPutTask 8192 0; ActPutTask 8192 (-5); ActPutTask 8192 (-22) ].

(** A signature of twelve bytes. *)
Definition short_signature : list ascii := String.list_ascii_of_string "version: 1.0".

(** ** Source files: [file_is_supported_nvme] *)



(** [c >= '0' && c <= '9'] *)
Definition is_digit (c : ascii) : bool :=
  (48 <=? Z.of_nat (nat_of_ascii c)) && (Z.of_nat (nat_of_ascii c) <=? 57).

(** [*pos], the character a pointer into a C string points to: the
    terminating NUL at its end. *)
Definition deref (pos : string) : ascii :=
  match pos with
  | String c _ => c
  | EmptyString => zero
  end.

(** The loop that moves [pos] over decimal digits. *)
Fixpoint skip_digits (pos : string) : string :=
  match pos with
  | String c rest => if is_digit c then skip_digits rest else pos
  | EmptyString => pos
  end.

(** [pos != pos_saved], for a pointer that has only moved forward. *)
Definition moved (pos_saved pos : string) : bool :=
  negb (String.length pos =? String.length pos_saved)%nat.

(** The test "disk_name should be 'nvme%dn%d'" of
    [file_is_supported_nvme]: [true] when it ends with [dname = NULL]. *)
Definition is_nvme_disk_name (dname : string) : bool :=
  match dname with
  | String "n" (String "v" (String "m" (String "e" pos_saved))) =>
      let pos := skip_digits pos_saved in
      if moved pos_saved pos && Ascii.eqb (deref pos) "n" then
        match pos with
        | String _ pos_saved' =>
            let pos' := skip_digits pos_saved' in
            moved pos_saved' pos' && Ascii.eqb (deref pos') zero
        | EmptyString => false
        end
      else false
  | _ => false
  end.

(** The part of a character array that is its C string: the characters
    before the first NUL. *)
Fixpoint c_string (s : string) : string :=
  match s with
  | String c rest => if Ascii.eqb c zero then EmptyString else String c (c_string rest)
  | EmptyString => EmptyString
  end.




(** A string of decimal digits, at least one. *)
Fixpoint all_digits (s : string) : bool :=
  match s with
  | String c rest => is_digit c && all_digits rest
  | EmptyString => true
  end.

Definition is_number (s : string) : Prop :=
  s <> EmptyString /\ all_digits s = true.


(** ** The scatter-gather list of a transfer *)

(** [DIV_ROUND_UP] of [linux/kernel.h], on operands of type [size_t]. *)
Definition DIV_ROUND_UP (n d : Z) : Z := u64 (n + d - 1) / d.

(** The number of entries [nvme_alloc_iod] allocates for the
    scatter-gather list of a transfer of [nbytes] bytes: its [nsegs]. *)
Definition nvme_alloc_iod_nsegs (nbytes : Z) (m : mapped_gpu_memory) : Z :=
  u32 (DIV_ROUND_UP (u64 (nbytes + gpu_page_sz m)) (gpu_page_sz m)).

(** The bytes a scatter-gather list covers. *)
Definition sg_bytes (sg : list (Z * Z)) : Z := foldr (fun e acc => e.2 + acc) 0 sg.

(** A mapping as [ioctl_map_gpu_memory] registers it: the page size is a
    power of two below 2^31, the page table has fewer than 2^31 entries,
    each of them is the address of a device page in the 64-bit physical
    address space, and the mapped range ends below 2^63. *)
Definition mapping_wf (m : mapped_gpu_memory) : Prop :=
  gpu_page_sz m = 2 ^ gpu_page_shift m /\ 0 <= gpu_page_shift m < 31 /\
  Z.of_nat (length (page_table m)) < 2 ^ 31 /\
  Forall (fun pa => 0 <= pa /\ pa + gpu_page_sz m <= 2 ^ 64) (page_table m) /\
  0 <= map_offset m /\ 0 <= map_length m /\ map_offset m + map_length m < 2 ^ 63.

(** Entry [i] of a scatter-gather list that starts [off0] bytes into device
    page number [base] is the part of device page [base + i] from offset
    [off] on, [len] bytes long: [off] is [off0] for the first entry and 0
    for the others, the part ends within the page, and at its end unless
    the entry is the last one. *)
Definition sg_entry_ok (pages : list Z) (page_sz : Z) (base : nat) (off0 : Z)
    (n : nat) (i : nat) (e : Z * Z) : Prop :=
  let off := if i is O then off0 else 0 in
  exists pa, pages !! (base + i)%nat = Some pa /\
    e.1 = pa + off /\ 0 < e.2 /\ off + e.2 <= page_sz /\
    ((S i < n)%nat -> off + e.2 = page_sz).

(** The scatter-gather list lies within the bytes [lo, hi) of the region,
    counted from the start of the first pinned page: every entry is a part
    of a pinned page, and its bytes are among those. *)
Definition sg_within (m : mapped_gpu_memory) (lo hi : Z) (sg : list (Z * Z)) : Prop :=
  Forall (fun e =>
            exists (p : nat) pa,
              page_table m !! p = Some pa /\ 0 < e.2 /\
              pa <= e.1 /\ e.1 + e.2 <= pa + gpu_page_sz m /\
              lo <= Z.of_nat p * gpu_page_sz m + (e.1 - pa) /\
              Z.of_nat p * gpu_page_sz m + (e.1 - pa) + e.2 <= hi) sg.

(** Every read command of the trace writes within the bytes [lo, hi) of
    the region. *)
Definition dma_within (m : mapped_gpu_memory) (lo hi : Z) (tr : list sched_event)
  : Prop :=
  Forall (fun ev => match ev with
                    | EvSubmitDma _ _ sg _ => sg_within m lo hi sg
                    | EvWriteback _ _ _ => True
                    end) tr.

(** The pinned pages cover the mapped range. *)
Definition pinned_covers (m : mapped_gpu_memory) : Prop :=
  map_length m <= Z.of_nat (length (page_table m)) * gpu_page_sz m.

(** A task as [strom_create_dma_task] sets it up on a file that
    [file_is_supported_nvme] lets through: blocks of [2 ^ blocksz_shift]
    bytes, not larger than a page, and [max_nblocks] blocks in 128 KiB. *)
Definition dtask_wf (d : strom_dma_task) : Prop :=
  0 <= blocksz_shift d <= 12 /\ blocksz d = 2 ^ blocksz_shift d /\
  max_nblocks d = Z.shiftr STROM_DMA_SSD2GPU_MAXLEN (blocksz_shift d).

(** The pending run of the task is empty, or it is not longer than a
    transfer may be and goes to bytes within [lo, hi) of the region. *)
Definition pending_within (lo hi : Z) (d : strom_dma_task) : Prop :=
  nr_blocks d = 0 \/
  (0 < nr_blocks d <= max_nblocks d /\
   lo <= dest_offset d /\ dest_offset d + nr_blocks d * blocksz d <= hi).

(** The blocks of a page of the page cache: [PAGE_CACHE_SIZE >> blocksz_shift]. *)
Definition blocks_per_page (d : strom_dma_task) : Z :=
  u32 (Z.shiftr PAGE_CACHE_SIZE (blocksz_shift d)).

(** The blocks of the read commands of a trace, added up. *)
Definition blocks_submitted (tr : list sched_event) : Z :=
  foldr (fun c acc => c.1.2 + acc) 0 (dma_submissions tr).

(** The counters [nr_dma_submit] and [nr_dma_blocks] of the request tell
    the read commands of the trace and their blocks. *)
Definition counters_match (st : sched) : Prop :=
  nr_dma_submit (sc_karg st) = Z.of_nat (length (dma_submissions (sc_trace st))) /\
  nr_dma_blocks (sc_karg st) = blocks_submitted (sc_trace st) /\
  0 <= nr_dma_submit (sc_karg st) <= nr_dma_blocks (sc_karg st).

(** What the scheduler keeps while it works on a batch whose direct chunks
    go to the bytes [lo, hi) of the region: the task is well formed, every
    read command submitted so far writes within [lo, hi), and the counters
    tell the commands. *)
Definition sched_ok (m : mapped_gpu_memory) (lo hi : Z) (st : sched) : Prop :=
  dtask_wf (sc_dtask st) /\ dma_within m lo hi (sc_trace st) /\ counters_match st.

(** The request as the checks at the head of [memcpy_ssd2gpu_writeback]
    let it through, with a window for the direct chunks that starts at or
    after [map_offset] and a batch of less than 2 GiB. *)
Definition batch_ok (env : kernel_env) (m : mapped_gpu_memory)
    (k : StromCmd__MemCpySsdToGpuWriteBack) : Prop :=
  request_accepted env m k /\ 0 <= offset k /\
  map_offset m + offset k < 2 ^ 63 /\
  0 <= nr_chunks k /\ nr_chunks k * chunk_sz k < 2 ^ 31.

(** The first byte of the window of a request, and the byte after its
    last. *)
Definition window_lo (m : mapped_gpu_memory)
    (k : StromCmd__MemCpySsdToGpuWriteBack) : Z := map_offset m + offset k.

Definition window_hi (m : mapped_gpu_memory)
    (k : StromCmd__MemCpySsdToGpuWriteBack) : Z :=
  map_offset m + offset k + nr_chunks k * chunk_sz k.

(** The state of the scheduler between two chunks, [dest_offset] being the
    local variable of [memcpy_ssd2gpu_writeback]: the direct chunks so far
    fill the window up to [dest_offset], the pending run lies within that
    part, and the blocks submitted and pending are those of the direct
    chunks. *)
Definition between_chunks (m : mapped_gpu_memory)
    (k0 : StromCmd__MemCpySsdToGpuWriteBack) (dest_offset : Z) (st : sched) : Prop :=
  let k := sc_karg st in
  let d := sc_dtask st in
  sched_ok m (window_lo m k0) (window_hi m k0) st /\
  pending_within (window_lo m k0) dest_offset d /\
  dest_offset = window_lo m k0 + nr_ssd2gpu k * chunk_sz k0 /\
  nr_dma_blocks k + nr_blocks d
  = nr_ssd2gpu k * (chunk_sz k0 / PAGE_CACHE_SIZE) * blocks_per_page d.

(** ** The write-back buffer *)

(** The calls of [__memcpy_ssd2gpu_writeback] in a trace, each with the
    file position of the chunk, the user address its data goes to, and the
    pages it copied. *)
Definition writeback_events (tr : list sched_event) : list (Z * Z * list (Z * page)) :=
  omap (fun e => match e with
                 | EvWriteback fpos dest copies => Some (fpos, dest, copies)
                 | _ => None
                 end) tr.

(** A call of [__memcpy_ssd2gpu_writeback] has copied a whole chunk of
    [nr_pages] pages: page [j] of them is page [fpos / PAGE_CACHE_SIZE + j]
    of the file, and it went to [dest_uaddr + PAGE_CACHE_SIZE * j]. *)
Definition copies_whole_chunk (nr_pages : Z) (e : sched_event) : Prop :=
  match e with
  | EvWriteback fpos dest copies =>
      Z.of_nat (length copies) = nr_pages /\
      forall (j : nat) a pg, copies !! j = Some (a, pg) ->
        a = dest + PAGE_CACHE_SIZE * Z.of_nat j /\
        pg_index pg = fpos / PAGE_CACHE_SIZE + Z.of_nat j
  | EvSubmitDma _ _ _ _ => True
  end.

(** A file of 8 GiB all of whose pages are in the page cache, none of them
    dirty; the members of the request are [unsigned int], 32 bits wide. *)
Definition all_cached_env : kernel_env :=
  mk_env u32 8589934592 (fun iblock => (0, 1000 + iblock)) (fun _ _ => Some false)
         (fun _ => 0) (fun _ => false) (fun _ => true) (fun _ _ _ => 0).

(** [n] chunks of 128 KiB to offset 0 of the region, with a write-back
    buffer at 256 MiB. *)
Definition chunks_128KiB (n : Z) : StromCmd__MemCpySsdToGpuWriteBack :=
  mk_karg 0 0 0 0 0 n 131072 0 268435456.

(** The ids of the first [n] chunks of a file: 0, 1, ..., [n - 1]. *)
Definition first_chunks (n : Z) : list Z := Z.of_nat <$> seq 0 (Z.to_nat n).

(** An array [chunk_ids_out] of [n] slots. *)
Definition empty_out (n : Z) : list Z := replicate (Z.to_nat n) 0.

(* ================================================================== *)
(** * Properties *)

Module CIntFacts.
Lemma u32_small x : 0 <= x < 2 ^ 32 -> u32 x = x.
Proof. intros H. unfold u32, wrap_unsigned. apply Z.mod_small. exact H. Qed.

Lemma u64_small x : 0 <= x < 2 ^ 64 -> u64 x = x.
Proof. intros H. unfold u64, wrap_unsigned. apply Z.mod_small. exact H. Qed.

Lemma s32_small x : - 2 ^ 31 <= x < 2 ^ 31 -> s32 x = x.
Proof.
  intros H. unfold s32, wrap_signed.
  change (2 ^ (32 - 1)) with (2 ^ 31). rewrite Z.mod_small; lia.
Qed.

Lemma s64_small x : - 2 ^ 63 <= x < 2 ^ 63 -> s64 x = x.
Proof.
  intros H. unfold s64, wrap_signed.
  change (2 ^ (64 - 1)) with (2 ^ 63). rewrite Z.mod_small; lia.
Qed.

Lemma u32_range x : 0 <= u32 x < 2 ^ 32.
Proof. unfold u32, wrap_unsigned. apply Z.mod_pos_bound. lia. Qed.

Lemma u64_range x : 0 <= u64 x < 2 ^ 64.
Proof. unfold u64, wrap_unsigned. apply Z.mod_pos_bound. lia. Qed.

End CIntFacts.

Import CIntFacts.

(** ** The mapping registry *)

Section MgmemRegistry.

Lemma INT_MAX_eq : INT_MAX = 2147483647.
Proof. reflexivity. Qed.

Lemma frees_at_zero_nil : frees_at_zero [].
Proof. intros m [H | H]; inversion H. Qed.

Lemma frees_at_zero_wake o :
  frees_at_zero (match o with Some t => [EvWakeUp t] | None => [] end).
Proof.
  intros m [H | H]; destruct o; apply list_elem_of_In in H; simpl in H;
    intuition discriminate.
Qed.

Lemma frees_at_zero_app evs1 evs2 :
  frees_at_zero evs1 -> frees_at_zero evs2 -> frees_at_zero (evs1 ++ evs2).
Proof.
  intros H1 H2 m. rewrite !elem_of_app. intros [[H | H] | [H | H]]; eauto.
Qed.

Lemma wake_up_release_lookup h task r h' pc :
  wake_up_release h task r !! h' = Some pc ->
  exists pc', r !! h' = Some pc' /\ (pc = CbUnlocked -> pc' = CbUnlocked).
Proof.
  unfold wake_up_release. destruct task as [t|]; [|eauto].
  destruct (r !! h) as [[w saved|]|] eqn:E; [|eauto..].
  destruct (decide (h = h')) as [->|Hne].
  - rewrite lookup_insert_eq. intros [= <-]. eexists. split; [exact E|]. discriminate.
  - rewrite lookup_insert_ne by done. eauto.
Qed.

(** One transition keeps the invariant, uses up at most one unit of the
    head room, and frees only at reference count zero. *)
Lemma mgmem_step_inv a s s' evs n :
  0 <= n -> refcnt_in_range (n + 1) s -> release_consistent s ->
  mgmem_step a s = Some (s', evs) ->
  refcnt_in_range n s' /\ release_consistent s' /\ frees_at_zero evs.
Proof.
  intros Hn0 [Hn Hr] Hc Hstep. pose proof INT_MAX_eq as HM.
  destruct a as [addr hidx euid vaddr len psz pages | h euid | h euid | h
                | cur h | h | h]; simpl in Hstep.
  - (* map *)
    unfold ioctl_map_gpu_memory in Hstep.
    destruct (mgmems s !! addr) eqn:E; [discriminate|].
    destruct (gpu_page_shift_of psz) as [shift|]; injection Hstep as <- <-.
    + split; [|split; [|apply frees_at_zero_nil]].
      * split; [lia|]. intros h m. simpl.
        destruct (decide (addr = h)) as [->|Hne].
        -- rewrite lookup_insert_eq. intros [= <-]. simpl. lia.
        -- rewrite lookup_insert_ne by done. intros Hm. specialize (Hr _ _ Hm). lia.
      * intros h pc Hpc. simpl in *. destruct (Hc _ _ Hpc) as (m & Hm & ?).
        exists m. split; [|done]. rewrite lookup_insert_ne; [done|]. congruence.
    + split; [|split; [done|apply frees_at_zero_nil]].
      split; [lia|]. intros h m Hm. specialize (Hr _ _ Hm). lia.
  - (* unmap *)
    unfold ioctl_unmap_gpu_memory in Hstep.
    destruct (mgmems s !! h) as [m|] eqn:E.
    2:{ injection Hstep as <- <-. split; [|split; [done|apply frees_at_zero_nil]].
        split; [lia|]. intros h' m' Hm. specialize (Hr _ _ Hm). lia. }
    destruct (mg_chained m && bool_decide (owner m = euid)); injection Hstep as <- <-.
    2:{ split; [|split; [done|apply frees_at_zero_nil]].
        split; [lia|]. intros h' m' Hm. specialize (Hr _ _ Hm). lia. }
    split; [|split].
    + split; [lia|]. intros h' m'. simpl.
      destruct (decide (h = h')) as [->|Hne].
      * rewrite lookup_insert_eq. intros [= <-]. simpl. specialize (Hr _ _ E). lia.
      * rewrite lookup_insert_ne by done. intros Hm. specialize (Hr _ _ Hm). lia.
    + intros h' pc Hpc. simpl in *. destruct (Hc _ _ Hpc) as (m' & Hm & Hch & Hz).
      destruct (decide (h = h')) as [->|Hne].
      * rewrite lookup_insert_eq. eexists. split; [done|]. simpl.
        split; [done|]. intros Hu. rewrite E in Hm. injection Hm as ->. auto.
      * rewrite lookup_insert_ne by done. eauto.
    + intros m' [H | H]; apply list_elem_of_In in H; simpl in H;
        intuition discriminate.
  - (* get *)
    unfold strom_get_mapped_gpu_memory in Hstep.
    destruct (mgmems s !! h) as [m|] eqn:E.
    2:{ injection Hstep as <- <-. split; [|split; [done|apply frees_at_zero_nil]].
        split; [lia|]. intros h' m' Hm. specialize (Hr _ _ Hm). lia. }
    destruct (mg_chained m) eqn:Ech; simpl in Hstep.
    2:{ injection Hstep as <- <-. split; [|split; [done|apply frees_at_zero_nil]].
        split; [lia|]. intros h' m' Hm. specialize (Hr _ _ Hm). lia. }
    destruct (bool_decide (owner m = euid)); injection Hstep as <- <-.
    2:{ split; [|split; [done|apply frees_at_zero_nil]].
        split; [lia|]. intros h' m' Hm. specialize (Hr _ _ Hm). lia. }
    split; [|split; [|apply frees_at_zero_nil]].
    + split; [lia|]. intros h' m'. simpl.
      destruct (decide (h = h')) as [->|Hne].
      * rewrite lookup_insert_eq. intros [= <-]. simpl. specialize (Hr _ _ E).
        rewrite s32_small; lia.
      * rewrite lookup_insert_ne by done. intros Hm. specialize (Hr _ _ Hm). lia.
    + intros h' pc Hpc. simpl in *. destruct (Hc _ _ Hpc) as (m' & Hm & Hch & Hz).
      destruct (decide (h = h')) as [->|Hne]; [congruence|].
      rewrite lookup_insert_ne by done. eauto.
  - (* put *)
    unfold strom_put_mapped_gpu_memory in Hstep.
    destruct (mgmems s !! h) as [m|] eqn:E; [|discriminate].
    pose proof (Hr _ _ E) as Hm0.
    case_bool_decide as Hpos; [|discriminate].
    rewrite s32_small in Hstep by lia.
    case_bool_decide as Hz; injection Hstep as <- <-.
    + split; [|split; [|apply frees_at_zero_wake]].
      * split; [lia|]. intros h' m'. simpl.
        destruct (decide (h = h')) as [->|Hne].
        -- rewrite lookup_insert_eq. intros [= <-]. simpl. lia.
        -- rewrite lookup_insert_ne by done. intros Hm. specialize (Hr _ _ Hm). lia.
      * intros h' pc Hpc. simpl in *.
        apply wake_up_release_lookup in Hpc as (pc' & Hpc & Hu).
        destruct (Hc _ _ Hpc) as (m' & Hm & Hch & Hz').
        destruct (decide (h = h')) as [->|Hne].
        -- rewrite lookup_insert_eq. eexists. split; [done|]. simpl.
           rewrite E in Hm. injection Hm as ->. split; [done|]. intros; lia.
        -- rewrite lookup_insert_ne by done. exists m'. repeat split; auto.
    + split; [|split; [|apply frees_at_zero_nil]].
      * split; [lia|]. intros h' m'. simpl.
        destruct (decide (h = h')) as [->|Hne].
        -- rewrite lookup_insert_eq. intros [= <-]. simpl. lia.
        -- rewrite lookup_insert_ne by done. intros Hm. specialize (Hr _ _ Hm). lia.
      * intros h' pc Hpc. simpl in *.
        destruct (Hc _ _ Hpc) as (m' & Hm & Hch & Hz').
        destruct (decide (h = h')) as [->|Hne].
        -- rewrite lookup_insert_eq. eexists. split; [done|]. simpl.
           rewrite E in Hm. injection Hm as ->. split; [done|].
           intros Hu. specialize (Hz' Hu). lia.
        -- rewrite lookup_insert_ne by done. eauto.
  - (* release callback: enter *)
    unfold callback_release_enter in Hstep.
    destruct (mgmems s !! h) as [m|] eqn:E; [|discriminate].
    destruct (releasing s !! h) eqn:Er; [discriminate|].
    pose proof (Hr _ _ E) as Hm0. simpl in Hstep.
    case_bool_decide as Hpos; injection Hstep as <- <-.
    + split; [|split; [|apply frees_at_zero_nil]].
      * split; [lia|]. intros h' m'. simpl.
        destruct (decide (h = h')) as [->|Hne].
        -- rewrite lookup_insert_eq. intros [= <-]. simpl. lia.
        -- rewrite lookup_insert_ne by done. intros Hm. specialize (Hr _ _ Hm). lia.
      * intros h' pc. simpl.
        destruct (decide (h = h')) as [->|Hne].
        -- rewrite !lookup_insert_eq. intros [= <-]. eexists. split; [done|].
           simpl. split; [done|discriminate].
        -- rewrite !lookup_insert_ne by done. apply Hc.
    + split; [|split; [|apply frees_at_zero_nil]].
      * split; [lia|]. intros h' m'. simpl.
        destruct (decide (h = h')) as [->|Hne].
        -- rewrite lookup_insert_eq. intros [= <-]. simpl. lia.
        -- rewrite lookup_insert_ne by done. intros Hm. specialize (Hr _ _ Hm). lia.
      * intros h' pc. simpl.
        destruct (decide (h = h')) as [->|Hne].
        -- rewrite !lookup_insert_eq. intros [= <-]. eexists. split; [done|].
           simpl. split; [done|]. intros _. lia.
        -- rewrite !lookup_insert_ne by done. apply Hc.
  - (* release callback: resume *)
    unfold callback_release_resume in Hstep.
    destruct (mgmems s !! h) as [m|] eqn:E; [|discriminate].
    destruct (releasing s !! h) as [[[|] saved|]|] eqn:Er; try discriminate.
    case_bool_decide as Hz; [|discriminate]. injection Hstep as <- <-.
    split; [|split; [|apply frees_at_zero_wake]].
    + split; [lia|]. intros h' m' Hm. specialize (Hr _ _ Hm). lia.
    + intros h' pc. simpl.
      destruct (decide (h = h')) as [->|Hne].
      * rewrite lookup_insert_eq. intros [= <-].
        destruct (Hc _ _ Er) as (m' & Hm & Hch & _). rewrite E in Hm.
        injection Hm as <-. eauto.
      * rewrite lookup_insert_ne by done. apply Hc.
  - (* release callback: free *)
    unfold callback_release_free in Hstep.
    destruct (mgmems s !! h) as [m|] eqn:E; [|discriminate].
    destruct (releasing s !! h) as [[w saved|]|] eqn:Er; try discriminate.
    injection Hstep as <- <-.
    destruct (Hc _ _ Er) as (m' & Hm & Hch & Hz). rewrite E in Hm.
    injection Hm as <-. specialize (Hz eq_refl).
    split; [|split].
    + split; [lia|]. intros h' m'. simpl.
      destruct (decide (h = h')) as [->|Hne].
      * rewrite lookup_delete_eq. discriminate.
      * rewrite lookup_delete_ne by done. intros Hm. specialize (Hr _ _ Hm). lia.
    + intros h' pc. simpl.
      destruct (decide (h = h')) as [->|Hne].
      * rewrite lookup_delete_eq. discriminate.
      * rewrite !lookup_delete_ne by done. apply Hc.
    + intros m' [H | H]; apply list_elem_of_In in H; simpl in H;
        destruct H as [H | [H | []]]; try discriminate; injection H as <-; done.
Qed.

End MgmemRegistry.

(** C3. Along every sequence of operations on the registry -- acquire
    ([strom_get_mapped_gpu_memory]), release ([strom_put_mapped_gpu_memory]),
    map, unmap and the steps of the release callback, interleaved in any
    order -- that starts with the reference counts in range and leaves room
    in [int] for the references it takes, no reference count is negative in
    the state reached, and whenever [callback_release_mapped_gpu_memory]
    frees the page table and the record, the record's reference count is
    zero at that moment. *)
Theorem refcnt_nonneg_and_release_at_zero acts s s' evs :
  refcnt_in_range (Z.of_nat (length acts)) s ->
  release_consistent s ->
  mgmem_run acts s = Some (s', evs) ->
  (forall h m, mgmems s' !! h = Some m -> 0 <= mg_refcnt m) /\
  frees_at_zero evs.
Proof.
  revert s s' evs. induction acts as [|a acts IH]; intros s s' evs Hr Hc Hrun.
  - injection Hrun as <- <-. split; [|apply frees_at_zero_nil].
    intros h m Hm. destruct Hr as [_ Hr]. specialize (Hr _ _ Hm). lia.
  - simpl in Hrun.
    destruct (mgmem_step a s) as [[s1 evs1]|] eqn:Hstep; [|discriminate].
    destruct (mgmem_run acts s1) as [[s2 evs2]|] eqn:Hrest; [|discriminate].
    injection Hrun as <- <-.
    replace (Z.of_nat (length (a :: acts))) with (Z.of_nat (length acts) + 1) in Hr
      by (simpl length; lia).
    destruct (mgmem_step_inv _ _ _ _ _ (Zle_0_nat _) Hr Hc Hstep) as (Hr1 & Hc1 & Hf1).
    destruct (IH _ _ _ Hr1 Hc1 Hrest) as [Hfin Hf2].
    split; [exact Hfin|]. apply frees_at_zero_app; assumption.
Qed.

Lemma refcnt_in_range_empty n :
  0 <= n <= INT_MAX -> refcnt_in_range n empty_registry.
Proof. intros Hn. split; [exact Hn|]. intros h m. simpl. rewrite lookup_empty. discriminate. Qed.

Lemma release_consistent_empty : release_consistent empty_registry.
Proof. intros h pc. simpl. rewrite lookup_empty. discriminate. Qed.

Lemma refcnt_nonneg_and_release_at_zero_witness :
  exists s' m,
    mgmem_run revoke_in_flight empty_registry
      = Some (s', [EvWakeUp 42; EvFreePageTable m; EvKfree m]) /\
    (forall h m', mgmems s' !! h = Some m' -> 0 <= mg_refcnt m') /\
    frees_at_zero [EvWakeUp 42; EvFreePageTable m; EvKfree m].
Proof.
  eexists _, _. split; [vm_compute; reflexivity|].
  eapply (refcnt_nonneg_and_release_at_zero revoke_in_flight empty_registry).
  - apply refcnt_in_range_empty. vm_compute. split; discriminate.
  - apply release_consistent_empty.
  - vm_compute. reflexivity.
Defined.

(** ** The task registry *)

Lemma record_dma_status_spec st d :
  dma_status (record_dma_status st d) = first_nonzero [dma_status d; st].
Proof.
  unfold record_dma_status. simpl.
  repeat case_bool_decide; simpl; try congruence; lia.
Qed.

Lemma first_nonzero_cons2 a b l :
  first_nonzero (a :: b :: l) = first_nonzero (first_nonzero [a; b] :: l).
Proof. simpl. repeat case_bool_decide; congruence. Qed.

(** After one [strom_put_dma_task] the record is still allocated and holds
    the sticky status, unless it was freed, which takes a zero status. *)
Lemma strom_put_dma_task_status id st s s1 evs d :
  dtasks s !! id = Some d ->
  strom_put_dma_task id st s = Some (s1, evs) ->
  (exists d1, dtasks s1 !! id = Some d1 /\
              dma_status d1 = first_nonzero [dma_status d; st]) \/
  (dtasks s1 !! id = None /\ first_nonzero [dma_status d; st] = 0).
Proof.
  intros Hd Hput. unfold strom_put_dma_task in Hput. rewrite Hd in Hput.
  pose proof (record_dma_status_spec st d) as Hst.
  set (d' := record_dma_status st d) in *.
  case_bool_decide as Hz.
  - destruct (frozen d'); [|discriminate].
    destruct (mgmem d') as [h|]; [|discriminate].
    destruct (strom_put_mapped_gpu_memory h (registry s)) as [[reg' mevs]|];
      [|discriminate].
    case_bool_decide as Herr; injection Hput as <- <-.
    + left. eexists. split; [apply lookup_insert_eq|]. exact Hst.
    + right. split; [apply lookup_delete_eq|].
      rewrite <- Hst. destruct (decide (dma_status d' = 0)); [done|contradiction].
  - injection Hput as <- <-. left.
    eexists. split; [apply lookup_insert_eq|]. exact Hst.
Qed.

(** C1. Whatever statuses a sequence of [strom_put_dma_task] calls passes
    for a task, if any of them (or the status already stored) is non-zero,
    the task record holds the first non-zero one at the end: the first
    non-zero status is stored as [dma_status], and no later call, whatever
    status it passes, changes it. *)
Theorem dma_status_sticky id statuses s s' d :
  dtasks s !! id = Some d ->
  put_dma_task_all id statuses s = Some s' ->
  first_nonzero (dma_status d :: statuses) <> 0 ->
  exists d', dtasks s' !! id = Some d' /\
             dma_status d' = first_nonzero (dma_status d :: statuses).
Proof.
  revert s d. induction statuses as [|st rest IH]; intros s d Hd Hrun Hnz.
  - injection Hrun as <-. exists d. split; [exact Hd|].
    simpl in *. case_bool_decide; [reflexivity|contradiction].
  - simpl in Hrun.
    destruct (strom_put_dma_task id st s) as [[s1 evs]|] eqn:Hput; [|discriminate].
    rewrite first_nonzero_cons2 in Hnz |- *.
    destruct (strom_put_dma_task_status _ _ _ _ _ _ Hd Hput)
      as [(d1 & Hd1 & Hst) | [Hnone Hzero]].
    + rewrite <- Hst in Hnz |- *. exact (IH _ _ Hd1 Hrun Hnz).
    + rewrite Hzero in Hnz. destruct rest as [|st' rest'].
      * exfalso. apply Hnz. reflexivity.
      * simpl in Hrun. unfold strom_put_dma_task in Hrun.
        rewrite Hnone in Hrun. discriminate.
Qed.

Lemma count_events_app f evs1 evs2 :
  count_events f (evs1 ++ evs2) = count_events f evs1 + count_events f evs2.
Proof. unfold count_events. rewrite filter_app, length_app. lia. Qed.

Lemma count_events_nil f : count_events f [] = 0.
Proof. reflexivity. Qed.

Lemma count_events_cons f e evs :
  count_events f (e :: evs) = (if f e then 1 else 0) + count_events f evs.
Proof.
  unfold count_events. rewrite filter_cons. destruct (f e).
  - rewrite decide_True by done. simpl length. lia.
  - rewrite decide_False by done. lia.
Qed.

Lemma count_events_mgmem f evs :
  (forall e, f (EvMgmem e) = false) -> count_events f (EvMgmem <$> evs) = 0.
Proof.
  intros Hf. induction evs as [|e evs IH]; [reflexivity|].
  rewrite fmap_cons, count_events_cons, Hf, IH. reflexivity.
Qed.

Lemma failed_now_range id tasks : 0 <= failed_now id tasks <= 1.
Proof. unfold failed_now. destruct (find_on_chain _ _ _); lia. Qed.

Lemma failed_now_insert_ne id k d tasks :
  k <> id -> failed_now id (<[k := d]> tasks) = failed_now id tasks.
Proof.
  intros Hne. unfold failed_now, find_on_chain.
  rewrite lookup_insert_ne by done. reflexivity.
Qed.

Lemma failed_now_delete_ne id k tasks :
  k <> id -> failed_now id (delete k tasks) = failed_now id tasks.
Proof.
  intros Hne. unfold failed_now, find_on_chain.
  rewrite lookup_delete_ne by done. reflexivity.
Qed.

Lemma failed_now_delete_eq id tasks : failed_now id (delete id tasks) = 0.
Proof. unfold failed_now, find_on_chain. rewrite lookup_delete_eq. reflexivity. Qed.

Lemma failed_now_insert_eq id d tasks :
  failed_now id (<[id := d]> tasks) = if on_chain OnFailed d then 1 else 0.
Proof.
  unfold failed_now, find_on_chain. rewrite lookup_insert_eq.
  destruct (on_chain OnFailed d); reflexivity.
Qed.

Lemma failed_now_lookup id d tasks :
  tasks !! id = Some d ->
  failed_now id tasks = if on_chain OnFailed d then 1 else 0.
Proof.
  intros H. unfold failed_now, find_on_chain. rewrite H.
  destruct (on_chain OnFailed d); reflexivity.
Qed.

Lemma failed_now_none id tasks : tasks !! id = None -> failed_now id tasks = 0.
Proof. intros H. unfold failed_now, find_on_chain. rewrite H. reflexivity. Qed.

(** Replacing the record at [k] by one on the same chain changes no count. *)
Lemma failed_now_insert_same id k d d' tasks :
  tasks !! k = Some d -> dt_chain d' = dt_chain d ->
  failed_now id (<[k := d']> tasks) = failed_now id tasks.
Proof.
  intros Hk Hch. destruct (decide (k = id)) as [->|Hne].
  - rewrite failed_now_insert_eq, (failed_now_lookup _ _ _ Hk).
    unfold on_chain. rewrite Hch. reflexivity.
  - apply failed_now_insert_ne. exact Hne.
Qed.

Lemma record_dma_status_chain st d : dt_chain (record_dma_status st d) = dt_chain d.
Proof. unfold record_dma_status. repeat case_bool_decide; reflexivity. Qed.

Lemma returns_failure_mgmem id e : returns_failure id (EvMgmem e) = false.
Proof. reflexivity. Qed.

Lemma places_failure_mgmem id e : places_failure id (EvMgmem e) = false.
Proof. reflexivity. Qed.

Lemma failure_balance_quiet id tasks tasks' evs :
  count_events (returns_failure id) evs = 0 ->
  failed_now id tasks' <= failed_now id tasks ->
  failure_balance id tasks tasks' evs.
Proof.
  intros H1 H2. unfold failure_balance. rewrite H1.
  assert (0 <= count_events (places_failure id) evs)
    by (unfold count_events; lia).
  lia.
Qed.

Lemma wait_check_running_balance pending id id0 thread tasks :
  failure_balance id tasks tasks
    (match wait_check_running pending id0 tasks with
     | WaitReturn r st => [EvWaitReturn thread id0 r st]
     | WaitAt _ => []
     end).
Proof.
  apply failure_balance_quiet; [|lia]. unfold wait_check_running.
  destruct (find_on_chain OnRunning id0 tasks); [destruct pending|];
    rewrite ?count_events_cons, ?count_events_nil; simpl;
    rewrite ?andb_false_r; reflexivity.
Qed.

Lemma failure_balance_refl id tasks : failure_balance id tasks tasks [].
Proof. apply failure_balance_quiet; [reflexivity|lia]. Qed.

Lemma failure_balance_trans id t1 t2 t3 evs1 evs2 :
  failure_balance id t1 t2 evs1 -> failure_balance id t2 t3 evs2 ->
  failure_balance id t1 t3 (evs1 ++ evs2).
Proof. unfold failure_balance. rewrite !count_events_app. lia. Qed.

Lemma strom_create_dma_task_balance id addr hindex h euid file ioctl_file s s' evs r :
  strom_create_dma_task addr hindex h euid file ioctl_file s = Some (s', (evs, r)) ->
  failure_balance id (dtasks s) (dtasks s') evs.
Proof.
  unfold strom_create_dma_task. intros H.
  destruct file as [f|]; [|injection H as <- <- <-; apply failure_balance_refl].
  case_bool_decide.
  { injection H as <- <- <-. apply failure_balance_quiet; [reflexivity|lia]. }
  destruct (strom_get_mapped_gpu_memory h euid (registry s)) as [reg1 [|]].
  2:{ injection H as <- <- <-. apply failure_balance_quiet; [reflexivity|lia]. }
  destruct addr as [a|].
  - destruct (dtasks s !! a) eqn:Ea; [discriminate|].
    case_bool_decide; [|discriminate]. injection H as <- <- <-. simpl.
    apply failure_balance_quiet; [reflexivity|].
    destruct (decide (a = id)) as [->|Hne].
    + rewrite failed_now_insert_eq. simpl. apply failed_now_range.
    + rewrite failed_now_insert_ne by done. lia.
  - destruct (strom_put_mapped_gpu_memory h reg1) as [[reg2 mevs]|]; [|discriminate].
    injection H as <- <- <-. simpl. apply failure_balance_quiet; [|lia].
    rewrite count_events_app, count_events_mgmem by apply returns_failure_mgmem.
    reflexivity.
Qed.

Lemma strom_put_dma_task_balance id id0 st s s' evs :
  strom_put_dma_task id0 st s = Some (s', evs) ->
  failure_balance id (dtasks s) (dtasks s') evs.
Proof.
  unfold strom_put_dma_task. intros H.
  destruct (dtasks s !! id0) as [d0|] eqn:Ed; [|discriminate].
  pose proof (record_dma_status_chain st d0) as Hch.
  set (d := record_dma_status st d0) in *.
  case_bool_decide.
  - destruct (frozen d); [|discriminate].
    destruct (mgmem d) as [h|]; [|discriminate].
    destruct (strom_put_mapped_gpu_memory h (registry s)) as [[reg' mevs]|];
      [|discriminate].
    case_bool_decide; injection H as <- <-; simpl; unfold failure_balance;
      rewrite !count_events_cons, !count_events_app, !count_events_cons,
        !count_events_nil, !count_events_mgmem
        by (apply returns_failure_mgmem || apply places_failure_mgmem); simpl.
    + destruct (decide (id0 = id)) as [->|Hne].
      * rewrite failed_now_insert_eq. simpl. rewrite bool_decide_true by done.
        pose proof (failed_now_range id (dtasks s)). lia.
      * rewrite failed_now_insert_ne by done.
        rewrite bool_decide_false by done. lia.
    + destruct (decide (id0 = id)) as [->|Hne].
      * rewrite failed_now_delete_eq. pose proof (failed_now_range id (dtasks s)). lia.
      * rewrite failed_now_delete_ne by done. lia.
  - injection H as <- <-. simpl. apply failure_balance_quiet; [reflexivity|].
    rewrite (failed_now_insert_same _ _ d0) by done. lia.
Qed.

Lemma find_on_chain_lookup c id tasks d :
  find_on_chain c id tasks = Some d -> tasks !! id = Some d /\ on_chain c d = true.
Proof.
  unfold find_on_chain. destruct (tasks !! id) as [d'|]; [|discriminate].
  destruct (on_chain c d') eqn:E; [|discriminate]. intros [= <-]. done.
Qed.

Lemma wait_step_balance id pending thread id0 pc tasks next tasks' evs :
  wait_step pending id0 pc tasks = (next, tasks', evs) ->
  failure_balance id tasks tasks'
    (match next with
     | WaitReturn r st => evs ++ [EvWaitReturn thread id0 r st]
     | WaitAt _ => evs
     end).
Proof.
  intros H. destruct pc; simpl in H.
  - destruct (find_on_chain OnFailed id0 tasks); injection H as <- <- <-;
      apply failure_balance_refl.
  - destruct (find_on_chain OnFailed id0 tasks) as [d|] eqn:Ef.
    + injection H as <- <- <-. apply find_on_chain_lookup in Ef as [Hd Hc].
      unfold failure_balance.
      rewrite !count_events_app, !count_events_cons, !count_events_nil. simpl.
      destruct (decide (id0 = id)) as [->|Hne].
      * rewrite failed_now_delete_eq, (failed_now_lookup _ _ _ Hd), Hc.
        destruct (bool_decide (id = id) && true); lia.
      * rewrite failed_now_delete_ne by done.
        rewrite (bool_decide_false (id0 = id)) by done. simpl. lia.
    + injection H as <- <- <-.
      pose proof (wait_check_running_balance pending id id0 thread tasks) as Hb.
      destruct (wait_check_running pending id0 tasks); exact Hb.
  - injection H as <- <- <-.
    pose proof (wait_check_running_balance pending id id0 thread tasks) as Hb.
    destruct (wait_check_running pending id0 tasks); exact Hb.
  - injection H as <- <- <-. apply failure_balance_refl.
Qed.

Lemma task_step_balance id a s s' evs :
  task_step a s = Some (s', evs) ->
  failure_balance id (dtasks s) (dtasks s') evs.
Proof.
  intros H. destruct a as [a' | addr hindex h euid file ioctl_file | id0 | id0
                          | id0 st | thread id0 | thread pending]; simpl in H.
  - destruct (mgmem_step a' (registry s)) as [[reg' mevs]|]; [|discriminate].
    injection H as <- <-. simpl. apply failure_balance_quiet; [|lia].
    apply count_events_mgmem, returns_failure_mgmem.
  - destruct (strom_create_dma_task addr hindex h euid file ioctl_file s)
      as [[s1 [evs1 r]]|] eqn:Hc; [|discriminate].
    injection H as <- <-. exact (strom_create_dma_task_balance _ _ _ _ _ _ _ _ _ _ _ Hc).
  - destruct (dtasks s !! id0) as [d|] eqn:Ed; [|discriminate].
    injection H as <- <-. simpl. apply failure_balance_quiet; [reflexivity|].
    rewrite (failed_now_insert_same _ _ d) by done. lia.
  - unfold strom_get_dma_task in H.
    destruct (dtasks s !! id0) as [d|] eqn:Ed; [|discriminate].
    destruct (frozen d); [discriminate|].
    case_bool_decide; [|discriminate]. injection H as <- <-. simpl.
    apply failure_balance_quiet; [reflexivity|].
    rewrite (failed_now_insert_same _ _ d) by done. lia.
  - exact (strom_put_dma_task_balance _ _ _ _ _ _ H).
  - destruct (waiting s !! thread); [discriminate|].
    injection H as <- <-. apply failure_balance_refl.
  - destruct (waiting s !! thread) as [[id0 pc]|]; [|discriminate].
    destruct (wait_step pending id0 pc (dtasks s)) as [[next tasks'] wevs] eqn:Hw.
    pose proof (wait_step_balance id _ thread _ _ _ _ _ _ Hw) as Hb.
    destruct next; injection H as <- <-; exact Hb.
Qed.

Lemma task_run_balance id acts s s' evs :
  task_run acts s = Some (s', evs) ->
  failure_balance id (dtasks s) (dtasks s') evs.
Proof.
  revert s s' evs. induction acts as [|a acts IH]; intros s s' evs H.
  - injection H as <- <-. apply failure_balance_refl.
  - simpl in H.
    destruct (task_step a s) as [[s1 evs1]|] eqn:Hs; [|discriminate].
    destruct (task_run acts s1) as [[s2 evs2]|] eqn:Hr; [|discriminate].
    injection H as <- <-.
    eapply failure_balance_trans; [exact (task_step_balance _ _ _ _ _ Hs)|].
    exact (IH _ _ _ Hr).
Qed.

Lemma wait_on_failed pending id tasks d :
  tasks !! id = Some d -> dt_chain d = OnFailed ->
  strom_memcpy_ssd2gpu_wait pending id tasks
  = (WaitReturn (- EIO) (Some (dma_status d)), delete id tasks, [EvTaskKfree id]).
Proof.
  intros Hd Hc. unfold strom_memcpy_ssd2gpu_wait, wait_step, find_on_chain, on_chain.
  rewrite Hd, Hc. simpl. rewrite Hd, Hc. reflexivity.
Qed.

Lemma wait_on_running pending id tasks d :
  tasks !! id = Some d -> dt_chain d = OnRunning ->
  strom_memcpy_ssd2gpu_wait pending id tasks
  = (if pending then WaitReturn (- EINTR) None else WaitAt WaitSleeping, tasks, []).
Proof.
  intros Hd Hc.
  unfold strom_memcpy_ssd2gpu_wait, wait_step, wait_check_running, find_on_chain, on_chain.
  rewrite Hd, Hc. simpl. rewrite Hd, Hc. reflexivity.
Qed.

Lemma wait_on_absent pending id tasks :
  tasks !! id = None ->
  strom_memcpy_ssd2gpu_wait pending id tasks = (WaitReturn 0 None, tasks, []).
Proof.
  intros Hd.
  unfold strom_memcpy_ssd2gpu_wait, wait_step, wait_check_running, find_on_chain.
  rewrite Hd. simpl. rewrite Hd. reflexivity.
Qed.

(** C2. In every execution of the module (task creation, get, put, freeze
    and the steps of any number of threads inside
    [strom_memcpy_ssd2gpu_wait], interleaved in any order), the calls that
    return a failure record of task id [id], together with the record still
    on the failed chain at the end, are covered one for one by the record on
    the chain at the start and the failures placed during the execution: no
    record is returned twice.  In the state reached, a wait call for [id]
    that finds the failure record returns its status with [-EIO] and frees
    it, and the next call returns 0 at once; a call that finds the id on
    neither chain returns 0 at once; a call that finds it on the running
    chain goes to sleep (or gives up with [-EINTR] when a signal is
    pending) and returns no record. *)
Theorem failure_record_consumed_once acts s s' evs id :
  task_run acts s = Some (s', evs) ->
  count_events (returns_failure id) evs + failed_now id (dtasks s')
    <= failed_now id (dtasks s) + count_events (places_failure id) evs /\
  forall pending,
    match dtasks s' !! id with
    | None =>
        strom_memcpy_ssd2gpu_wait pending id (dtasks s')
        = (WaitReturn 0 None, dtasks s', [])
    | Some d =>
        match dt_chain d with
        | OnRunning =>
            strom_memcpy_ssd2gpu_wait pending id (dtasks s')
            = (if pending then WaitReturn (- EINTR) None else WaitAt WaitSleeping,
               dtasks s', [])
        | OnFailed =>
            strom_memcpy_ssd2gpu_wait pending id (dtasks s')
            = (WaitReturn (- EIO) (Some (dma_status d)), delete id (dtasks s'),
               [EvTaskKfree id]) /\
            forall pending',
              strom_memcpy_ssd2gpu_wait pending' id (delete id (dtasks s'))
              = (WaitReturn 0 None, delete id (dtasks s'), [])
        end
    end.
Proof.
  intros Hrun. split; [exact (task_run_balance id _ _ _ _ Hrun)|].
  intros pending. destruct (dtasks s' !! id) as [d|] eqn:Hd.
  - destruct (dt_chain d) eqn:Hc.
    + exact (wait_on_running _ _ _ _ Hd Hc).
    + split; [exact (wait_on_failed _ _ _ _ Hd Hc)|].
      intros pending'. apply wait_on_absent, lookup_delete_eq.
  - exact (wait_on_absent _ _ _ Hd).
Qed.

Lemma failure_record_consumed_once_witness :
  exists s',
    task_run two_waiters empty_strom
    = Some (s', [EvTaskFailed 8192 (-5); EvWakeUpAll 3;
                 EvFput (Some 77); EvFput (Some 99);
                 EvTaskKfree 8192; EvWaitReturn 1 8192 (- EIO) (Some (-5));
                 EvWaitReturn 2 8192 0 None]) /\
    dtasks s' !! 8192 = None /\
    strom_memcpy_ssd2gpu_wait false 8192 (dtasks s')
    = (WaitReturn 0 None, dtasks s', []).
Proof.
  destruct (task_run two_waiters empty_strom) as [[s' evs]|] eqn:Hrun;
    [|vm_compute in Hrun; discriminate].
  destruct (failure_record_consumed_once _ _ _ _ 8192 Hrun) as [_ Hwait].
  specialize (Hwait false). exists s'.
  assert (Hs : Some (s', evs) = task_run two_waiters empty_strom) by (symmetry; exact Hrun).
  vm_compute in Hs. injection Hs as -> ->.
  split; [reflexivity|]. split; [vm_compute; reflexivity|]. exact Hwait.
Defined.

Lemma dma_status_sticky_witness :
  exists s d s' d',
    task_run task_in_flight empty_strom = Some (s, []) /\
    dtasks s !! 8192 = Some d /\ dma_status d = 0 /\
    put_dma_task_all 8192 [0; -5; -22] s = Some s' /\
    dtasks s' !! 8192 = Some d' /\ dma_status d' = -5.
Proof.
  destruct (task_run task_in_flight empty_strom) as [[s evs]|] eqn:Hrun;
    [|vm_compute in Hrun; discriminate].
  destruct (dtasks s !! 8192) as [d|] eqn:Hd.
  2:{ vm_compute in Hrun. injection Hrun as <- _. vm_compute in Hd. discriminate. }
  destruct (put_dma_task_all 8192 [0; -5; -22] s) as [s'|] eqn:Hput.
  2:{ vm_compute in Hrun. injection Hrun as <- _. vm_compute in Hput. discriminate. }
  assert (Hst : dma_status d = 0).
  { vm_compute in Hrun. injection Hrun as <- _. vm_compute in Hd.
    injection Hd as <-. reflexivity. }
  destruct (dma_status_sticky 8192 [0; -5; -22] s s' d Hd Hput) as (d' & Hd' & Hs').
  { rewrite Hst. vm_compute. discriminate. }
  exists s, d, s', d'. rewrite Hst in Hs'.
  assert (evs = []) as -> by (vm_compute in Hrun; injection Hrun as _ <-; reflexivity).
  repeat split; try assumption.
Defined.

(** ** The request scheduler: merging *)

Lemma can_merge_spec d nr b curr :
  pending_in_range d nr b curr ->
  can_merge d nr b curr = true <-> mergeable d nr b curr.
Proof.
  intros (Hn & Hnr & Hsum & Hs & Hsrc & Hd & Hbs & Hdst & Hcurr).
  unfold can_merge, mergeable.
  assert (0 <= nr_blocks d * blocksz d) by nia.
  rewrite (u32_small (nr_blocks d + nr)) by lia.
  rewrite (u64_small (src_block d + nr_blocks d)) by lia.
  rewrite (u64_small (nr_blocks d * blocksz d)) by lia.
  rewrite (u64_small (dest_offset d + _)) by lia.
  rewrite (u64_small curr) by lia.
  rewrite !andb_true_iff, Z.gtb_gt, Z.leb_le, !Z.eqb_eq. tauto.
Qed.

(** A submission that returns 0 is one transfer of the pending run. *)
Lemma submit_ssd2gpu_memcpy_ok env m d evs :
  submit_ssd2gpu_memcpy env m d = Some (0, evs) ->
  exists sg, evs = [EvSubmitDma (src_block d) (nr_blocks d) sg 0].
Proof.
  unfold submit_ssd2gpu_memcpy. intros H.
  destruct (_ || _); [discriminate|].
  destruct (_ || _); [discriminate|].
  destruct (negb _); [discriminate|].
  destruct (build_sg _ _ _ _ _ _ _) as [[sg rest]|]; [|discriminate].
  destruct (negb _); [discriminate|].
  injection H as H1 H2. exists sg. rewrite <- H2, H1. reflexivity.
Qed.

(** C4. For a page whose blocks start at [b_blocknr] and go to
    [curr_offset], with the pending run and the page within their integer
    types: the test of [__memcpy_ssd2gpu_submit_dma] holds iff the pending
    run is not empty, [src_block + nr_blocks] is the new block number,
    [dest_offset + nr_blocks * blocksz] is the current destination offset
    and the merged count is at most [max_nblocks]; in that case the page is
    merged into the pending run and nothing is submitted.  Otherwise, with
    a non-empty pending run, that run is handed to
    [submit_ssd2gpu_memcpy] first and counted; if the submission returns 0
    it is one transfer of exactly that run, and only then the new run
    starts with the new block; if it fails, its error is returned and no
    new run starts.  With an empty pending run the new run starts without
    any submission. *)
Theorem merge_iff_contiguous_else_flush env m b_blocknr curr_offset st :
  let d := sc_dtask st in
  let nr := u32 (Z.shiftr PAGE_CACHE_SIZE (blocksz_shift d)) in
  pending_in_range d nr b_blocknr curr_offset ->
  (can_merge d nr b_blocknr curr_offset = true
   <-> mergeable d nr b_blocknr curr_offset) /\
  (mergeable d nr b_blocknr curr_offset ->
   submit_dma_page env m b_blocknr curr_offset st
   = Some (0, with_dtask (set_nr_blocks (nr_blocks d + nr) d) st)) /\
  (~ mergeable d nr b_blocknr curr_offset -> nr_blocks d > 0 ->
   let st1 := with_karg (count_dma_submit (nr_blocks d) (sc_karg st)) st in
   match submit_ssd2gpu_memcpy env m d with
   | None => submit_dma_page env m b_blocknr curr_offset st = None
   | Some (retval, evs) =>
       if retval =? 0 then
         (exists sg, evs = [EvSubmitDma (src_block d) (nr_blocks d) sg 0]) /\
         submit_dma_page env m b_blocknr curr_offset st
         = Some (0, with_dtask (set_pending curr_offset b_blocknr nr d)
                               (add_trace evs st1))
       else
         submit_dma_page env m b_blocknr curr_offset st
         = Some (retval, add_trace evs st1)
   end) /\
  (nr_blocks d = 0 ->
   submit_dma_page env m b_blocknr curr_offset st
   = Some (0, with_dtask (set_pending curr_offset b_blocknr nr d) st)).
Proof.
  intros d nr Hrange. pose proof (can_merge_spec _ _ _ _ Hrange) as Hspec.
  split; [exact Hspec|]. split; [|split].
  - intros Hm. unfold submit_dma_page. fold d. fold nr.
    rewrite (proj2 Hspec Hm).
    destruct Hrange as (Hn & Hnr & Hsum & _).
    rewrite u32_small by lia. reflexivity.
  - intros Hnm Hpos. unfold submit_dma_page. fold d. fold nr.
    destruct (can_merge d nr b_blocknr curr_offset) eqn:Hc.
    { exfalso. apply Hnm, Hspec. reflexivity. }
    rewrite (proj2 (Z.gtb_gt _ _) Hpos).
    destruct (submit_ssd2gpu_memcpy env m d) as [[retval evs]|] eqn:Hsub;
      [|reflexivity].
    destruct (retval =? 0) eqn:Hrv; simpl.
    + apply Z.eqb_eq in Hrv. subst retval.
      split; [exact (submit_ssd2gpu_memcpy_ok _ _ _ _ Hsub)|reflexivity].
    + reflexivity.
  - intros Hzero. unfold submit_dma_page. fold d. fold nr.
    unfold can_merge. rewrite Hzero. simpl. reflexivity.
Qed.

(** ** The request scheduler: what is left unchanged *)

Lemma same_request_refl k : same_request k k.
Proof. repeat split. Qed.

Lemma same_routing_refl k : same_routing k k.
Proof. repeat split. Qed.

Lemma same_request_trans k1 k2 k3 :
  same_request k1 k2 -> same_request k2 k3 -> same_request k1 k3.
Proof. unfold same_request. intuition congruence. Qed.

Lemma same_routing_trans k1 k2 k3 :
  same_routing k1 k2 -> same_routing k2 k3 -> same_routing k1 k3.
Proof. unfold same_routing, same_request. intuition congruence. Qed.

Lemma same_routing_count_dma_submit n k : same_routing k (count_dma_submit n k).
Proof. repeat split. Qed.

Lemma writeback_calls_app tr1 tr2 :
  writeback_calls (tr1 ++ tr2) = writeback_calls tr1 ++ writeback_calls tr2.
Proof. apply omap_app. Qed.

Lemma submit_ssd2gpu_memcpy_events env m d rv evs :
  submit_ssd2gpu_memcpy env m d = Some (rv, evs) ->
  writeback_calls evs = [] /\ Forall copies_in_place evs.
Proof.
  unfold submit_ssd2gpu_memcpy. intros H.
  destruct (_ || _); [injection H as <- <-; done|].
  destruct (_ || _); [injection H as <- <-; done|].
  destruct (negb _); [discriminate|].
  destruct (build_sg _ _ _ _ _ _ _) as [[sg rest]|]; [|discriminate].
  destruct (negb _); injection H as <- <-; [done|].
  split; [reflexivity|]. repeat constructor.
Qed.

Lemma direct_keeps_refl st : direct_keeps st st.
Proof. split; [apply same_routing_refl|done]. Qed.

Lemma direct_keeps_trans st1 st2 st3 :
  direct_keeps st1 st2 -> direct_keeps st2 st3 -> direct_keeps st1 st3.
Proof.
  intros (Hk1 & Ho1 & Hw1 & Hb1 & Hf1) (Hk2 & Ho2 & Hw2 & Hb2 & Hf2).
  split; [exact (same_routing_trans _ _ _ Hk1 Hk2)|].
  repeat split; try congruence. auto.
Qed.

Lemma submit_dma_page_keeps env m b curr st rv st' :
  submit_dma_page env m b curr st = Some (rv, st') -> direct_keeps st st'.
Proof.
  unfold submit_dma_page. intros H.
  destruct (can_merge _ _ _ _).
  { injection H as <- <-. split; [apply same_routing_refl|done]. }
  destruct (nr_blocks (sc_dtask st) >? 0).
  2:{ injection H as <- <-. split; [apply same_routing_refl|done]. }
  destruct (submit_ssd2gpu_memcpy env m (sc_dtask st)) as [[retval evs]|] eqn:Hs;
    [|discriminate].
  apply submit_ssd2gpu_memcpy_events in Hs as [Hs Hf].
  destruct (negb (retval =? 0)); injection H as <- <-;
    (split; [apply same_routing_count_dma_submit|]; simpl;
     rewrite writeback_calls_app, Hs, app_nil_r;
     repeat split; try done; intros Hall; apply Forall_app; done).
Qed.

Lemma submit_dma_keeps env m n fpos curr st rv st' :
  __memcpy_ssd2gpu_submit_dma env m n fpos curr st = Some (rv, st') ->
  direct_keeps st st'.
Proof.
  revert fpos curr st. induction n as [|n IH]; intros fpos curr st H; simpl in H.
  { injection H as <- <-. apply direct_keeps_refl. }
  destruct (strom_get_block env _) as [retval b].
  destruct (negb (retval =? 0)).
  { injection H as <- <-. apply direct_keeps_refl. }
  destruct (submit_dma_page env m b curr st) as [[rv1 st1]|] eqn:Hp; [|discriminate].
  apply submit_dma_page_keeps in Hp.
  destruct (negb (rv1 =? 0)).
  { injection H as <- <-. done. }
  apply IH in H. exact (direct_keeps_trans _ _ _ Hp H).
Qed.

Lemma writeback_pages_keeps env n j fp_index dest d copies rv d' copies' :
  __memcpy_ssd2gpu_writeback env n j fp_index dest d copies = (rv, d', copies') ->
  blocksz_shift d' = blocksz_shift d /\
  exists more,
    copies' = copies ++ more /\
    more.*1 = (fun a => dest + PAGE_CACHE_SIZE * Z.of_nat a) <$> seq 0 (length more).
Proof.
  revert j dest d copies. induction n as [|n IH]; intros j dest d copies H; simpl in H.
  { injection H as <- <- <-. split; [done|]. exists []. rewrite app_nil_r. done. }
  destruct (match array_get (file_pages d) j with
            | Some (Some pg) => inl pg
            | _ => _
            end) as [pg|retval].
  2:{ injection H as <- <- <-. split; [done|]. exists []. rewrite app_nil_r. done. }
  destruct (copy_to_user_fails env dest).
  { injection H as <- <- <-. split; [done|]. exists []. rewrite app_nil_r. done. }
  apply IH in H as (Hb & more & -> & Hmore). split; [exact Hb|].
  exists ((dest, pg) :: more). split; [rewrite <- app_assoc; reflexivity|].
  rewrite fmap_cons. cbn [length seq]. rewrite fmap_cons.
  f_equal; [simpl; lia|]. rewrite Hmore, <- fmap_S_seq, <- list_fmap_compose.
  apply list_fmap_ext. intros _ a _. simpl. unfold PAGE_CACHE_SIZE. lia.
Qed.

Lemma array_set_spec {A : Type} (l l' : list A) i v :
  array_set l i v = Some l' ->
  0 <= i < Z.of_nat (length l) /\ l' = <[Z.to_nat i := v]> l.
Proof.
  unfold array_set. destruct (0 <=? i) eqn:E1; [|discriminate].
  destruct (i <? Z.of_nat (length l)) eqn:E2; [|discriminate].
  simpl. intros [= <-]. apply Z.leb_le in E1. apply Z.ltb_lt in E2. done.
Qed.

Lemma array_get_spec {A : Type} (l : list A) i v :
  array_get l i = Some v -> 0 <= i /\ l !! Z.to_nat i = Some v.
Proof.
  unfold array_get. destruct (i <? 0) eqn:E; [discriminate|].
  apply Z.ltb_ge in E. done.
Qed.

(** A chunk on the direct path: its id goes to slot [nr_ssd2gpu] of the
    array, and [nr_ssd2gpu] is counted up, also when the submission
    fails. *)
Lemma chunk_direct_spec env m c fpos dest st rv dest' st' :
  karg_int_exact env ->
  0 <= nr_ssd2gpu (sc_karg st) < 2 ^ 31 - 1 ->
  chunk_direct env m c fpos dest st = Some (rv, dest', st') ->
  same_request (sc_karg st) (sc_karg st') /\
  nr_ram2gpu (sc_karg st') = nr_ram2gpu (sc_karg st) /\
  nr_ssd2gpu (sc_karg st') = nr_ssd2gpu (sc_karg st) + 1 /\
  nr_ssd2gpu (sc_karg st) < Z.of_nat (length (sc_out st)) /\
  sc_out st' = <[Z.to_nat (nr_ssd2gpu (sc_karg st)) := u32 c]> (sc_out st) /\
  writeback_calls (sc_trace st') = writeback_calls (sc_trace st) /\
  blocksz_shift (sc_dtask st') = blocksz_shift (sc_dtask st) /\
  dest' = u64 (dest + chunk_sz (sc_karg st)) /\
  (Forall copies_in_place (sc_trace st) -> Forall copies_in_place (sc_trace st')).
Proof.
  intros Hint Hn. unfold chunk_direct. intros H.
  destruct (__memcpy_ssd2gpu_submit_dma _ _ _ _ _ _) as [[rv1 st1]|] eqn:Hs;
    [|discriminate].
  apply submit_dma_keeps in Hs as ((Hreq & Hram & Hssd) & Ho & Hw & Hb & Hf).
  destruct (array_set (sc_out st1) _ _) as [out|] eqn:Ha; [|discriminate].
  apply array_set_spec in Ha as [Hr ->]. injection H as <- <- <-. simpl.
  rewrite Hssd, Ho in *. rewrite Hint by lia.
  destruct Hreq as (? & ? & Hcs & ? & ?). rewrite Hcs.
  repeat split; try done; lia.
Qed.

(** A chunk on the write-back path: [nr_ram2gpu] is counted up first, the
    data goes to [wb_buffer + chunk_sz * (nr_chunks - nr_ram2gpu)], and the
    id to slot [nr_chunks - nr_ram2gpu] of the array, also when the copy
    fails. *)
Lemma chunk_writeback_spec env c fpos st rv st' :
  karg_int_exact env ->
  0 <= nr_ram2gpu (sc_karg st) < nr_chunks (sc_karg st) ->
  nr_chunks (sc_karg st) < 2 ^ 31 ->
  chunk_writeback env c fpos st = Some (rv, st') ->
  let slot := nr_chunks (sc_karg st) - nr_ram2gpu (sc_karg st) - 1 in
  same_request (sc_karg st) (sc_karg st') /\
  nr_ram2gpu (sc_karg st') = nr_ram2gpu (sc_karg st) + 1 /\
  nr_ssd2gpu (sc_karg st') = nr_ssd2gpu (sc_karg st) /\
  slot < Z.of_nat (length (sc_out st)) /\
  sc_out st' = <[Z.to_nat slot := u32 c]> (sc_out st) /\
  writeback_calls (sc_trace st')
  = writeback_calls (sc_trace st)
    ++ [(fpos, wb_buffer (sc_karg st)
               + karg_int env (chunk_sz (sc_karg st) * slot))] /\
  blocksz_shift (sc_dtask st') = blocksz_shift (sc_dtask st) /\
  (Forall copies_in_place (sc_trace st) -> Forall copies_in_place (sc_trace st')).
Proof.
  intros Hint Hn Hc H slot. unfold chunk_writeback in H.
  cbn [wb_buffer chunk_sz nr_chunks nr_ram2gpu set_nr_ram2gpu] in H.
  rewrite !(Hint (nr_ram2gpu (sc_karg st) + 1)) in H by lia.
  replace (nr_chunks (sc_karg st) - (nr_ram2gpu (sc_karg st) + 1)) with slot in H
    by (unfold slot; lia).
  rewrite !(Hint slot) in H by (unfold slot; lia).
  destruct (__memcpy_ssd2gpu_writeback _ _ _ _ _ _ _) as [[rv1 d1] copies] eqn:Hw.
  apply writeback_pages_keeps in Hw as (Hb & more & -> & Hmore).
  destruct (array_set (sc_out st) _ _) as [out|] eqn:Ha; [|discriminate].
  apply array_set_spec in Ha as [Hr ->]. injection H as <- <-. simpl.
  rewrite writeback_calls_app. simpl.
  repeat split; try done; try lia.
  intros Hall. apply Forall_app. split; [exact Hall|].
  constructor; [exact Hmore|constructor].
Qed.

(** ** The request scheduler: routing of the chunks *)

Lemma chunk_fpos_same_request k k' c :
  same_request k k' -> chunk_fpos k' c = chunk_fpos k c.
Proof. intros (_ & _ & Hc & Hr & _). unfold chunk_fpos. rewrite Hc, Hr. reflexivity. Qed.

Lemma to_writeback_same_request env k k' i c :
  same_request k k' -> to_writeback env k' i c = to_writeback env k i c.
Proof.
  intros Hs. pose proof (chunk_fpos_same_request _ _ c Hs) as Hf.
  destruct Hs as (_ & _ & Hc & Hr & _).
  unfold to_writeback, chunk_score, chunk_probe, chunk_threshold, chunk_nr_pages.
  rewrite Hc, Hf. reflexivity.
Qed.

Lemma split_routes_same_request env k k' i chunks :
  same_request k k' -> split_routes env k' i chunks = split_routes env k i chunks.
Proof.
  intros Hs. revert i. induction chunks as [|c rest IH]; intros i; simpl; [done|].
  rewrite IH, (to_writeback_same_request _ _ _ _ _ Hs). reflexivity.
Qed.

Lemma split_routes_length env k i chunks :
  (length (fst (split_routes env k i chunks))
   + length (snd (split_routes env k i chunks)) = length chunks)%nat.
Proof.
  revert i. induction chunks as [|c rest IH]; intros i; simpl; [done|].
  specialize (IH (i + 1)). destruct (split_routes env k (i + 1) rest) as [d w].
  destruct (to_writeback env k i c); simpl in *; lia.
Qed.

Lemma routed_nil env st i : routed env st st i [].
Proof.
  unfold routed. simpl. rewrite app_nil_r, !Z.add_0_r.
  split; [apply same_request_refl|]. repeat split; try done.
Qed.

(** Routing one chunk, then the rest. *)
Lemma routed_cons env st st1 st' i c rest :
  0 <= nr_ssd2gpu (sc_karg st) ->
  routed env st st1 i [c] -> routed env st1 st' (i + 1) rest ->
  routed env st st' i (c :: rest).
Proof.
  intros Hpos H1 H2. unfold routed in *.
  destruct H1 as (Hs1 & Hd1 & Hw1 & Hl1 & Hdir1 & Hwb1 & Hun1 & Hc1 & Hf1).
  destruct H2 as (Hs2 & Hd2 & Hw2 & Hl2 & Hdir2 & Hwb2 & Hun2 & Hc2 & Hf2).
  rewrite (split_routes_same_request _ _ _ _ _ Hs1) in *.
  pose proof Hs1 as (_ & Hnc & Hcs & _ & Hwbuf).
  simpl in *. rewrite Hnc, Hcs, Hwbuf in *.
  destruct (split_routes env (sc_karg st) (i + 1) rest) as [direct wb] eqn:Hsr.
  split; [exact (same_request_trans _ _ _ Hs1 Hs2)|].
  destruct (to_writeback env (sc_karg st) i c) eqn:Hto; simpl in *.
  - (* the chunk goes to the write-back path *)
    rewrite Hd1, Hw1 in *. rewrite Z.add_0_r in *.
    split; [lia|]. split; [lia|]. split; [congruence|].
    split; [|split; [|split; [|split; [|auto]]]].
    + intros j c' Hj. exact (Hdir2 _ _ Hj).
    + intros [|j] c' Hj; simpl in Hj.
      * injection Hj as <-. rewrite Hun2; [exact (Hwb1 0%nat _ eq_refl)|].
        right. lia.
      * specialize (Hwb2 _ _ Hj). rewrite <- Hwb2. f_equal. lia.
    + intros p Hp. rewrite Hun2 by lia. apply Hun1. lia.
    + rewrite Hc2, Hc1, <- app_assoc. f_equal. simpl. f_equal.
      apply imap_ext. intros j c' _. simpl.
      rewrite (chunk_fpos_same_request _ _ c' Hs1).
      do 4 f_equal. lia.
  - (* the chunk goes to the direct path *)
    rewrite Hd1, Hw1 in *. rewrite Z.add_0_r in *.
    split; [lia|]. split; [lia|]. split; [congruence|].
    split; [|split; [|split; [|split; [|auto]]]].
    + intros [|j] c' Hj; simpl in Hj.
      * injection Hj as <-. rewrite Hun2; [exact (Hdir1 0%nat _ eq_refl)|].
        left. lia.
      * specialize (Hdir2 _ _ Hj). rewrite <- Hdir2. f_equal. lia.
    + intros j c' Hj. exact (Hwb2 _ _ Hj).
    + intros p Hp. rewrite Hun2 by lia. apply Hun1. lia.
    + rewrite Hc2, Hc1, app_nil_r. f_equal.
      apply imap_ext. intros j c' _. simpl.
      rewrite (chunk_fpos_same_request _ _ c' Hs1). reflexivity.
Qed.

Lemma routed_one_writeback env st st0 st1 i c rv :
  karg_int_exact env ->
  sc_karg st0 = sc_karg st -> sc_out st0 = sc_out st -> sc_trace st0 = sc_trace st ->
  0 <= nr_ram2gpu (sc_karg st) -> 0 <= nr_ssd2gpu (sc_karg st) ->
  nr_ssd2gpu (sc_karg st) + nr_ram2gpu (sc_karg st) < nr_chunks (sc_karg st) ->
  nr_chunks (sc_karg st) < 2 ^ 31 ->
  to_writeback env (sc_karg st) i c = true ->
  chunk_writeback env c (chunk_fpos (sc_karg st) c) st0 = Some (rv, st1) ->
  routed env st st1 i [c].
Proof.
  intros Hint Hk Ho Ht Hn Hn' Hsum Hc Hto H.
  apply chunk_writeback_spec in H; [|done|rewrite Hk; lia|rewrite Hk; done].
  rewrite Hk, Ho, Ht in H.
  destruct H as (Hs & Hr & Hd & Hlt & Hout & Hcalls & _ & Hf).
  unfold routed. simpl. rewrite Hto. simpl.
  split; [exact Hs|]. split; [lia|]. split; [lia|].
  split; [rewrite Hout; apply length_insert|].
  split; [intros j c' Hj; rewrite lookup_nil in Hj; discriminate|].
  split; [|split; [|split; [|exact Hf]]].
  - intros [|j] c' Hj; simpl in Hj; [|rewrite lookup_nil in Hj; discriminate].
    injection Hj as <-. rewrite Hout, Z.sub_0_r.
    apply list_lookup_insert_eq. lia.
  - intros p Hp. rewrite Hout. apply list_lookup_insert_ne. lia.
  - rewrite Hcalls, Z.sub_0_r. reflexivity.
Qed.

Lemma routed_one_direct env m st st0 st1 i c dest dest' rv :
  karg_int_exact env ->
  sc_karg st0 = sc_karg st -> sc_out st0 = sc_out st -> sc_trace st0 = sc_trace st ->
  0 <= nr_ram2gpu (sc_karg st) -> 0 <= nr_ssd2gpu (sc_karg st) ->
  nr_ssd2gpu (sc_karg st) + nr_ram2gpu (sc_karg st) < nr_chunks (sc_karg st) ->
  nr_chunks (sc_karg st) < 2 ^ 31 ->
  to_writeback env (sc_karg st) i c = false ->
  chunk_direct env m c (chunk_fpos (sc_karg st) c) dest st0 = Some (rv, dest', st1) ->
  routed env st st1 i [c].
Proof.
  intros Hint Hk Ho Ht Hn Hn' Hsum Hc Hto H.
  apply chunk_direct_spec in H; [|done|rewrite Hk; lia].
  rewrite Hk, Ho, Ht in H.
  destruct H as (Hs & Hr & Hd & Hlt & Hout & Hcalls & _ & _ & Hf).
  unfold routed. simpl. rewrite Hto. simpl.
  split; [exact Hs|]. split; [lia|]. split; [lia|].
  split; [rewrite Hout; apply length_insert|].
  split; [|split; [|split; [|split; [|exact Hf]]]].
  - intros [|j] c' Hj; simpl in Hj; [|rewrite lookup_nil in Hj; discriminate].
    injection Hj as <-. rewrite Hout, Z.add_0_r.
    apply list_lookup_insert_eq. lia.
  - intros j c' Hj. rewrite lookup_nil in Hj. discriminate.
  - intros p Hp. rewrite Hout. apply list_lookup_insert_ne. lia.
  - rewrite Hcalls, app_nil_r. reflexivity.
Qed.

Lemma array_get_middle {A : Type} (pre rest : list A) c :
  array_get (pre ++ c :: rest) (Z.of_nat (length pre)) = Some c.
Proof.
  unfold array_get. destruct (Z.of_nat (length pre) <? 0) eqn:E;
    [apply Z.ltb_lt in E; lia|].
  rewrite Nat2Z.id. apply list_lookup_middle. reflexivity.
Qed.

(** The loop routes a prefix of the chunks it is given: all of them when it
    returns 0, and otherwise those up to the chunk that failed, or up to
    the chunk before the one that lies beyond the end of the file. *)
Lemma memcpy_ssd2gpu_writeback_loop_routed env m ids :
  karg_int_exact env ->
  forall rest pre dest st rv dest' st',
    ids = pre ++ rest ->
    memcpy_ssd2gpu_writeback_loop env m ids (length rest)
      (Z.of_nat (length pre)) dest st = Some (rv, dest', st') ->
    Z.of_nat (length ids) = nr_chunks (sc_karg st) ->
    nr_chunks (sc_karg st) < 2 ^ 31 ->
    nr_ssd2gpu (sc_karg st) + nr_ram2gpu (sc_karg st) = Z.of_nat (length pre) ->
    0 <= nr_ssd2gpu (sc_karg st) -> 0 <= nr_ram2gpu (sc_karg st) ->
    exists q, (q <= length rest)%nat /\
              routed env st st' (Z.of_nat (length pre)) (take q rest) /\
              (rv = 0 -> q = length rest).
Proof.
  intros Hint. induction rest as [|c rest IH];
    intros pre dest st rv dest' st' Hids Hloop Hlen Hmax Hsum Hd Hw.
  { simpl in Hloop. injection Hloop as <- <- <-. exists 0%nat.
    split; [done|]. split; [apply routed_nil|done]. }
  simpl length in Hloop. simpl in Hloop. subst ids.
  rewrite array_get_middle in Hloop.
  rewrite length_app in Hlen. simpl in Hlen.
  destruct (negb (Z.land _ _ =? 0)); [discriminate|].
  destruct (u64 _ >? i_size env).
  { injection Hloop as <- <- <-. exists 0%nat. split; [lia|].
    split; [apply routed_nil|discriminate]. }
  destruct (chunk_probe env (sc_karg st) (Z.of_nat (length pre)) c)
    as [pages score] eqn:Hprobe.
  assert (Hto : to_writeback env (sc_karg st) (Z.of_nat (length pre)) c
                = (score >? chunk_threshold (sc_karg st))).
  { unfold to_writeback, chunk_score. rewrite Hprobe. reflexivity. }
  assert (Hnext : s32 (Z.of_nat (length pre) + 1) = Z.of_nat (length (pre ++ [c]))).
  { rewrite length_app. simpl. rewrite s32_small; lia. }
  rewrite Hnext in Hloop.
  assert (Hids' : pre ++ c :: rest = (pre ++ [c]) ++ rest)
    by (rewrite <- app_assoc; reflexivity).
  destruct (score >? chunk_threshold (sc_karg st)).
  - destruct (chunk_writeback env c _ _) as [[rv1 st1]|] eqn:Hwb; [|discriminate].
    apply (routed_one_writeback env st _ st1 (Z.of_nat (length pre)) c rv1)
      in Hwb; [|done|done|done|done|lia|lia|lia|done|done].
    pose proof Hwb as (Hs & Hd1 & Hw1 & _). simpl in Hd1, Hw1. rewrite Hto in Hd1, Hw1.
    simpl in Hd1, Hw1. destruct Hs as (_ & Hnc & _).
    destruct (negb (rv1 =? 0)) eqn:Hrv.
    + injection Hloop as <- <- <-. exists 1%nat. split; [simpl; lia|].
      split; [exact Hwb|].
      intros ->. discriminate.
    + apply (IH (pre ++ [c])) in Hloop;
        [|done|rewrite Hnc; rewrite !length_app; simpl; lia
         |rewrite Hnc; done|rewrite length_app; simpl; lia|lia|lia].
      destruct Hloop as (q & Hq & Hr & Hz). exists (S q).
      split; [simpl; lia|]. split; [|intros H0; rewrite (Hz H0); reflexivity].
      simpl. apply (routed_cons env st st1); [done|exact Hwb|].
      rewrite length_app in Hr. simpl in Hr.
      replace (Z.of_nat (length pre) + 1) with (Z.of_nat (length pre + 1)) by lia.
      exact Hr.
  - destruct (chunk_direct env m c _ dest _) as [[[rv1 dest1] st1]|] eqn:Hdir;
      [|discriminate].
    apply (routed_one_direct env m st _ st1 (Z.of_nat (length pre)) c) in Hdir;
      [|done|done|done|done|lia|lia|lia|done|done].
    pose proof Hdir as (Hs & Hd1 & Hw1 & _). simpl in Hd1, Hw1. rewrite Hto in Hd1, Hw1.
    simpl in Hd1, Hw1. destruct Hs as (_ & Hnc & _).
    destruct (negb (rv1 =? 0)) eqn:Hrv.
    + injection Hloop as <- <- <-. exists 1%nat. split; [simpl; lia|].
      split; [exact Hdir|].
      intros ->. discriminate.
    + apply (IH (pre ++ [c])) in Hloop;
        [|done|rewrite Hnc; rewrite !length_app; simpl; lia
         |rewrite Hnc; done|rewrite length_app; simpl; lia|lia|lia].
      destruct Hloop as (q & Hq & Hr & Hz). exists (S q).
      split; [simpl; lia|]. split; [|intros H0; rewrite (Hz H0); reflexivity].
      simpl. apply (routed_cons env st st1); [done|exact Hdir|].
      rewrite length_app in Hr. simpl in Hr.
      replace (Z.of_nat (length pre) + 1) with (Z.of_nat (length pre + 1)) by lia.
      exact Hr.
Qed.

Lemma routed_then_keeps env st st1 st2 i chunks :
  routed env st st1 i chunks -> direct_keeps st1 st2 -> routed env st st2 i chunks.
Proof.
  intros H1 H2. unfold routed in *.
  destruct H1 as (Hs & Hd & Hw & Hl & Hdir & Hwb & Hun & Hc & Hf).
  destruct H2 as ((Hreq & Hram & Hssd) & Ho & Hcalls & _ & Hf').
  rewrite Ho, Hcalls, Hram, Hssd.
  split; [exact (same_request_trans _ _ _ Hs Hreq)|].
  repeat split; try done. auto.
Qed.

Lemma submit_pending_keeps env m st st' :
  submit_pending env m st = Some st' -> direct_keeps st st'.
Proof.
  unfold submit_pending. intros H.
  destruct (nr_blocks (sc_dtask st) >? 0).
  2:{ injection H as <-. apply direct_keeps_refl. }
  destruct (submit_ssd2gpu_memcpy env m (sc_dtask st)) as [[rv evs]|] eqn:Hs;
    [|discriminate].
  apply submit_ssd2gpu_memcpy_events in Hs as [Hs Hf]. injection H as <-.
  split; [apply same_routing_count_dma_submit|]. simpl.
  rewrite writeback_calls_app, Hs, app_nil_r.
  repeat split; try done. intros Hall. apply Forall_app. done.
Qed.

(** The batch as a whole routes a prefix of its chunks, all of them when it
    returns 0. *)
Lemma memcpy_ssd2gpu_writeback_routed env m karg dtask ids out rv st :
  karg_int_exact env ->
  nr_ram2gpu karg = 0 -> nr_ssd2gpu karg = 0 ->
  Z.of_nat (length ids) = nr_chunks karg -> nr_chunks karg < 2 ^ 31 ->
  memcpy_ssd2gpu_writeback env m karg dtask ids out = Some (rv, st) ->
  exists q, (q <= length ids)%nat /\
            routed env (mk_sched karg dtask out []) st 0 (take q ids) /\
            (rv = 0 -> q = length ids).
Proof.
  intros Hint Hram Hssd Hlen Hmax H. unfold memcpy_ssd2gpu_writeback in H.
  destruct (_ || _).
  { injection H as <- <-. exists 0%nat. split; [lia|].
    split; [apply routed_nil|discriminate]. }
  destruct (_ >? map_length m).
  { injection H as <- <-. exists 0%nat. split; [lia|].
    split; [apply routed_nil|discriminate]. }
  rewrite <- Hlen, Nat2Z.id in H.
  destruct (memcpy_ssd2gpu_writeback_loop _ _ _ _ _ _ _) as [[[rv1 dest1] st1]|] eqn:Hloop;
    [|discriminate].
  apply (memcpy_ssd2gpu_writeback_loop_routed env m ids Hint ids []) in Hloop;
    [|done|simpl; lia|done|simpl; lia|simpl; lia|simpl; lia].
  destruct Hloop as (q & Hq & Hr & Hz). simpl in Hr.
  destruct (negb (rv1 =? 0)) eqn:Hrv.
  { injection H as <- <-. exists q. done. }
  destruct (submit_pending env m st1) as [st2|] eqn:Hsp; [|discriminate].
  apply submit_pending_keeps in Hsp.
  destruct (karg_int env _ =? _); [|discriminate]. injection H as <- <-.
  exists q. split; [exact Hq|]. split; [|intros _; apply Hz].
  - exact (routed_then_keeps _ _ _ _ _ _ Hr Hsp).
  - apply negb_false_iff, Z.eqb_eq in Hrv. exact Hrv.
Qed.

(** C9. When a batch of [nr_chunks] chunks completes with 0, the array
    [chunk_ids_out] holds the ids of the chunks that went the direct path,
    in processing order, in the slots [0 .. nr_ssd2gpu - 1], and the id of
    the [j]-th chunk that went the write-back path (counting from 0) in
    slot [nr_chunks - 1 - j], that is the write-back ids fill the slots
    [nr_chunks - nr_ram2gpu .. nr_chunks - 1] from the back; and
    [nr_ssd2gpu + nr_ram2gpu = nr_chunks]. *)
Theorem chunk_ids_out_layout env m karg dtask ids out st :
  karg_int_exact env ->
  nr_ram2gpu karg = 0 -> nr_ssd2gpu karg = 0 ->
  Z.of_nat (length ids) = nr_chunks karg -> nr_chunks karg < 2 ^ 31 ->
  Forall (fun c => 0 <= c < 2 ^ 32) ids ->
  memcpy_ssd2gpu_writeback env m karg dtask ids out = Some (0, st) ->
  let direct := fst (split_routes env karg 0 ids) in
  let wb := snd (split_routes env karg 0 ids) in
  nr_ssd2gpu (sc_karg st) = Z.of_nat (length direct) /\
  nr_ram2gpu (sc_karg st) = Z.of_nat (length wb) /\
  nr_ssd2gpu (sc_karg st) + nr_ram2gpu (sc_karg st) = nr_chunks karg /\
  (forall (j : nat) c, direct !! j = Some c -> sc_out st !! j = Some c) /\
  (forall (j : nat) c, wb !! j = Some c ->
     sc_out st !! Z.to_nat (nr_chunks karg - 1 - Z.of_nat j) = Some c).
Proof.
  intros Hint Hram Hssd Hlen Hmax Hids H direct wb.
  apply memcpy_ssd2gpu_writeback_routed in H as (q & _ & Hr & Hq); try done.
  rewrite (Hq eq_refl), firstn_all in Hr.
  destruct Hr as (_ & Hd & Hw & _ & Hdir & Hwb & _). simpl in *.
  rewrite Hram, Hssd in *. fold direct in Hd, Hdir. fold wb in Hw, Hwb.
  pose proof (split_routes_length env karg 0 ids) as Hsum.
  fold direct wb in Hsum.
  assert (Hin : forall c, c ∈ ids -> u32 c = c).
  { intros c Hc. apply u32_small. rewrite Forall_forall in Hids. auto. }
  assert (Hsub : forall l i, (forall c, c ∈ (fst (split_routes env karg i l)) -> c ∈ l)
                             /\ (forall c, c ∈ (snd (split_routes env karg i l)) -> c ∈ l)).
  { induction l as [|c l IH]; intros i; simpl; [done|].
    specialize (IH (i + 1)). destruct (split_routes env karg (i + 1) l) as [d w].
    destruct IH as [IH1 IH2].
    destruct (to_writeback env karg i c); simpl in *; split; intros c';
      rewrite ?elem_of_cons; intuition. }
  split; [lia|]. split; [lia|]. split; [lia|]. split.
  - intros j c Hj. specialize (Hdir _ _ Hj).
    rewrite Z.add_0_l, Nat2Z.id in Hdir. rewrite Hdir. f_equal. apply Hin, (proj1 (Hsub ids 0)).
    apply list_elem_of_lookup. eauto.
  - intros j c Hj. specialize (Hwb _ _ Hj).
    replace (nr_chunks karg - 0 - 1 - Z.of_nat j) with (nr_chunks karg - 1 - Z.of_nat j)
      in Hwb by lia.
    rewrite Hwb. f_equal. apply Hin, (proj2 (Hsub ids 0)).
    apply list_elem_of_lookup. eauto.
Qed.

Lemma karg_int_exact_u32 env : karg_int env = u32 -> karg_int_exact env.
Proof. intros H x Hx. rewrite H. apply u32_small. lia. Qed.

Lemma chunk_ids_out_layout_witness :
  exists st,
    memcpy_ssd2gpu_writeback (third_chunk_dirty_env 1000) region_1MiB five_chunks
      fresh_dtask [0; 1; 2; 3; 4] [0; 0; 0; 0; 0] = Some (0, st) /\
    sc_out st = [0; 1; 3; 4; 2] /\
    nr_ssd2gpu (sc_karg st) = 4 /\ nr_ram2gpu (sc_karg st) = 1 /\
    (forall (j : nat) c, [0; 1; 3; 4] !! j = Some c -> sc_out st !! j = Some c) /\
    (forall (j : nat) c, [2] !! j = Some c ->
       sc_out st !! Z.to_nat (5 - 1 - Z.of_nat j) = Some c).
Proof.
  eexists. split; [vm_compute; reflexivity|]. split; [reflexivity|].
  edestruct (chunk_ids_out_layout (third_chunk_dirty_env 1000) region_1MiB
               five_chunks fresh_dtask [0; 1; 2; 3; 4] [0; 0; 0; 0; 0])
    as (Hd & Hw & _ & Hdir & Hwb).
  - apply karg_int_exact_u32. reflexivity.
  - reflexivity.
  - reflexivity.
  - reflexivity.
  - vm_compute. reflexivity.
  - repeat constructor; vm_compute; congruence.
  - vm_compute. reflexivity.
  - exact (conj Hd (conj Hw (conj Hdir Hwb))).
Defined.

(** ** The request scheduler: file positions *)

Lemma chunk_fpos_spec k c :
  0 <= c < 2 ^ 32 -> 0 <= relseg_sz k ->
  0 <= chunk_sz k <= STROM_DMA_SSD2GPU_MAXLEN ->
  chunk_fpos k c
  = if relseg_sz k =? 0 then c * chunk_sz k else (c mod relseg_sz k) * chunk_sz k.
Proof.
  intros Hc Hr Hs. unfold chunk_fpos. unfold STROM_DMA_SSD2GPU_MAXLEN in Hs.
  change (2 ^ 32) with 4294967296 in Hc.
  destruct (relseg_sz k =? 0) eqn:E.
  - apply s64_small. change (2 ^ 63) with 9223372036854775808. nia.
  - apply Z.eqb_neq in E. rewrite Z.rem_mod_nonneg by lia.
    pose proof (Z.mod_pos_bound c (relseg_sz k) ltac:(lia)).
    pose proof (Z.mod_le c (relseg_sz k) ltac:(lia) ltac:(lia)).
    apply s64_small. change (2 ^ 63) with 9223372036854775808. nia.
Qed.

Lemma advance_small n i :
  0 <= i -> i + Z.of_nat n < 2 ^ 31 -> advance n i = i + Z.of_nat n.
Proof.
  revert i. induction n as [|n IH]; intros i Hi Hn; simpl; [lia|].
  rewrite s32_small by lia. rewrite IH; lia.
Qed.

(** The loop over [n1 + n2] chunks is the loop over the first [n1],
    followed, if that returns 0, by the loop over the other [n2]. *)
Lemma memcpy_ssd2gpu_writeback_loop_app env m ids n1 n2 i dest st :
  memcpy_ssd2gpu_writeback_loop env m ids (n1 + n2) i dest st
  = match memcpy_ssd2gpu_writeback_loop env m ids n1 i dest st with
    | None => None
    | Some (rv, dest1, st1) =>
        if negb (rv =? 0) then Some (rv, dest1, st1)
        else memcpy_ssd2gpu_writeback_loop env m ids n2 (advance n1 i) dest1 st1
    end.
Proof.
  revert i dest st. induction n1 as [|n1 IH]; intros i dest st; simpl; [reflexivity|].
  destruct (array_get ids i) as [c|]; [|reflexivity].
  destruct (negb (Z.land _ _ =? 0)); [reflexivity|].
  destruct (u64 _ >? i_size env); [reflexivity|].
  destruct (chunk_probe env (sc_karg st) i c) as [pages score].
  destruct (score >? chunk_threshold (sc_karg st)).
  - destruct (chunk_writeback env c _ _) as [[rv1 st1]|]; [|reflexivity].
    destruct (negb (rv1 =? 0)) eqn:E; [rewrite E; reflexivity|]. apply IH.
  - destruct (chunk_direct env m c _ dest _) as [[[rv1 dest1] st1]|]; [|reflexivity].
    destruct (negb (rv1 =? 0)) eqn:E; [rewrite E; reflexivity|]. apply IH.
Qed.

Lemma memcpy_ssd2gpu_writeback_loop_same_request env m ids n i dest st rv dest' st' :
  memcpy_ssd2gpu_writeback_loop env m ids n i dest st = Some (rv, dest', st') ->
  same_request (sc_karg st) (sc_karg st').
Proof.
  revert i dest st. induction n as [|n IH]; intros i dest st H; simpl in H.
  { injection H as <- <- <-. apply same_request_refl. }
  destruct (array_get ids i) as [c|]; [|discriminate].
  destruct (negb (Z.land _ _ =? 0)); [discriminate|].
  destruct (u64 _ >? i_size env).
  { injection H as <- <- <-. apply same_request_refl. }
  destruct (chunk_probe env (sc_karg st) i c) as [pages score].
  destruct (score >? chunk_threshold (sc_karg st)).
  - destruct (chunk_writeback env c _ _) as [[rv1 st1]|] eqn:Hwb; [|discriminate].
    assert (Hs : same_request (sc_karg st) (sc_karg st1)).
    { unfold chunk_writeback in Hwb.
      destruct (__memcpy_ssd2gpu_writeback _ _ _ _ _ _ _) as [[rv2 d2] copies].
      destruct (array_set _ _ _); [|discriminate]. injection Hwb as <- <-.
      repeat split. }
    destruct (negb (rv1 =? 0)); [injection H as <- <- <-; exact Hs|].
    exact (same_request_trans _ _ _ Hs (IH _ _ _ H)).
  - destruct (chunk_direct env m c _ dest _) as [[[rv1 dest1] st1]|] eqn:Hdir;
      [|discriminate].
    assert (Hs : same_request (sc_karg st) (sc_karg st1)).
    { unfold chunk_direct in Hdir.
      destruct (__memcpy_ssd2gpu_submit_dma _ _ _ _ _ _) as [[rv2 st2]|] eqn:Hsub;
        [|discriminate].
      apply submit_dma_keeps in Hsub as ((Hreq & _) & _).
      destruct (array_set _ _ _); [|discriminate]. injection Hdir as <- <- <-.
      exact Hreq. }
    destruct (negb (rv1 =? 0)); [injection H as <- <- <-; exact Hs|].
    exact (same_request_trans _ _ _ Hs (IH _ _ _ H)).
Qed.

Lemma request_accepted_checks env m karg :
  request_accepted env m karg ->
  negb (Z.land (chunk_sz karg) (PAGE_CACHE_SIZE - 1) =? 0)
  || (chunk_sz karg <? PAGE_CACHE_SIZE)
  || (chunk_sz karg >? STROM_DMA_SSD2GPU_MAXLEN) = false /\
  (u64 (u64 (map_offset m + offset karg)
        + karg_int env (nr_chunks karg * chunk_sz karg)) >? map_length m) = false.
Proof.
  intros (Halign & Hsz & Hbound). rewrite Halign. simpl.
  rewrite (proj2 (Z.ltb_ge _ _)) by lia. simpl.
  rewrite !Z.gtb_ltb, !(proj2 (Z.ltb_ge _ _)) by lia. done.
Qed.

(** C8. The file position of a chunk is [chunk_id * chunk_sz] when
    [relseg_sz] is 0 and [(chunk_id mod relseg_sz) * chunk_sz] otherwise;
    and when the chunks before chunk number [p] of an accepted request have
    been processed without error and the position of chunk [p] is beyond
    the end of the file, the batch returns [-ERANGE] at that chunk. *)
Theorem chunk_fpos_and_eof_check env m karg dtask ids out (p : nat) chunk_id dest' st' :
  request_accepted env m karg ->
  Z.of_nat (length ids) = nr_chunks karg -> nr_chunks karg < 2 ^ 31 ->
  0 <= chunk_id < 2 ^ 32 -> 0 <= relseg_sz karg ->
  ids !! p = Some chunk_id ->
  memcpy_ssd2gpu_writeback_loop env m ids p 0 (u64 (map_offset m + offset karg))
    (mk_sched karg dtask out []) = Some (0, dest', st') ->
  chunk_fpos karg chunk_id
  = (if relseg_sz karg =? 0 then chunk_id * chunk_sz karg
     else (chunk_id mod relseg_sz karg) * chunk_sz karg) /\
  (i_size env < chunk_fpos karg chunk_id ->
   memcpy_ssd2gpu_writeback env m karg dtask ids out = Some (- ERANGE, st')).
Proof.
  intros (Halign & Hsz & Hbound) Hlen Hmax Hc Hr Hp Hloop.
  assert (Hsz' : 0 <= chunk_sz karg <= STROM_DMA_SSD2GPU_MAXLEN)
    by (unfold PAGE_CACHE_SIZE in Hsz; lia).
  pose proof (chunk_fpos_spec karg chunk_id Hc Hr Hsz') as Hfpos.
  split; [exact Hfpos|]. intros Heof.
  pose proof (lookup_lt_Some _ _ _ Hp) as Hlt.
  unfold memcpy_ssd2gpu_writeback.
  destruct (request_accepted_checks env m karg (conj Halign (conj Hsz Hbound)))
    as [-> ->].
  replace (Z.to_nat (nr_chunks karg)) with (p + S (length ids - S p))%nat by lia.
  rewrite memcpy_ssd2gpu_writeback_loop_app, Hloop. simpl negb. cbv iota.
  rewrite advance_small by lia. rewrite Z.add_0_l.
  pose proof (memcpy_ssd2gpu_writeback_loop_same_request _ _ _ _ _ _ _ _ _ _ Hloop)
    as Hsame. simpl in Hsame.
  simpl memcpy_ssd2gpu_writeback_loop.
  unfold array_get. rewrite (proj2 (Z.ltb_ge _ _)) by lia.
  rewrite Nat2Z.id, Hp. rewrite (chunk_fpos_same_request _ _ _ Hsame).
  assert (Hpos : 0 <= chunk_fpos karg chunk_id < 2 ^ 64).
  { rewrite Hfpos. unfold STROM_DMA_SSD2GPU_MAXLEN in Hsz'.
    change (2 ^ 32) with 4294967296 in Hc.
    change (2 ^ 64) with 18446744073709551616.
    destruct (relseg_sz karg =? 0) eqn:E; [nia|].
    apply Z.eqb_neq in E.
    pose proof (Z.mod_pos_bound chunk_id (relseg_sz karg) ltac:(lia)).
    pose proof (Z.mod_le chunk_id (relseg_sz karg) ltac:(lia) ltac:(lia)). nia. }
  assert (Hal : Z.land (chunk_fpos karg chunk_id) (PAGE_CACHE_SIZE - 1) = 0).
  { change (PAGE_CACHE_SIZE - 1) with (Z.ones 12) in *.
    rewrite Z.land_ones in * by lia. rewrite Hfpos.
    destruct (relseg_sz karg =? 0).
    - rewrite <- Z.mul_mod_idemp_r, Halign by lia. rewrite Z.mul_0_r. reflexivity.
    - rewrite <- Z.mul_mod_idemp_r, Halign by lia. rewrite Z.mul_0_r. reflexivity. }
  rewrite Hal. simpl negb. cbv iota.
  rewrite u64_small by exact Hpos.
  rewrite (proj2 (Z.gtb_gt _ _)) by lia. reflexivity.
Qed.

Lemma chunk_fpos_and_eof_check_witness :
  exists st',
    chunk_fpos two_chunks 262145 = 262145 * 4096 /\
    i_size (contiguous_cold_env 1000) < chunk_fpos two_chunks 262145 /\
    memcpy_ssd2gpu_writeback (contiguous_cold_env 1000) region_1MiB two_chunks
      fresh_dtask two_chunk_ids [0; 0] = Some (- ERANGE, st') /\
    nr_ssd2gpu (sc_karg st') = 1.
Proof.
  destruct (memcpy_ssd2gpu_writeback_loop (contiguous_cold_env 1000) region_1MiB
              two_chunk_ids 1 0 (u64 (map_offset region_1MiB + offset two_chunks))
              (mk_sched two_chunks fresh_dtask [0; 0] []))
    as [[[rv dest'] st']|] eqn:Hloop; [|vm_compute in Hloop; discriminate].
  assert (Hrv : rv = 0) by (vm_compute in Hloop; congruence).
  subst rv.
  destruct (chunk_fpos_and_eof_check (contiguous_cold_env 1000) region_1MiB
              two_chunks fresh_dtask two_chunk_ids [0; 0] 1 262145 dest' st')
    as [Hfpos Heof].
  - vm_compute. repeat split; congruence.
  - reflexivity.
  - vm_compute. reflexivity.
  - vm_compute. split; congruence.
  - vm_compute. congruence.
  - reflexivity.
  - exact Hloop.
  - exists st'. split; [exact Hfpos|].
    assert (Hlt : i_size (contiguous_cold_env 1000) < chunk_fpos two_chunks 262145)
      by (vm_compute; reflexivity).
    split; [exact Hlt|]. split; [exact (Heof Hlt)|].
    vm_compute in Hloop. injection Hloop as _ <-. reflexivity.
Defined.

(** ** The request scheduler: the cache score *)

Lemma page_score_nonneg threshold r : 0 <= threshold -> 0 <= page_score threshold r.
Proof. intros H. destruct r as [[|]|]; simpl; lia. Qed.

Lemma page_score_le threshold r :
  0 <= threshold -> page_score threshold r <= threshold + 1.
Proof. intros H. destruct r as [[|]|]; simpl; lia. Qed.

Lemma sum_page_scores_bounds threshold f n k :
  0 <= threshold ->
  (forall p, 0 <= f p <= threshold + 1) ->
  0 <= sum_page_scores f n k <= Z.of_nat n * (threshold + 1).
Proof.
  intros Ht Hf. revert k. induction n as [|n IH]; intros k; simpl; [lia|].
  specialize (IH (k + 1)). specialize (Hf k). nia.
Qed.

Lemma sum_page_scores_ge threshold f n k j :
  0 <= threshold ->
  (forall p, 0 <= f p <= threshold + 1) ->
  0 <= j < Z.of_nat n -> f (k + j) = threshold + 1 ->
  threshold + 1 <= sum_page_scores f n k.
Proof.
  intros Ht Hf. revert k j. induction n as [|n IH]; intros k j Hj Hd; simpl; [lia|].
  pose proof (sum_page_scores_bounds threshold f n (k + 1) Ht Hf) as Hb.
  destruct (decide (j = 0)) as [->|Hne].
  - rewrite Z.add_0_r in Hd. lia.
  - specialize (IH (k + 1) (j - 1) ltac:(lia)).
    replace (k + 1 + (j - 1)) with (k + j) in IH by lia.
    specialize (IH Hd). specialize (Hf k). lia.
Qed.

(** The loop over the pages of a chunk adds up the scores of the pages
    [k, k + 1, ...] as long as these numbers fit its [int k]. *)
Lemma probe_pages_score env i n k threshold score :
  0 <= k -> k + Z.of_nat n < 2 ^ 31 -> 0 <= threshold -> 0 <= score ->
  score + Z.of_nat n * (threshold + 1) < 2 ^ 31 ->
  snd (probe_pages env i n k threshold score)
  = score + sum_page_scores (fun p => page_score threshold (page_cache env i p)) n k.
Proof.
  revert k score. induction n as [|n IH]; intros k score Hk Hn Ht Hs Hb; simpl; [lia|].
  rewrite u64_small by lia.
  destruct (probe_pages env i n (s32 (k + 1)) threshold _) as [rest final] eqn:Hp.
  simpl. change final with (snd (rest, final)). rewrite <- Hp.
  rewrite (s32_small (k + 1)) by lia.
  unfold find_lock_page. destruct (page_cache env i k) as [[|]|]; simpl.
  - rewrite (s32_small (threshold + 1)) by nia.
    rewrite (s32_small (score + _)) by nia. rewrite IH by nia. lia.
  - rewrite (s32_small (score + 1)) by nia. rewrite IH by nia. lia.
  - rewrite IH by nia. lia.
Qed.

(** For a chunk that lies below 8 TiB in its file, the score computed is
    the score of the specification, the chunk goes to the write-back path
    iff the score exceeds the threshold, and it does whenever one of its
    pages is in the page cache and dirty. *)
Lemma chunk_score_below_8TiB env m k i c :
  request_accepted env m k ->
  0 <= chunk_fpos k c ->
  chunk_fpos k c / PAGE_CACHE_SIZE + chunk_sz k / PAGE_CACHE_SIZE < 2 ^ 31 ->
  chunk_threshold k = chunk_sz k / PAGE_CACHE_SIZE / 2 /\
  chunk_score env k i c = cache_score_spec env k i c /\
  (to_writeback env k i c = true <-> cache_score_spec env k i c > chunk_threshold k) /\
  (has_dirty_page env k i c -> to_writeback env k i c = true).
Proof.
  intros (Halign & Hsz & _) Hpos Hfit.
  unfold PAGE_CACHE_SIZE, STROM_DMA_SSD2GPU_MAXLEN in *.
  assert (Hn : chunk_nr_pages k = chunk_sz k / 4096).
  { unfold chunk_nr_pages, PAGE_CACHE_SHIFT. rewrite Z.shiftr_div_pow2 by lia.
    change (2 ^ 12) with 4096. apply u32_small.
    pose proof (Z.div_pos (chunk_sz k) 4096 ltac:(lia) ltac:(lia)).
    pose proof (Z.div_le_upper_bound (chunk_sz k) 4096 32 ltac:(lia) ltac:(lia)).
    lia. }
  assert (Hnb : 1 <= chunk_sz k / 4096 <= 32).
  { split; [apply Z.div_le_lower_bound; lia|apply Z.div_le_upper_bound; lia]. }
  assert (Hth : chunk_threshold k = chunk_sz k / 4096 / 2).
  { unfold chunk_threshold. rewrite Hn. apply s32_small.
    pose proof (Z.div_pos (chunk_sz k / 4096) 2 ltac:(lia) ltac:(lia)).
    pose proof (Z.div_le_upper_bound (chunk_sz k / 4096) 2 16 ltac:(lia) ltac:(lia)).
    lia. }
  assert (Htb : 0 <= chunk_sz k / 4096 / 2 <= 16).
  { split; [apply Z.div_pos; lia|apply Z.div_le_upper_bound; lia]. }
  assert (Hscore : chunk_score env k i c = cache_score_spec env k i c).
  { unfold chunk_score, chunk_probe, cache_score_spec, PAGE_CACHE_SIZE, PAGE_CACHE_SHIFT.
    rewrite Hth, Hn, Z.shiftr_div_pow2 by lia. change (2 ^ 12) with 4096.
    pose proof (Z.div_pos (chunk_fpos k c) 4096 Hpos ltac:(lia)).
    rewrite (s32_small (chunk_fpos k c / 4096)) by lia.
    rewrite probe_pages_score; [lia|lia|lia|lia|lia|].
    rewrite Z2Nat.id by lia. nia. }
  split; [exact Hth|]. split; [exact Hscore|]. split.
  - unfold to_writeback. rewrite Hscore, Z.gtb_gt. reflexivity.
  - intros (j & Hj & Hdirty). unfold to_writeback. rewrite Hscore, Hth.
    apply Z.gtb_gt. unfold cache_score_spec, PAGE_CACHE_SIZE.
    assert (threshold_le :
      chunk_sz k / 4096 / 2 + 1
      <= sum_page_scores
           (fun p => page_score (chunk_sz k / 4096 / 2) (page_cache env i p))
           (Z.to_nat (chunk_sz k / 4096)) (chunk_fpos k c / 4096)).
    { unfold PAGE_CACHE_SIZE in Hj, Hdirty.
      apply (sum_page_scores_ge _ _ _ _ j); [lia| |rewrite Z2Nat.id by lia; exact Hj|].
      - intros p. split; [apply page_score_nonneg|apply page_score_le]; lia.
      - rewrite Hdirty. reflexivity. }
    lia.
Qed.

(** C7, at a chunk at 8 TiB of its file.  The only page of the chunk is in
    the page cache and dirty, so its score is [threshold + 1 = 1] and the
    specification routes it to the write-back path; the loop probes the
    page cache with an [int] page number, finds nothing, computes score 0,
    and the batch sends the chunk down the direct path. *)
Theorem dirty_chunk_at_8TiB_goes_direct :
  chunk_fpos chunk_at_8TiB 2147483648 = 8796093022208 /\
  has_dirty_page huge_file_env chunk_at_8TiB 0 2147483648 /\
  chunk_threshold chunk_at_8TiB = 0 /\
  cache_score_spec huge_file_env chunk_at_8TiB 0 2147483648 = 1 /\
  chunk_score huge_file_env chunk_at_8TiB 0 2147483648 = 0 /\
  to_writeback huge_file_env chunk_at_8TiB 0 2147483648 = false /\
  exists st,
    memcpy_ssd2gpu_writeback huge_file_env region_1MiB chunk_at_8TiB fresh_dtask
      [2147483648] [0] = Some (0, st) /\
    nr_ssd2gpu (sc_karg st) = 1 /\ nr_ram2gpu (sc_karg st) = 0 /\
    writeback_calls (sc_trace st) = [].
Proof.
  split; [reflexivity|]. split.
  { exists 0. split; [vm_compute; split; congruence|reflexivity]. }
  split; [reflexivity|]. split; [reflexivity|]. split; [reflexivity|].
  split; [reflexivity|].
  eexists. split; [vm_compute; reflexivity|]. repeat split.
Qed.

(** ** The request scheduler: errors *)

(** An error of the loop over the chunks is what the batch returns. *)
Lemma batch_returns_loop_error env m karg dtask ids out rv dest st :
  request_accepted env m karg ->
  memcpy_ssd2gpu_writeback_loop env m ids (Z.to_nat (nr_chunks karg)) 0
    (u64 (map_offset m + offset karg)) (mk_sched karg dtask out [])
  = Some (rv, dest, st) ->
  rv <> 0 ->
  memcpy_ssd2gpu_writeback env m karg dtask ids out = Some (rv, st).
Proof.
  intros Hacc Hloop Hrv. unfold memcpy_ssd2gpu_writeback.
  destruct (request_accepted_checks env m karg Hacc) as [-> ->].
  rewrite Hloop. apply Z.eqb_neq in Hrv. rewrite Hrv. reflexivity.
Qed.

(** A failed block lookup ends [__memcpy_ssd2gpu_submit_dma] with its
    error. *)
Lemma submit_dma_block_error env m n fpos curr st rv b :
  strom_get_block env (u64 (Z.shiftr fpos (blocksz_shift (sc_dtask st)))) = (rv, b) ->
  rv <> 0 ->
  __memcpy_ssd2gpu_submit_dma env m (S n) fpos curr st = Some (rv, st).
Proof.
  intros Hb Hrv. simpl. rewrite Hb. apply Z.eqb_neq in Hrv. rewrite Hrv. reflexivity.
Qed.

(** The error of the submission after the last chunk is not what the batch
    returns: whatever [submit_ssd2gpu_memcpy] returns there, the batch
    returns 0. *)
Lemma batch_ignores_final_submit env m karg dtask ids out dest st rv evs :
  request_accepted env m karg ->
  memcpy_ssd2gpu_writeback_loop env m ids (Z.to_nat (nr_chunks karg)) 0
    (u64 (map_offset m + offset karg)) (mk_sched karg dtask out [])
  = Some (0, dest, st) ->
  nr_blocks (sc_dtask st) > 0 ->
  submit_ssd2gpu_memcpy env m (sc_dtask st) = Some (rv, evs) ->
  karg_int env (nr_ram2gpu (sc_karg st) + nr_ssd2gpu (sc_karg st))
  = nr_chunks (sc_karg st) ->
  memcpy_ssd2gpu_writeback env m karg dtask ids out
  = Some (0, add_trace evs
               (with_karg (count_dma_submit (nr_blocks (sc_dtask st)) (sc_karg st)) st)).
Proof.
  intros Hacc Hloop Hpos Hsub Hassert. unfold memcpy_ssd2gpu_writeback.
  destruct (request_accepted_checks env m karg Hacc) as [-> ->].
  rewrite Hloop. simpl negb. cbv iota. unfold submit_pending.
  rewrite (proj2 (Z.gtb_gt _ _) Hpos), Hsub. simpl.
  rewrite Hassert, Z.eqb_refl. reflexivity.
Qed.

(** C6, on a device that refuses every read command with [-ENOMEM].  With
    five chunks the first transfer is submitted inside the loop and its
    error is returned; with a single chunk the only transfer is the one
    submitted after the last chunk, it fails with the same error, and the
    batch returns 0. *)
Theorem final_submit_error_is_lost :
  (exists st,
     memcpy_ssd2gpu_writeback refusing_device_env region_1MiB five_chunks
       fresh_dtask [0; 1; 2; 3; 4] [0; 0; 0; 0; 0] = Some (- ENOMEM, st) /\
     dma_submissions (sc_trace st) = [(1000, 32, - ENOMEM)]) /\
  (exists st,
     memcpy_ssd2gpu_writeback refusing_device_env region_1MiB one_chunk
       fresh_dtask [0] [0] = Some (0, st) /\
     dma_submissions (sc_trace st) = [(1000, 1, - ENOMEM)]).
Proof.
  split; eexists; (split; [vm_compute; reflexivity|reflexivity]).
Qed.

(** ** The request scheduler: five cold chunks of 32 KiB *)

(** C5, as stated, does not hold.  Five chunks of 32 KiB with the ids 0 to
    4, none of them in the page cache, in a file that is contiguous on
    storage from block 1000 on, to the start of a region of 1 MiB: the
    batch returns 0 after two transfers, of 32 and of 8 blocks, not after
    one. *)
Lemma five_cold_chunks_two_transfers :
  exists st,
    memcpy_ssd2gpu_writeback (contiguous_cold_env 1000) region_1MiB five_chunks
      fresh_dtask [0; 1; 2; 3; 4] [0; 0; 0; 0; 0] = Some (0, st) /\
    dma_submissions (sc_trace st) = [(1000, 32, 0); (1032, 8, 0)] /\
    nr_dma_submit (sc_karg st) = 2 /\
    ~ (length (dma_submissions (sc_trace st)) = 1%nat).
Proof.
  eexists. split; [vm_compute; reflexivity|].
  split; [reflexivity|]. split; [reflexivity|]. simpl. discriminate.
Qed.

Lemma with_dtask_id st : with_dtask (sc_dtask st) st = st.
Proof. destruct st. reflexivity. Qed.

Lemma set_nr_blocks_id d : set_nr_blocks (nr_blocks d) d = d.
Proof. destruct d. reflexivity. Qed.

Lemma with_dtask_twice d1 d2 st : with_dtask d2 (with_dtask d1 st) = with_dtask d2 st.
Proof. reflexivity. Qed.

(** On a contiguous file, [n] more pages that continue the pending run are
    merged into it as long as the run stays within [max_nblocks]. *)
Lemma submit_dma_merges env m b0 n :
  contiguous_from b0 env ->
  forall fpos curr st,
    run_reaches b0 fpos curr (sc_dtask st) ->
    nr_blocks (sc_dtask st) + Z.of_nat n <= max_nblocks (sc_dtask st) ->
    max_nblocks (sc_dtask st) < 2 ^ 32 ->
    0 <= b0 -> 0 <= fpos -> fpos mod 4096 = 0 ->
    b0 + fpos / 4096 + Z.of_nat n < 2 ^ 62 ->
    fpos + 4096 * Z.of_nat n < 2 ^ 62 -> curr + 4096 * Z.of_nat n < 2 ^ 62 ->
    __memcpy_ssd2gpu_submit_dma env m n fpos curr st
    = Some (0, with_dtask (set_nr_blocks (nr_blocks (sc_dtask st) + Z.of_nat n)
                                         (sc_dtask st)) st).
Proof.
  intros Hcont. induction n as [|n IH];
    intros fpos curr st Hrun Hmax Hm32 Hb0 Hfpos Hal Hblk Hf Hc.
  { simpl. rewrite Z.add_0_r, set_nr_blocks_id, with_dtask_id. reflexivity. }
  destruct Hrun as (Hshift & Hbs & Hsrc & Hdst & Hnb & Hs & Hd).
  pose proof (Z.div_pos fpos 4096 Hfpos ltac:(lia)) as Hdiv.
  cbn [__memcpy_ssd2gpu_submit_dma]. rewrite Hshift, Z.shiftr_div_pow2 by lia.
  change (2 ^ 12) with 4096. rewrite u64_small by lia. rewrite Hcont. simpl negb.
  cbv iota.
  assert (Hmerge : can_merge (sc_dtask st) 1 (b0 + fpos / 4096) curr = true).
  { apply can_merge_spec; [|unfold mergeable; rewrite Hbs; lia].
    unfold pending_in_range. rewrite Hbs. repeat split; try lia; try nia. }
  unfold submit_dma_page. rewrite Hshift.
  change (u32 (Z.shiftr PAGE_CACHE_SIZE 12)) with 1. rewrite Hmerge.
  rewrite u32_small by lia. simpl negb. cbv iota.
  unfold PAGE_CACHE_SIZE. rewrite !s64_small by lia.
  rewrite IH.
  - cbn [sc_dtask with_dtask nr_blocks set_nr_blocks set_pending dest_offset src_block].
    do 2 f_equal. unfold with_dtask, set_nr_blocks, set_pending. simpl.
    do 2 f_equal. lia.
  - cbn [sc_dtask with_dtask]. unfold run_reaches, set_nr_blocks, set_pending. simpl.
    replace ((fpos + 4096) / 4096) with (fpos / 4096 + 1)
      by (rewrite <- (Z.div_add fpos 1 4096) by lia; f_equal; lia).
    repeat split; lia.
  - cbn [sc_dtask with_dtask]. unfold set_nr_blocks, set_pending. simpl. lia.
  - exact Hm32.
  - exact Hb0.
  - lia.
  - rewrite <- Z.add_mod_idemp_r, Z.mod_same, Z.add_0_r by lia. exact Hal.
  - replace ((fpos + 4096) / 4096) with (fpos / 4096 + 1)
      by (rewrite <- (Z.div_add fpos 1 4096) by lia; f_equal; lia).
    lia.
  - lia.
  - lia.
Qed.

(** With an empty pending run, the first page starts a run and the
    following pages are merged into it. *)
Lemma submit_dma_starts env m b0 n :
  contiguous_from b0 env ->
  forall fpos curr st,
    blocksz_shift (sc_dtask st) = 12 -> blocksz (sc_dtask st) = 4096 ->
    nr_blocks (sc_dtask st) = 0 ->
    1 + Z.of_nat n <= max_nblocks (sc_dtask st) ->
    max_nblocks (sc_dtask st) < 2 ^ 32 ->
    0 <= b0 -> 0 <= fpos -> fpos mod 4096 = 0 -> 0 <= curr ->
    b0 + fpos / 4096 + 1 + Z.of_nat n < 2 ^ 62 ->
    fpos + 4096 * (1 + Z.of_nat n) < 2 ^ 62 ->
    curr + 4096 * (1 + Z.of_nat n) < 2 ^ 62 ->
    __memcpy_ssd2gpu_submit_dma env m (S n) fpos curr st
    = Some (0, with_dtask (set_pending curr (b0 + fpos / 4096) (1 + Z.of_nat n)
                                       (sc_dtask st)) st).
Proof.
  intros Hcont fpos curr st Hshift Hbs Hzero Hmax Hm32 Hb0 Hfpos Hal Hcurr Hblk Hf Hc.
  pose proof (Z.div_pos fpos 4096 Hfpos ltac:(lia)) as Hdiv.
  cbn [__memcpy_ssd2gpu_submit_dma]. rewrite Hshift, Z.shiftr_div_pow2 by lia.
  change (2 ^ 12) with 4096. rewrite u64_small by lia. rewrite Hcont. simpl negb.
  cbv iota. unfold submit_dma_page, can_merge. rewrite Hshift, Hzero.
  change (0 >? 0) with false. simpl andb. cbv iota.
  change (u32 (Z.shiftr PAGE_CACHE_SIZE 12)) with 1. simpl negb. cbv iota.
  unfold PAGE_CACHE_SIZE. rewrite !s64_small by lia.
  rewrite (submit_dma_merges env m b0 n Hcont).
  - cbn [sc_dtask with_dtask]. unfold with_dtask, set_nr_blocks, set_pending. simpl.
    do 4 f_equal.
  - cbn [sc_dtask with_dtask]. unfold run_reaches, set_pending. simpl.
    replace ((fpos + 4096) / 4096) with (fpos / 4096 + 1)
      by (rewrite <- (Z.div_add fpos 1 4096) by lia; f_equal; lia).
    repeat split; lia.
  - cbn [sc_dtask with_dtask]. unfold set_pending. simpl. lia.
  - exact Hm32.
  - exact Hb0.
  - lia.
  - rewrite <- Z.add_mod_idemp_r, Z.mod_same, Z.add_0_r by lia. exact Hal.
  - replace ((fpos + 4096) / 4096) with (fpos / 4096 + 1)
      by (rewrite <- (Z.div_add fpos 1 4096) by lia; f_equal; lia).
    lia.
  - lia.
  - lia.
Qed.

(** With a pending run of [max_nblocks] blocks, the first page has the run
    submitted and starts the next one, into which the following pages are
    merged. *)
Lemma submit_dma_flushes env m b0 n evs :
  contiguous_from b0 env ->
  forall fpos curr st,
    blocksz_shift (sc_dtask st) = 12 -> blocksz (sc_dtask st) = 4096 ->
    nr_blocks (sc_dtask st) = max_nblocks (sc_dtask st) ->
    0 < max_nblocks (sc_dtask st) < 2 ^ 32 - 1 ->
    1 + Z.of_nat n <= max_nblocks (sc_dtask st) ->
    submit_ssd2gpu_memcpy env m (sc_dtask st) = Some (0, evs) ->
    0 <= b0 -> 0 <= fpos -> fpos mod 4096 = 0 -> 0 <= curr ->
    b0 + fpos / 4096 + 1 + Z.of_nat n < 2 ^ 62 ->
    fpos + 4096 * (1 + Z.of_nat n) < 2 ^ 62 ->
    curr + 4096 * (1 + Z.of_nat n) < 2 ^ 62 ->
    __memcpy_ssd2gpu_submit_dma env m (S n) fpos curr st
    = Some (0, with_dtask (set_pending curr (b0 + fpos / 4096) (1 + Z.of_nat n)
                                       (sc_dtask st))
                 (add_trace evs
                    (with_karg (count_dma_submit (nr_blocks (sc_dtask st)) (sc_karg st))
                               st))).
Proof.
  intros Hcont fpos curr st Hshift Hbs Hfull Hm32 Hmax Hsub Hb0 Hfpos Hal Hcurr
         Hblk Hf Hc.
  pose proof (Z.div_pos fpos 4096 Hfpos ltac:(lia)) as Hdiv.
  cbn [__memcpy_ssd2gpu_submit_dma]. rewrite Hshift, Z.shiftr_div_pow2 by lia.
  change (2 ^ 12) with 4096. rewrite u64_small by lia. rewrite Hcont. simpl negb.
  cbv iota. unfold submit_dma_page, can_merge. rewrite Hshift.
  change (u32 (Z.shiftr PAGE_CACHE_SIZE 12)) with 1.
  rewrite u32_small by lia.
  replace (nr_blocks (sc_dtask st) + 1 <=? max_nblocks (sc_dtask st)) with false
    by (symmetry; apply Z.leb_gt; lia).
  rewrite andb_false_r. simpl andb. cbv iota.
  rewrite (proj2 (Z.gtb_gt _ _)) by lia. rewrite Hsub. simpl negb. cbv iota.
  unfold PAGE_CACHE_SIZE. rewrite !s64_small by lia.
  rewrite (submit_dma_merges env m b0 n Hcont).
  - cbn [sc_dtask with_dtask add_trace with_karg].
    unfold with_dtask, set_nr_blocks, set_pending. simpl. do 4 f_equal.
  - cbn [sc_dtask with_dtask]. unfold run_reaches, set_pending. simpl.
    replace ((fpos + 4096) / 4096) with (fpos / 4096 + 1)
      by (rewrite <- (Z.div_add fpos 1 4096) by lia; f_equal; lia).
    repeat split; lia.
  - cbn [sc_dtask with_dtask]. unfold set_pending. simpl. lia.
  - cbn [sc_dtask with_dtask]. unfold set_pending. simpl. lia.
  - exact Hb0.
  - lia.
  - rewrite <- Z.add_mod_idemp_r, Z.mod_same, Z.add_0_r by lia. exact Hal.
  - replace ((fpos + 4096) / 4096) with (fpos / 4096 + 1)
      by (rewrite <- (Z.div_add fpos 1 4096) by lia; f_equal; lia).
    lia.
  - lia.
  - lia.
Qed.

Lemma probe_pages_cold env i n k threshold score :
  cold env -> probe_pages env i n k threshold score = (replicate n None, score).
Proof.
  intros Hcold. revert k. induction n as [|n IH]; intros k; simpl; [reflexivity|].
  unfold find_lock_page. rewrite Hcold. simpl. rewrite IH. reflexivity.
Qed.

(** In a cold file, a turn of the loop over the chunks takes the direct
    path. *)
Lemma memcpy_ssd2gpu_writeback_loop_cold env m ids n i dest st c :
  cold env ->
  array_get ids i = Some c ->
  Z.land (chunk_fpos (sc_karg st) c) (PAGE_CACHE_SIZE - 1) = 0 ->
  u64 (chunk_fpos (sc_karg st) c) <= i_size env ->
  0 <= chunk_threshold (sc_karg st) ->
  memcpy_ssd2gpu_writeback_loop env m ids (S n) i dest st
  = match chunk_direct env m c (chunk_fpos (sc_karg st) c) dest
            (with_dtask
               (set_file_pages
                  (replicate (Z.to_nat (chunk_nr_pages (sc_karg st))) None
                   ++ drop (Z.to_nat (chunk_nr_pages (sc_karg st)))
                           (file_pages (sc_dtask st)))
                  (sc_dtask st)) st) with
    | None => None
    | Some (rv, dest', st1) =>
        if negb (rv =? 0) then Some (rv, dest', st1)
        else memcpy_ssd2gpu_writeback_loop env m ids n (s32 (i + 1)) dest' st1
    end.
Proof.
  intros Hcold Hget Hal Heof Hth. cbn [memcpy_ssd2gpu_writeback_loop].
  rewrite Hget, Hal. simpl negb. cbv iota.
  rewrite Z.gtb_ltb, (proj2 (Z.ltb_ge _ _)) by exact Heof.
  unfold chunk_probe. rewrite probe_pages_cold by exact Hcold.
  rewrite length_replicate.
  rewrite Z.gtb_ltb, (proj2 (Z.ltb_ge _ _)) by exact Hth. reflexivity.
Qed.

Lemma five_chunks_fpos c :
  0 <= c < 2 ^ 32 ->
  chunk_fpos five_chunks c = c * 32768 /\
  Z.land (c * 32768) (PAGE_CACHE_SIZE - 1) = 0 /\
  c * 32768 / 4096 = 8 * c /\
  (c * 32768) mod 4096 = 0.
Proof.
  intros Hc. split.
  { rewrite chunk_fpos_spec; [reflexivity|exact Hc|vm_compute; congruence|].
    vm_compute. split; congruence. }
  change (PAGE_CACHE_SIZE - 1) with (Z.ones 12). rewrite Z.land_ones by lia.
  change (2 ^ 12) with 4096.
  replace (c * 32768) with (8 * c * 4096) by lia.
  rewrite Z.mod_mul, Z.div_mul by lia. done.
Qed.

(** A chunk on the direct path whose pages are all handled without error:
    its id is stored and counted. *)
Lemma chunk_direct_eval env m c fpos dl st st1 :
  karg_int_exact env ->
  __memcpy_ssd2gpu_submit_dma env m (Z.to_nat (chunk_nr_pages (sc_karg st))) fpos dl st
  = Some (0, st1) ->
  0 <= nr_ssd2gpu (sc_karg st1) < Z.of_nat (length (sc_out st1)) ->
  nr_ssd2gpu (sc_karg st1) < 2 ^ 31 - 1 ->
  0 <= dl + chunk_sz (sc_karg st1) < 2 ^ 64 ->
  chunk_direct env m c fpos dl st
  = Some (0, dl + chunk_sz (sc_karg st1),
          with_out (<[Z.to_nat (nr_ssd2gpu (sc_karg st1)) := u32 c]> (sc_out st1))
                   (with_karg (set_nr_ssd2gpu (nr_ssd2gpu (sc_karg st1) + 1)
                                              (sc_karg st1)) st1)).
Proof.
  intros Hint Hsub Hn Hmax Hdl. unfold chunk_direct. rewrite Hsub.
  unfold array_set.
  rewrite (proj2 (Z.leb_le _ _)), (proj2 (Z.ltb_lt _ _)) by lia. simpl andb. cbv iota.
  rewrite Hint by lia. rewrite u64_small by lia. reflexivity.
Qed.

Section FiveChunks.

Variable env : kernel_env.
Variables b0 : Z.
Hypothesis Hcold : cold env.
Hypothesis Hcont : contiguous_from b0 env.
Hypothesis Hint : karg_int_exact env.
Hypothesis Hb0 : 0 <= b0 < 2 ^ 61.

(** One turn of the loop for a chunk [c] of the scenario: what is left
    to show is what [__memcpy_ssd2gpu_submit_dma] does with its pages. *)
Lemma five_chunks_turn ids n i dl c nssd nsub nblk dest src nb out tr st1 :
  array_get ids i = Some c ->
  0 <= c < 2 ^ 32 -> c * 32768 <= i_size env ->
  0 <= dl < 2 ^ 32 ->
  __memcpy_ssd2gpu_submit_dma env region_1MiB 8 (c * 32768) dl
    (five_chunks_state nssd nsub nblk dest src nb out tr) = Some (0, st1) ->
  0 <= nr_ssd2gpu (sc_karg st1) < Z.of_nat (length (sc_out st1)) ->
  nr_ssd2gpu (sc_karg st1) < 2 ^ 31 - 1 ->
  chunk_sz (sc_karg st1) = 32768 ->
  memcpy_ssd2gpu_writeback_loop env region_1MiB ids (S n) i dl
    (five_chunks_state nssd nsub nblk dest src nb out tr)
  = memcpy_ssd2gpu_writeback_loop env region_1MiB ids n (s32 (i + 1)) (dl + 32768)
      (with_out (<[Z.to_nat (nr_ssd2gpu (sc_karg st1)) := u32 c]> (sc_out st1))
                (with_karg (set_nr_ssd2gpu (nr_ssd2gpu (sc_karg st1) + 1)
                                           (sc_karg st1)) st1)).
Proof.
  intros Hget Hc Heof Hdl Hsub Hn Hmax Hcs.
  destruct (five_chunks_fpos c Hc) as (Hf & Hal & Hd & Hm).
  assert (Hfpos : chunk_fpos (sc_karg (five_chunks_state nssd nsub nblk dest src
                                         nb out tr)) c = c * 32768) by exact Hf.
  rewrite (memcpy_ssd2gpu_writeback_loop_cold env region_1MiB ids n i dl _ c Hcold Hget).
  2:{ rewrite Hfpos. exact Hal. }
  2:{ rewrite Hfpos, u64_small; [exact Heof|]. change (2 ^ 32) with 4294967296 in Hc.
      change (2 ^ 64) with 18446744073709551616. lia. }
  2:{ vm_compute. congruence. }
  rewrite Hfpos.
  erewrite chunk_direct_eval; [| exact Hint | exact Hsub | exact Hn | exact Hmax |].
  2:{ rewrite Hcs. change (2 ^ 32) with 4294967296 in Hdl.
      change (2 ^ 64) with 18446744073709551616. lia. }
  rewrite Hcs. reflexivity.
Qed.

End FiveChunks.

(** The two transfers of the scenario, as [submit_ssd2gpu_memcpy] builds
    them over the device pages of [region_1MiB]. *)
Lemma submit_first_run env src :
  device_accepts env ->
  submit_ssd2gpu_memcpy env region_1MiB (set_pending 0 src 32 fresh_dtask)
  = Some (0, [EvSubmitDma src 32 [(4026531840, 65536); (4026597376, 65536)] 0]).
Proof.
  intros [Hkm Hdev]. unfold submit_ssd2gpu_memcpy.
  cbn [nr_blocks blocksz_shift dest_offset src_block set_pending fresh_dtask].
  change (u32 (Z.shiftl 32 12)) with 131072. rewrite Hkm.
  assert (Hsg : build_sg (length (page_table region_1MiB)) (page_table region_1MiB)
                  (s32 (Z.shiftr 0 (gpu_page_shift region_1MiB)))
                  (gpu_page_sz region_1MiB)
                  (Z.land 0 (gpu_page_sz region_1MiB - 1)) 131072 []
                = Some ([(4026531840, 65536); (4026597376, 65536)], 0))
    by (vm_compute; reflexivity).
  rewrite Hsg, Hdev. reflexivity.
Qed.

Lemma submit_second_run env src :
  device_accepts env ->
  submit_ssd2gpu_memcpy env region_1MiB (set_pending 131072 src 8 fresh_dtask)
  = Some (0, [EvSubmitDma src 8 [(4026662912, 32768)] 0]).
Proof.
  intros [Hkm Hdev]. unfold submit_ssd2gpu_memcpy.
  cbn [nr_blocks blocksz_shift dest_offset src_block set_pending fresh_dtask].
  change (u32 (Z.shiftl 8 12)) with 32768. rewrite Hkm.
  assert (Hsg : build_sg (length (page_table region_1MiB)) (page_table region_1MiB)
                  (s32 (Z.shiftr 131072 (gpu_page_shift region_1MiB)))
                  (gpu_page_sz region_1MiB)
                  (Z.land 131072 (gpu_page_sz region_1MiB - 1)) 32768 []
                = Some ([(4026662912, 32768)], 0))
    by (vm_compute; reflexivity).
  rewrite Hsg, Hdev. reflexivity.
Qed.

(** C5, as the scheduler behaves.  Five chunks of 32 KiB with consecutive
    ids from [c0] on, none of them in the page cache, in a file that is
    contiguous on storage from block [b0] on (blocks of 4 KiB), to the
    start of a region of 1 MiB with device pages of 64 KiB, on a device
    that accepts every command: the 160 KiB exceed the 128 KiB one read
    command may carry, so two transfers are submitted, the first of 32
    blocks for the chunks 1 to 4 and the second of 8 blocks for chunk 5;
    [nr_ssd2gpu] is 5 and [nr_ram2gpu] is 0. *)
Theorem five_cold_chunks_two_runs env b0 c0 out :
  cold env -> contiguous_from b0 env -> device_accepts env -> karg_int_exact env ->
  0 <= b0 < 2 ^ 61 -> 0 <= c0 -> c0 + 5 <= 2 ^ 32 ->
  (c0 + 5) * 32768 <= i_size env ->
  length out = 5%nat ->
  memcpy_ssd2gpu_writeback env region_1MiB five_chunks fresh_dtask
    [c0; c0 + 1; c0 + 2; c0 + 3; c0 + 4] out
  = Some (0, mk_sched (mk_karg 0 5 2 40 0 5 32768 0 268435456)
                      (set_pending 131072 (b0 + 8 * c0 + 32) 8 fresh_dtask)
                      [c0; c0 + 1; c0 + 2; c0 + 3; c0 + 4]
                      [EvSubmitDma (b0 + 8 * c0) 32
                         [(4026531840, 65536); (4026597376, 65536)] 0;
                       EvSubmitDma (b0 + 8 * c0 + 32) 8 [(4026662912, 32768)] 0]).
Proof.
  intros Hcold Hcont Hdev Hint Hb0 Hc0 Hc5 Hsize Hout.
  destruct out as [|o0 [|o1 [|o2 [|o3 [|o4 [|]]]]]]; try discriminate. clear Hout.
  assert (Hacc : request_accepted env region_1MiB five_chunks).
  { unfold request_accepted. cbn [chunk_sz five_chunks nr_chunks map_offset
      region_1MiB offset map_length].
    rewrite Hint by (vm_compute; split; congruence).
    vm_compute. repeat split; congruence. }
  unfold memcpy_ssd2gpu_writeback.
  destruct (request_accepted_checks env region_1MiB five_chunks Hacc) as [-> ->].
  change (Z.to_nat (nr_chunks five_chunks)) with 5%nat.
  change (u64 (map_offset region_1MiB + offset five_chunks)) with 0.
  change (mk_sched five_chunks fresh_dtask [o0; o1; o2; o3; o4] [])
    with (five_chunks_state 0 0 0 0 0 0 [o0; o1; o2; o3; o4] []).
  change (2 ^ 32) with 4294967296 in *. change (2 ^ 61) with 2305843009213693952 in *.
  pose proof (five_chunks_fpos c0 ltac:(lia)) as (_ & _ & Hd0 & Hm0).
  pose proof (five_chunks_fpos (c0 + 1) ltac:(lia)) as (_ & _ & Hd1 & Hm1).
  pose proof (five_chunks_fpos (c0 + 2) ltac:(lia)) as (_ & _ & Hd2 & Hm2).
  pose proof (five_chunks_fpos (c0 + 3) ltac:(lia)) as (_ & _ & Hd3 & Hm3).
  pose proof (five_chunks_fpos (c0 + 4) ltac:(lia)) as (_ & _ & Hd4 & Hm4).
  (* chunk 1 starts the run *)
  erewrite (five_chunks_turn env Hcold Hint _ 4 0 0 c0);
    [|reflexivity|lia|lia|lia
     |apply (submit_dma_starts env region_1MiB b0 7 Hcont);
      try reflexivity; cbn; lia
     |cbn; lia|cbn; lia|reflexivity].
  rewrite Hd0, (u32_small c0) by lia.
  change (with_out _ _)
    with (five_chunks_state 1 0 0 0 (b0 + 8 * c0) 8 [c0; o1; o2; o3; o4] []).
  (* chunks 2 to 4 are merged into it *)
  erewrite (five_chunks_turn env Hcold Hint _ 3 _ _ (c0 + 1));
    [|reflexivity|lia|lia|vm_compute; split; congruence
     |apply (submit_dma_merges env region_1MiB b0 8 Hcont);
      [unfold run_reaches; rewrite Hd1; cbn; repeat split; lia
      |cbn; lia..]
     |cbn; lia|cbn; lia|reflexivity].
  rewrite (u32_small (c0 + 1)) by lia.
  change (with_out _ _)
    with (five_chunks_state 2 0 0 0 (b0 + 8 * c0) 16 [c0; c0 + 1; o2; o3; o4] []).
  erewrite (five_chunks_turn env Hcold Hint _ 2 _ _ (c0 + 2));
    [|reflexivity|lia|lia|vm_compute; split; congruence
     |apply (submit_dma_merges env region_1MiB b0 8 Hcont);
      [unfold run_reaches; rewrite Hd2; cbn; repeat split; lia
      |cbn; lia..]
     |cbn; lia|cbn; lia|reflexivity].
  rewrite (u32_small (c0 + 2)) by lia.
  change (with_out _ _)
    with (five_chunks_state 3 0 0 0 (b0 + 8 * c0) 24
            [c0; c0 + 1; c0 + 2; o3; o4] []).
  erewrite (five_chunks_turn env Hcold Hint _ 1 _ _ (c0 + 3));
    [|reflexivity|lia|lia|vm_compute; split; congruence
     |apply (submit_dma_merges env region_1MiB b0 8 Hcont);
      [unfold run_reaches; rewrite Hd3; cbn; repeat split; lia
      |cbn; lia..]
     |cbn; lia|cbn; lia|reflexivity].
  rewrite (u32_small (c0 + 3)) by lia.
  change (with_out _ _)
    with (five_chunks_state 4 0 0 0 (b0 + 8 * c0) 32
            [c0; c0 + 1; c0 + 2; c0 + 3; o4] []).
  (* chunk 5 does not fit: the run is submitted and a new one starts *)
  erewrite (five_chunks_turn env Hcold Hint _ 0 _ _ (c0 + 4));
    [|reflexivity|lia|lia|vm_compute; split; congruence
     |apply (submit_dma_flushes env region_1MiB b0 7
               [EvSubmitDma (b0 + 8 * c0) 32
                  [(4026531840, 65536); (4026597376, 65536)] 0] Hcont);
      [reflexivity|reflexivity|reflexivity|vm_compute; split; congruence
      |cbn; lia|apply (submit_first_run env _ Hdev)|cbn; lia..]
     |cbn; lia|cbn; lia|reflexivity].
  rewrite Hd4, (u32_small (c0 + 4)) by lia.
  replace (b0 + 8 * (c0 + 4)) with (b0 + 8 * c0 + 32) by lia.
  change (with_out _ _)
    with (five_chunks_state 5 1 32 131072 (b0 + 8 * c0 + 32) 8
            [c0; c0 + 1; c0 + 2; c0 + 3; c0 + 4]
            [EvSubmitDma (b0 + 8 * c0) 32
               [(4026531840, 65536); (4026597376, 65536)] 0]).
  (* the last run is submitted after the loop *)
  cbn [memcpy_ssd2gpu_writeback_loop]. simpl negb. cbv iota.
  unfold submit_pending.
  change (nr_blocks (sc_dtask (five_chunks_state _ _ _ _ _ _ _ _)) >? 0) with true.
  cbv iota.
  change (sc_dtask (five_chunks_state 5 1 32 131072 (b0 + 8 * c0 + 32) 8
                      [c0; c0 + 1; c0 + 2; c0 + 3; c0 + 4]
                      [EvSubmitDma (b0 + 8 * c0) 32
                         [(4026531840, 65536); (4026597376, 65536)] 0]))
    with (set_pending 131072 (b0 + 8 * c0 + 32) 8 fresh_dtask).
  rewrite (submit_second_run env _ Hdev).
  cbn [sc_karg add_trace with_karg count_dma_submit nr_ram2gpu nr_ssd2gpu nr_chunks
       five_chunks_state].
  rewrite Hint by (vm_compute; split; congruence). reflexivity.
Qed.

Lemma five_cold_chunks_two_runs_witness :
  memcpy_ssd2gpu_writeback (contiguous_cold_env 1000) region_1MiB five_chunks
    fresh_dtask [0; 0 + 1; 0 + 2; 0 + 3; 0 + 4] [0; 0; 0; 0; 0]
  = Some (0, mk_sched (mk_karg 0 5 2 40 0 5 32768 0 268435456)
                      (set_pending 131072 (1000 + 8 * 0 + 32) 8 fresh_dtask)
                      [0; 0 + 1; 0 + 2; 0 + 3; 0 + 4]
                      [EvSubmitDma (1000 + 8 * 0) 32
                         [(4026531840, 65536); (4026597376, 65536)] 0;
                       EvSubmitDma (1000 + 8 * 0 + 32) 8 [(4026662912, 32768)] 0]).
Proof.
  apply (five_cold_chunks_two_runs (contiguous_cold_env 1000) 1000 0 [0; 0; 0; 0; 0]).
  - intros i k. reflexivity.
  - intros iblock. reflexivity.
  - split; intros; reflexivity.
  - apply karg_int_exact_u32. reflexivity.
  - vm_compute. split; congruence.
  - lia.
  - vm_compute. congruence.
  - vm_compute. congruence.
  - reflexivity.
Defined.

Lemma merge_iff_contiguous_else_flush_witness :
  let st := mk_sched five_chunks dtask_pending_8 [0; 0; 0; 0; 0] [] in
  pending_in_range dtask_pending_8 1 1008 32768 /\
  mergeable dtask_pending_8 1 1008 32768 /\
  submit_dma_page (contiguous_cold_env 1000) region_1MiB 1008 32768 st
  = Some (0, with_dtask (set_nr_blocks 9 dtask_pending_8) st) /\
  ~ mergeable dtask_pending_8 1 2000 32768 /\
  submit_dma_page (contiguous_cold_env 1000) region_1MiB 2000 32768 st
  = Some (0, mk_sched (count_dma_submit 8 five_chunks)
                      (set_pending 32768 2000 1 dtask_pending_8) [0; 0; 0; 0; 0]
                      [EvSubmitDma 1000 8 [(4026531840, 32768)] 0]).
Proof.
  intros st.
  assert (Hr1 : pending_in_range dtask_pending_8 1 1008 32768)
    by (vm_compute; repeat split; congruence).
  assert (Hr2 : pending_in_range dtask_pending_8 1 2000 32768)
    by (vm_compute; repeat split; congruence).
  assert (Hm : mergeable dtask_pending_8 1 1008 32768)
    by (vm_compute; repeat split; congruence).
  assert (Hn : ~ mergeable dtask_pending_8 1 2000 32768)
    by (intros (_ & H & _); vm_compute in H; discriminate).
  destruct (merge_iff_contiguous_else_flush (contiguous_cold_env 1000) region_1MiB
              1008 32768 st Hr1) as (_ & Hmerge & _).
  destruct (merge_iff_contiguous_else_flush (contiguous_cold_env 1000) region_1MiB
              2000 32768 st Hr2) as (_ & _ & Hflush & _).
  specialize (Hflush Hn ltac:(vm_compute; reflexivity)).
  split; [exact Hr1|]. split; [exact Hm|]. split; [exact (Hmerge Hm)|].
  split; [exact Hn|]. exact (proj2 Hflush).
Defined.

(** ** More on the mapping registry *)

Lemma land_lnot_ones_split v n :
  0 <= n -> Z.land v (Z.lnot (Z.ones n)) + Z.land v (Z.ones n) = v.
Proof.
  intros Hn. rewrite <- Z.ldiff_land, Z.ldiff_ones_r, Z.land_ones by lia.
  rewrite Z.shiftl_mul_pow2, Z.shiftr_div_pow2 by lia.
  pose proof (Z.div_mod v (2 ^ n)). lia.
Qed.

Lemma GPU_BOUND_OFFSET_ones : GPU_BOUND_OFFSET = Z.ones 16.
Proof. reflexivity. Qed.

(** What [ioctl_map_gpu_memory] registers once the pages are pinned. *)
Lemma ioctl_map_gpu_memory_registers
    addr hindex euid vaddress length psz pages s s' rv :
  0 <= vaddress < 2 ^ 64 -> 0 <= length -> vaddress + length < 2 ^ 64 ->
  ioctl_map_gpu_memory addr hindex euid vaddress length psz pages s = Some (s', rv) ->
  (rv = 0 /\
   exists m, mgmems s' !! addr = Some m /\
     map_address m + map_offset m = vaddress /\
     map_address m mod 65536 = 0 /\ 0 <= map_offset m < 65536 /\
     map_length m = map_offset m + length /\
     map_address m + map_length m = vaddress + length /\
     gpu_page_sz m = 2 ^ gpu_page_shift m /\
     mg_chained m = true /\ owner m = euid /\ mg_refcnt m = 0 /\
     handle m = addr /\ page_table m = pages /\
     (forall h, h <> addr -> mgmems s' !! h = mgmems s !! h) /\
     releasing s' = releasing s) \/
  (rv = - EINVAL /\ s' = s /\ psz = NVIDIA_P2P_PAGE_SIZE_OTHER).
Proof.
  intros Hv Hl Hsum. unfold ioctl_map_gpu_memory.
  destruct (mgmems s !! addr); [discriminate|].
  pose proof (land_lnot_ones_split vaddress 16 ltac:(lia)) as Hsplit.
  assert (Hoff : Z.land vaddress GPU_BOUND_OFFSET = vaddress mod 65536).
  { rewrite GPU_BOUND_OFFSET_ones, Z.land_ones by lia. reflexivity. }
  assert (Hbase : Z.land vaddress (Z.lnot GPU_BOUND_OFFSET) = vaddress - vaddress mod 65536).
  { rewrite GPU_BOUND_OFFSET_ones. rewrite Z.land_ones in Hsplit by lia.
    change (2 ^ 16) with 65536 in Hsplit. lia. }
  pose proof (Z.mod_pos_bound vaddress 65536 ltac:(lia)) as Hm.
  pose proof (Z.div_mod vaddress 65536 ltac:(lia)) as Hdm.
  destruct psz; simpl; intros [= <- <-];
    [left; split; [reflexivity|]; eexists; split; [apply lookup_insert_eq|]; simpl..
    |right; done].
  all: rewrite Hoff, Hbase, u64_small by lia.
  all: repeat split; try lia; try reflexivity.
  all: try (intros h Hne; apply lookup_insert_ne; congruence).
  all: replace (vaddress - vaddress mod 65536) with (vaddress `div` 65536 * 65536) by lia;
       apply Z.mod_mul; lia.
Qed.

(** X1. [ioctl_map_gpu_memory] registers the range that starts at the
    boundary of 64 KiB at or below [vaddress] and ends at
    [vaddress + length], or nothing.  When it returns 0, nothing is undone
    and the record at the address [kmalloc] gave has [map_address] on that
    boundary, [map_offset] below 64 KiB with
    [map_address + map_offset = vaddress], and
    [map_length = map_offset + length]; it is chained, owned by the caller,
    without references, and its page size is [2 ^ gpu_page_shift]; every
    other record is as before.  On every other return (a fault of
    [copy_from_user] or [put_user], a failed [kmalloc], an error of
    [__nvidia_p2p_get_pages], a page size class other than 4, 64 or
    128 KiB) the value is not 0, the registry is as before, the record is
    freed if it was allocated, and the pages are handed back if they were
    pinned. *)
Theorem ioctl_map_gpu_memory_geometry
    cf km rc psz pages pf euid vaddress length s s' rv undo :
  0 <= vaddress < 2 ^ 64 -> 0 <= length -> vaddress + length < 2 ^ 64 ->
  ioctl_map_gpu_memory_uarg cf km rc psz pages pf euid vaddress length s
  = Some (s', (rv, undo)) ->
  (rv = 0 /\ undo = [] /\ cf = false /\ rc = 0 /\ pf = false /\
   exists addr hindex m,
     km = Some (addr, hindex) /\ mgmems s' !! addr = Some m /\
     map_address m + map_offset m = vaddress /\
     map_address m mod 65536 = 0 /\ 0 <= map_offset m < 65536 /\
     map_length m = map_offset m + length /\
     map_address m + map_length m = vaddress + length /\
     gpu_page_sz m = 2 ^ gpu_page_shift m /\
     mg_chained m = true /\ owner m = euid /\ mg_refcnt m = 0 /\
     handle m = addr /\ page_table m = pages /\
     (forall h, h <> addr -> mgmems s' !! h = mgmems s !! h) /\
     releasing s' = releasing s) \/
  (rv <> 0 /\ s' = s /\
   undo = match km with
          | Some (addr, _) =>
              if cf then []
              else if rc =? 0
                   then [UndoPutPages (vaddress - vaddress mod 65536) pages;
                         UndoKfree addr]
                   else [UndoKfree addr]
          | None => []
          end).
Proof.
  intros Hv Hl Hsum. unfold ioctl_map_gpu_memory_uarg.
  assert (Hbase : Z.land vaddress (Z.lnot GPU_BOUND_OFFSET) = vaddress - vaddress mod 65536).
  { pose proof (land_lnot_ones_split vaddress 16 ltac:(lia)) as Hsplit.
    rewrite GPU_BOUND_OFFSET_ones. rewrite Z.land_ones in Hsplit by lia.
    change (2 ^ 16) with 65536 in Hsplit. lia. }
  rewrite Hbase.
  destruct cf.
  { intros [= <- <- <-]. right. split; [discriminate|]. split; [reflexivity|].
    destruct km as [[addr hindex]|]; reflexivity. }
  destruct km as [[addr hindex]|].
  2:{ intros [= <- <- <-]. right. split; [discriminate|]. split; reflexivity. }
  destruct (rc =? 0) eqn:Hrc; simpl.
  2:{ intros [= <- <- <-]. right. apply Z.eqb_neq in Hrc. split; [exact Hrc|].
      split; reflexivity. }
  apply Z.eqb_eq in Hrc. subst rc.
  destruct (gpu_page_shift_of psz) as [shift|] eqn:Hpsz.
  2:{ intros [= <- <- <-]. right. split; [discriminate|]. split; reflexivity. }
  destruct pf.
  { intros [= <- <- <-]. right. split; [discriminate|]. split; reflexivity. }
  destruct (ioctl_map_gpu_memory addr hindex euid vaddress length psz pages s)
    as [[s1 rv1]|] eqn:Hmap; [|discriminate].
  intros [= <- <- <-].
  destruct (ioctl_map_gpu_memory_registers _ _ _ _ _ _ _ _ _ _ Hv Hl Hsum Hmap)
    as [(-> & m & Hm)|(_ & _ & ->)]; [|discriminate Hpsz].
  left. split; [reflexivity|]. split; [reflexivity|]. split; [reflexivity|].
  split; [reflexivity|]. split; [reflexivity|].
  exists addr, hindex, m. split; [reflexivity|]. exact Hm.
Qed.

Lemma ioctl_map_gpu_memory_geometry_witness :
  exists m,
    mgmems (mk_registry
              {[ 4096 := mk_mgmem true 7 0 1000 4096 140737488355328 4096 1052672
                                  None 65536 16 (page_table region_1MiB) ]} ∅) !! 4096
    = Some m /\
    map_address m + map_offset m = 140737488359424 /\
    map_address m + map_length m = 140737488359424 + 1048576.
Proof.
  assert (Hmap : ioctl_map_gpu_memory_uarg false (Some (4096, 7)) 0
                   NVIDIA_P2P_PAGE_SIZE_64KB (page_table region_1MiB) false
                   1000 140737488359424 1048576 empty_registry
                 = Some (mk_registry
                           {[ 4096 := mk_mgmem true 7 0 1000 4096 140737488355328 4096
                                               1052672 None 65536 16
                                               (page_table region_1MiB) ]} ∅, (0, [])))
    by (vm_compute; reflexivity).
  destruct (ioctl_map_gpu_memory_geometry false (Some (4096, 7)) 0 _ _ false 1000
              140737488359424 1048576 _ _ _ _
              ltac:(lia) ltac:(lia) ltac:(lia) Hmap)
    as [(_ & _ & _ & _ & _ & addr & hindex & m & Hkm & Hm & Ha & _ & _ & _ & He & _)
       |(H & _)]; [|contradiction H; reflexivity].
  injection Hkm as <- <-.
  exists m. split; [exact Hm|]. split; [exact Ha|exact He].
Defined.

(** X2. A handle belongs to the user who mapped the region.  For a record
    that is chained, [strom_get_mapped_gpu_memory] takes a reference iff the
    caller's effective uid is the owner's, and then adds exactly one to the
    reference count of that record and touches nothing else; for any other
    uid neither it nor [ioctl_unmap_gpu_memory] changes anything, nothing
    is handed back to the NVIDIA driver, and the latter returns
    [-ENOENT]. *)
Theorem handle_owner_only h euid s m :
  mgmems s !! h = Some m -> mg_chained m = true ->
  0 <= mg_refcnt m < INT_MAX ->
  (owner m = euid ->
   strom_get_mapped_gpu_memory h euid s
   = (mk_registry (<[h := set_mg_refcnt (mg_refcnt m + 1) m]> (mgmems s)) (releasing s),
      true)) /\
  (owner m <> euid ->
   strom_get_mapped_gpu_memory h euid s = (s, false) /\
   forall rc, ioctl_unmap_gpu_memory_uarg false rc h euid s = (s, [], - ENOENT)).
Proof.
  intros Hm Hch Hr. pose proof INT_MAX_eq.
  unfold strom_get_mapped_gpu_memory, ioctl_unmap_gpu_memory_uarg. rewrite Hm, Hch. simpl.
  split; intros Ho.
  - rewrite bool_decide_eq_true_2 by done. rewrite s32_small by lia. reflexivity.
  - rewrite bool_decide_eq_false_2 by done. done.
Qed.

Lemma handle_owner_only_witness :
  strom_get_mapped_gpu_memory 4096 1001
    (mk_registry {[ 4096 := region_1MiB ]} ∅)
  = (mk_registry {[ 4096 := region_1MiB ]} ∅, false) /\
  forall rc,
    ioctl_unmap_gpu_memory_uarg false rc 4096 1001
      (mk_registry {[ 4096 := region_1MiB ]} ∅)
    = (mk_registry {[ 4096 := region_1MiB ]} ∅, [], - ENOENT).
Proof.
  apply (handle_owner_only 4096 1001 (mk_registry {[ 4096 := region_1MiB ]} ∅)
           region_1MiB);
    [reflexivity|reflexivity|vm_compute; split; [discriminate|reflexivity]|].
  vm_compute. discriminate.
Defined.

(** X3. [ioctl_unmap_gpu_memory] retires the handle without freeing the
    record.  Either the call changes nothing, hands nothing back and
    returns [-EFAULT] or [-ENOENT]; or it has found the chained record of
    the caller: then the pages are handed back to the NVIDIA driver once,
    the value of [__nvidia_p2p_put_pages] is returned, the record stays
    allocated with its reference count (the tasks that hold it go on), and
    from then on neither [strom_get_mapped_gpu_memory] nor a second
    [ioctl_unmap_gpu_memory] finds the handle, whoever calls. *)
Theorem unmap_retires_handle cf rc h euid s s' evs rv :
  ioctl_unmap_gpu_memory_uarg cf rc h euid s = (s', evs, rv) ->
  (s' = s /\ evs = [] /\ (rv = - EFAULT \/ rv = - ENOENT)) \/
  (exists m,
     cf = false /\ mgmems s !! h = Some m /\ mg_chained m = true /\ owner m = euid /\
     rv = rc /\ evs = [EvPutPages m] /\
     mgmems s' = <[h := set_mg_chained false m]> (mgmems s) /\
     releasing s' = releasing s /\
     (forall euid' rc',
        strom_get_mapped_gpu_memory h euid' s' = (s', false) /\
        ioctl_unmap_gpu_memory_uarg false rc' h euid' s' = (s', [], - ENOENT))).
Proof.
  unfold ioctl_unmap_gpu_memory_uarg.
  destruct cf; [intros [= <- <- <-]; left; auto|].
  destruct (mgmems s !! h) as [m|] eqn:Hm; [|intros [= <- <- <-]; left; auto].
  destruct (mg_chained m && bool_decide (owner m = euid)) eqn:Hc;
    [|intros [= <- <- <-]; left; auto].
  intros [= <- <- <-]. apply andb_true_iff in Hc as [Hch Ho].
  apply bool_decide_eq_true in Ho. right.
  exists m. repeat split; try done.
  all: unfold strom_get_mapped_gpu_memory; simpl;
       rewrite lookup_insert_eq; reflexivity.
Qed.

Lemma unmap_retires_handle_witness :
  exists m,
    mgmems (mk_registry {[ 4096 := region_1MiB ]} ∅) !! 4096 = Some m /\
    mg_refcnt (set_mg_chained false m) = 1.
Proof.
  destruct (unmap_retires_handle false 0 4096 1000
              (mk_registry {[ 4096 := region_1MiB ]} ∅)
              (mk_registry {[ 4096 := set_mg_chained false region_1MiB ]} ∅)
              [EvPutPages region_1MiB] 0)
    as [(_ & He & _)|(m & _ & Hm & _ & _ & _ & He & _)].
  - vm_compute. reflexivity.
  - discriminate He.
  - exists m. split; [exact Hm|]. injection He as <-. reflexivity.
Defined.

(** ** The release callback and the last reference *)

Lemma refcnt_in_range_weaken n s :
  0 <= n -> refcnt_in_range (n + 1) s -> refcnt_in_range n s.
Proof.
  intros Hn [Hn1 Hr]. split; [lia|]. intros h m Hm. specialize (Hr _ _ Hm). lia.
Qed.

Lemma refcnt_in_range_insert n h m s r :
  refcnt_in_range n s -> 0 <= mg_refcnt m <= INT_MAX - n ->
  refcnt_in_range n (mk_registry (<[h := m]> (mgmems s)) r).
Proof.
  intros [Hn Hr] Hm. split; [exact Hn|].
  intros h' m'. simpl. destruct (decide (h = h')) as [->|Hne].
  - rewrite lookup_insert_eq. intros [= <-]. exact Hm.
  - rewrite lookup_insert_ne by done. apply Hr.
Qed.

(** A change of a record that is not under release, or that keeps what the
    invariant says about it, keeps the invariant. *)
Lemma release_wakeup_ok_insert h m m' s :
  release_wakeup_ok s -> mgmems s !! h = Some m ->
  (forall pc, releasing s !! h = Some pc ->
     mg_chained m' = false /\
     match pc with
     | CbSleeping false _ => mg_refcnt m' > 0 /\ is_Some (wait_task m')
     | _ => mg_refcnt m' = 0
     end) ->
  release_wakeup_ok (mk_registry (<[h := m']> (mgmems s)) (releasing s)).
Proof.
  intros Hok Hm Hkeep h' pc Hpc. simpl in *.
  destruct (decide (h = h')) as [->|Hne].
  - rewrite lookup_insert_eq. exists m'. split; [done|].
    destruct (Hkeep _ Hpc) as [Hch Hrest]. split; [done|].
    destruct pc as [[|] ?|]; exact Hrest.
  - rewrite lookup_insert_ne by done. apply Hok, Hpc.
Qed.

Lemma mgmem_step_wakeup a s s' evs n :
  0 <= n -> refcnt_in_range (n + 1) s -> release_wakeup_ok s ->
  mgmem_step a s = Some (s', evs) ->
  refcnt_in_range n s' /\ release_wakeup_ok s'.
Proof.
  intros Hn0 Hr1 Hok Hstep. pose proof INT_MAX_eq as HM.
  pose proof (refcnt_in_range_weaken _ _ Hn0 Hr1) as Hr0.
  destruct Hr1 as [Hn1 Hr].
  destruct a as [addr hidx euid vaddr len psz pages | h euid | h euid | h
                | cur h | h | h]; simpl in Hstep.
  - (* map *)
    unfold ioctl_map_gpu_memory in Hstep.
    destruct (mgmems s !! addr) eqn:E; [discriminate|].
    destruct (gpu_page_shift_of psz) as [shift|]; injection Hstep as <- <-; [|done].
    split; [apply refcnt_in_range_insert; [done|simpl; lia]|].
    intros h pc Hpc. simpl in *. destruct (Hok _ _ Hpc) as (m & Hm & ?).
    exists m. split; [|done]. rewrite lookup_insert_ne; [done|]. congruence.
  - (* unmap *)
    unfold ioctl_unmap_gpu_memory in Hstep.
    destruct (mgmems s !! h) as [m|] eqn:E; [|injection Hstep as <- <-; done].
    destruct (mg_chained m) eqn:Hch; simpl in Hstep;
      [|injection Hstep as <- <-; done].
    destruct (bool_decide (owner m = euid)); injection Hstep as <- <-; [|done].
    split; [apply refcnt_in_range_insert; [done|apply (proj2 Hr0 _ _ E)]|].
    apply (release_wakeup_ok_insert _ m); [done..|].
    intros pc Hpc. destruct (Hok _ _ Hpc) as (m' & Hm' & Hch' & _). congruence.
  - (* get *)
    unfold strom_get_mapped_gpu_memory in Hstep.
    destruct (mgmems s !! h) as [m|] eqn:E; [|injection Hstep as <- <-; done].
    destruct (mg_chained m) eqn:Hch; simpl in Hstep;
      [|injection Hstep as <- <-; done].
    destruct (bool_decide (owner m = euid)); injection Hstep as <- <-; [|done].
    pose proof (Hr _ _ E). rewrite s32_small by lia.
    split; [apply refcnt_in_range_insert; [done|simpl; lia]|].
    apply (release_wakeup_ok_insert _ m); [done..|].
    intros pc Hpc. destruct (Hok _ _ Hpc) as (m' & Hm' & Hch' & _). congruence.
  - (* put *)
    unfold strom_put_mapped_gpu_memory in Hstep.
    destruct (mgmems s !! h) as [m|] eqn:E; [|discriminate].
    pose proof (Hr _ _ E) as Hm0.
    case_bool_decide as Hpos; [|discriminate].
    rewrite s32_small in Hstep by lia.
    case_bool_decide as Hz; injection Hstep as <- <-.
    + split; [apply refcnt_in_range_insert; [done|simpl; lia]|].
      intros h' pc Hpc. simpl in *.
      destruct (decide (h = h')) as [->|Hne].
      * rewrite lookup_insert_eq. eexists. split; [done|]. simpl.
        unfold wake_up_release in Hpc.
        destruct (releasing s !! h') as [pc0|] eqn:Er.
        2:{ destruct (wait_task m); rewrite Er in Hpc; discriminate. }
        destruct (Hok _ _ Er) as (m' & Hm' & Hch' & Hpc0).
        rewrite E in Hm'. injection Hm' as <-. split; [done|].
        destruct pc0 as [[|] saved|].
        -- lia.
        -- destruct Hpc0 as [_ [t Ht]]. rewrite Ht in Hpc.
           rewrite lookup_insert_eq in Hpc. injection Hpc as <-. lia.
        -- lia.
      * rewrite lookup_insert_ne by done.
        assert (releasing s !! h' = Some pc) as Hpc'.
        { unfold wake_up_release in Hpc.
          destruct (wait_task m); [|done].
          destruct (releasing s !! h) as [[? ?|]|]; [|done..].
          rewrite lookup_insert_ne in Hpc by done. done. }
        apply Hok, Hpc'.
    + split; [apply refcnt_in_range_insert; [done|simpl; lia]|].
      apply (release_wakeup_ok_insert _ m); [done..|].
      intros pc Hpc. destruct (Hok _ _ Hpc) as (m' & Hm' & Hch' & Hpc0).
      rewrite E in Hm'. injection Hm' as <-. split; [done|]. simpl.
      destruct pc as [[|] saved|]; [lia| |lia].
      split; [lia|apply Hpc0].
  - (* release callback: enter *)
    unfold callback_release_enter in Hstep.
    destruct (mgmems s !! h) as [m|] eqn:E; [|discriminate].
    destruct (releasing s !! h) eqn:Er; [discriminate|].
    pose proof (Hr _ _ E) as Hm0. simpl in Hstep.
    case_bool_decide as Hpos; injection Hstep as <- <-.
    + split; [apply refcnt_in_range_insert; [done|simpl; lia]|].
      intros h' pc. simpl.
      destruct (decide (h = h')) as [->|Hne].
      * rewrite !lookup_insert_eq. intros [= <-]. eexists. split; [done|].
        simpl. split; [done|]. split; [lia|eauto].
      * rewrite !lookup_insert_ne by done. apply Hok.
    + split; [apply refcnt_in_range_insert; [done|simpl; lia]|].
      intros h' pc. simpl.
      destruct (decide (h = h')) as [->|Hne].
      * rewrite !lookup_insert_eq. intros [= <-]. eexists. split; [done|].
        simpl. split; [done|lia].
      * rewrite !lookup_insert_ne by done. apply Hok.
  - (* release callback: resume *)
    unfold callback_release_resume in Hstep.
    destruct (mgmems s !! h) as [m|] eqn:E; [|discriminate].
    destruct (releasing s !! h) as [[[|] saved|]|] eqn:Er; try discriminate.
    case_bool_decide as Hz; [|discriminate]. injection Hstep as <- <-.
    split; [done|].
    intros h' pc. simpl.
    destruct (decide (h = h')) as [->|Hne].
    + rewrite lookup_insert_eq. intros [= <-].
      destruct (Hok _ _ Er) as (m' & Hm & Hch & _). rewrite E in Hm.
      injection Hm as <-. eauto.
    + rewrite lookup_insert_ne by done. apply Hok.
  - (* release callback: free *)
    unfold callback_release_free in Hstep.
    destruct (mgmems s !! h) as [m|] eqn:E; [|discriminate].
    destruct (releasing s !! h) as [[w saved|]|] eqn:Er; try discriminate.
    injection Hstep as <- <-.
    split.
    + split; [lia|]. intros h' m'. simpl. destruct (decide (h = h')) as [->|Hne].
      * rewrite lookup_delete_eq. discriminate.
      * rewrite lookup_delete_ne by done. apply (proj2 Hr0).
    + intros h' pc. simpl.
      destruct (decide (h = h')) as [->|Hne].
      * rewrite lookup_delete_eq. discriminate.
      * rewrite !lookup_delete_ne by done. apply Hok.
Qed.

Lemma mgmem_run_wakeup acts s s' evs :
  refcnt_in_range (Z.of_nat (length acts)) s -> release_wakeup_ok s ->
  mgmem_run acts s = Some (s', evs) ->
  refcnt_in_range 0 s' /\ release_wakeup_ok s'.
Proof.
  revert s s' evs. induction acts as [|a acts IH]; intros s s' evs Hr Hok Hrun.
  - injection Hrun as <- <-. done.
  - simpl in Hrun.
    destruct (mgmem_step a s) as [[s1 evs1]|] eqn:Hstep; [|discriminate].
    destruct (mgmem_run acts s1) as [[s2 evs2]|] eqn:Hrest; [|discriminate].
    injection Hrun as <- <-.
    replace (Z.of_nat (length (a :: acts))) with (Z.of_nat (length acts) + 1) in Hr
      by (simpl length; lia).
    destruct (mgmem_step_wakeup _ _ _ _ _ (Zle_0_nat _) Hr Hok Hstep) as (Hr1 & Hok1).
    exact (IH _ _ _ Hr1 Hok1 Hrest).
Qed.

(** X4. The release callback is woken by the last reference and by nothing
    else, and its assertion holds.  In every state reached by operations on
    the registry, interleaved in any order: a callback asleep in
    [callback_release_mapped_gpu_memory] that has not been woken waits on a
    record with a positive reference count that names a task to wake; a
    [strom_put_mapped_gpu_memory] that leaves references lets it sleep, and
    the one that drops the last reference wakes that task; a callback that
    has been woken finds [refcnt == 0] and goes on to its last unlock. *)
Theorem release_callback_woken_by_last_put acts s s' evs h w saved :
  refcnt_in_range (Z.of_nat (length acts)) s -> release_wakeup_ok s ->
  mgmem_run acts s = Some (s', evs) ->
  releasing s' !! h = Some (CbSleeping w saved) ->
  exists m, mgmems s' !! h = Some m /\
    if w then
      mg_refcnt m = 0 /\
      callback_release_resume h s'
      = Some (mk_registry (mgmems s') (<[h := CbUnlocked]> (releasing s')),
              match saved with Some t => [EvWakeUp t] | None => [] end)
    else
      mg_refcnt m > 0 /\
      exists t, wait_task m = Some t /\
        strom_put_mapped_gpu_memory h s'
        = if bool_decide (mg_refcnt m = 1)
          then Some (mk_registry
                       (<[h := set_wait_task None (set_mg_refcnt 0 m)]> (mgmems s'))
                       (<[h := CbSleeping true saved]> (releasing s')),
                     [EvWakeUp t])
          else Some (mk_registry
                       (<[h := set_mg_refcnt (mg_refcnt m - 1) m]> (mgmems s'))
                       (releasing s'), []).
Proof.
  intros Hr Hok Hrun Hpc. pose proof INT_MAX_eq as HM.
  destruct (mgmem_run_wakeup _ _ _ _ Hr Hok Hrun) as [Hr' Hok'].
  destruct (Hok' _ _ Hpc) as (m & Hm & Hch & Hrest).
  exists m. split; [exact Hm|]. pose proof (proj2 Hr' _ _ Hm) as Hrange.
  destruct w.
  - split; [exact Hrest|]. unfold callback_release_resume.
    rewrite Hm, Hpc, bool_decide_eq_true_2 by done. reflexivity.
  - destruct Hrest as [Hpos [t Ht]]. split; [exact Hpos|].
    exists t. split; [exact Ht|]. unfold strom_put_mapped_gpu_memory.
    rewrite Hm, bool_decide_eq_true_2 by done.
    rewrite s32_small by lia.
    case_bool_decide as H1.
    + rewrite bool_decide_eq_true_2 by lia.
      replace (mg_refcnt m - 1) with 0 by lia.
      unfold wake_up_release. rewrite Ht, Hpc. reflexivity.
    + rewrite bool_decide_eq_false_2 by lia. reflexivity.
Qed.

Lemma release_wakeup_ok_empty : release_wakeup_ok empty_registry.
Proof. intros h pc. simpl. rewrite lookup_empty. discriminate. Qed.

Lemma release_callback_woken_by_last_put_witness :
  exists s' m,
    mgmem_run [ ActMap 4096 7 1000 65536 1048576 NVIDIA_P2P_PAGE_SIZE_64KB [];
                ActGet 4096 1000; ActReleaseEnter 42 4096 ] empty_registry
    = Some (s', []) /\
    mgmems s' !! 4096 = Some m /\ mg_refcnt m > 0.
Proof.
  pose (acts := [ ActMap 4096 7 1000 65536 1048576 NVIDIA_P2P_PAGE_SIZE_64KB [];
                  ActGet 4096 1000; ActReleaseEnter 42 4096 ]).
  pose (s' := mk_registry
                {[ 4096 := mk_mgmem false 7 1 1000 4096 65536 0 1048576 (Some 42)
                                    65536 16 [] ]}
                {[ 4096 := CbSleeping false None ]}).
  assert (Hrun : mgmem_run acts empty_registry = Some (s', []))
    by (vm_compute; reflexivity).
  assert (Hpc : releasing s' !! 4096 = Some (CbSleeping false None))
    by (vm_compute; reflexivity).
  assert (Hroom : refcnt_in_range (Z.of_nat (length acts)) empty_registry)
    by (apply refcnt_in_range_empty; vm_compute; split; discriminate).
  destruct (release_callback_woken_by_last_put acts empty_registry s' [] 4096 false None
              Hroom release_wakeup_ok_empty Hrun Hpc) as (m & Hm & Hpos & _).
  exists s', m. split; [exact Hrun|]. split; [exact Hm|exact Hpos].
Defined.

(** ** More on the task registry *)

Lemma strom_put_after_get h euid s s1 :
  refcnt_in_range 0 s ->
  strom_get_mapped_gpu_memory h euid s = (s1, true) ->
  forall s2 evs, strom_put_mapped_gpu_memory h s1 = Some (s2, evs) ->
  forall h', refcnt_at h' s2 = refcnt_at h' s.
Proof.
  intros [_ Hr]. pose proof INT_MAX_eq as HM.
  unfold strom_get_mapped_gpu_memory, strom_put_mapped_gpu_memory, refcnt_at.
  destruct (mgmems s !! h) as [m|] eqn:Hm; [|intros [= _ H]; discriminate H].
  destruct (mg_chained m && bool_decide (owner m = euid)); [|intros [= _ H]; discriminate H].
  intros [= <-] s2 evs. simpl. rewrite lookup_insert_eq. simpl.
  pose proof (Hr _ _ Hm) as Hm0.
  case_bool_decide as Hpos; [|discriminate].
  assert (Hlt : mg_refcnt m < INT_MAX).
  { destruct (decide (mg_refcnt m = INT_MAX)) as [Heq|]; [|lia].
    rewrite Heq in Hpos. vm_compute in Hpos. discriminate. }
  rewrite (s32_small (mg_refcnt m + 1)) by lia.
  replace (mg_refcnt m + 1 - 1) with (mg_refcnt m) by lia.
  rewrite s32_small by lia.
  intros Hput h'.
  case_bool_decide as Hz; injection Hput as <- _; simpl.
  all: destruct (decide (h = h')) as [->|Hne];
       [rewrite lookup_insert_eq; simpl; rewrite Hm; simpl; congruence
       |rewrite !lookup_insert_ne by done; reflexivity].
Qed.

(** X5. A call of [strom_create_dma_task] that fails leaves no trace: no
    task is registered, no record of the mapping registry has another
    reference count than before (the reference taken on the mapping is put
    back when [kzalloc] fails), and the reference on the source file that
    [fget] took is dropped, once.  The error is negative. *)
Theorem failed_create_leaves_no_trace addr hindex h euid file ioctl_file s s' evs e :
  refcnt_in_range 0 (registry s) ->
  strom_create_dma_task addr hindex h euid file ioctl_file s = Some (s', (evs, inr e)) ->
  e < 0 /\
  dtasks s' = dtasks s /\ waiting s' = waiting s /\
  (forall h', refcnt_at h' (registry s') = refcnt_at h' (registry s)) /\
  fputs evs = match file with
              | Some f => [Some (sf_filp f)]
              | None => []
              end.
Proof.
  intros Hr. unfold strom_create_dma_task.
  destruct file as [f|]; [|intros [= <- <- <-]; repeat split; done].
  case_bool_decide as Hsup; [intros [= <- <- <-]; repeat split; done|].
  destruct (strom_get_mapped_gpu_memory h euid (registry s)) as [reg1 [|]] eqn:Hget;
    [|intros [= <- <- <-]; repeat split; done].
  destruct addr as [a|].
  - destruct (dtasks s !! a); [discriminate|].
    case_bool_decide; discriminate.
  - destruct (strom_put_mapped_gpu_memory h reg1) as [[reg2 mevs]|] eqn:Hput;
      [|discriminate].
    intros [= <- <- <-]. simpl.
    split; [reflexivity|]. split; [reflexivity|]. split; [reflexivity|]. split.
    + intros h'. apply (strom_put_after_get _ _ _ _ Hr Hget _ _ Hput).
    + unfold fputs. rewrite omap_app. simpl.
      replace (omap _ (EvMgmem <$> mevs)) with (@nil (option Z)); [reflexivity|].
      clear Hput. induction mevs as [|e0 mevs IH]; simpl; [reflexivity|exact IH].
Qed.

Lemma failed_create_leaves_no_trace_witness :
  exists s' evs,
    strom_create_dma_task None 3 4096 1000 (Some ext4_file) 99
      (mk_strom (mk_registry {[ 4096 := region_1MiB ]} ∅) ∅ ∅)
    = Some (s', (evs, inr (- ENOMEM))) /\
    refcnt_at 4096 (registry s') = Some 1 /\ fputs evs = [Some 77].
Proof.
  pose (s := mk_strom (mk_registry {[ 4096 := region_1MiB ]} ∅) ∅ ∅).
  assert (Hr : refcnt_in_range 0 (registry s)).
  { split; [vm_compute; split; discriminate|]. intros h m Hm.
    destruct (decide (h = 4096)) as [->|Hne].
    - vm_compute in Hm. injection Hm as <-. vm_compute. split; discriminate.
    - unfold s in Hm. simpl in Hm. rewrite lookup_singleton_ne in Hm by done.
      discriminate. }
  assert (Hc : strom_create_dma_task None 3 4096 1000 (Some ext4_file) 99 s
               = Some (s, ([EvFput (Some 77)], inr (- ENOMEM))))
    by (vm_compute; reflexivity).
  destruct (failed_create_leaves_no_trace _ _ _ _ _ _ _ _ _ _ Hr Hc)
    as (_ & _ & _ & Href & Hf).
  exists s, [EvFput (Some 77)]. split; [exact Hc|]. split; [|exact Hf].
  vm_compute. reflexivity.
Defined.

Lemma record_dma_status_zero d : record_dma_status 0 d = d.
Proof.
  unfold record_dma_status. rewrite bool_decide_eq_false_2; [reflexivity|].
  intros H. apply H. reflexivity.
Qed.

(** X6. A task that ends without error leaves nothing behind.  After a
    successful [strom_create_dma_task], when the task is frozen and its
    only reference is put with status 0, the call succeeds, the task is
    freed and the registry of tasks is what it was before the task was
    created; the reference on the mapping is put back; the waiters of the
    task's slot are woken; and the source file and the file of the ioctl
    are released, in this order. *)
Theorem task_without_error_leaves_nothing a hindex h euid f ioctl_file s s1 evs1 id :
  refcnt_in_range 1 (registry s) ->
  strom_create_dma_task (Some a) hindex h euid (Some f) ioctl_file s
  = Some (s1, (evs1, inl id)) ->
  id = a /\ evs1 = [] /\
  refcnt_at h (registry s1) = (fun r => r + 1) <$> refcnt_at h (registry s) /\
  exists s2 mevs,
    task_run [ActFreeze id; ActPutTask id 0] s1
    = Some (s2, [EvWakeUpAll hindex; EvTaskKfree id] ++ (EvMgmem <$> mevs)
                  ++ [EvFput (Some (sf_filp f)); EvFput (Some ioctl_file)]) /\
    dtasks s2 = dtasks s /\ waiting s2 = waiting s /\
    (forall h', refcnt_at h' (registry s2) = refcnt_at h' (registry s)).
Proof.
  intros Hr. pose proof INT_MAX_eq as HM. unfold strom_create_dma_task.
  case_bool_decide as Hsup; [discriminate|].
  destruct (strom_get_mapped_gpu_memory h euid (registry s)) as [reg1 [|]] eqn:Hget;
    [|discriminate].
  destruct (dtasks s !! a) eqn:Ha; [discriminate|].
  case_bool_decide as Hbs; [|discriminate].
  intros [= <- <- <-]. split; [reflexivity|]. split; [reflexivity|].
  pose proof Hget as Hget'.
  unfold strom_get_mapped_gpu_memory in Hget'.
  destruct (mgmems (registry s) !! h) as [m|] eqn:Hm; [|discriminate].
  destruct (mg_chained m && bool_decide (owner m = euid)); [|discriminate].
  injection Hget' as <-. pose proof (proj2 Hr _ _ Hm) as Hm0.
  split.
  { unfold refcnt_at. simpl. rewrite lookup_insert_eq, Hm. simpl.
    rewrite s32_small by lia. reflexivity. }
  assert (Hw := refcnt_in_range_weaken 0 _ ltac:(lia) Hr).
  destruct (strom_put_mapped_gpu_memory h
              (mk_registry (<[h := set_mg_refcnt (s32 (mg_refcnt m + 1)) m]>
                             (mgmems (registry s))) (releasing (registry s))))
    as [[reg2 mevs]|] eqn:Hput.
  2:{ exfalso. unfold strom_put_mapped_gpu_memory in Hput. simpl in Hput.
      rewrite lookup_insert_eq in Hput. simpl in Hput.
      rewrite s32_small in Hput by lia.
      rewrite bool_decide_eq_true_2 in Hput by lia.
      case_bool_decide; discriminate. }
  exists (mk_strom reg2 (delete a (<[a := set_frozen true
            (mk_dtask OnRunning a hindex 1 false (Some h) (Some (sf_filp f))
               (sf_nvme_ns f) (s_blocksize f) (s_blocksize_bits f) (bd_start_sect f)
               (bd_nr_sects f)
               (u32 (Z.shiftr STROM_DMA_SSD2GPU_MAXLEN (s_blocksize_bits f)))
               0 (Some ioctl_file) 0 0 0 (replicate 32 None))]>
            (<[a := mk_dtask OnRunning a hindex 1 false (Some h) (Some (sf_filp f))
               (sf_nvme_ns f) (s_blocksize f) (s_blocksize_bits f) (bd_start_sect f)
               (bd_nr_sects f)
               (u32 (Z.shiftr STROM_DMA_SSD2GPU_MAXLEN (s_blocksize_bits f)))
               0 (Some ioctl_file) 0 0 0 (replicate 32 None)]> (dtasks s))))
            (waiting s)), mevs.
  split.
  - cbn [task_run task_step dtasks registry waiting].
    rewrite lookup_insert_eq. cbn [dtasks registry waiting].
    unfold strom_put_dma_task. cbn [dtasks registry waiting].
    rewrite lookup_insert_eq.
    rewrite record_dma_status_zero.
    cbn [set_frozen dt_refcnt frozen mgmem dma_status dt_hindex filp ioctl_filp
         dt_chain dma_task_id].
    change (s32 (1 - 1)) with 0. rewrite bool_decide_eq_true_2 by reflexivity.
    rewrite Hput.
    rewrite bool_decide_eq_false_2 by (intros H; apply H; reflexivity).
    rewrite app_nil_r. reflexivity.
  - cbn [dtasks waiting registry]. split; [|split; [reflexivity|]].
    + rewrite insert_insert_eq, delete_insert_id by exact Ha. reflexivity.
    + intros h'. apply (strom_put_after_get _ _ _ _ Hw Hget _ _ Hput).
Qed.

Lemma task_without_error_leaves_nothing_witness :
  exists s2 mevs,
    task_run [ActFreeze 8192; ActPutTask 8192 0]
      (mk_strom (mk_registry {[ 4096 := set_mg_refcnt 2 region_1MiB ]} ∅)
                {[ 8192 := fresh_dtask ]} ∅)
    = Some (s2, [EvWakeUpAll 3; EvTaskKfree 8192] ++ (EvMgmem <$> mevs)
                  ++ [EvFput (Some 77); EvFput (Some 99)]) /\
    dtasks s2 = ∅.
Proof.
  pose (s := mk_strom (mk_registry {[ 4096 := region_1MiB ]} ∅) ∅ ∅).
  assert (Hr : refcnt_in_range 1 (registry s)).
  { split; [vm_compute; split; discriminate|]. intros h m Hm.
    destruct (decide (h = 4096)) as [->|Hne].
    - vm_compute in Hm. injection Hm as <-. vm_compute. split; discriminate.
    - unfold s in Hm. simpl in Hm. rewrite lookup_singleton_ne in Hm by done.
      discriminate. }
  assert (Hc : strom_create_dma_task (Some 8192) 3 4096 1000 (Some ext4_file) 99 s
               = Some (mk_strom (mk_registry {[ 4096 := set_mg_refcnt 2 region_1MiB ]} ∅)
                                {[ 8192 := fresh_dtask ]} ∅, ([], inl 8192)))
    by (vm_compute; reflexivity).
  destruct (task_without_error_leaves_nothing _ _ _ _ _ _ _ _ _ _ Hr Hc)
    as (_ & _ & _ & s2 & mevs & Hrun & Hd & _).
  exists s2, mevs. split; [exact Hrun|exact Hd].
Defined.

(** ** [ioctl_info_gpu_memory] *)

(** X7. [ioctl_info_gpu_memory] holds its reference on the mapping only
    for the time of the call: on every return, with or without an error
    from [copy_to_user] or [put_user] and whatever [nrooms] is, every
    record of the registry has the reference count it had before.  When
    the handle is not that of a chained record of the caller, the call
    returns [-ENOENT] and changes nothing at all. *)
Theorem ioctl_info_gpu_memory_balanced cf ct pf version h euid nrooms s s' out :
  refcnt_in_range 0 s ->
  ioctl_info_gpu_memory cf ct pf version h euid nrooms s = Some (s', out) ->
  (forall h', refcnt_at h' s' = refcnt_at h' s) /\
  (cf = false ->
   (forall m, mgmems s !! h = Some m -> mg_chained m = true -> owner m <> euid) ->
   s' = s /\ out = (- ENOENT, None, [], [])).
Proof.
  intros Hr. unfold ioctl_info_gpu_memory.
  destruct cf; [intros [= <- <-]; split; [done|discriminate]|].
  destruct (strom_get_mapped_gpu_memory h euid s) as [s1 [|]] eqn:Hget.
  2:{ intros [= <- <-]. done. }
  destruct (mgmems s1 !! h) as [m1|]; [|discriminate].
  match goal with
  | |- context [match ?w with Some _ => _ | None => None end] =>
      destruct w as [[[rc head] paddrs]|]; [|discriminate]
  end.
  destruct (strom_put_mapped_gpu_memory h s1) as [[s2 evs]|] eqn:Hput; [|discriminate].
  intros [= <- <-]. split.
  - intros h'. apply (strom_put_after_get _ _ _ _ Hr Hget _ _ Hput).
  - intros _ Hno. exfalso. unfold strom_get_mapped_gpu_memory in Hget.
    destruct (mgmems s !! h) as [m|] eqn:Hm; [|discriminate].
    destruct (mg_chained m) eqn:Hch; [|discriminate]. simpl in Hget.
    case_bool_decide as Ho; [|discriminate].
    exact (Hno _ eq_refl Hch Ho).
Qed.

Lemma ioctl_info_gpu_memory_balanced_witness :
  exists s' out,
    ioctl_info_gpu_memory false false (fun _ => false) 1 4096 1000 4
      (mk_registry {[ 4096 := region_1MiB ]} ∅) = Some (s', out) /\
    out.1.1.1 = - ENOBUFS /\ refcnt_at 4096 s' = Some 1.
Proof.
  pose (s := mk_registry {[ 4096 := region_1MiB ]} ∅).
  assert (Hr : refcnt_in_range 0 s).
  { split; [vm_compute; split; discriminate|]. intros h m Hm.
    destruct (decide (h = 4096)) as [->|Hne].
    - vm_compute in Hm. injection Hm as <-. vm_compute. split; discriminate.
    - unfold s in Hm. simpl in Hm. rewrite lookup_singleton_ne in Hm by done.
      discriminate. }
  destruct (ioctl_info_gpu_memory false false (fun _ => false) 1 4096 1000 4 s)
    as [[s' out]|] eqn:Hinfo; [|vm_compute in Hinfo; discriminate Hinfo].
  destruct (ioctl_info_gpu_memory_balanced _ _ _ _ _ _ _ _ _ _ Hr Hinfo) as [Hbal _].
  exists s', out. split; [exact Hinfo|]. split.
  - vm_compute in Hinfo. injection Hinfo as <- <-. reflexivity.
  - rewrite Hbal. vm_compute. reflexivity.
Defined.

Lemma put_paddrs_spec pf n : forall pages i nrooms acc,
  (forall j, pf j = false) ->
  0 <= i -> i + Z.of_nat n = Z.of_nat (length pages) ->
  Z.of_nat (length pages) < 2 ^ 31 ->
  put_paddrs n pages i nrooms pf acc
  = Some (if (i <? Z.of_nat (length pages)) && (nrooms <? Z.of_nat (length pages))
          then - ENOBUFS else 0,
          acc ++ imap (fun j pa => (i + Z.of_nat j, pa))
                   (take (Z.to_nat (nrooms - i)) (drop (Z.to_nat i) pages))).
Proof.
  induction n as [|n IH]; intros pages i nrooms acc Hpf Hi Hlen Hmax.
  - simpl. rewrite drop_ge by lia. rewrite take_nil. simpl. rewrite app_nil_r.
    rewrite (proj2 (Z.ltb_ge _ _)) by lia. reflexivity.
  - cbn [put_paddrs]. rewrite (proj2 (Z.ltb_lt i _)) by lia. simpl andb.
    destruct (Z.geb_spec i nrooms) as [Hge|Hlt].
    + rewrite (proj2 (Z.ltb_lt nrooms _)) by lia.
      replace (Z.to_nat (nrooms - i)) with 0%nat by lia.
      simpl. rewrite app_nil_r. reflexivity.
    + unfold array_get. rewrite (proj2 (Z.ltb_ge i 0)) by lia.
      destruct (pages !! Z.to_nat i) as [pa|] eqn:Hpa.
      2:{ apply lookup_ge_None in Hpa. lia. }
      rewrite Hpf. rewrite s32_small by lia.
      rewrite IH by (try done; lia).
      f_equal. f_equal.
      * destruct (Z.ltb_spec (i + 1) (Z.of_nat (length pages))) as [H1|H1]; simpl.
        -- reflexivity.
        -- destruct (Z.ltb_spec nrooms (Z.of_nat (length pages))); [lia|reflexivity].
      * rewrite <- app_assoc. f_equal.
        rewrite (drop_S _ _ _ Hpa).
        replace (Z.to_nat (nrooms - i)) with (S (Z.to_nat (nrooms - (i + 1)))) by lia.
        cbn [take imap]. replace (i + Z.of_nat 0) with i by lia.
        replace (Z.to_nat (i + 1)) with (S (Z.to_nat i)) by lia.
        simpl. f_equal. apply imap_ext. intros j x _. simpl. f_equal. lia.
Qed.

(** X8. What [ioctl_info_gpu_memory] reports about a region of the caller
    when no copy to user space faults: the head with the number of entries
    of the page table in [nitems], and in [paddrs] the physical addresses
    of the first [nrooms] device pages, in order; the return value is 0
    when all entries fit, [-ENOBUFS] when [nrooms] is below their number.
    The registry is left as it was. *)
Theorem ioctl_info_gpu_memory_reports version h euid nrooms s m :
  mgmems s !! h = Some m -> mg_chained m = true -> owner m = euid ->
  wait_task m = None -> 0 <= mg_refcnt m < INT_MAX ->
  Z.of_nat (length (page_table m)) < 2 ^ 31 -> 0 <= nrooms ->
  ioctl_info_gpu_memory false false (fun _ => false) version h euid nrooms s
  = Some (s,
          (if nrooms <? Z.of_nat (length (page_table m)) then - ENOBUFS else 0,
           Some (mk_info (Z.of_nat (length (page_table m))) version (gpu_page_sz m)
                         (owner m) (map_offset m) (map_length m)),
           imap (fun j pa => (Z.of_nat j, pa)) (take (Z.to_nat nrooms) (page_table m)),
           [])).
Proof.
  intros Hm Hch Ho Hw Hr Hlen Hn. pose proof INT_MAX_eq as HM.
  unfold ioctl_info_gpu_memory, strom_get_mapped_gpu_memory.
  rewrite Hm, Hch. simpl andb. rewrite bool_decide_eq_true_2 by exact Ho.
  cbn [mgmems]. rewrite lookup_insert_eq. cbn [page_table set_mg_refcnt].
  rewrite (put_paddrs_spec _ _ _ 0 nrooms []) by (try done; lia).
  unfold strom_put_mapped_gpu_memory. cbn [mgmems releasing].
  rewrite lookup_insert_eq. cbn [mg_refcnt set_mg_refcnt wait_task].
  rewrite s32_small by lia. rewrite bool_decide_eq_true_2 by lia.
  replace (mg_refcnt m + 1 - 1) with (mg_refcnt m) by lia.
  rewrite s32_small by lia. rewrite Hw.
  assert (Hback : set_mg_refcnt (mg_refcnt m) (set_mg_refcnt (mg_refcnt m + 1) m) = m)
    by (destruct m; reflexivity).
  assert (Hback' : set_wait_task None m = m)
    by (destruct m; simpl in Hw; subst; reflexivity).
  assert (Hrec : forall r, mk_registry (<[h := m]> (<[h := r]> (mgmems s))) (releasing s) = s).
  { intros r. rewrite insert_insert_eq, insert_id by exact Hm. destruct s; reflexivity. }
  assert (Hres : forall b : bool,
    (if b
     then Some (mk_registry
            (<[h := set_wait_task None
                      (set_mg_refcnt (mg_refcnt m) (set_mg_refcnt (mg_refcnt m + 1) m))]>
               (<[h := set_mg_refcnt (mg_refcnt m + 1) m]> (mgmems s)))
            (wake_up_release h None (releasing s)), @nil mgmem_event)
     else Some (mk_registry
            (<[h := set_mg_refcnt (mg_refcnt m) (set_mg_refcnt (mg_refcnt m + 1) m)]>
               (<[h := set_mg_refcnt (mg_refcnt m + 1) m]> (mgmems s)))
            (releasing s), [])) = Some (s, [])).
  { intros b. rewrite Hback, Hback'. unfold wake_up_release. rewrite !Hrec.
    destruct b; reflexivity. }
  rewrite Hres. f_equal. f_equal.
  - cbn [gpu_page_sz owner map_offset map_length set_mg_refcnt].
    rewrite Z.sub_0_r. simpl.
    destruct (Z.ltb_spec nrooms (Z.of_nat (length (page_table m)))) as [Hlt|Hge].
    + rewrite (proj2 (Z.ltb_lt 0 _)) by lia. reflexivity.
    + rewrite andb_false_r. reflexivity.
Qed.

Lemma ioctl_info_gpu_memory_reports_witness :
  ioctl_info_gpu_memory false false (fun _ => false) 1 4096 1000 2
    (mk_registry {[ 4096 := region_1MiB ]} ∅)
  = Some (mk_registry {[ 4096 := region_1MiB ]} ∅,
          (- ENOBUFS, Some (mk_info 16 1 65536 1000 0 1048576),
           [(0, 4026531840); (1, 4026597376)], [])).
Proof.
  apply (ioctl_info_gpu_memory_reports 1 4096 1000 2
           (mk_registry {[ 4096 := region_1MiB ]} ∅) region_1MiB);
    try reflexivity; vm_compute; try split; try discriminate; reflexivity.
Defined.

(** ** The records of failed tasks *)

Lemma failed_have_no_file_insert id d tasks :
  failed_have_no_file tasks ->
  (dt_chain d = OnFailed -> ioctl_filp d = None) ->
  failed_have_no_file (<[id := d]> tasks).
Proof.
  intros Hinv Hd id' d'. destruct (decide (id = id')) as [->|Hne].
  - rewrite lookup_insert_eq. intros [= <-]. exact Hd.
  - rewrite lookup_insert_ne by done. apply Hinv.
Qed.

Lemma failed_have_no_file_delete id tasks :
  failed_have_no_file tasks -> failed_have_no_file (delete id tasks).
Proof.
  intros Hinv id' d'. destruct (decide (id = id')) as [->|Hne].
  - rewrite lookup_delete_eq. discriminate.
  - rewrite lookup_delete_ne by done. apply Hinv.
Qed.

Lemma task_step_failed_have_no_file a s s' evs :
  failed_have_no_file (dtasks s) -> task_step a s = Some (s', evs) ->
  failed_have_no_file (dtasks s').
Proof.
  intros Hinv. destruct a as [a'|addr hindex h euid file ioctl_file|id|id|id st
                             |thread id|thread pending]; simpl.
  - destruct (mgmem_step a' (registry s)) as [[reg' mevs]|]; [|discriminate].
    intros [= <- <-]. exact Hinv.
  - destruct (strom_create_dma_task addr hindex h euid file ioctl_file s)
      as [[s1 [evs1 r]]|] eqn:Hc; [|discriminate].
    intros [= <- <-]. unfold strom_create_dma_task in Hc.
    destruct file as [f|]; [|injection Hc as <- _ _; exact Hinv].
    case_bool_decide; [injection Hc as <- _ _; exact Hinv|].
    destruct (strom_get_mapped_gpu_memory h euid (registry s)) as [reg1 [|]];
      [|injection Hc as <- _ _; exact Hinv].
    destruct addr as [a|].
    + destruct (dtasks s !! a); [discriminate|].
      case_bool_decide; [|discriminate]. injection Hc as <- _ _. simpl.
      apply failed_have_no_file_insert; [exact Hinv|]. discriminate.
    + destruct (strom_put_mapped_gpu_memory h reg1) as [[reg2 mevs]|]; [|discriminate].
      injection Hc as <- _ _. exact Hinv.
  - destruct (dtasks s !! id) as [d|] eqn:Hd; [|discriminate].
    intros [= <- <-]. simpl. apply failed_have_no_file_insert; [exact Hinv|].
    destruct d; simpl. intros Hch. exact (Hinv _ _ Hd Hch).
  - unfold strom_get_dma_task.
    destruct (dtasks s !! id) as [d|] eqn:Hd; [|discriminate].
    destruct (frozen d); [discriminate|]. case_bool_decide; [|discriminate].
    intros [= <- <-]. simpl. apply failed_have_no_file_insert; [exact Hinv|].
    destruct d; simpl. intros Hch. exact (Hinv _ _ Hd Hch).
  - unfold strom_put_dma_task.
    destruct (dtasks s !! id) as [d|] eqn:Hd; [|discriminate].
    assert (Hkeep : dt_chain (record_dma_status st d) = OnFailed ->
                    ioctl_filp (record_dma_status st d) = None).
    { unfold record_dma_status. repeat case_bool_decide; destruct d; simpl;
        intros Hch; exact (Hinv _ _ Hd Hch). }
    case_bool_decide.
    + destruct (frozen _); [|discriminate].
      destruct (mgmem _) as [h|]; [|discriminate].
      destruct (strom_put_mapped_gpu_memory h (registry s)) as [[reg' mevs]|];
        [|discriminate].
      case_bool_decide; intros [= <- <-]; simpl.
      * apply failed_have_no_file_insert; [exact Hinv|]. reflexivity.
      * apply failed_have_no_file_delete, Hinv.
    + intros [= <- <-]. simpl. apply failed_have_no_file_insert; [exact Hinv|].
      exact Hkeep.
  - destruct (waiting s !! thread); [discriminate|]. intros [= <- <-]. exact Hinv.
  - destruct (waiting s !! thread) as [[id pc]|]; [|discriminate].
    destruct (wait_step pending id pc (dtasks s)) as [[next tasks'] wevs] eqn:Hw.
    assert (Htasks : failed_have_no_file tasks').
    { unfold wait_step in Hw.
      destruct pc; [destruct (find_on_chain _ _ _)..| |]; injection Hw as _ <- _;
        try exact Hinv. apply failed_have_no_file_delete, Hinv. }
    destruct next; intros [= <- <-]; exact Htasks.
Qed.

Lemma strom_proc_release_nothing filp tasks :
  failed_have_no_file tasks -> strom_proc_release filp tasks = (tasks, []).
Proof.
  intros Hinv. unfold strom_proc_release.
  assert (Hno : forall id d, tasks !! id = Some d -> unreferenced_error filp d = false).
  { intros id d Hd. unfold unreferenced_error, on_chain.
    destruct (dt_chain d) eqn:Hch; [reflexivity|].
    rewrite (Hinv _ _ Hd Hch). reflexivity. }
  rewrite map_filter_id by (intros id d Hd; simpl; eauto).
  replace (filter _ tasks) with (∅ : gmap Z strom_dma_task).
  { rewrite map_to_list_empty. reflexivity. }
  symmetry. apply map_empty_filter. intros id d Hd. simpl.
  rewrite (Hno _ _ Hd). discriminate.
Qed.

(** X9. [strom_proc_release] reclaims no record.  When a task is moved to
    the failed chain, [strom_put_dma_task] clears its [ioctl_filp]; so in
    every state reached by operations on tasks, interleaved in any order,
    no record of the failed chains points to a file, and
    [strom_proc_release], called for whatever file, frees nothing and
    leaves every record of a failed task where it is. *)
Theorem strom_proc_release_reclaims_nothing acts s s' evs filp :
  failed_have_no_file (dtasks s) ->
  task_run acts s = Some (s', evs) ->
  strom_proc_release filp (dtasks s') = (dtasks s', []).
Proof.
  intros Hinv Hrun. apply strom_proc_release_nothing.
  revert s s' evs Hinv Hrun. induction acts as [|a acts IH]; intros s s' evs Hinv Hrun.
  - injection Hrun as <- _. exact Hinv.
  - simpl in Hrun.
    destruct (task_step a s) as [[s1 evs1]|] eqn:Hstep; [|discriminate].
    destruct (task_run acts s1) as [[s2 evs2]|] eqn:Hrest; [|discriminate].
    injection Hrun as <- _.
    exact (IH _ _ _ (task_step_failed_have_no_file _ _ _ _ Hinv Hstep) Hrest).
Qed.

Lemma strom_proc_release_reclaims_nothing_witness :
  exists s' evs d,
    task_run task_has_failed empty_strom = Some (s', evs) /\
    dtasks s' !! 8192 = Some d /\ dt_chain d = OnFailed /\ dma_status d = -5 /\
    strom_proc_release 99 (dtasks s') = (dtasks s', []).
Proof.
  destruct (task_run task_has_failed empty_strom) as [[s' evs]|] eqn:Hrun;
    [|vm_compute in Hrun; discriminate Hrun].
  assert (Hinv : failed_have_no_file (dtasks empty_strom)).
  { intros id d Hd. simpl in Hd. rewrite lookup_empty in Hd. discriminate Hd. }
  pose proof (strom_proc_release_reclaims_nothing _ _ _ _ 99 Hinv Hrun) as Hrel.
  vm_compute in Hrun. injection Hrun as <- <-.
  eexists _, _, _. split; [reflexivity|]. split; [vm_compute; reflexivity|].
  split; [reflexivity|]. split; [reflexivity|]. exact Hrel.
Defined.

(** ** From the completion handlers to the waiting application *)

Lemma record_dma_status_refcnt st d :
  dt_refcnt (record_dma_status st d) = dt_refcnt d.
Proof. unfold record_dma_status. repeat case_bool_decide; destruct d; reflexivity. Qed.

(** When the references of a task are put one by one, the last of them
    moves the record to the failed chain with the first error, or frees it
    when there was none. *)
Lemma put_dma_task_all_last id statuses : forall s s' d,
  dtasks s !! id = Some d ->
  dt_refcnt d = Z.of_nat (length statuses) -> (0 < length statuses)%nat ->
  Z.of_nat (length statuses) < 2 ^ 31 ->
  put_dma_task_all id statuses s = Some s' ->
  if bool_decide (first_nonzero (dma_status d :: statuses) = 0)
  then dtasks s' !! id = None
  else exists d', dtasks s' !! id = Some d' /\ dt_chain d' = OnFailed /\
                  dma_status d' = first_nonzero (dma_status d :: statuses).
Proof.
  induction statuses as [|st rest IH]; intros s s' d Hd Hcnt Hpos Hmax Hrun.
  - simpl in Hpos. lia.
  - simpl in Hrun.
    destruct (strom_put_dma_task id st s) as [[s1 evs]|] eqn:Hput; [|discriminate].
    rewrite first_nonzero_cons2.
    pose proof (record_dma_status_spec st d) as Hst.
    unfold strom_put_dma_task in Hput. rewrite Hd in Hput.
    rewrite record_dma_status_refcnt, Hcnt in Hput.
    set (d1 := record_dma_status st d) in *.
    simpl length in *.
    rewrite s32_small in Hput by lia.
    destruct rest as [|st2 rest].
    + (* the last reference *)
      rewrite bool_decide_eq_true_2 in Hput by (simpl; lia).
      destruct (frozen d1); [|discriminate].
      destruct (mgmem d1) as [h|]; [|discriminate].
      destruct (strom_put_mapped_gpu_memory h (registry s)) as [[reg' mevs]|];
        [|discriminate].
      simpl in Hrun. injection Hrun as <-. rewrite <- Hst.
      assert (Hfn : first_nonzero [dma_status d1] = dma_status d1).
      { simpl. case_bool_decide; [reflexivity|lia]. }
      rewrite Hfn.
      case_bool_decide as Herr; injection Hput as <- _; simpl.
      * rewrite bool_decide_eq_false_2 by exact Herr.
        eexists. split; [apply lookup_insert_eq|]. split; reflexivity.
      * rewrite bool_decide_eq_true_2 by lia. apply lookup_delete_eq.
    + rewrite bool_decide_eq_false_2 in Hput by (simpl length; lia).
      injection Hput as <- _. rewrite <- Hst.
      replace (dma_status d1)
        with (dma_status (set_dt_refcnt (Z.of_nat (S (S (length rest))) - 1) d1))
        by (destruct d1; reflexivity).
      eapply IH; [| | | |exact Hrun].
      * simpl. apply lookup_insert_eq.
      * simpl length. destruct d1; simpl. lia.
      * simpl. lia.
      * simpl length in *. lia.
Qed.

(** X10. The first error of a task reaches the application that waits for
    it.  When the references of a task have all been put, in any order of
    statuses, [ioctl_memcpy_ssd2gpu_wait] for its id returns [-EIO] and
    copies the first non-zero status to the user, if there was one, and
    frees the record; when [copy_to_user] fails at that point the call
    returns [-EFAULT] and the record, with its status, is gone all the
    same.  If every status was 0 the call returns 0 with status 0, and so
    does every call after the record has been consumed. *)
Theorem first_error_reaches_waiter id statuses s s' d pending :
  dtasks s !! id = Some d ->
  dt_refcnt d = Z.of_nat (length statuses) -> (0 < length statuses)%nat ->
  Z.of_nat (length statuses) < 2 ^ 31 ->
  put_dma_task_all id statuses s = Some s' ->
  (first_nonzero (dma_status d :: statuses) <> 0 ->
   ioctl_memcpy_ssd2gpu_wait false false pending id (dtasks s')
   = (WaitReturn (- EIO) (Some (first_nonzero (dma_status d :: statuses))),
      delete id (dtasks s'), [EvTaskKfree id]) /\
   ioctl_memcpy_ssd2gpu_wait false true pending id (dtasks s')
   = (WaitReturn (- EFAULT) None, delete id (dtasks s'), [EvTaskKfree id])) /\
  (first_nonzero (dma_status d :: statuses) = 0 ->
   ioctl_memcpy_ssd2gpu_wait false false pending id (dtasks s')
   = (WaitReturn 0 (Some 0), dtasks s', [])) /\
  ioctl_memcpy_ssd2gpu_wait false false pending id (delete id (dtasks s'))
  = (WaitReturn 0 (Some 0), delete id (dtasks s'), []).
Proof.
  intros Hd Hcnt Hpos Hmax Hrun.
  pose proof (put_dma_task_all_last _ _ _ _ _ Hd Hcnt Hpos Hmax Hrun) as Hlast.
  unfold ioctl_memcpy_ssd2gpu_wait.
  split; [|split].
  - intros Hnz. rewrite bool_decide_eq_false_2 in Hlast by exact Hnz.
    destruct Hlast as (d' & Hd' & Hch & Hst).
    rewrite (wait_on_failed _ _ _ _ Hd' Hch), Hst. split; reflexivity.
  - intros Hz. rewrite bool_decide_eq_true_2 in Hlast by exact Hz.
    rewrite (wait_on_absent _ _ _ Hlast). reflexivity.
  - rewrite wait_on_absent by apply lookup_delete_eq. reflexivity.
Qed.

Lemma first_error_reaches_waiter_witness :
  exists s s',
    task_run task_in_flight empty_strom = Some (s, []) /\
    put_dma_task_all 8192 [0; -5; -22] s = Some s' /\
    ioctl_memcpy_ssd2gpu_wait false false false 8192 (dtasks s')
    = (WaitReturn (- EIO) (Some (-5)), delete 8192 (dtasks s'), [EvTaskKfree 8192]).
Proof.
  destruct (task_run task_in_flight empty_strom) as [[s evs]|] eqn:Hrun;
    [|vm_compute in Hrun; discriminate Hrun].
  destruct (put_dma_task_all 8192 [0; -5; -22] s) as [s'|] eqn:Hput;
    [|vm_compute in Hrun; injection Hrun as <- <-; vm_compute in Hput;
      discriminate Hput].
  destruct (dtasks s !! 8192) as [d|] eqn:Hd;
    [|vm_compute in Hrun; injection Hrun as <- <-; vm_compute in Hd; discriminate Hd].
  assert (Hcnt : dt_refcnt d = Z.of_nat (length [0; -5; -22])).
  { vm_compute in Hrun. injection Hrun as <- <-. vm_compute in Hd.
    injection Hd as <-. reflexivity. }
  assert (Hst : first_nonzero (dma_status d :: [0; -5; -22]) = -5).
  { vm_compute in Hrun. injection Hrun as <- <-. vm_compute in Hd.
    injection Hd as <-. reflexivity. }
  destruct (first_error_reaches_waiter 8192 [0; -5; -22] s s' d false Hd Hcnt
              ltac:(simpl; lia) ltac:(simpl; lia) Hput) as [Herr _].
  rewrite Hst in Herr. destruct (Herr ltac:(discriminate)) as [Hw _].
  exists s, s'. split; [|split; [exact Hput|exact Hw]].
  vm_compute in Hrun. injection Hrun as _ <-. reflexivity.
Defined.

(** ** Reading [/proc/nvme-strom] *)

(** The bytes [strom_proc_read] is about to copy: [len] of them, or as
    many as are left of the signature. *)
Lemma strom_proc_read_len (sig : list ascii) len pos :
  Z.of_nat (length sig) < 2 ^ 63 -> 0 <= pos < Z.of_nat (length sig) ->
  0 <= len < 2 ^ 63 ->
  (if u64 (pos + len) >=? Z.of_nat (length sig)
   then u64 (Z.of_nat (length sig) - pos) else len)
  = Z.max 0 (Z.min len (Z.of_nat (length sig) - pos)).
Proof.
  intros HL Hpos Hlen. change (2 ^ 63) with 9223372036854775808 in *.
  assert (H64 : 2 ^ 64 = 18446744073709551616) by reflexivity.
  rewrite (u64_small (pos + len)) by lia.
  destruct (Z.geb_spec (pos + len) (Z.of_nat (length sig))).
  - rewrite u64_small by lia. lia.
  - lia.
Qed.

(** What [strom_proc_read] does when the copy does not fault. *)
Lemma strom_proc_read_nofault (sig : list ascii) len pos :
  Z.of_nat (length sig) < 2 ^ 63 -> 0 <= pos < 2 ^ 63 -> 0 <= len < 2 ^ 63 ->
  strom_proc_read sig false len pos
  = let n := Z.max 0 (Z.min len (Z.of_nat (length sig) - pos)) in
    Some (n, pos + n, take (Z.to_nat n) (drop (Z.to_nat pos) sig)).
Proof.
  intros HL Hpos Hlen. unfold strom_proc_read.
  assert (H63 : 2 ^ 63 = 9223372036854775808) by reflexivity.
  assert (H64 : 2 ^ 64 = 18446744073709551616) by reflexivity.
  rewrite (u64_small pos) by lia.
  destruct (Z.geb_spec pos (Z.of_nat (length sig))) as [Hge|Hlt].
  - replace (Z.max 0 _) with 0 by lia. cbn zeta. rewrite Z.add_0_r. reflexivity.
  - rewrite strom_proc_read_len by lia. cbn zeta. simpl andb. cbv iota.
    set (n := Z.max 0 (Z.min len (Z.of_nat (length sig) - pos))).
    assert (0 <= n /\ pos + n <= Z.of_nat (length sig) /\ n <= len) as (Hn0 & Hn1 & Hn2)
      by (unfold n; lia).
    rewrite (proj2 (Z.leb_le _ _)) by lia.
    rewrite !s64_small by lia. reflexivity.
Qed.

(** X11. [strom_proc_read] returns a slice of the signature.  For a
    position and a length as the VFS passes them (not negative, below
    2^63), the call copies the bytes of the signature from [pos] on, [len]
    of them or as many as are left, returns their number and advances the
    position by it; at or beyond the end, and for a length of 0, it returns
    0 and copies nothing.  When there are bytes to copy and [copy_to_user]
    faults, it returns [-EFAULT] and leaves the position where it was. *)
Theorem strom_proc_read_slice (sig : list ascii) fault len pos :
  Z.of_nat (length sig) < 2 ^ 63 -> 0 <= pos < 2 ^ 63 -> 0 <= len < 2 ^ 63 ->
  strom_proc_read sig fault len pos
  = let n := Z.max 0 (Z.min len (Z.of_nat (length sig) - pos)) in
    if fault && (0 <? n) then Some (- EFAULT, pos, [])
    else Some (n, pos + n, take (Z.to_nat n) (drop (Z.to_nat pos) sig)).
Proof.
  intros HL Hpos Hlen. destruct fault.
  2:{ rewrite strom_proc_read_nofault by assumption. reflexivity. }
  assert (H63 : 2 ^ 63 = 9223372036854775808) by reflexivity.
  assert (H64 : 2 ^ 64 = 18446744073709551616) by reflexivity.
  cbn zeta. set (n := Z.max 0 (Z.min len (Z.of_nat (length sig) - pos))).
  destruct (Z.ltb_spec 0 n) as [Hn|Hn]; simpl andb; cbv iota.
  - (* there are bytes to copy, and the copy faults *)
    unfold strom_proc_read. rewrite (u64_small pos) by lia.
    destruct (Z.geb_spec pos (Z.of_nat (length sig))) as [Hge|Hlt]; [lia|].
    rewrite strom_proc_read_len by lia. fold n.
    rewrite (proj2 (Z.eqb_neq n 0)) by lia. reflexivity.
  - (* nothing to copy: the copy cannot fault *)
    assert (Hz : n = 0) by lia.
    unfold strom_proc_read. rewrite (u64_small pos) by lia.
    destruct (Z.geb_spec pos (Z.of_nat (length sig))) as [Hge|Hlt].
    + rewrite Hz, Z.add_0_r. reflexivity.
    + rewrite strom_proc_read_len by lia. fold n. rewrite Hz.
      change (true && negb (0 =? 0)) with false. cbv iota.
      rewrite (proj2 (Z.leb_le _ _)) by lia.
      rewrite !s64_small by lia. rewrite Z.add_0_r. reflexivity.
Qed.

Lemma read_to_end_drop (sig : list ascii) len : forall n pos,
  Z.of_nat (length sig) < 2 ^ 63 -> 0 < len < 2 ^ 63 ->
  0 <= pos <= Z.of_nat (length sig) ->
  Z.of_nat (length sig) - pos < Z.of_nat n ->
  read_to_end n sig len pos = Some (drop (Z.to_nat pos) sig).
Proof.
  induction n as [|n IH]; intros pos HL Hlen Hpos Hfuel; [lia|].
  cbn [read_to_end].
  rewrite strom_proc_read_nofault by lia. cbn zeta.
  set (k := Z.max 0 (Z.min len (Z.of_nat (length sig) - pos))).
  destruct (decide (k = 0)) as [Hk|Hk].
  - rewrite (proj2 (Z.eqb_eq k 0) Hk).
    rewrite drop_ge by (unfold k in Hk; lia). reflexivity.
  - rewrite (proj2 (Z.eqb_neq k 0) Hk).
    rewrite IH by (unfold k in *; lia). simpl. f_equal.
    replace (Z.to_nat (pos + k)) with (Z.to_nat pos + Z.to_nat k)%nat by (unfold k; lia).
    rewrite <- drop_drop. apply take_drop.
Qed.

(** X12. Reading [/proc/nvme-strom] to its end gives the signature: a
    reader that starts at position 0 and calls [strom_proc_read] with a
    buffer of any size but 0 until it returns 0 has collected the bytes of
    [strom_proc_signature], all of them, once, in order, after at most one
    call per byte and the last one. *)
Theorem strom_proc_read_to_end (sig : list ascii) len :
  Z.of_nat (length sig) < 2 ^ 63 -> 0 < len < 2 ^ 63 ->
  read_to_end (S (length sig)) sig len 0 = Some sig.
Proof.
  intros HL Hlen. rewrite read_to_end_drop by lia. reflexivity.
Qed.

Lemma strom_proc_read_slice_witness :
  strom_proc_read short_signature false 4 9
  = Some (3, 12, String.list_ascii_of_string "1.0").
Proof.
  rewrite (strom_proc_read_slice short_signature false 4 9);
    [reflexivity|vm_compute; reflexivity|lia|lia].
Defined.

Lemma strom_proc_read_to_end_witness :
  read_to_end 13 short_signature 5 0 = Some short_signature.
Proof.
  apply (strom_proc_read_to_end short_signature 5); [vm_compute; reflexivity|lia].
Defined.

(** ** Source files *)

Lemma is_digit_not_zero c : is_digit c = true -> Ascii.eqb c zero = false.
Proof.
  intros Hd. destruct (Ascii.eqb_spec c zero) as [->|]; [|reflexivity].
  vm_compute in Hd. discriminate.
Qed.

Lemma is_digit_not_n c : is_digit c = true -> Ascii.eqb c "n" = false.
Proof.
  intros Hd. destruct (Ascii.eqb_spec c "n") as [->|]; [|reflexivity].
  vm_compute in Hd. discriminate.
Qed.

Lemma append_cons c (a b : string) : String c a +:+ b = String c (a +:+ b).
Proof. reflexivity. Qed.

Lemma append_nil (b : string) : EmptyString +:+ b = b.
Proof. reflexivity. Qed.

Lemma append_length_le (a b : string) :
  (String.length b <= String.length (a +:+ b))%nat.
Proof. induction a as [|c a IH]; rewrite ?append_cons, ?append_nil; simpl; lia. Qed.

Lemma append_assoc_string (a b c : string) : (a +:+ b) +:+ c = a +:+ (b +:+ c).
Proof.
  induction a as [|x a IH]; rewrite ?append_cons, ?append_nil; [reflexivity|].
  f_equal. exact IH.
Qed.

Lemma append_empty_r (a : string) : a +:+ EmptyString = a.
Proof.
  induction a as [|x a IH]; rewrite ?append_cons, ?append_nil; [reflexivity|].
  f_equal. exact IH.
Qed.

(** The loop over the digits splits the string into the digits it has
    passed and the rest, which does not start with a digit. *)
Lemma skip_digits_split s :
  exists ds, all_digits ds = true /\ s = ds +:+ skip_digits s /\
             is_digit (deref (skip_digits s)) = false /\
             (moved s (skip_digits s) = true <-> ds <> EmptyString).
Proof.
  induction s as [|c s IH].
  - exists EmptyString. repeat split; try reflexivity; intros H; [discriminate H|done].
  - simpl. destruct (is_digit c) eqn:Hc.
    + destruct IH as (ds & Hds & Hs & Hnd & Hmv). exists (String c ds).
      split; [simpl; rewrite Hc; exact Hds|].
      split; [rewrite append_cons; f_equal; exact Hs|]. split; [exact Hnd|].
      split; [discriminate|]. intros _. unfold moved.
      apply negb_true_iff, Nat.eqb_neq.
      assert (String.length (skip_digits s) <= String.length s)%nat.
      { rewrite Hs at 2. apply append_length_le. }
      simpl. lia.
    + exists EmptyString. split; [reflexivity|]. split; [reflexivity|].
      split; [exact Hc|]. unfold moved. rewrite Nat.eqb_refl. simpl.
      split; [discriminate|done].
Qed.

Lemma skip_digits_app ds r :
  all_digits ds = true -> is_digit (deref r) = false ->
  skip_digits (ds +:+ r) = r.
Proof.
  intros Hds Hr. induction ds as [|c ds IH]; rewrite ?append_cons, ?append_nil.
  - destruct r as [|c r]; [reflexivity|]. simpl in *. rewrite Hr. reflexivity.
  - simpl in *. apply andb_true_iff in Hds as [Hc Hds]. rewrite Hc. exact (IH Hds).
Qed.

Lemma moved_app ds r : ds <> EmptyString -> moved (ds +:+ r) r = true.
Proof.
  intros Hne. unfold moved. apply negb_true_iff, Nat.eqb_neq.
  destruct ds as [|c ds]; [done|]. rewrite append_cons. simpl.
  pose proof (append_length_le ds r). lia.
Qed.

Lemma c_string_digits ds r :
  all_digits ds = true -> c_string (ds +:+ r) = ds +:+ c_string r.
Proof.
  intros Hds. induction ds as [|c ds IH]; rewrite ?append_cons, ?append_nil;
    [reflexivity|].
  simpl in *. apply andb_true_iff in Hds as [Hc Hds].
  rewrite (is_digit_not_zero _ Hc), (IH Hds). reflexivity.
Qed.

Lemma c_string_end r : Ascii.eqb (deref r) zero = true -> c_string r = EmptyString.
Proof. destruct r as [|c r]; simpl; [reflexivity|]. intros ->. reflexivity. Qed.

(** A character array is its C string followed by nothing or by a NUL. *)
Lemma c_string_split s :
  exists tail, s = c_string s +:+ tail /\ Ascii.eqb (deref tail) zero = true.
Proof.
  induction s as [|c s IH].
  - exists EmptyString. done.
  - simpl. destruct (Ascii.eqb c zero) eqn:Hc.
    + exists (String c s). done.
    + destruct IH as (tail & Hs & Ht). exists tail. rewrite append_cons.
      split; [f_equal; exact Hs|exact Ht].
Qed.

(** X13. The block device names [file_is_supported_nvme] lets through are
    those of whole NVMe namespaces: the test on [disk_name] succeeds iff
    the name is [nvme], a decimal number, [n], and a decimal number, with
    nothing after it.  Names of partitions and of controllers are
    rejected. *)
Theorem is_nvme_disk_name_iff dname :
  is_nvme_disk_name dname = true <->
  exists a b, is_number a /\ is_number b /\
              c_string dname = "nvme" +:+ a +:+ "n" +:+ b.
Proof.
  split.
  - unfold is_nvme_disk_name.
    destruct dname as [|c0 [|c1 [|c2 [|c3 saved]]]]; try discriminate.
    1-3: destruct c0 as [[] [] [] [] [] [] [] []]; try discriminate.
    1-2: destruct c1 as [[] [] [] [] [] [] [] []]; try discriminate.
    1: destruct c2 as [[] [] [] [] [] [] [] []]; discriminate.
    destruct (Ascii.eqb_spec c0 "n") as [->|Hn0];
      [|destruct c0 as [[] [] [] [] [] [] [] []]; try discriminate; done].
    destruct (Ascii.eqb_spec c1 "v") as [->|Hn1];
      [|destruct c1 as [[] [] [] [] [] [] [] []]; try discriminate; done].
    destruct (Ascii.eqb_spec c2 "m") as [->|Hn2];
      [|destruct c2 as [[] [] [] [] [] [] [] []]; try discriminate; done].
    destruct (Ascii.eqb_spec c3 "e") as [->|Hn3];
      [|destruct c3 as [[] [] [] [] [] [] [] []]; try discriminate; done].
    destruct (skip_digits_split saved) as (a & Ha & Hsaved & _ & Hmva).
    destruct (moved saved (skip_digits saved)) eqn:Hmv1; [|discriminate].
    destruct (Ascii.eqb_spec (deref (skip_digits saved)) "n") as [Hd|]; [|discriminate].
    simpl andb. cbv iota.
    destruct (skip_digits saved) as [|cn saved'] eqn:Hpos; [discriminate|].
    simpl in Hd. subst cn.
    destruct (skip_digits_split saved') as (b & Hb & Hsaved' & _ & Hmvb).
    intros Hok. apply andb_true_iff in Hok as [Hmv2 Hend].
    exists a, b. split; [split; [apply Hmva; reflexivity|exact Ha]|].
    split; [split; [apply Hmvb; exact Hmv2|exact Hb]|].
    rewrite !append_cons, !append_nil. simpl. f_equal. f_equal. f_equal. f_equal.
    rewrite Hsaved at 1. rewrite c_string_digits by exact Ha. f_equal.
    simpl. f_equal.
    rewrite Hsaved' at 1. rewrite c_string_digits by exact Hb.
    rewrite (c_string_end _ Hend). apply append_empty_r.
  - intros (a & b & [Hane Ha] & [Hbne Hb] & Hname).
    destruct (c_string_split dname) as (tail & Hd & Htail).
    rewrite Hname in Hd. rewrite Hd.
    assert (Htl : is_digit (deref tail) = false).
    { apply Ascii.eqb_eq in Htail. rewrite Htail. reflexivity. }
    rewrite !append_assoc_string. rewrite !append_cons, !append_nil.
    unfold is_nvme_disk_name.
    rewrite (skip_digits_app a) by (try assumption; reflexivity).
    rewrite (moved_app a) by assumption. simpl.
    rewrite (skip_digits_app b) by assumption.
    rewrite (moved_app b) by assumption. simpl. exact Htail.
Qed.



(** ** The scatter-gather list of a transfer *)

Lemma sg_bytes_app a b : sg_bytes (a ++ b) = sg_bytes a + sg_bytes b.
Proof. induction a as [|e a IH]; simpl; [reflexivity|]. rewrite IH. lia. Qed.

(** The position of entry [i] of a list that starts [off0] bytes into page
    [base], counted in bytes from the start of the first pinned page. *)
Lemma build_sg_spec pages P :
  0 < P < 2 ^ 31 -> Z.of_nat (length pages) < 2 ^ 31 ->
  Forall (fun pa => 0 <= pa /\ pa + P <= 2 ^ 64) pages ->
  forall entries index off total acc,
    0 <= off < P -> 0 <= total < 2 ^ 31 -> 0 <= index <= Z.of_nat (length pages) ->
    off + total <= (Z.of_nat (length pages) - index) * P ->
    Z.of_nat (length pages) - index <= Z.of_nat entries ->
    exists new,
      build_sg entries pages index P off total acc = Some (acc ++ new, 0) /\
      sg_bytes new = total /\
      Z.of_nat (length new) <= (off + total + P - 1) / P /\
      (forall i e, new !! i = Some e ->
         sg_entry_ok pages P (Z.to_nat index) off (length new) i e) /\
      (forall i e, new !! i = Some e ->
         let off_i := if i is O then off else 0 in
         index * P + off <= (index + Z.of_nat i) * P + off_i /\
         (index + Z.of_nat i) * P + off_i + e.2 <= index * P + off + total).
Proof.
  intros HP HL Hpages.
  change (2 ^ 31) with 2147483648 in *.
  assert (H64 : 2 ^ 64 = 18446744073709551616) by reflexivity.
  induction entries as [|entries IH]; intros index off total acc Hoff Htot Hidx Hfit Hfuel.
  - exists []. assert (total = 0) by nia. subst total. simpl. rewrite app_nil_r.
    split; [reflexivity|]. split; [reflexivity|]. split; [apply Z.div_pos; lia|].
    split; intros i e Hi; discriminate Hi.
  - cbn [build_sg]. destruct (Z.eqb_spec total 0) as [->|Hnz].
    + exists []. rewrite app_nil_r.
      split; [reflexivity|]. split; [reflexivity|].
      split; [simpl; apply Z.div_pos; lia|].
      split; intros i e Hi; discriminate Hi.
    + assert (Hin : index < Z.of_nat (length pages)) by nia.
      unfold array_get. rewrite (proj2 (Z.ltb_ge index 0)) by lia.
      destruct (pages !! Z.to_nat index) as [pa|] eqn:Hpa.
      2:{ apply lookup_ge_None in Hpa. lia. }
      pose proof (proj1 (Forall_lookup _ _) Hpages _ _ Hpa) as [Hpa0 Hpa1].
      rewrite (u64_small (P - off)) by lia.
      set (l := Z.min total (P - off)).
      assert (Hl : 0 < l <= total /\ l <= P - off) by (unfold l; lia).
      rewrite (s32_small l) by (change (2 ^ 31) with 2147483648; lia).
      rewrite (u64_small (total - l)) by lia.
      rewrite (u64_small (pa + off)) by lia.
      rewrite (s32_small (index + 1)) by (change (2 ^ 31) with 2147483648; lia).
      destruct (IH (index + 1) 0 (total - l) (acc ++ [(pa + off, l)]))
        as (new & Hb & Hsum & Hlen & Hent & Hlin); try lia.
      { destruct (decide (l = total)) as [->|Hne]; [nia|].
        assert (l = P - off) by (unfold l in *; lia). nia. }
      assert (Hend : l = total -> new = []).
      { intros Heq. destruct new as [|e new]; [reflexivity|]. exfalso.
        destruct (Hent 0%nat e eq_refl) as (? & _ & _ & Hpos & _).
        assert (0 <= sg_bytes new).
        { clear -Hent. assert (forall i e, new !! i = Some e -> 0 < e.2) as Hp.
          { intros i e' Hi. destruct (Hent (S i) e' Hi) as (? & _ & _ & H & _).
            exact H. }
          clear Hent. induction new as [|x new IH']; simpl; [lia|].
          pose proof (Hp 0%nat x eq_refl).
          assert (0 <= sg_bytes new)
            by (apply IH'; intros i e' Hi; apply (Hp (S i) e' Hi)).
          lia. }
        simpl in Hsum. lia. }
      exists ((pa + off, l) :: new). split; [|split; [|split; [|split]]].
      * rewrite Hb, <- app_assoc. reflexivity.
      * simpl. rewrite Hsum. lia.
      * simpl length. destruct (decide (l = total)) as [Heq|Hne].
        -- rewrite (Hend Heq). simpl. apply Z.div_le_lower_bound; lia.
        -- assert (Hl' : l = P - off) by (unfold l in *; lia).
           replace (off + total + P - 1) with (0 + (total - l) + P - 1 + 1 * P) by lia.
           rewrite Z.div_add by lia. lia.
      * intros [|i] e Hi.
        -- injection Hi as <-. exists pa. rewrite Nat.add_0_r. simpl.
           split; [exact Hpa|]. split; [reflexivity|]. split; [lia|]. split; [lia|].
           intros Hmore. destruct (decide (l = total)) as [Heq|Hne];
             [|unfold l in *; lia].
           rewrite (Hend Heq) in Hmore. simpl in Hmore. lia.
        -- simpl in Hi. destruct (Hent i e Hi) as (pa' & Hpa' & Ha & Hpos & Hin' & Hlast).
           exists pa'. simpl.
           replace (Z.to_nat index + S i)%nat with (Z.to_nat (index + 1) + i)%nat by lia.
           split; [exact Hpa'|]. destruct i as [|i]; simpl in *.
           ++ repeat split; try lia; try (intros Hm; apply Hlast; lia).
           ++ repeat split; try lia; try (intros Hm; apply Hlast; lia).
      * intros [|i] e Hi.
        -- injection Hi as <-. simpl. lia.
        -- simpl in Hi. pose proof (Hlin i e Hi) as Hli. cbn zeta in Hli |- *.
           assert (Hne : l <> total).
           { intros Heq. rewrite (Hend Heq) in Hi. discriminate Hi. }
           assert (Hl' : l = P - off) by (unfold l in *; lia).
           destruct i as [|i]; simpl in Hli |- *; nia.
Qed.

Lemma land_pow2_mod a k : 0 <= k -> Z.land a (2 ^ k - 1) = a mod 2 ^ k.
Proof.
  intros Hk. replace (2 ^ k - 1) with (Z.ones k) by (rewrite Z.ones_equiv; lia).
  apply Z.land_ones. exact Hk.
Qed.

(** What [submit_ssd2gpu_memcpy] does with a run that passes its checks and
    lies within the pinned pages. *)
Lemma submit_ssd2gpu_memcpy_spec env m d :
  let total := u32 (Z.shiftl (nr_blocks d) (blocksz_shift d)) in
  mapping_wf m ->
  0 < total <= STROM_DMA_SSD2GPU_MAXLEN ->
  map_offset m <= dest_offset d ->
  dest_offset d + total <= map_offset m + map_length m ->
  dest_offset d + total <= Z.of_nat (length (page_table m)) * gpu_page_sz m ->
  kmalloc_iod_ok env total = true ->
  exists sg,
    submit_ssd2gpu_memcpy env m d
    = Some (nvme_submit_async_read_cmd env (src_block d) (nr_blocks d) sg,
            [EvSubmitDma (src_block d) (nr_blocks d) sg
               (nvme_submit_async_read_cmd env (src_block d) (nr_blocks d) sg)]) /\
    sg_bytes sg = total /\
    Z.of_nat (length sg) <= nvme_alloc_iod_nsegs total m /\
    (forall i e, sg !! i = Some e ->
       sg_entry_ok (page_table m) (gpu_page_sz m)
                   (Z.to_nat (dest_offset d / gpu_page_sz m))
                   (dest_offset d mod gpu_page_sz m) (length sg) i e) /\
    sg_within m (dest_offset d) (dest_offset d + total) sg.
Proof.
  intros total (HP & Hshift & HL & Hpages & Hmo & Hml & Hm64) Htot Hlo Hhi Hin Hk.
  unfold STROM_DMA_SSD2GPU_MAXLEN in Htot.
  assert (H64 : 2 ^ 64 = 18446744073709551616) by reflexivity.
  assert (H31 : 2 ^ 31 = 2147483648) by reflexivity.
  assert (HPpos : 0 < gpu_page_sz m < 2 ^ 31).
  { rewrite HP. split; [apply Z.pow_pos_nonneg; lia|].
    apply Z.pow_lt_mono_r; lia. }
  unfold submit_ssd2gpu_memcpy. fold total.
  rewrite (proj2 (Z.eqb_neq total 0)) by lia.
  destruct (Z.gtb_spec total STROM_DMA_SSD2GPU_MAXLEN) as [Hgt|_];
    [unfold STROM_DMA_SSD2GPU_MAXLEN in Hgt; lia|].
  simpl orb.
  assert (H63 : 2 ^ 63 = 9223372036854775808) by reflexivity.
  rewrite (u64_small (dest_offset d)) by lia.
  rewrite (u64_small (dest_offset d + total)) by lia.
  rewrite (u64_small (map_offset m + map_length m)) by lia.
  rewrite (proj2 (Z.ltb_ge _ _)) by lia.
  destruct (Z.gtb_spec (dest_offset d + total) (map_offset m + map_length m)) as [Hgt|_];
    [lia|].
  simpl orb. cbv iota. rewrite Hk. simpl negb. cbv iota.
  assert (Hdiv : 0 <= dest_offset d / gpu_page_sz m < Z.of_nat (length (page_table m))).
  { split; [apply Z.div_pos; lia|]. apply Z.div_lt_upper_bound; nia. }
  pose proof (Z.mod_pos_bound (dest_offset d) (gpu_page_sz m) ltac:(lia)) as Hmod.
  pose proof (Z.div_mod (dest_offset d) (gpu_page_sz m) ltac:(lia)) as Hdm.
  rewrite Z.shiftr_div_pow2 by lia. rewrite <- HP.
  rewrite s32_small by lia.
  replace (Z.land (dest_offset d) (gpu_page_sz m - 1))
    with (dest_offset d mod gpu_page_sz m)
    by (rewrite HP; symmetry; apply land_pow2_mod; lia).
  destruct (build_sg_spec (page_table m) (gpu_page_sz m) HPpos HL Hpages
              (length (page_table m)) (dest_offset d / gpu_page_sz m)
              (dest_offset d mod gpu_page_sz m) total [])
    as (sg & Hb & Hsum & Hlen & Hent & Hlin); try lia.
  simpl in Hb. rewrite Hb. simpl.
  exists sg. split; [reflexivity|]. split; [exact Hsum|].
  split; [|split; [exact Hent|]].
  - unfold nvme_alloc_iod_nsegs, DIV_ROUND_UP.
    rewrite (u64_small (total + gpu_page_sz m)) by lia.
    rewrite u64_small by lia.
    assert (Hq : (total + gpu_page_sz m + gpu_page_sz m - 1) / gpu_page_sz m < 2 ^ 32).
    { apply Z.div_lt_upper_bound; [lia|]. change (2 ^ 32) with 4294967296. nia. }
    rewrite u32_small by (split; [apply Z.div_pos; lia|exact Hq]).
    etransitivity; [exact Hlen|]. apply Z.div_le_mono; lia.
  - apply Forall_lookup. intros i e Hi.
    destruct (Hent i e Hi) as (pa & Hpa & Ha & Hpos & Hinp & _).
    pose proof (Hlin i e Hi) as [Hl1 Hl2]. cbn zeta in Hl1, Hl2.
    exists (Z.to_nat (dest_offset d / gpu_page_sz m) + i)%nat, pa.
    split; [exact Hpa|]. split; [exact Hpos|].
    replace (Z.of_nat (Z.to_nat (dest_offset d / gpu_page_sz m) + i))
      with (dest_offset d / gpu_page_sz m + Z.of_nat i) by lia.
    rewrite Ha. destruct i as [|i]; simpl in *; repeat split; try lia; try nia.
Qed.

(** X15. The scatter-gather list [submit_ssd2gpu_memcpy] builds is the
    destination range of the run, page by page.  For a run of
    [total] bytes that passes the checks of the function and lies within
    the pinned pages, the read command is submitted, its value is
    returned, and its list covers [total] bytes: entry [i] is the part of
    device page [dest_offset / page_sz + i] that starts at offset
    [dest_offset mod page_sz] for the first entry and at 0 for the others,
    every entry but the last one ends at the end of its page, and none
    reaches beyond its page.  The list has no more entries than
    [nvme_alloc_iod] has allocated. *)
Theorem submit_ssd2gpu_memcpy_scatterlist env m d :
  let total := u32 (Z.shiftl (nr_blocks d) (blocksz_shift d)) in
  mapping_wf m ->
  0 < total <= STROM_DMA_SSD2GPU_MAXLEN ->
  map_offset m <= dest_offset d ->
  dest_offset d + total <= map_offset m + map_length m ->
  dest_offset d + total <= Z.of_nat (length (page_table m)) * gpu_page_sz m ->
  kmalloc_iod_ok env total = true ->
  exists sg,
    submit_ssd2gpu_memcpy env m d
    = Some (nvme_submit_async_read_cmd env (src_block d) (nr_blocks d) sg,
            [EvSubmitDma (src_block d) (nr_blocks d) sg
               (nvme_submit_async_read_cmd env (src_block d) (nr_blocks d) sg)]) /\
    sg_bytes sg = total /\
    Z.of_nat (length sg) <= nvme_alloc_iod_nsegs total m /\
    forall i e, sg !! i = Some e ->
      sg_entry_ok (page_table m) (gpu_page_sz m)
                  (Z.to_nat (dest_offset d / gpu_page_sz m))
                  (dest_offset d mod gpu_page_sz m) (length sg) i e.
Proof.
  intros total Hm Htot Hlo Hhi Hin Hk.
  destruct (submit_ssd2gpu_memcpy_spec env m d Hm Htot Hlo Hhi Hin Hk)
    as (sg & Hs & Hb & Hl & He & _).
  exists sg. repeat split; assumption.
Qed.

Lemma region_1MiB_wf : mapping_wf region_1MiB.
Proof.
  split; [reflexivity|]. split; [vm_compute; split; [discriminate|reflexivity]|].
  split; [vm_compute; reflexivity|]. split.
  - repeat (constructor; [vm_compute; split; discriminate|]). constructor.
  - vm_compute. repeat split; discriminate.
Qed.

Lemma submit_ssd2gpu_memcpy_scatterlist_witness :
  exists sg,
    submit_ssd2gpu_memcpy (contiguous_cold_env 1000) region_1MiB
      (set_pending 32768 1000 24 fresh_dtask)
    = Some (0, [EvSubmitDma 1000 24 sg 0]) /\
    sg_bytes sg = 98304 /\ (length sg <= 3)%nat.
Proof.
  destruct (submit_ssd2gpu_memcpy_scatterlist (contiguous_cold_env 1000) region_1MiB
              (set_pending 32768 1000 24 fresh_dtask) region_1MiB_wf)
    as (sg & Hs & Hb & Hl & _).
  - vm_compute. split; [reflexivity|discriminate].
  - vm_compute. discriminate.
  - vm_compute. discriminate.
  - vm_compute. discriminate.
  - reflexivity.
  - exists sg. split; [exact Hs|]. split; [exact Hb|].
    change (nvme_alloc_iod_nsegs _ _) with 3 in Hl. lia.
Defined.

(** ** The direct path within the window of the request *)

Lemma dtask_wf_facts d :
  dtask_wf d ->
  0 < blocks_per_page d <= max_nblocks d /\
  blocks_per_page d * blocksz d = 4096 /\
  max_nblocks d * blocksz d = 131072 /\
  0 < blocksz d <= 4096 /\
  forall n, 0 <= n <= max_nblocks d ->
            u32 (Z.shiftl n (blocksz_shift d)) = n * blocksz d.
Proof.
  intros (Hs & Hb & Hm). unfold blocks_per_page. rewrite Hb, Hm.
  set (s := blocksz_shift d) in *. clearbody s.
  assert (Hcase : s = 0 \/ s = 1 \/ s = 2 \/ s = 3 \/ s = 4 \/ s = 5 \/ s = 6 \/
                  s = 7 \/ s = 8 \/ s = 9 \/ s = 10 \/ s = 11 \/ s = 12) by lia.
  repeat (destruct Hcase as [->|Hcase]); try subst s;
    (split; [vm_compute; split; [reflexivity|discriminate]|];
     split; [reflexivity|]; split; [reflexivity|];
     split; [vm_compute; split; [reflexivity|discriminate]|];
     intros n Hn; rewrite Z.shiftl_mul_pow2 by lia;
     rewrite u32_small; [reflexivity|];
     change (2 ^ 32) with 4294967296;
     match goal with
     | H : 0 <= n <= ?M |- _ =>
         let M' := eval vm_compute in M in change M with M' in H
     end;
     match goal with
     | |- context [2 ^ ?k] => let p := eval vm_compute in (2 ^ k) in change (2 ^ k) with p
     end; lia).
Qed.

Lemma sg_within_weaken m lo hi lo' hi' sg :
  lo' <= lo -> hi <= hi' -> sg_within m lo hi sg -> sg_within m lo' hi' sg.
Proof.
  intros Hlo Hhi Hsg. unfold sg_within in *. eapply Forall_impl; [exact Hsg|].
  intros e (p & pa & Hp & Hpos & H1 & H2 & H3 & H4).
  exists p, pa. repeat split; try assumption; lia.
Qed.

Lemma dma_submissions_app tr1 tr2 :
  dma_submissions (tr1 ++ tr2) = dma_submissions tr1 ++ dma_submissions tr2.
Proof. apply omap_app. Qed.

Lemma blocks_submitted_app tr1 tr2 :
  blocks_submitted (tr1 ++ tr2) = blocks_submitted tr1 + blocks_submitted tr2.
Proof.
  unfold blocks_submitted. rewrite dma_submissions_app.
  induction (dma_submissions tr1) as [|c l IH]; simpl; [reflexivity|].
  rewrite IH. lia.
Qed.

(** A page on the direct path: whatever block the file system reports for
    it, the scheduler keeps its invariant, and when the step returns 0 the
    pending run has grown by the page or is the page. *)
Lemma submit_dma_page_inv env m b curr st rv st' lo hi :
  mapping_wf m -> pinned_covers m -> (forall n, kmalloc_iod_ok env n = true) ->
  map_offset m <= lo -> lo <= curr -> curr + 4096 <= hi -> hi <= map_length m ->
  sched_ok m lo hi st ->
  pending_within lo curr (sc_dtask st) ->
  nr_dma_blocks (sc_karg st) + nr_blocks (sc_dtask st)
    + blocks_per_page (sc_dtask st) < 2 ^ 32 ->
  submit_dma_page env m b curr st = Some (rv, st') ->
  sched_ok m lo hi st' /\
  same_routing (sc_karg st) (sc_karg st') /\
  blocksz_shift (sc_dtask st') = blocksz_shift (sc_dtask st) /\
  (rv = 0 ->
   pending_within lo (curr + 4096) (sc_dtask st') /\
   nr_dma_blocks (sc_karg st') + nr_blocks (sc_dtask st')
   = nr_dma_blocks (sc_karg st) + nr_blocks (sc_dtask st)
     + blocks_per_page (sc_dtask st)).
Proof.
  intros Hm Hcov Hk Hlo Hcurr Hhi Hmax (Hwf & Hdma & Hcs & Hcb & Hcle) Hpend Hroom.
  pose proof (dtask_wf_facts _ Hwf) as (Hnr & Hpage & Hmaxb & Hbs & Htotal).
  pose proof Hm as (_ & _ & _ & _ & Hmo & Hml & Hm63).
  assert (H63 : 2 ^ 63 = 9223372036854775808) by reflexivity.
  assert (H64 : 2 ^ 64 = 18446744073709551616) by reflexivity.
  assert (H32 : 2 ^ 32 = 4294967296) by reflexivity.
  unfold submit_dma_page. fold (blocks_per_page (sc_dtask st)).
  set (d := sc_dtask st) in *. set (nr := blocks_per_page d) in *.
  destruct (can_merge d nr b curr) eqn:Hcm.
  - (* the page continues the pending run *)
    intros [= <- <-]. unfold can_merge in Hcm.
    apply andb_true_iff in Hcm as [Hcm Hdest]. apply andb_true_iff in Hcm as [Hcm _].
    apply andb_true_iff in Hcm as [Hpos Hfit].
    apply Z.gtb_lt in Hpos. destruct Hpend as [Hz|(Hn & Hd0 & Hd1)]; [lia|].
    rewrite (u32_small (nr_blocks d + nr)) in * by lia.
    apply Z.leb_le in Hfit. apply Z.eqb_eq in Hdest.
    rewrite (u64_small (nr_blocks d * blocksz d)) in Hdest by nia.
    rewrite !u64_small in Hdest by nia.
    split; [|split; [apply same_routing_refl|split; [reflexivity|]]].
    + split; [exact Hwf|]. split; [exact Hdma|]. split; [exact Hcs|split; [exact Hcb|exact Hcle]].
    + intros _. split; [|simpl; lia].
      right. simpl. fold d. repeat split; try lia; nia.
  - destruct (nr_blocks d >? 0) eqn:Hpos.
    + (* the pending run is submitted, the page starts a new one *)
      apply Z.gtb_lt in Hpos. destruct Hpend as [Hz|(Hn & Hd0 & Hd1)]; [lia|].
      assert (Hnbs : 0 < nr_blocks d * blocksz d <= 131072).
      { split; [apply Z.mul_pos_pos; lia|].
        rewrite <- Hmaxb. apply Z.mul_le_mono_nonneg_r; lia. }
      pose proof Hcov as Hcov'. unfold pinned_covers in Hcov'.
      destruct (submit_ssd2gpu_memcpy_spec env m d) as (sg & Hs & _ & _ & _ & Hin);
        try (rewrite Htotal by lia); try assumption; try apply Hk;
        try (unfold STROM_DMA_SSD2GPU_MAXLEN; lia).
      rewrite Htotal in Hin by lia. rewrite Hs.
      set (r := nvme_submit_async_read_cmd env (src_block d) (nr_blocks d) sg).
      assert (Hok1 : sched_ok m lo hi
                (add_trace [EvSubmitDma (src_block d) (nr_blocks d) sg r]
                   (with_karg (count_dma_submit (nr_blocks d) (sc_karg st)) st))).
      { split; [exact Hwf|]. split.
        - apply Forall_app. split; [exact Hdma|]. constructor; [|constructor].
          apply (sg_within_weaken m (dest_offset d)
                   (dest_offset d + nr_blocks d * blocksz d) lo hi sg Hd0);
            [lia|exact Hin].
        - unfold counters_match. simpl.
          rewrite dma_submissions_app, length_app, blocks_submitted_app. simpl.
          unfold blocks_submitted at 2. simpl.
          rewrite !u32_small by lia. lia. }
      destruct (negb (r =? 0)) eqn:Hr; intros [= <- <-].
      * split; [exact Hok1|]. split; [apply same_routing_count_dma_submit|].
        split; [reflexivity|]. intros ->. apply negb_true_iff, Z.eqb_neq in Hr. done.
      * split; [|split; [apply same_routing_count_dma_submit|split; [reflexivity|]]].
        -- destruct Hok1 as (_ & H1 & H2). split; [exact Hwf|]. split; assumption.
        -- intros _. simpl. rewrite u32_small by lia. fold d. fold nr.
           split; [|lia]. right. simpl. fold d. repeat split; try lia.
    + (* no run is pending: the page starts one *)
      rewrite Z.gtb_ltb in Hpos. apply Z.ltb_ge in Hpos.
      destruct Hpend as [Hz|(Hn & _)]; [|lia].
      intros [= <- <-].
      split; [|split; [apply same_routing_refl|split; [reflexivity|]]].
      * split; [exact Hwf|]. split; [exact Hdma|]. split; [exact Hcs|split; [exact Hcb|exact Hcle]].
      * intros _. simpl. fold d. fold nr. split; [|lia].
        right. simpl. fold d. repeat split; try lia.
Qed.

Lemma blocks_per_page_keeps d d' :
  blocksz_shift d' = blocksz_shift d -> blocks_per_page d' = blocks_per_page d.
Proof. unfold blocks_per_page. intros ->. reflexivity. Qed.

(** The pages of a chunk on the direct path. *)
Lemma submit_dma_inv env m lo hi : forall n fpos curr st rv st',
  mapping_wf m -> pinned_covers m -> (forall k, kmalloc_iod_ok env k = true) ->
  map_offset m <= lo -> lo <= curr -> curr + 4096 * Z.of_nat n <= hi ->
  hi <= map_length m ->
  sched_ok m lo hi st ->
  pending_within lo curr (sc_dtask st) ->
  nr_dma_blocks (sc_karg st) + nr_blocks (sc_dtask st)
    + Z.of_nat n * blocks_per_page (sc_dtask st) < 2 ^ 32 ->
  __memcpy_ssd2gpu_submit_dma env m n fpos curr st = Some (rv, st') ->
  sched_ok m lo hi st' /\
  same_routing (sc_karg st) (sc_karg st') /\
  blocksz_shift (sc_dtask st') = blocksz_shift (sc_dtask st) /\
  (rv = 0 ->
   pending_within lo (curr + 4096 * Z.of_nat n) (sc_dtask st') /\
   nr_dma_blocks (sc_karg st') + nr_blocks (sc_dtask st')
   = nr_dma_blocks (sc_karg st) + nr_blocks (sc_dtask st)
     + Z.of_nat n * blocks_per_page (sc_dtask st)).
Proof.
  induction n as [|n IH]; intros fpos curr st rv st' Hm Hcov Hk Hlo Hcurr Hhi Hmax
                                 Hok Hpend Hroom H.
  - simpl in H. injection H as <- <-.
    split; [exact Hok|]. split; [apply same_routing_refl|]. split; [reflexivity|].
    intros _. rewrite Z.mul_0_r, Z.add_0_r. split; [exact Hpend|lia].
  - simpl in H.
    destruct (strom_get_block env _) as [retval b].
    destruct (negb (retval =? 0)) eqn:Hret.
    { injection H as <- <-.
      split; [exact Hok|]. split; [apply same_routing_refl|]. split; [reflexivity|].
      intros ->. discriminate Hret. }
    destruct (submit_dma_page env m b curr st) as [[rv1 st1]|] eqn:Hp; [|discriminate].
    pose proof (dtask_wf_facts _ (proj1 Hok)) as (Hnr & _).
    apply (submit_dma_page_inv env m b curr st rv1 st1 lo hi) in Hp;
      [|assumption..|lia|assumption|assumption|assumption|nia].
    destruct Hp as (Hok1 & Hsr1 & Hbs1 & Hz1).
    destruct (negb (rv1 =? 0)) eqn:Hrv1.
    { injection H as <- <-. split; [exact Hok1|]. split; [exact Hsr1|].
      split; [exact Hbs1|]. intros ->. discriminate Hrv1. }
    apply negb_false_iff, Z.eqb_eq in Hrv1. destruct (Hz1 Hrv1) as [Hpend1 Hacc1].
    pose proof Hm as (_ & _ & _ & _ & Hmo & Hml & Hm63).
    rewrite (s64_small (curr + PAGE_CACHE_SIZE)) in H
      by (unfold PAGE_CACHE_SIZE; change (2 ^ 63) with 9223372036854775808 in *; lia).
    unfold PAGE_CACHE_SIZE in H at 2.
    apply IH in H; try assumption; try lia.
    2:{ rewrite (blocks_per_page_keeps _ _ Hbs1). nia. }
    destruct H as (Hok2 & Hsr2 & Hbs2 & Hz2).
    split; [exact Hok2|]. split; [exact (same_routing_trans _ _ _ Hsr1 Hsr2)|].
    split; [congruence|]. intros Hrv. destruct (Hz2 Hrv) as [Hpend2 Hacc2].
    split.
    + replace (curr + 4096 * Z.of_nat (S n)) with (curr + 4096 + 4096 * Z.of_nat n)
        by lia. exact Hpend2.
    + rewrite Hacc2, Hacc1, (blocks_per_page_keeps _ _ Hbs1). lia.
Qed.

Lemma writeback_pages_only_file_pages env n : forall j fp_index dest d copies rv d' copies',
  __memcpy_ssd2gpu_writeback env n j fp_index dest d copies = (rv, d', copies') ->
  d' = set_file_pages (file_pages d') d.
Proof.
  induction n as [|n IH]; intros j fp_index dest d copies rv d' copies' H; simpl in H.
  { injection H as _ <- _. destruct d; reflexivity. }
  destruct (match array_get (file_pages d) j with
            | Some (Some pg) => inl pg
            | _ => _
            end) as [pg|retval].
  2:{ injection H as _ <- _. destruct d; reflexivity. }
  destruct (copy_to_user_fails env dest).
  { injection H as _ <- _. reflexivity. }
  apply IH in H. rewrite H. reflexivity.
Qed.

Lemma chunk_nr_pages_spec k :
  Z.land (chunk_sz k) (PAGE_CACHE_SIZE - 1) = 0 ->
  PAGE_CACHE_SIZE <= chunk_sz k <= STROM_DMA_SSD2GPU_MAXLEN ->
  chunk_nr_pages k = chunk_sz k / PAGE_CACHE_SIZE /\
  chunk_sz k = 4096 * (chunk_sz k / PAGE_CACHE_SIZE) /\
  1 <= chunk_sz k / PAGE_CACHE_SIZE <= 32.
Proof.
  unfold PAGE_CACHE_SIZE, STROM_DMA_SSD2GPU_MAXLEN, chunk_nr_pages, PAGE_CACHE_SHIFT.
  intros Hal Hsz. change (4096 - 1) with (2 ^ 12 - 1) in Hal.
  rewrite land_pow2_mod in Hal by lia. change (2 ^ 12) with 4096 in Hal.
  pose proof (Z.div_mod (chunk_sz k) 4096 ltac:(lia)) as Hdm.
  rewrite Z.shiftr_div_pow2 by lia. change (2 ^ 12) with 4096.
  assert (1 <= chunk_sz k / 4096 <= 32) by lia.
  rewrite u32_small by (change (2 ^ 32) with 4294967296; lia). lia.
Qed.

Lemma batch_ok_window env m k0 :
  karg_int_exact env -> mapping_wf m -> batch_ok env m k0 ->
  map_offset m <= window_lo m k0 /\ window_hi m k0 <= map_length m /\
  0 <= chunk_sz k0 / PAGE_CACHE_SIZE.
Proof.
  intros Hint (_ & _ & _ & _ & Hmo & Hml & Hm63) ((Hal & Hsz & Hfit) & Hoff & H63 & Hn & Hprod).
  unfold window_lo, window_hi.
  change (2 ^ 63) with 9223372036854775808 in *.
  assert (H64 : 2 ^ 64 = 18446744073709551616) by reflexivity.
  assert (H31 : 2 ^ 31 = 2147483648) by reflexivity.
  unfold PAGE_CACHE_SIZE, STROM_DMA_SSD2GPU_MAXLEN in *.
  rewrite Hint in Hfit by nia.
  rewrite (u64_small (map_offset m + offset k0)) in Hfit by lia.
  rewrite u64_small in Hfit by nia.
  split; [lia|]. split; [lia|]. apply Z.div_pos; lia.
Qed.

Lemma between_chunks_file_pages m k0 dest st pages :
  between_chunks m k0 dest st ->
  between_chunks m k0 dest (with_dtask (set_file_pages pages (sc_dtask st)) st).
Proof. intros H. exact H. Qed.

(** A chunk on the direct path. *)
Lemma chunk_direct_inv env m k0 c fpos dest st rv dest' st' :
  karg_int_exact env -> mapping_wf m -> pinned_covers m ->
  (forall n, kmalloc_iod_ok env n = true) ->
  batch_ok env m k0 -> same_request k0 (sc_karg st) ->
  0 <= nr_ssd2gpu (sc_karg st) < nr_chunks k0 ->
  between_chunks m k0 dest st ->
  chunk_direct env m c fpos dest st = Some (rv, dest', st') ->
  sched_ok m (window_lo m k0) (window_hi m k0) st' /\
  (rv = 0 -> between_chunks m k0 dest' st').
Proof.
  intros Hint Hm Hcov Hk Hb Hreq Hn (Hok & Hpend & Hdest & Hacc) H.
  pose proof (batch_ok_window _ _ _ Hint Hm Hb) as (Hlo & Hhi & Hnp0).
  destruct Hb as ((Hal & Hsz & _) & Hoff & H63 & Hnc & Hprod).
  destruct Hreq as (_ & _ & Hcs & _).
  pose proof (chunk_nr_pages_spec k0 Hal Hsz) as (Hnp & Hw & Hnpr).
  pose proof (dtask_wf_facts _ (proj1 Hok)) as (Hnr & Hpage & _ & Hbs & _).
  assert (Hbpp : blocks_per_page (sc_dtask st) <= 4096) by nia.
  unfold chunk_direct in H.
  assert (Hpages : chunk_nr_pages (sc_karg st) = chunk_sz k0 / PAGE_CACHE_SIZE).
  { unfold chunk_nr_pages. rewrite Hcs. exact Hnp. }
  rewrite Hpages in H.
  set (np := chunk_sz k0 / PAGE_CACHE_SIZE) in *.
  assert (H31 : 2 ^ 31 = 2147483648) by reflexivity.
  assert (H32 : 2 ^ 32 = 4294967296) by reflexivity.
  unfold window_hi, window_lo in *.
  assert (Hroom : nr_dma_blocks (sc_karg st) + nr_blocks (sc_dtask st)
                  + np * blocks_per_page (sc_dtask st) < 2 ^ 32).
  { rewrite Hacc. fold np.
    set (a := nr_ssd2gpu (sc_karg st)) in *. set (bpp := blocks_per_page (sc_dtask st)) in *.
    assert (H1 : (a + 1) * np <= nr_chunks k0 * np) by nia.
    assert (H2 : nr_chunks k0 * np * 4096 < 2147483648) by nia.
    assert (H3 : (a + 1) * np * bpp <= (a + 1) * np * 4096)
      by (apply Z.mul_le_mono_nonneg_l; nia).
    nia. }
  destruct (__memcpy_ssd2gpu_submit_dma _ _ _ _ _ _) as [[rv1 st1]|] eqn:Hs;
    [|discriminate].
  assert (Hacs : 0 <= nr_ssd2gpu (sc_karg st) * chunk_sz k0)
    by (apply Z.mul_nonneg_nonneg; lia).
  assert (Ha1 : (nr_ssd2gpu (sc_karg st) + 1) * chunk_sz k0
                <= nr_chunks k0 * chunk_sz k0)
    by (apply Z.mul_le_mono_nonneg_r; lia).
  apply (submit_dma_inv env m (map_offset m + offset k0)
           (map_offset m + offset k0 + nr_chunks k0 * chunk_sz k0)) in Hs;
    try assumption; try (rewrite Z2Nat.id by lia); try lia.
  destruct Hs as (Hok1 & (Hreq1 & Hram1 & Hssd1) & Hbs1 & Hz1).
  destruct (array_set (sc_out st1) _ _) as [out|]; [|discriminate].
  injection H as <- <- <-.
  split; [exact Hok1|]. intros Hrv. destruct (Hz1 Hrv) as [Hpend1 Hacc1].
  rewrite Z2Nat.id in Hpend1, Hacc1 by lia.
  destruct Hreq1 as (_ & _ & Hcs1 & _).
  unfold between_chunks, window_lo, window_hi.
  cbn [sc_karg sc_dtask with_out with_karg nr_ssd2gpu set_nr_ssd2gpu nr_dma_blocks].
  assert (Hncmax : nr_chunks k0 < 2147483648)
    by (unfold PAGE_CACHE_SIZE in Hsz; nia).
  rewrite Hssd1, Hint by lia. rewrite Hcs1, Hcs.
  pose proof Hm as (_ & _ & _ & _ & Hmo & Hml & Hm63).
  change (2 ^ 63) with 9223372036854775808 in *.
  rewrite u64_small by (change (2 ^ 64) with 18446744073709551616; lia).
  split; [exact Hok1|]. split; [|split].
  - replace (dest + chunk_sz k0) with (dest + 4096 * np) by lia. exact Hpend1.
  - lia.
  - rewrite Hacc1, Hacc, (blocks_per_page_keeps _ _ Hbs1). fold np. lia.
Qed.

(** A chunk on the write-back path. *)
Lemma chunk_writeback_inv env m k0 c fpos dest st rv st' :
  between_chunks m k0 dest st ->
  chunk_writeback env c fpos st = Some (rv, st') ->
  between_chunks m k0 dest st'.
Proof.
  intros (Hok & Hpend & Hdest & Hacc) H. unfold chunk_writeback in H.
  destruct (__memcpy_ssd2gpu_writeback _ _ _ _ _ _ _) as [[rv1 d1] copies] eqn:Hw.
  apply writeback_pages_only_file_pages in Hw.
  destruct (array_set (sc_out st) _ _) as [out|]; [|discriminate].
  injection H as <- <-. rewrite Hw.
  destruct Hok as (Hwf & Hdma & Hcs & Hcb & Hcle).
  unfold between_chunks, sched_ok, counters_match.
  cbn [sc_karg sc_dtask sc_trace nr_ssd2gpu set_nr_ram2gpu nr_dma_blocks nr_dma_submit].
  unfold blocks_submitted in *. rewrite dma_submissions_app. simpl.
  rewrite app_nil_r.
  split; [|split; [exact Hpend|split; [exact Hdest|exact Hacc]]].
  split; [exact Hwf|]. split; [|split; [exact Hcs|split; [exact Hcb|exact Hcle]]].
  apply Forall_app. split; [exact Hdma|]. repeat constructor.
Qed.

(** The loop over the chunks keeps the scheduler within the window. *)
Lemma memcpy_ssd2gpu_writeback_loop_inv env m k0 ids :
  karg_int_exact env -> mapping_wf m -> pinned_covers m ->
  (forall n, kmalloc_iod_ok env n = true) -> batch_ok env m k0 ->
  forall rest pre dest st rv dest' st',
    ids = pre ++ rest ->
    memcpy_ssd2gpu_writeback_loop env m ids (length rest)
      (Z.of_nat (length pre)) dest st = Some (rv, dest', st') ->
    Z.of_nat (length ids) = nr_chunks k0 -> same_request k0 (sc_karg st) ->
    nr_ssd2gpu (sc_karg st) + nr_ram2gpu (sc_karg st) = Z.of_nat (length pre) ->
    0 <= nr_ssd2gpu (sc_karg st) -> 0 <= nr_ram2gpu (sc_karg st) ->
    between_chunks m k0 dest st ->
    sched_ok m (window_lo m k0) (window_hi m k0) st' /\
    (rv = 0 ->
     between_chunks m k0 dest' st' /\
     blocksz_shift (sc_dtask st') = blocksz_shift (sc_dtask st) /\
     0 <= nr_ssd2gpu (sc_karg st') <= nr_chunks k0).
Proof.
  intros Hint Hm Hcov Hk Hb. induction rest as [|c rest IH];
    intros pre dest st rv dest' st' Hids Hloop Hlen Hreq Hsum Hd Hw Hbetween.
  { simpl in Hloop. injection Hloop as <- <- <-.
    split; [exact (proj1 Hbetween)|]. intros _. split; [exact Hbetween|].
    split; [reflexivity|]. subst ids. rewrite length_app in Hlen. lia. }
  assert (Hncmax : nr_chunks k0 < 2 ^ 31).
  { destruct Hb as ((_ & Hsz & _) & _ & _ & Hnc & Hprod).
    unfold PAGE_CACHE_SIZE in Hsz. change (2 ^ 31) with 2147483648 in *. nia. }
  pose proof Hreq as (_ & Hnceq & _).
  simpl length in Hloop. simpl in Hloop. subst ids.
  rewrite array_get_middle in Hloop.
  rewrite length_app in Hlen. simpl in Hlen.
  destruct (negb (Z.land _ _ =? 0)); [discriminate|].
  destruct (u64 _ >? i_size env).
  { injection Hloop as <- <- <-. split; [exact (proj1 Hbetween)|]. discriminate. }
  destruct (chunk_probe env (sc_karg st) (Z.of_nat (length pre)) c)
    as [pages score] eqn:Hprobe.
  assert (Hnext : s32 (Z.of_nat (length pre) + 1) = Z.of_nat (length (pre ++ [c]))).
  { rewrite length_app. simpl. rewrite s32_small; lia. }
  rewrite Hnext in Hloop.
  assert (Hids' : pre ++ c :: rest = (pre ++ [c]) ++ rest)
    by (rewrite <- app_assoc; reflexivity).
  set (st0 := with_dtask _ st) in Hloop.
  assert (Hb0 : between_chunks m k0 dest st0) by exact Hbetween.
  destruct (score >? chunk_threshold (sc_karg st)).
  - destruct (chunk_writeback env c _ st0) as [[rv1 st1]|] eqn:Hwb; [|discriminate].
    pose proof (chunk_writeback_inv env m k0 c _ dest st0 rv1 st1 Hb0 Hwb) as Hb1.
    apply chunk_writeback_spec in Hwb; [|exact Hint|simpl; lia|simpl; lia].
    destruct Hwb as (Hreq1 & Hram1 & Hssd1 & _ & _ & _ & Hbs1 & _).
    unfold st0 in Hreq1, Hram1, Hssd1, Hbs1. simpl in Hreq1, Hram1, Hssd1, Hbs1.
    destruct (negb (rv1 =? 0)) eqn:Hrv.
    + injection Hloop as <- <- <-. split; [exact (proj1 Hb1)|].
      intros ->. discriminate.
    + apply (IH (pre ++ [c])) in Hloop;
        [|exact Hids'|rewrite !length_app; simpl; lia
         |exact (same_request_trans _ _ _ Hreq Hreq1)
         |rewrite length_app; simpl; lia|lia|lia|exact Hb1].
      rewrite Hbs1 in Hloop. exact Hloop.
  - destruct (chunk_direct env m c _ dest st0) as [[[rv1 dest1] st1]|] eqn:Hdir;
      [|discriminate].
    assert (Hroom : 0 <= nr_ssd2gpu (sc_karg st0) < nr_chunks k0) by (simpl; lia).
    pose proof (chunk_direct_inv env m k0 c _ dest st0 rv1 dest1 st1
                  Hint Hm Hcov Hk Hb Hreq Hroom Hb0 Hdir) as [Hok1 Hb1].
    apply chunk_direct_spec in Hdir; [|exact Hint|simpl; lia].
    destruct Hdir as (Hreq1 & Hram1 & Hssd1 & _ & _ & _ & Hbs1 & _).
    unfold st0 in Hreq1, Hram1, Hssd1, Hbs1. simpl in Hreq1, Hram1, Hssd1, Hbs1.
    destruct (negb (rv1 =? 0)) eqn:Hrv.
    + injection Hloop as <- <- <-. split; [exact Hok1|].
      intros ->. discriminate.
    + apply negb_false_iff, Z.eqb_eq in Hrv.
      apply (IH (pre ++ [c])) in Hloop;
        [|exact Hids'|rewrite !length_app; simpl; lia
         |exact (same_request_trans _ _ _ Hreq Hreq1)
         |rewrite length_app; simpl; lia|lia|lia|exact (Hb1 Hrv)].
      rewrite Hbs1 in Hloop. exact Hloop.
Qed.

(** The submission of the pending run after the last chunk. *)
Lemma submit_pending_inv env m k0 dest st st' :
  karg_int_exact env -> mapping_wf m -> pinned_covers m ->
  (forall n, kmalloc_iod_ok env n = true) -> batch_ok env m k0 ->
  0 <= nr_ssd2gpu (sc_karg st) <= nr_chunks k0 ->
  between_chunks m k0 dest st ->
  submit_pending env m st = Some st' ->
  sched_ok m (window_lo m k0) (window_hi m k0) st' /\
  same_routing (sc_karg st) (sc_karg st') /\
  sc_dtask st' = sc_dtask st /\
  nr_dma_blocks (sc_karg st')
  = nr_ssd2gpu (sc_karg st) * (chunk_sz k0 / PAGE_CACHE_SIZE)
    * blocks_per_page (sc_dtask st).
Proof.
  intros Hint Hm Hcov Hk Hb Hn (Hok & Hpend & Hdest & Hacc) H.
  pose proof (batch_ok_window _ _ _ Hint Hm Hb) as (Hlo & Hhi & Hnp0).
  destruct Hb as ((Hal & Hsz & _) & Hoff & H63 & Hnc & Hprod).
  pose proof (chunk_nr_pages_spec k0 Hal Hsz) as (Hnp & Hw & Hnpr).
  pose proof (dtask_wf_facts _ (proj1 Hok)) as (Hnr & Hpage & Hmaxb & Hbs & Htotal).
  pose proof Hm as (_ & _ & _ & _ & Hmo & Hml & Hm63).
  unfold submit_pending in H. unfold window_lo, window_hi in *.
  set (d := sc_dtask st) in *. set (np := chunk_sz k0 / PAGE_CACHE_SIZE) in *.
  destruct (nr_blocks d >? 0) eqn:Hpos.
  2:{ injection H as <-. rewrite Z.gtb_ltb in Hpos. apply Z.ltb_ge in Hpos.
      destruct Hpend as [Hz|(Hp & _)]; [|lia].
      split; [exact Hok|]. split; [apply same_routing_refl|]. split; [reflexivity|].
      lia. }
  apply Z.gtb_lt in Hpos. destruct Hpend as [Hz|(Hp & Hd0 & Hd1)]; [lia|].
  assert (Hdle : dest <= map_offset m + offset k0 + nr_chunks k0 * chunk_sz k0) by nia.
  assert (Hnbs : 0 < nr_blocks d * blocksz d <= 131072).
  { split; [apply Z.mul_pos_pos; lia|].
    rewrite <- Hmaxb. apply Z.mul_le_mono_nonneg_r; lia. }
  unfold pinned_covers in Hcov.
  destruct (submit_ssd2gpu_memcpy_spec env m d) as (sg & Hs & _ & _ & _ & Hin);
    try (rewrite Htotal by lia); try assumption; try apply Hk;
    try (unfold STROM_DMA_SSD2GPU_MAXLEN; lia).
  rewrite Htotal in Hin by lia. rewrite Hs in H. injection H as <-.
  destruct Hok as (Hwf & Hdma & Hcs & Hcb & Hcle).
  assert (Hsmall : nr_dma_blocks (sc_karg st) + nr_blocks d < 2 ^ 31).
  { rewrite Hacc. fold np.
    set (a := nr_ssd2gpu (sc_karg st)) in *. set (bpp := blocks_per_page d) in *.
    assert (H1 : a * np <= nr_chunks k0 * np) by nia.
    assert (H2 : nr_chunks k0 * np * 4096 < 2 ^ 31) by nia.
    assert (H3 : a * np * bpp <= a * np * 4096)
      by (apply Z.mul_le_mono_nonneg_l; nia).
    change (2 ^ 31) with 2147483648 in *. nia. }
  change (2 ^ 31) with 2147483648 in Hsmall.
  assert (H32 : 2 ^ 32 = 4294967296) by reflexivity.
  split; [|split; [apply same_routing_count_dma_submit|split; [reflexivity|]]].
  - split; [exact Hwf|]. split.
    + apply Forall_app. split; [exact Hdma|]. constructor; [|constructor].
      apply (sg_within_weaken m (dest_offset d)
               (dest_offset d + nr_blocks d * blocksz d) _ _ sg Hd0); [lia|exact Hin].
    + unfold counters_match. simpl.
      rewrite dma_submissions_app, length_app, blocks_submitted_app. simpl.
      unfold blocks_submitted at 2. simpl.
      rewrite !u32_small by lia. lia.
  - simpl. rewrite u32_small by lia. exact Hacc.
Qed.

(** A batch, from the fresh state the ioctl starts it in. *)
Lemma memcpy_ssd2gpu_writeback_inv env m karg dtask ids out rv st :
  karg_int_exact env -> mapping_wf m -> pinned_covers m ->
  (forall n, kmalloc_iod_ok env n = true) ->
  dtask_wf dtask -> nr_blocks dtask = 0 ->
  nr_ram2gpu karg = 0 -> nr_ssd2gpu karg = 0 ->
  nr_dma_submit karg = 0 -> nr_dma_blocks karg = 0 ->
  0 <= offset karg -> map_offset m + offset karg < 2 ^ 63 ->
  0 <= nr_chunks karg -> nr_chunks karg * chunk_sz karg < 2 ^ 31 ->
  Z.of_nat (length ids) = nr_chunks karg ->
  memcpy_ssd2gpu_writeback env m karg dtask ids out = Some (rv, st) ->
  dma_within m (window_lo m karg) (Z.min (window_hi m karg) (map_length m))
             (sc_trace st) /\
  counters_match st /\
  (rv = 0 ->
   chunk_sz karg = 4096 * (chunk_sz karg / PAGE_CACHE_SIZE) /\
   nr_dma_blocks (sc_karg st)
   = nr_ssd2gpu (sc_karg st) * (chunk_sz karg / PAGE_CACHE_SIZE)
     * blocks_per_page dtask).
Proof.
  intros Hint Hm Hcov Hk Hwf Hnb Hram Hssd Hsub Hblk Hoff H63 Hnc Hprod Hlen H.
  pose proof Hm as (_ & _ & _ & _ & Hmo & Hml & Hm63).
  assert (Hinit : counters_match (mk_sched karg dtask out [])).
  { unfold counters_match. simpl. rewrite Hsub, Hblk. unfold blocks_submitted.
    simpl. lia. }
  unfold memcpy_ssd2gpu_writeback in H.
  destruct (negb (Z.land (chunk_sz karg) (PAGE_CACHE_SIZE - 1) =? 0)) eqn:Hal.
  { injection H as <- <-. split; [constructor|]. split; [exact Hinit|discriminate]. }
  destruct (chunk_sz karg <? PAGE_CACHE_SIZE) eqn:Hmin.
  { injection H as <- <-. split; [constructor|]. split; [exact Hinit|discriminate]. }
  destruct (chunk_sz karg >? STROM_DMA_SSD2GPU_MAXLEN) eqn:Hmax.
  { injection H as <- <-. split; [constructor|]. split; [exact Hinit|discriminate]. }
  simpl in H.
  destruct (_ >? map_length m) eqn:Hfit.
  { injection H as <- <-. split; [constructor|]. split; [exact Hinit|discriminate]. }
  apply negb_false_iff, Z.eqb_eq in Hal. apply Z.ltb_ge in Hmin.
  rewrite Z.gtb_ltb in Hmax, Hfit. apply Z.ltb_ge in Hmax, Hfit.
  assert (Hb : batch_ok env m karg).
  { split; [|done]. split; [exact Hal|]. split; [lia|exact Hfit]. }
  pose proof (batch_ok_window _ _ _ Hint Hm Hb) as (Hlo & Hhi & Hnp0).
  rewrite Z.min_l by exact Hhi.
  rewrite <- Hlen, Nat2Z.id in H.
  destruct (memcpy_ssd2gpu_writeback_loop _ _ _ _ _ _ _) as [[[rv1 dest1] st1]|] eqn:Hloop;
    [|discriminate].
  apply (memcpy_ssd2gpu_writeback_loop_inv env m karg ids Hint Hm Hcov Hk Hb ids [])
    in Hloop; [|reflexivity|exact Hlen|apply same_request_refl|simpl; lia
              |simpl; lia|simpl; lia|].
  2:{ unfold between_chunks, window_lo. simpl. rewrite Hssd, Hblk, Hnb.
      change (2 ^ 63) with 9223372036854775808 in *.
      rewrite u64_small by (change (2 ^ 64) with 18446744073709551616; lia).
      split; [|split; [left; exact Hnb|split; lia]].
      split; [exact Hwf|]. split; [constructor|exact Hinit]. }
  destruct Hloop as [Hok1 Hz1].
  destruct (negb (rv1 =? 0)) eqn:Hrv.
  { injection H as <- <-. destruct Hok1 as (_ & Hdma & Hcm).
    split; [exact Hdma|]. split; [exact Hcm|].
    intros ->. discriminate. }
  apply negb_false_iff, Z.eqb_eq in Hrv. destruct (Hz1 Hrv) as (Hb1 & Hbs1 & Hn1).
  destruct (submit_pending env m st1) as [st2|] eqn:Hsp; [|discriminate].
  destruct (karg_int env _ =? _) eqn:Hassert; [|discriminate]. injection H as <- <-.
  pose proof (blocks_per_page_keeps _ _ Hbs1) as Hbpp. simpl in Hbpp.
  destruct (submit_pending_inv env m karg dest1 st1 st2 Hint Hm Hcov Hk Hb Hn1 Hb1 Hsp)
    as ((_ & Hdma & Hcm) & (_ & _ & Hssd2) & _ & Hfin).
  split; [exact Hdma|]. split; [exact Hcm|]. intros _.
  split; [apply (chunk_nr_pages_spec karg Hal); lia|].
  rewrite Hfin, Hssd2, Hbpp. reflexivity.
Qed.

(** X16. No read command of a batch writes outside the window of the
    request.  For a batch that starts from the state the ioctl sets up, on
    a well-formed mapping whose pinned pages cover the mapped range,
    whatever the file system and the page cache report and whatever the
    batch returns: every entry of every scatter-gather list submitted is a
    part of a pinned device page, and its bytes lie between
    [map_offset + offset] and [map_offset + offset + nr_chunks * chunk_sz],
    and before [map_length], that is within the part of the region the
    request names. *)
Theorem batch_dma_stays_in_window env m karg dtask ids out rv st src n sg r :
  karg_int_exact env -> mapping_wf m -> pinned_covers m ->
  (forall k, kmalloc_iod_ok env k = true) ->
  dtask_wf dtask -> nr_blocks dtask = 0 ->
  nr_ram2gpu karg = 0 -> nr_ssd2gpu karg = 0 ->
  nr_dma_submit karg = 0 -> nr_dma_blocks karg = 0 ->
  0 <= offset karg -> map_offset m + offset karg < 2 ^ 63 ->
  0 <= nr_chunks karg -> nr_chunks karg * chunk_sz karg < 2 ^ 31 ->
  Z.of_nat (length ids) = nr_chunks karg ->
  memcpy_ssd2gpu_writeback env m karg dtask ids out = Some (rv, st) ->
  EvSubmitDma src n sg r ∈ sc_trace st ->
  sg_within m (window_lo m karg) (Z.min (window_hi m karg) (map_length m)) sg.
Proof.
  intros Hint Hm Hcov Hk Hwf Hnb Hram Hssd Hsub Hblk Hoff H63 Hnc Hprod Hlen H Hev.
  destruct (memcpy_ssd2gpu_writeback_inv env m karg dtask ids out rv st
              Hint Hm Hcov Hk Hwf Hnb Hram Hssd Hsub Hblk Hoff H63 Hnc Hprod Hlen H)
    as (Hdma & _).
  unfold dma_within in Hdma.
  exact (proj1 (Forall_forall _ _) Hdma _ Hev).
Qed.

(** X17. The counters a batch reports tell its read commands.  For a
    batch as above, whatever it returns, [nr_dma_submit] is the number of
    read commands submitted and [nr_dma_blocks] the number of their
    blocks; and when the batch returns 0, these blocks are as many bytes
    as the [nr_ssd2gpu] direct chunks have:
    [nr_dma_blocks * blocksz = nr_ssd2gpu * chunk_sz]. *)
Theorem batch_counters_tell_commands env m karg dtask ids out rv st :
  karg_int_exact env -> mapping_wf m -> pinned_covers m ->
  (forall k, kmalloc_iod_ok env k = true) ->
  dtask_wf dtask -> nr_blocks dtask = 0 ->
  nr_ram2gpu karg = 0 -> nr_ssd2gpu karg = 0 ->
  nr_dma_submit karg = 0 -> nr_dma_blocks karg = 0 ->
  0 <= offset karg -> map_offset m + offset karg < 2 ^ 63 ->
  0 <= nr_chunks karg -> nr_chunks karg * chunk_sz karg < 2 ^ 31 ->
  Z.of_nat (length ids) = nr_chunks karg ->
  memcpy_ssd2gpu_writeback env m karg dtask ids out = Some (rv, st) ->
  nr_dma_submit (sc_karg st) = Z.of_nat (length (dma_submissions (sc_trace st))) /\
  nr_dma_blocks (sc_karg st) = blocks_submitted (sc_trace st) /\
  (rv = 0 ->
   nr_dma_blocks (sc_karg st) * blocksz dtask
   = nr_ssd2gpu (sc_karg st) * chunk_sz karg).
Proof.
  intros Hint Hm Hcov Hk Hwf Hnb Hram Hssd Hsub Hblk Hoff H63 Hnc Hprod Hlen H.
  destruct (memcpy_ssd2gpu_writeback_inv env m karg dtask ids out rv st
              Hint Hm Hcov Hk Hwf Hnb Hram Hssd Hsub Hblk Hoff H63 Hnc Hprod Hlen H)
    as (_ & (Hcs & Hcb & _) & Hz).
  split; [exact Hcs|]. split; [exact Hcb|]. intros Hrv.
  destruct (Hz Hrv) as [Hw Hacc].
  pose proof (dtask_wf_facts _ Hwf) as (_ & Hpage & _).
  rewrite Hacc.
  set (np := chunk_sz karg / PAGE_CACHE_SIZE) in *.
  set (nsd := nr_ssd2gpu (sc_karg st)).
  transitivity (nsd * np * (blocks_per_page dtask * blocksz dtask)); [ring|].
  rewrite Hpage, Hw. ring.
Qed.

Lemma fresh_dtask_wf : dtask_wf fresh_dtask.
Proof. vm_compute. repeat split; discriminate. Qed.

Lemma region_1MiB_pinned : pinned_covers region_1MiB.
Proof. vm_compute. discriminate. Qed.

Lemma batch_dma_stays_in_window_witness :
  exists st,
    memcpy_ssd2gpu_writeback (contiguous_cold_env 1000) region_1MiB five_chunks
      fresh_dtask [0; 1; 2; 3; 4] [0; 0; 0; 0; 0] = Some (0, st) /\
    exists sg,
      EvSubmitDma 1000 32 sg 0 ∈ sc_trace st /\
      sg_within region_1MiB 0 163840 sg.
Proof.
  destruct (memcpy_ssd2gpu_writeback (contiguous_cold_env 1000) region_1MiB
              five_chunks fresh_dtask [0; 1; 2; 3; 4] [0; 0; 0; 0; 0])
    as [[rv st]|] eqn:Hrun; [|vm_compute in Hrun; discriminate].
  assert (Hrv : rv = 0) by (vm_compute in Hrun; congruence).
  subst rv. exists st. split; [reflexivity|].
  assert (Hev : exists sg, EvSubmitDma 1000 32 sg 0 ∈ sc_trace st).
  { vm_compute in Hrun. injection Hrun as <-. eexists. simpl. left. }
  destruct Hev as [sg Hev]. exists sg. split; [exact Hev|].
  apply (batch_dma_stays_in_window (contiguous_cold_env 1000) region_1MiB
           five_chunks fresh_dtask [0; 1; 2; 3; 4] [0; 0; 0; 0; 0] 0 st
           1000 32 sg 0);
    try reflexivity; try exact Hrun; try exact Hev.
  - apply karg_int_exact_u32. reflexivity.
  - exact region_1MiB_wf.
  - exact region_1MiB_pinned.
  - exact fresh_dtask_wf.
  - vm_compute. discriminate.
Defined.

Lemma batch_counters_tell_commands_witness :
  exists st,
    memcpy_ssd2gpu_writeback (contiguous_cold_env 1000) region_1MiB five_chunks
      fresh_dtask [0; 1; 2; 3; 4] [0; 0; 0; 0; 0] = Some (0, st) /\
    nr_dma_submit (sc_karg st) = Z.of_nat (length (dma_submissions (sc_trace st))) /\
    nr_dma_blocks (sc_karg st) = blocks_submitted (sc_trace st) /\
    nr_dma_blocks (sc_karg st) * 4096 = nr_ssd2gpu (sc_karg st) * 32768.
Proof.
  destruct (memcpy_ssd2gpu_writeback (contiguous_cold_env 1000) region_1MiB
              five_chunks fresh_dtask [0; 1; 2; 3; 4] [0; 0; 0; 0; 0])
    as [[rv st]|] eqn:Hrun; [|vm_compute in Hrun; discriminate].
  assert (Hrv : rv = 0) by (vm_compute in Hrun; congruence).
  subst rv. exists st. split; [reflexivity|].
  destruct (batch_counters_tell_commands (contiguous_cold_env 1000) region_1MiB
              five_chunks fresh_dtask [0; 1; 2; 3; 4] [0; 0; 0; 0; 0] 0 st)
    as (H1 & H2 & H3);
    try reflexivity; try exact Hrun.
  - apply karg_int_exact_u32. reflexivity.
  - exact region_1MiB_wf.
  - exact region_1MiB_pinned.
  - exact fresh_dtask_wf.
  - vm_compute. discriminate.
  - split; [exact H1|]. split; [exact H2|]. exact (H3 eq_refl).
Defined.

(** ** The write-back path copies whole chunks *)

Lemma writeback_calls_events tr :
  writeback_calls tr = (fun e => (e.1.1, e.1.2)) <$> writeback_events tr.
Proof.
  induction tr as [|[src nb sg r|fpos dest copies] tr IH]; simpl; [reflexivity|exact IH|].
  rewrite IH. reflexivity.
Qed.

Lemma writeback_events_whole np tr fpos dest copies :
  Forall (copies_whole_chunk np) tr ->
  (fpos, dest, copies) ∈ writeback_events tr ->
  copies_whole_chunk np (EvWriteback fpos dest copies).
Proof.
  intros Hall Hin. unfold writeback_events in Hin.
  apply list_elem_of_omap in Hin as (e & He & Hsome).
  rewrite Forall_forall in Hall. specialize (Hall e He).
  destruct e as [src nb sg r|f d c]; [discriminate|].
  injection Hsome as -> -> ->. exact Hall.
Qed.

(** The pages the loop over a chunk finds in the page cache are the pages
    [k, k + 1, ...] of the file, as long as these numbers fit its
    [int k]. *)
Lemma probe_pages_found env i n : forall k threshold score (a : nat) pg,
  0 <= k -> k + Z.of_nat n < 2 ^ 31 ->
  (probe_pages env i n k threshold score).1 !! a = Some (Some pg) ->
  pg_index pg = k + Z.of_nat a.
Proof.
  induction n as [|n IH]; intros k threshold score a pg Hk Hn H; simpl in H;
    [discriminate|].
  destruct (probe_pages env i n (s32 (k + 1)) threshold _) as [rest final] eqn:Hp.
  simpl in H. destruct a as [|a]; simpl in H.
  - injection H as H. unfold find_lock_page in H.
    rewrite u64_small in H by lia.
    destruct (page_cache env i k); [|discriminate]. injection H as <-. simpl. lia.
  - change rest with (rest, final).1 in H. rewrite <- Hp in H.
    apply IH in H; [|rewrite s32_small; lia|rewrite s32_small; lia].
    rewrite s32_small in H by lia. lia.
Qed.

Lemma probe_pages_length env i n : forall k threshold score,
  length (probe_pages env i n k threshold score).1 = n.
Proof.
  induction n as [|n IH]; intros k threshold score; simpl; [reflexivity|].
  destruct (probe_pages env i n (s32 (k + 1)) threshold _) as [rest final] eqn:Hp.
  simpl. f_equal. change rest with (rest, final).1. rewrite <- Hp. apply IH.
Qed.

(** A call of [__memcpy_ssd2gpu_writeback] that returns 0 has copied every
    page of the chunk: the pages found in the page cache where they are
    what [file_pages] holds, the others read in. *)
Lemma writeback_pages_complete env n : forall j fp_index dest d copies d' copies',
  0 <= j -> j + Z.of_nat n < 2 ^ 31 ->
  0 <= fp_index -> fp_index + j + Z.of_nat n < 2 ^ 64 ->
  (forall (a : nat) pg, (a < n)%nat ->
     file_pages d !! (Z.to_nat j + a)%nat = Some (Some pg) ->
     pg_index pg = fp_index + j + Z.of_nat a) ->
  __memcpy_ssd2gpu_writeback env n j fp_index dest d copies = (0, d', copies') ->
  exists more,
    copies' = copies ++ more /\ length more = n /\
    forall (a : nat) x pg, more !! a = Some (x, pg) ->
      x = dest + PAGE_CACHE_SIZE * Z.of_nat a /\
      pg_index pg = fp_index + j + Z.of_nat a.
Proof.
  induction n as [|n IH]; intros j fp_index dest d copies d' copies' Hj Hn Hf Hfn Hpages H;
    simpl in H.
  { injection H as <- <-. exists []. rewrite app_nil_r.
    split; [reflexivity|]. split; [reflexivity|]. intros a x pg Ha. discriminate Ha. }
  set (cached := match array_get (file_pages d) j with
                 | Some (Some pg) => inl pg
                 | _ => _
                 end) in H.
  assert (Hcase : (exists pg, cached = inl pg /\ pg_index pg = fp_index + j)
                  \/ (exists r, cached = inr r /\ r <> 0)).
  { unfold cached. destruct (array_get (file_pages d) j) as [[pg|]|] eqn:Hg.
    - left. exists pg. split; [reflexivity|].
      apply array_get_spec in Hg as [_ Hg].
      rewrite <- (Nat.add_0_r (Z.to_nat j)) in Hg.
      rewrite (Hpages 0%nat pg ltac:(lia) Hg). lia.
    - destruct (negb (read_mapping_page env _ =? 0)) eqn:Hr.
      + right. eexists. split; [reflexivity|]. apply negb_true_iff, Z.eqb_neq in Hr. exact Hr.
      + left. eexists. split; [reflexivity|]. simpl. apply u64_small. lia.
    - destruct (negb (read_mapping_page env _ =? 0)) eqn:Hr.
      + right. eexists. split; [reflexivity|]. apply negb_true_iff, Z.eqb_neq in Hr. exact Hr.
      + left. eexists. split; [reflexivity|]. simpl. apply u64_small. lia. }
  clearbody cached. destruct Hcase as [(pg & -> & Hpg)|(r & -> & Hr)].
  2:{ injection H as H _ _. contradiction. }
  destruct (copy_to_user_fails env dest); [discriminate H|].
  rewrite s32_small in H by lia.
  apply IH in H; try lia.
  - destruct H as (more & -> & Hlen & Hmore). exists ((dest, pg) :: more).
    split; [rewrite <- app_assoc; reflexivity|]. split; [simpl; lia|].
    intros a x pg' Ha. destruct a as [|a]; simpl in Ha.
    + injection Ha as <- <-. split; [lia|]. lia.
    + apply Hmore in Ha as [-> ->]. unfold PAGE_CACHE_SIZE. split; lia.
  - intros a pg' Ha Hl. simpl in Hl.
    rewrite list_lookup_insert_ne in Hl by lia.
    replace (Z.to_nat (j + 1) + a)%nat with (Z.to_nat j + S a)%nat in Hl by lia.
    rewrite (Hpages (S a) pg' ltac:(lia) Hl). lia.
Qed.

(** The direct path adds read commands to the trace, nothing else. *)
Lemma submit_ssd2gpu_memcpy_only_dma (P : sched_event -> Prop) env m d rv evs :
  (forall src nb sg r, P (EvSubmitDma src nb sg r)) ->
  submit_ssd2gpu_memcpy env m d = Some (rv, evs) -> Forall P evs.
Proof.
  intros HP. unfold submit_ssd2gpu_memcpy. intros H.
  destruct (_ || _); [injection H as <- <-; constructor|].
  destruct (_ || _); [injection H as <- <-; constructor|].
  destruct (negb _); [discriminate|].
  destruct (build_sg _ _ _ _ _ _ _) as [[sg rest]|]; [|discriminate].
  destruct (negb _); injection H as <- <-; repeat constructor. apply HP.
Qed.

Lemma submit_dma_page_only_dma (P : sched_event -> Prop) env m b curr st rv st' :
  (forall src nb sg r, P (EvSubmitDma src nb sg r)) ->
  submit_dma_page env m b curr st = Some (rv, st') ->
  Forall P (sc_trace st) -> Forall P (sc_trace st').
Proof.
  intros HP. unfold submit_dma_page. intros H Hall.
  destruct (can_merge _ _ _ _); [injection H as <- <-; exact Hall|].
  destruct (nr_blocks (sc_dtask st) >? 0); [|injection H as <- <-; exact Hall].
  destruct (submit_ssd2gpu_memcpy env m (sc_dtask st)) as [[retval evs]|] eqn:Hs;
    [|discriminate].
  apply (submit_ssd2gpu_memcpy_only_dma P _ _ _ _ _ HP) in Hs.
  destruct (negb (retval =? 0)); injection H as <- <-; simpl;
    apply Forall_app; split; assumption.
Qed.

Lemma submit_dma_only_dma (P : sched_event -> Prop) env m n :
  (forall src nb sg r, P (EvSubmitDma src nb sg r)) ->
  forall fpos curr st rv st',
    __memcpy_ssd2gpu_submit_dma env m n fpos curr st = Some (rv, st') ->
    Forall P (sc_trace st) -> Forall P (sc_trace st').
Proof.
  intros HP. induction n as [|n IH]; intros fpos curr st rv st' H Hall; simpl in H.
  { injection H as <- <-. exact Hall. }
  destruct (strom_get_block env _) as [retval b].
  destruct (negb (retval =? 0)); [injection H as <- <-; exact Hall|].
  destruct (submit_dma_page env m b curr st) as [[rv1 st1]|] eqn:Hp; [|discriminate].
  apply (submit_dma_page_only_dma P _ _ _ _ _ _ _ HP) in Hp; [|exact Hall].
  destruct (negb (rv1 =? 0)); [injection H as <- <-; exact Hp|].
  exact (IH _ _ _ _ _ H Hp).
Qed.

Lemma chunk_direct_only_dma (P : sched_event -> Prop) env m c fpos dest st rv dest' st' :
  (forall src nb sg r, P (EvSubmitDma src nb sg r)) ->
  chunk_direct env m c fpos dest st = Some (rv, dest', st') ->
  same_request (sc_karg st) (sc_karg st') /\
  (Forall P (sc_trace st) -> Forall P (sc_trace st')).
Proof.
  intros HP. unfold chunk_direct. intros H.
  destruct (__memcpy_ssd2gpu_submit_dma _ _ _ _ _ _) as [[rv1 st1]|] eqn:Hs;
    [|discriminate].
  pose proof (submit_dma_keeps _ _ _ _ _ _ _ _ Hs) as ((Hreq & _) & _).
  destruct (array_set (sc_out st1) _ _) as [out|]; [|discriminate].
  injection H as <- <- <-. simpl. split; [exact Hreq|].
  exact (submit_dma_only_dma P env m _ HP _ _ _ _ _ Hs).
Qed.

(** The position of a chunk in a file the size check lets through. *)
Lemma chunk_fpos_range env k c :
  0 <= c < 2 ^ 32 -> 0 <= relseg_sz k ->
  PAGE_CACHE_SIZE <= chunk_sz k <= STROM_DMA_SSD2GPU_MAXLEN ->
  (u64 (chunk_fpos k c) >? i_size env) = false ->
  0 <= chunk_fpos k c <= i_size env.
Proof.
  intros Hc Hr Hs Hsz.
  rewrite (chunk_fpos_spec k c Hc Hr) in *
    by (unfold PAGE_CACHE_SIZE in Hs; lia).
  unfold PAGE_CACHE_SIZE, STROM_DMA_SSD2GPU_MAXLEN in Hs.
  change (2 ^ 32) with 4294967296 in Hc.
  assert (Hf : 0 <= (if relseg_sz k =? 0 then c * chunk_sz k
                     else c mod relseg_sz k * chunk_sz k) < 2 ^ 64).
  { change (2 ^ 64) with 18446744073709551616.
    destruct (relseg_sz k =? 0) eqn:E.
    - split; [apply Z.mul_nonneg_nonneg; lia|].
      assert (c * chunk_sz k <= 4294967296 * 131072)
        by (apply Z.mul_le_mono_nonneg; lia). lia.
    - apply Z.eqb_neq in E.
      pose proof (Z.mod_pos_bound c (relseg_sz k) ltac:(lia)).
      pose proof (Z.mod_le c (relseg_sz k) ltac:(lia) ltac:(lia)).
      split; [apply Z.mul_nonneg_nonneg; lia|].
      assert (c mod relseg_sz k * chunk_sz k <= 4294967296 * 131072)
        by (apply Z.mul_le_mono_nonneg; lia). lia. }
  rewrite u64_small in Hsz by exact Hf.
  rewrite Z.gtb_ltb in Hsz. apply Z.ltb_ge in Hsz. lia.
Qed.

(** The loop over the chunks, when it returns 0, has copied every chunk it
    sent to the write-back path as a whole. *)
Lemma memcpy_ssd2gpu_writeback_loop_copies env m ids cs rs n :
  Z.land cs (PAGE_CACHE_SIZE - 1) = 0 ->
  PAGE_CACHE_SIZE <= cs <= STROM_DMA_SSD2GPU_MAXLEN ->
  0 <= rs -> Forall (fun c => 0 <= c < 2 ^ 32) ids ->
  i_size env + STROM_DMA_SSD2GPU_MAXLEN < 2 ^ 43 ->
  forall i dest st dest' st',
    chunk_sz (sc_karg st) = cs -> relseg_sz (sc_karg st) = rs ->
    memcpy_ssd2gpu_writeback_loop env m ids n i dest st = Some (0, dest', st') ->
    Forall (copies_whole_chunk (cs / PAGE_CACHE_SIZE)) (sc_trace st) ->
    Forall (copies_whole_chunk (cs / PAGE_CACHE_SIZE)) (sc_trace st').
Proof.
  intros Hal Hcs Hrs Hids Hsize.
  induction n as [|n IH]; intros i dest st dest' st' Hk Hr H Hall; simpl in H.
  { injection H as <- <-. exact Hall. }
  destruct (array_get ids i) as [c|] eqn:Hg; [|discriminate].
  apply array_get_spec in Hg as [Hi Hl].
  assert (Hc : 0 <= c < 2 ^ 32) by (exact (proj1 (Forall_lookup _ _) Hids _ _ Hl)).
  destruct (negb (Z.land _ _ =? 0)); [discriminate|].
  destruct (u64 _ >? i_size env) eqn:Hsz; [discriminate|].
  apply chunk_fpos_range in Hsz; [|exact Hc|lia|rewrite Hk; exact Hcs].
  destruct (chunk_nr_pages_spec (sc_karg st)) as (Hnp & Hw & Hnpr);
    [rewrite Hk; exact Hal|rewrite Hk; exact Hcs|]. rewrite Hk in Hnp, Hw, Hnpr.
  set (fpos := chunk_fpos (sc_karg st) c) in *.
  unfold STROM_DMA_SSD2GPU_MAXLEN in Hsize. change (2 ^ 43) with 8796093022208 in Hsize.
  assert (Hidx : 0 <= fpos / 4096 /\ fpos / 4096 + 32 < 2147483648).
  { split; [apply Z.div_pos; lia|].
    assert (fpos / 4096 < 2147483648 - 32) by (apply Z.div_lt_upper_bound; lia). lia. }
  destruct (chunk_probe env (sc_karg st) i c) as [pages score] eqn:Hprobe.
  unfold PAGE_CACHE_SIZE in *.
  destruct (score >? chunk_threshold (sc_karg st)).
  - destruct (chunk_writeback env c fpos _) as [[rv1 st1]|] eqn:Hwb; [|discriminate].
    destruct (negb (rv1 =? 0)) eqn:Hrv.
    { injection H as -> _ _. discriminate Hrv. }
    apply negb_false_iff, Z.eqb_eq in Hrv. subst rv1.
    unfold chunk_writeback in Hwb. simpl sc_karg in Hwb. simpl sc_dtask in Hwb.
    simpl sc_out in Hwb. simpl sc_trace in Hwb.
    destruct (__memcpy_ssd2gpu_writeback _ _ _ _ _ _ _) as [[rv2 d2] copies] eqn:Hw2.
    destruct (array_set (sc_out st) _ _) as [out|]; [|discriminate].
    injection Hwb as -> <-.
    rewrite Hnp in Hw2. unfold PAGE_CACHE_SHIFT in Hw2.
    rewrite Z.shiftr_div_pow2 in Hw2 by lia. change (2 ^ 12) with 4096 in Hw2.
    rewrite (u64_small (fpos / 4096)) in Hw2
      by (change (2 ^ 64) with 18446744073709551616; lia).
    apply writeback_pages_complete in Hw2.
    + destruct Hw2 as (more & Hcopies & Hlen & Hmore). simpl in Hcopies. subst copies.
      apply IH in H; [exact H|exact Hk|exact Hr|]. simpl.
      apply Forall_app. split; [exact Hall|]. constructor; [|constructor].
      simpl. split; [rewrite Hlen, Z2Nat.id; lia|].
      cbn [wb_buffer chunk_sz nr_chunks nr_ram2gpu set_nr_ram2gpu] in Hmore.
      intros j a pg Hj. apply Hmore in Hj as [-> ->]. unfold PAGE_CACHE_SIZE. split; lia.
    + lia.
    + change (2 ^ 31) with 2147483648. unfold PAGE_CACHE_SIZE in Hnpr. lia.
    + lia.
    + change (2 ^ 64) with 18446744073709551616. unfold PAGE_CACHE_SIZE in Hnpr. lia.
    + intros a pg Ha Hlook. simpl in Hlook.
      unfold chunk_probe in Hprobe. rewrite Hnp in Hprobe.
      assert (Hlenp : length pages = Z.to_nat (cs / 4096)).
      { change pages with (pages, score).1. rewrite <- Hprobe. apply probe_pages_length. }
      rewrite Hlenp in Hlook.
      rewrite lookup_app_l in Hlook by lia.
      change pages with (pages, score).1 in Hlook. rewrite <- Hprobe in Hlook.
      fold fpos in Hlook. unfold PAGE_CACHE_SHIFT in Hlook.
      rewrite Z.shiftr_div_pow2 in Hlook by lia. change (2 ^ 12) with 4096 in Hlook.
      rewrite s32_small in Hlook by (change (2 ^ 31) with 2147483648; lia).
      apply probe_pages_found in Hlook;
        [|lia|change (2 ^ 31) with 2147483648; unfold PAGE_CACHE_SIZE in Hnpr; lia].
      rewrite Hlook. simpl. lia.
  - destruct (chunk_direct env m c fpos dest _) as [[[rv1 dest1] st1]|] eqn:Hdir;
      [|discriminate].
    apply (chunk_direct_only_dma (copies_whole_chunk (cs / 4096))) in Hdir;
      [|intros; exact I].
    destruct Hdir as [(_ & _ & Hcs1 & Hrs1 & _) Htr]. simpl in Hcs1, Hrs1, Htr.
    destruct (negb (rv1 =? 0)) eqn:Hrv.
    { injection H as -> _ _. discriminate Hrv. }
    apply IH in H; [exact H|congruence|congruence|]. apply Htr. exact Hall.
Qed.

Lemma submit_pending_only_dma (P : sched_event -> Prop) env m st st' :
  (forall src nb sg r, P (EvSubmitDma src nb sg r)) ->
  submit_pending env m st = Some st' ->
  Forall P (sc_trace st) -> Forall P (sc_trace st').
Proof.
  intros HP. unfold submit_pending. intros H Hall.
  destruct (nr_blocks (sc_dtask st) >? 0); [|injection H as <-; exact Hall].
  destruct (submit_ssd2gpu_memcpy env m (sc_dtask st)) as [[rv evs]|] eqn:Hs;
    [|discriminate].
  apply (submit_ssd2gpu_memcpy_only_dma P _ _ _ _ _ HP) in Hs.
  injection H as <-. simpl. apply Forall_app. split; assumption.
Qed.

(** A batch that returns 0 has copied every chunk it sent to the
    write-back path as a whole. *)
Lemma memcpy_ssd2gpu_writeback_copies env m karg dtask ids out st :
  0 <= relseg_sz karg -> Forall (fun c => 0 <= c < 2 ^ 32) ids ->
  i_size env + STROM_DMA_SSD2GPU_MAXLEN < 2 ^ 43 ->
  memcpy_ssd2gpu_writeback env m karg dtask ids out = Some (0, st) ->
  Z.land (chunk_sz karg) (PAGE_CACHE_SIZE - 1) = 0 /\
  PAGE_CACHE_SIZE <= chunk_sz karg <= STROM_DMA_SSD2GPU_MAXLEN /\
  Forall (copies_whole_chunk (chunk_sz karg / PAGE_CACHE_SIZE)) (sc_trace st).
Proof.
  intros Hrs Hids Hsize H. unfold memcpy_ssd2gpu_writeback in H.
  destruct (negb (Z.land (chunk_sz karg) (PAGE_CACHE_SIZE - 1) =? 0)) eqn:Hal;
    [discriminate|].
  destruct (chunk_sz karg <? PAGE_CACHE_SIZE) eqn:Hlo; [discriminate|].
  destruct (chunk_sz karg >? STROM_DMA_SSD2GPU_MAXLEN) eqn:Hhi; [discriminate|].
  simpl in H.
  apply negb_false_iff, Z.eqb_eq in Hal. apply Z.ltb_ge in Hlo.
  rewrite Z.gtb_ltb in Hhi. apply Z.ltb_ge in Hhi.
  split; [exact Hal|]. split; [lia|].
  destruct (_ >? map_length m); [discriminate|].
  destruct (memcpy_ssd2gpu_writeback_loop _ _ _ _ _ _ _) as [[[rv1 dest1] st1]|] eqn:Hloop;
    [|discriminate].
  destruct (negb (rv1 =? 0)) eqn:Hrv.
  { injection H as -> _. discriminate Hrv. }
  apply negb_false_iff, Z.eqb_eq in Hrv. subst rv1.
  apply (memcpy_ssd2gpu_writeback_loop_copies env m ids (chunk_sz karg) (relseg_sz karg))
    in Hloop; try done; try lia; try constructor.
  destruct (submit_pending env m st1) as [st2|] eqn:Hsp; [|discriminate].
  apply (submit_pending_only_dma (copies_whole_chunk (chunk_sz karg / PAGE_CACHE_SIZE)))
    in Hsp; [|intros; exact I|exact Hloop].
  destruct (karg_int env _ =? _); [|discriminate]. injection H as <-. exact Hsp.
Qed.

Lemma split_routes_in env k : forall l i c,
  c ∈ (split_routes env k i l).2 -> c ∈ l.
Proof.
  induction l as [|c l IH]; intros i c'; simpl; [done|].
  specialize (IH (i + 1)). destruct (split_routes env k (i + 1) l) as [d w].
  destruct (to_writeback env k i c); simpl in *; rewrite ?elem_of_cons; intuition eauto.
Qed.

(** X18. A batch that returns 0 has copied every chunk it routed to the
    write-back path, whole and in place.  For a request whose write-back
    buffer of [chunk_sz * nr_chunks] bytes is smaller than 2 GiB, on a
    file smaller than 8 TiB: the calls of [__memcpy_ssd2gpu_writeback] are
    as many as the chunks routed to the write-back path; the call for the
    [k]-th of them in processing order ([k = j + 1]) is for the file
    position of that chunk and the destination
    [wb_buffer + chunk_sz * (nr_chunks - k)]; it copies
    [chunk_sz / PAGE_CACHE_SIZE] pages, page [p] of them being page
    [fpos / PAGE_CACHE_SIZE + p] of the file, to the destination plus
    [PAGE_CACHE_SIZE * p]; and the id of the chunk stands in slot
    [nr_chunks - k] of [chunk_ids_out]. *)
Theorem writeback_chunks_copied_whole env m karg dtask ids out st :
  karg_int_exact env ->
  nr_ram2gpu karg = 0 -> nr_ssd2gpu karg = 0 ->
  Z.of_nat (length ids) = nr_chunks karg ->
  chunk_sz karg * nr_chunks karg < 2 ^ 31 ->
  0 <= relseg_sz karg ->
  Forall (fun c => 0 <= c < 2 ^ 32) ids ->
  i_size env + STROM_DMA_SSD2GPU_MAXLEN < 2 ^ 43 ->
  memcpy_ssd2gpu_writeback env m karg dtask ids out = Some (0, st) ->
  let wb := (split_routes env karg 0 ids).2 in
  length (writeback_events (sc_trace st)) = length wb /\
  forall (j : nat) c, wb !! j = Some c ->
    let dest := wb_buffer karg
                + chunk_sz karg * (nr_chunks karg - (Z.of_nat j + 1)) in
    exists copies,
      writeback_events (sc_trace st) !! j = Some (chunk_fpos karg c, dest, copies) /\
      Z.of_nat (length copies) = chunk_sz karg / PAGE_CACHE_SIZE /\
      (forall (p : nat) a pg, copies !! p = Some (a, pg) ->
         a = dest + PAGE_CACHE_SIZE * Z.of_nat p /\
         pg_index pg = chunk_fpos karg c / PAGE_CACHE_SIZE + Z.of_nat p) /\
      sc_out st !! Z.to_nat (nr_chunks karg - (Z.of_nat j + 1)) = Some c.
Proof.
  intros Hint Hram Hssd Hlen Hprod Hrs Hids Hsize H wb.
  destruct (memcpy_ssd2gpu_writeback_copies _ _ _ _ _ _ _ Hrs Hids Hsize H)
    as (Hal & Hcs & Hall).
  unfold PAGE_CACHE_SIZE in Hcs.
  assert (Hmax : nr_chunks karg < 2 ^ 31).
  { change (2 ^ 31) with 2147483648 in *.
    assert (0 <= nr_chunks karg) by lia.
    assert (1 * nr_chunks karg <= chunk_sz karg * nr_chunks karg)
      by (apply Z.mul_le_mono_nonneg_r; lia). lia. }
  apply memcpy_ssd2gpu_writeback_routed in H as (q & _ & Hr & Hq); try done.
  rewrite (Hq eq_refl), firstn_all in Hr.
  destruct Hr as (_ & _ & _ & _ & _ & Hwb & _ & Hcalls & _). simpl in Hwb, Hcalls.
  fold wb in Hwb, Hcalls. rewrite Hram in Hwb, Hcalls.
  pose proof (split_routes_length env karg 0 ids) as Hsum. fold wb in Hsum.
  assert (Hlenev : length (writeback_events (sc_trace st)) = length wb).
  { rewrite <- (length_fmap (fun e => (e.1.1, e.1.2))), <- writeback_calls_events, Hcalls.
    apply length_imap. }
  split; [exact Hlenev|]. intros j c Hj dest.
  pose proof (lookup_lt_Some _ _ _ Hj) as Hjlt.
  destruct (lookup_lt_is_Some_2 (writeback_events (sc_trace st)) j ltac:(lia))
    as [[[fpos dest'] copies] Hev].
  assert (Hcall : writeback_calls (sc_trace st) !! j = Some (fpos, dest')).
  { rewrite writeback_calls_events, list_lookup_fmap, Hev. reflexivity. }
  rewrite Hcalls, list_lookup_imap, Hj in Hcall. simpl in Hcall.
  injection Hcall as <- <-.
  assert (Hdest : wb_buffer karg
                  + karg_int env (chunk_sz karg * (nr_chunks karg - 0 - 1 - Z.of_nat j))
                  = dest).
  { unfold dest. f_equal.
    replace (nr_chunks karg - 0 - 1 - Z.of_nat j)
      with (nr_chunks karg - (Z.of_nat j + 1)) by lia.
    apply Hint. change (2 ^ 31) with 2147483648 in *.
    split; [apply Z.mul_nonneg_nonneg; lia|].
    assert (chunk_sz karg * (nr_chunks karg - (Z.of_nat j + 1))
            <= chunk_sz karg * nr_chunks karg)
      by (apply Z.mul_le_mono_nonneg_l; lia). lia. }
  rewrite Hdest in Hev. exists copies. split; [exact Hev|].
  pose proof (writeback_events_whole _ _ _ _ _ Hall
                (list_elem_of_lookup_2 _ _ _ Hev)) as [Hn Hp].
  split; [exact Hn|]. split; [exact Hp|].
  specialize (Hwb _ _ Hj).
  replace (nr_chunks karg - 0 - 1 - Z.of_nat j)
    with (nr_chunks karg - (Z.of_nat j + 1)) in Hwb by lia.
  rewrite Hwb. f_equal. apply u32_small.
  rewrite Forall_forall in Hids. apply Hids.
  apply (split_routes_in env karg ids 0). apply list_elem_of_lookup. eauto.
Qed.

Lemma writeback_chunks_copied_whole_witness :
  exists st,
    memcpy_ssd2gpu_writeback (third_chunk_dirty_env 1000) region_1MiB five_chunks
      fresh_dtask [0; 1; 2; 3; 4] [0; 0; 0; 0; 0] = Some (0, st) /\
    length (writeback_events (sc_trace st)) = 1%nat /\
    exists copies,
      writeback_events (sc_trace st) !! 0%nat
      = Some (65536, 268435456 + 32768 * (5 - 1), copies) /\
      Z.of_nat (length copies) = 8 /\
      (forall (p : nat) a pg, copies !! p = Some (a, pg) ->
         a = 268435456 + 32768 * (5 - 1) + 4096 * Z.of_nat p /\
         pg_index pg = 16 + Z.of_nat p) /\
      sc_out st !! 4%nat = Some 2.
Proof.
  destruct (memcpy_ssd2gpu_writeback (third_chunk_dirty_env 1000) region_1MiB
              five_chunks fresh_dtask [0; 1; 2; 3; 4] [0; 0; 0; 0; 0])
    as [[rv st]|] eqn:Hrun; [|vm_compute in Hrun; discriminate].
  assert (Hrv : rv = 0) by (vm_compute in Hrun; congruence).
  subst rv. exists st. split; [reflexivity|].
  assert (Hwb : (split_routes (third_chunk_dirty_env 1000) five_chunks 0
                   [0; 1; 2; 3; 4]).2 = [2]) by (vm_compute; reflexivity).
  destruct (writeback_chunks_copied_whole (third_chunk_dirty_env 1000) region_1MiB
              five_chunks fresh_dtask [0; 1; 2; 3; 4] [0; 0; 0; 0; 0] st)
    as [Hlen Hall].
  - apply karg_int_exact_u32. reflexivity.
  - reflexivity.
  - reflexivity.
  - reflexivity.
  - vm_compute. reflexivity.
  - vm_compute. discriminate.
  - repeat constructor; vm_compute; congruence.
  - vm_compute. reflexivity.
  - exact Hrun.
  - rewrite Hwb in Hlen, Hall. split; [exact Hlen|].
    exact (Hall 0%nat 2 eq_refl).
Defined.

(** ** A write-back buffer of 4 GiB and more *)

Lemma all_cached_probe i n : forall k threshold score,
  0 <= score -> score + Z.of_nat n < 2 ^ 31 ->
  (probe_pages all_cached_env i n k threshold score).2 = score + Z.of_nat n.
Proof.
  induction n as [|n IH]; intros k threshold score Hs Hn; simpl; [lia|].
  destruct (probe_pages all_cached_env i n (s32 (k + 1)) threshold _)
    as [rest final] eqn:Hp.
  simpl. change final with (rest, final).2. rewrite <- Hp.
  rewrite (s32_small (score + 1)) by lia. rewrite IH by lia. lia.
Qed.

Lemma all_cached_writeback n : forall j fp_index dest d copies,
  exists d' copies',
    __memcpy_ssd2gpu_writeback all_cached_env n j fp_index dest d copies
    = (0, d', copies') /\ nr_blocks d' = nr_blocks d.
Proof.
  induction n as [|n IH]; intros j fp_index dest d copies; simpl.
  { exists d, copies. split; reflexivity. }
  destruct (array_get (file_pages d) j) as [[pg|]|]; simpl;
    match goal with
    | |- context [__memcpy_ssd2gpu_writeback _ n ?j' ?f ?dst ?d1 ?c] =>
        destruct (IH j' f dst d1 c) as (d' & copies' & Hw & Hnb);
        exists d', copies'; split; [exact Hw|exact Hnb]
    end.
Qed.

Lemma first_chunks_get N i :
  0 <= i < N -> array_get (first_chunks N) i = Some i.
Proof.
  intros Hi. unfold array_get, first_chunks.
  rewrite (proj2 (Z.ltb_ge i 0)) by lia.
  rewrite list_lookup_fmap, lookup_seq_lt by lia. simpl. f_equal. lia.
Qed.

Lemma first_chunks_length N : 0 <= N -> Z.of_nat (length (first_chunks N)) = N.
Proof. intros HN. unfold first_chunks. rewrite length_fmap, length_seq. lia. Qed.

(** With every page in the page cache, the loop sends every chunk to the
    write-back path and returns 0. *)
Lemma all_cached_loop m N n :
  0 < N <= 32769 ->
  forall i dest st,
    i + Z.of_nat n = N -> 0 <= i ->
    chunk_sz (sc_karg st) = 131072 -> relseg_sz (sc_karg st) = 0 ->
    nr_chunks (sc_karg st) = N -> nr_ram2gpu (sc_karg st) = i ->
    Z.of_nat (length (sc_out st)) = N ->
    exists st',
      memcpy_ssd2gpu_writeback_loop all_cached_env m (first_chunks N) n i dest st
      = Some (0, dest, st') /\
      nr_blocks (sc_dtask st') = nr_blocks (sc_dtask st) /\
      nr_ram2gpu (sc_karg st') = N /\
      nr_ssd2gpu (sc_karg st') = nr_ssd2gpu (sc_karg st) /\
      nr_chunks (sc_karg st') = N.
Proof.
  intros HN. induction n as [|n IH]; intros i dest st Hin Hi Hcs Hrs Hnc Hram Hout.
  { exists st. simpl. repeat split; lia. }
  cbn [memcpy_ssd2gpu_writeback_loop].
  rewrite first_chunks_get by lia.
  assert (Hfpos : chunk_fpos (sc_karg st) i = i * 131072).
  { unfold chunk_fpos. rewrite Hrs, Hcs. simpl. apply s64_small.
    change (2 ^ 63) with 9223372036854775808. lia. }
  rewrite Hfpos.
  assert (Hal : Z.land (i * 131072) (PAGE_CACHE_SIZE - 1) = 0).
  { change (PAGE_CACHE_SIZE - 1) with (2 ^ 12 - 1). rewrite land_pow2_mod by lia.
    replace (i * 131072) with (i * 32 * 2 ^ 12) by (change (2 ^ 12) with 4096; lia).
    apply Z.mod_mul. discriminate. }
  rewrite Hal. simpl negb. cbv iota.
  rewrite u64_small by (change (2 ^ 64) with 18446744073709551616; lia).
  assert (Hsz : (i * 131072 >? i_size all_cached_env) = false).
  { rewrite Z.gtb_ltb. apply Z.ltb_ge. simpl. lia. }
  rewrite Hsz.
  destruct (chunk_probe all_cached_env (sc_karg st) i i) as [pages score] eqn:Hprobe.
  assert (Hscore : score = 32).
  { change score with (pages, score).2. rewrite <- Hprobe.
    unfold chunk_probe, chunk_nr_pages. rewrite Hcs.
    rewrite all_cached_probe; [reflexivity|lia|vm_compute; reflexivity]. }
  assert (Hthr : chunk_threshold (sc_karg st) = 16).
  { unfold chunk_threshold, chunk_nr_pages. rewrite Hcs. reflexivity. }
  rewrite Hscore, Hthr. change (32 >? 16) with true. cbv iota.
  unfold chunk_writeback.
  cbn [sc_karg sc_dtask sc_out sc_trace with_dtask wb_buffer chunk_sz nr_chunks
       nr_ram2gpu set_nr_ram2gpu karg_int all_cached_env].
  rewrite Hram, Hnc, Hcs.
  rewrite (u32_small (i + 1)) by (change (2 ^ 32) with 4294967296; lia).
  rewrite (u32_small (N - (i + 1))) by (change (2 ^ 32) with 4294967296; lia).
  match goal with
  | |- context [__memcpy_ssd2gpu_writeback _ ?np ?j ?f ?dst ?d ?c] =>
      destruct (all_cached_writeback np j f dst d c) as (d' & copies' & Hw & Hnb)
  end.
  rewrite Hw.
  unfold array_set.
  rewrite (proj2 (Z.leb_le 0 (N - (i + 1)))) by lia.
  rewrite (proj2 (Z.ltb_lt (N - (i + 1)) _)) by lia.
  cbn [andb]. change (negb (0 =? 0)) with false. cbv iota.
  rewrite s32_small by (change (2 ^ 31) with 2147483648; lia).
  match goal with
  | |- context [memcpy_ssd2gpu_writeback_loop _ _ _ n (i + 1) dest ?st1] =>
      destruct (IH (i + 1) dest st1) as (st' & Hloop & Hb & Hr & Hs & Hc);
        [lia|lia|exact Hcs|exact Hrs|exact Hnc|reflexivity| |]
  end.
  - simpl. rewrite length_insert. exact Hout.
  - exists st'. split; [exact Hloop|]. simpl in Hb, Hs.
    split; [rewrite Hb, Hnb; reflexivity|]. split; [exact Hr|]. split; [exact Hs|exact Hc].
Qed.

Lemma all_cached_routes k :
  chunk_sz k = 131072 ->
  forall l i, split_routes all_cached_env k i l = ([], l).
Proof.
  intros Hcs. induction l as [|c l IH]; intros i; simpl; [reflexivity|].
  rewrite IH.
  assert (Hw : to_writeback all_cached_env k i c = true).
  { unfold to_writeback, chunk_score, chunk_probe, chunk_threshold, chunk_nr_pages.
    rewrite Hcs. rewrite all_cached_probe; [reflexivity|lia|vm_compute; reflexivity]. }
  rewrite Hw. reflexivity.
Qed.

Lemma first_chunks_range N : Forall (fun c => 0 <= c < 2 ^ 32) (first_chunks N) \/ 2 ^ 32 < N.
Proof.
  destruct (Z_le_gt_dec N (2 ^ 32)) as [Hle|Hgt]; [left|right; lia].
  unfold first_chunks. apply Forall_fmap, Forall_forall. intros a Ha.
  apply elem_of_seq in Ha. simpl. lia.
Qed.

(** The batch of 32769 chunks of 128 KiB, every page of the file in the
    page cache. *)
Lemma all_cached_batch :
  exists st,
    memcpy_ssd2gpu_writeback all_cached_env region_1MiB (chunks_128KiB 32769)
      fresh_dtask (first_chunks 32769) (empty_out 32769) = Some (0, st).
Proof.
  destruct (all_cached_loop region_1MiB 32769 (Z.to_nat 32769) ltac:(lia) 0 0
              (mk_sched (chunks_128KiB 32769) fresh_dtask (empty_out 32769) []))
    as (st1 & Hloop & Hb & Hr & Hs & Hc); try reflexivity; try lia.
  exists st1. unfold memcpy_ssd2gpu_writeback.
  change (negb (Z.land (chunk_sz (chunks_128KiB 32769)) (PAGE_CACHE_SIZE - 1) =? 0)
          || (chunk_sz (chunks_128KiB 32769) <? PAGE_CACHE_SIZE)
          || (chunk_sz (chunks_128KiB 32769) >? STROM_DMA_SSD2GPU_MAXLEN)) with false.
  cbv iota.
  change (u64 (u64 (map_offset region_1MiB + offset (chunks_128KiB 32769))
               + karg_int all_cached_env
                   (nr_chunks (chunks_128KiB 32769) * chunk_sz (chunks_128KiB 32769)))
          >? map_length region_1MiB) with false.
  cbv iota.
  change (nr_chunks (chunks_128KiB 32769)) with 32769.
  change (u64 (map_offset region_1MiB + offset (chunks_128KiB 32769))) with 0.
  rewrite Hloop. change (negb (0 =? 0)) with false. cbv iota.
  cbn [sc_dtask sc_karg] in Hb, Hs.
  unfold submit_pending. rewrite Hb. change (nr_blocks fresh_dtask >? 0) with false.
  cbv iota. rewrite Hr, Hs, Hc. reflexivity.
Qed.

(** C10, as stated, fails on the code when the write-back buffer is 4 GiB
    or larger and the members of the request are 32 bits wide: the product
    [chunk_sz * (nr_chunks - nr_ram2gpu)] of the destination is taken in
    the type of the members and wraps.  A batch of 32769 chunks of 128 KiB,
    the chunks 0 to 32768 of a file of 8 GiB that is in the page cache as
    a whole, is accepted and returns 0 with all its chunks on the
    write-back path.  The first of them ([k = 1], chunk 0) has its 32
    pages copied to [wb_buffer + 0], where the claim has
    [wb_buffer + 131072 * (32769 - 1)], 4 GiB further on; its id stands in
    slot 32768 of [chunk_ids_out].  The last one ([k = 32769], chunk 32768)
    has its 32 pages copied to [wb_buffer + 0] as well, and its id in slot
    0: two chunks share one place in the buffer, and the data positions do
    not mirror the positions of the ids. *)
Theorem writeback_offset_wraps_at_4GiB :
  exists st,
    memcpy_ssd2gpu_writeback all_cached_env region_1MiB (chunks_128KiB 32769)
      fresh_dtask (first_chunks 32769) (empty_out 32769) = Some (0, st) /\
    nr_ram2gpu (sc_karg st) = 32769 /\
    (exists copies,
       writeback_events (sc_trace st) !! 0%nat
       = Some (chunk_fpos (chunks_128KiB 32769) 0,
               wb_buffer (chunks_128KiB 32769) + 0, copies) /\
       Z.of_nat (length copies) = 32 /\
       (forall (p : nat) a pg, copies !! p = Some (a, pg) ->
          a = wb_buffer (chunks_128KiB 32769) + 4096 * Z.of_nat p /\
          pg_index pg = Z.of_nat p) /\
       sc_out st !! Z.to_nat (32769 - 1) = Some 0) /\
    chunk_sz (chunks_128KiB 32769) * (nr_chunks (chunks_128KiB 32769) - 1)
    = 4294967296 /\
    (exists copies,
       writeback_events (sc_trace st) !! Z.to_nat (32769 - 1)
       = Some (chunk_fpos (chunks_128KiB 32769) 32768,
               wb_buffer (chunks_128KiB 32769) + 0, copies) /\
       Z.of_nat (length copies) = 32 /\
       (forall (p : nat) a pg, copies !! p = Some (a, pg) ->
          a = wb_buffer (chunks_128KiB 32769) + 4096 * Z.of_nat p /\
          pg_index pg = 1048576 + Z.of_nat p) /\
       sc_out st !! Z.to_nat (32769 - 32769) = Some 32768).
Proof.
  destruct all_cached_batch as [st Hrun]. exists st. split; [exact Hrun|].
  set (k := chunks_128KiB 32769) in *.
  assert (Hint : karg_int_exact all_cached_env)
    by (apply karg_int_exact_u32; reflexivity).
  assert (Hids : Forall (fun c => 0 <= c < 2 ^ 32) (first_chunks 32769)).
  { destruct (first_chunks_range 32769) as [H|H]; [exact H|].
    change (2 ^ 32) with 4294967296 in H. lia. }
  destruct (memcpy_ssd2gpu_writeback_copies all_cached_env region_1MiB k fresh_dtask
              (first_chunks 32769) (empty_out 32769) st)
    as (_ & _ & Hall); [reflexivity|exact Hids|reflexivity|exact Hrun|].
  change (chunk_sz k / PAGE_CACHE_SIZE) with 32 in Hall.
  apply memcpy_ssd2gpu_writeback_routed in Hrun as (q & _ & Hr & Hq);
    [|exact Hint|reflexivity|reflexivity|exact (first_chunks_length 32769 ltac:(lia))|reflexivity].
  rewrite (Hq eq_refl), firstn_all in Hr.
  destruct Hr as (_ & _ & Hram & _ & _ & Hwb & _ & Hcalls & _).
  cbn [sc_karg sc_out sc_trace] in Hram, Hwb, Hcalls.
  rewrite (all_cached_routes k eq_refl) in Hram, Hwb, Hcalls.
  cbn [fst snd] in Hram, Hwb, Hcalls.
  pose proof (first_chunks_length 32769 ltac:(lia)) as Hlen.
  split; [rewrite Hram; change (nr_ram2gpu k) with 0; lia|].
  assert (Hev : forall c, 0 <= c < 32769 ->
            exists copies,
              writeback_events (sc_trace st) !! Z.to_nat c
              = Some (chunk_fpos k c,
                      wb_buffer k + u32 (chunk_sz k * (32769 - 1 - c)), copies) /\
              Z.of_nat (length copies) = 32 /\
              (forall (p : nat) a pg, copies !! p = Some (a, pg) ->
                 a = wb_buffer k + u32 (chunk_sz k * (32769 - 1 - c))
                     + 4096 * Z.of_nat p /\
                 pg_index pg = chunk_fpos k c / 4096 + Z.of_nat p) /\
              sc_out st !! Z.to_nat (32769 - 1 - c) = Some c).
  { intros c Hc.
    pose proof (first_chunks_get 32769 c Hc) as Hg.
    apply array_get_spec in Hg as [_ Hg].
    assert (Hcall : writeback_calls (sc_trace st) !! Z.to_nat c
                    = Some (chunk_fpos k c,
                            wb_buffer k + u32 (chunk_sz k * (32769 - 1 - c)))).
    { rewrite Hcalls. change (writeback_calls []) with (@nil (Z * Z)).
      rewrite app_nil_l, list_lookup_imap, Hg.
      change (nr_chunks k) with 32769. change (nr_ram2gpu k) with 0.
      replace (32769 - 0 - 1 - Z.of_nat (Z.to_nat c)) with (32769 - 1 - c) by lia.
      reflexivity. }
    rewrite writeback_calls_events, list_lookup_fmap in Hcall.
    destruct (writeback_events (sc_trace st) !! Z.to_nat c)
      as [[[fpos dest] copies]|] eqn:He; [|discriminate].
    cbn in Hcall. injection Hcall as -> ->.
    exists copies. split; [reflexivity|].
    pose proof (writeback_events_whole _ _ _ _ _ Hall
                  (list_elem_of_lookup_2 _ _ _ He)) as [Hn Hp].
    split; [exact Hn|]. split; [exact Hp|].
    specialize (Hwb _ _ Hg). change (nr_chunks k) with 32769 in Hwb.
    change (nr_ram2gpu k) with 0 in Hwb.
    replace (32769 - 0 - 1 - Z.of_nat (Z.to_nat c)) with (32769 - 1 - c) in Hwb by lia.
    rewrite Hwb. f_equal. apply u32_small. change (2 ^ 32) with 4294967296. lia. }
  split; [|split; [reflexivity|]].
  - destruct (Hev 0 ltac:(lia)) as (copies & He & Hn & Hp & Ho).
    exists copies. split; [exact He|]. split; [exact Hn|]. split; [|exact Ho].
    intros p a pg Hl. apply Hp in Hl as [-> ->]. split; reflexivity.
  - destruct (Hev 32768 ltac:(lia)) as (copies & He & Hn & Hp & Ho).
    exists copies. split; [exact He|]. split; [exact Hn|]. split; [|exact Ho].
    intros p a pg Hl. apply Hp in Hl as [-> ->]. split; reflexivity.
Qed.
